(** * runbot_merge: pull requests, batches and stagings

    A shallow embedding of [runbot_merge/models/pull_requests.py]: the
    pull-request state machine, the status aggregation, the command
    interpreter, and the staging life cycle (validation, cancellation,
    split on failure, fast-forward protocol).

    Conventions of the embedding:
    - an Odoo table is a finite map from record ids to rows; a [Many2one]
      is an [option Z] (the empty recordset is [None]);
    - selection and char values are the strings of the source;
    - a JSON text column is kept as the dictionary it encodes;
    - a stored computed field is a column, assigned by its compute
      method; a write to one of its inputs is followed by the compute;
    - exceptions are explicit ([outcome]); loops and recursions that
      follow links of the database take a fuel. *)

From Stdlib Require Import ZArith QArith Lia.
From stdpp Require Import gmap strings pretty list fin_maps.

Open Scope Z_scope.
Open Scope string_scope.
Open Scope list_scope.

(** ** Outcomes: normal return, exception, or fuel exhausted *)

Inductive exn :=
| KeyError (k : string)
| AssertionError
| ValueError (msg : string)
| FastForwardError (repo cause : string)
| MissingError
| StopIteration.

Inductive outcome (A : Type) :=
| Done (a : A)
| Raised (e : exn)
| OutOfFuel.
Arguments Done {A} a.
Arguments Raised {A} e.
Arguments OutOfFuel {A}.

Definition obind {A B} (m : outcome A) (k : A -> outcome B) : outcome B :=
  match m with
  | Done a => k a
  | Raised e => Raised e
  | OutOfFuel => OutOfFuel
  end.

Notation "x <<- m ;; k" := (obind m (fun x => k))
  (at level 100, m at next level, right associativity).

(** ** JSON dictionaries *)

(** A status as posted on a commit or recorded as an override: a JSON
    object such as [{"state": "success", "target_url": ...}]. *)
Abbreviation status_entry := (gmap string string).
(** CI context -> status. *)
Abbreviation status_dict := (gmap string (gmap string string)).

(** Python's [{**a, **b}] and [a | b]: the right operand wins. *)
Definition dict_merge {V} (a b : gmap string V) : gmap string V := b ∪ a.

(** Truthiness of a dictionary. *)
Definition dict_truthy {V} (d : gmap string V) : bool :=
  bool_decide (d ≠ ∅).

(** ** Rows *)

Module StatusConfiguration.
Record row := {
  context : string;
  (* the domain of [branch_filter], evaluated on a branch id;
     [None] when the column is empty *)
  branch_filter : option (Z -> bool);
  prs : bool;
  stagings : bool;
}.
End StatusConfiguration.

Module Repository.
Record row := {
  name : string;
  status_ids : list StatusConfiguration.row;
}.
End Repository.

Module Batch.
Record row := {
  target : Z;
  skipchecks : bool;
  cancel_staging : bool;
  priority : string;
  merge_date : option Z;
  fw_policy : string;
  split_id : option Z;
  (* stored computed field of the batch model *)
  blocked : option string;
}.

Definition set_skipchecks (v : bool) (r : row) : row :=
  {| target := target r; skipchecks := v; cancel_staging := cancel_staging r;
     priority := priority r; merge_date := merge_date r;
     fw_policy := fw_policy r; split_id := split_id r;
     blocked := blocked r |}.

Definition set_cancel_staging (v : bool) (r : row) : row :=
  {| target := target r; skipchecks := skipchecks r; cancel_staging := v;
     priority := priority r; merge_date := merge_date r;
     fw_policy := fw_policy r; split_id := split_id r;
     blocked := blocked r |}.

Definition set_priority (v : string) (r : row) : row :=
  {| target := target r; skipchecks := skipchecks r;
     cancel_staging := cancel_staging r; priority := v;
     merge_date := merge_date r; fw_policy := fw_policy r;
     split_id := split_id r; blocked := blocked r |}.

Definition set_merge_date (v : option Z) (r : row) : row :=
  {| target := target r; skipchecks := skipchecks r;
     cancel_staging := cancel_staging r; priority := priority r;
     merge_date := v; fw_policy := fw_policy r; split_id := split_id r;
     blocked := blocked r |}.

Definition set_fw_policy (v : string) (r : row) : row :=
  {| target := target r; skipchecks := skipchecks r;
     cancel_staging := cancel_staging r; priority := priority r;
     merge_date := merge_date r; fw_policy := v; split_id := split_id r;
     blocked := blocked r |}.

Definition set_split_id (v : option Z) (r : row) : row :=
  {| target := target r; skipchecks := skipchecks r;
     cancel_staging := cancel_staging r; priority := priority r;
     merge_date := merge_date r; fw_policy := fw_policy r; split_id := v;
     blocked := blocked r |}.
End Batch.

Module PullRequest.
Record row := {
  number : Z;
  repository : Z;
  target : Z;
  author : option Z;
  head : string;
  label : string;
  message : string;
  draft : bool;
  squash : bool;
  merge_method : option string;
  reviewed_by : option Z;
  closed : bool;
  error : bool;
  overrides : status_dict;
  statuses : status_dict;
  (* stored computed fields *)
  statuses_full : status_dict;
  status : string;
  state : string;
  parent_id : option Z;
  source_id : option Z;
  batch_id : option Z;
  (* PR commit -> integrated commit; the key of the integration head is
     the empty string *)
  commits_map : gmap string string;
  (* context -> last failure notified *)
  previous_failure : status_dict;
}.

Definition set_squash (v : bool) (r : row) : row :=
  {| number := number r; repository := repository r; target := target r;
     author := author r; head := head r; label := label r;
     message := message r; draft := draft r; squash := v;
     merge_method := merge_method r; reviewed_by := reviewed_by r;
     closed := closed r; error := error r; overrides := overrides r;
     statuses := statuses r; statuses_full := statuses_full r;
     status := status r; state := state r; parent_id := parent_id r;
     source_id := source_id r; batch_id := batch_id r;
     commits_map := commits_map r;
     previous_failure := previous_failure r |}.

Definition set_merge_method (v : option string) (r : row) : row :=
  {| number := number r; repository := repository r; target := target r;
     author := author r; head := head r; label := label r;
     message := message r; draft := draft r; squash := squash r;
     merge_method := v; reviewed_by := reviewed_by r; closed := closed r;
     error := error r; overrides := overrides r; statuses := statuses r;
     statuses_full := statuses_full r; status := status r; state := state r;
     parent_id := parent_id r; source_id := source_id r;
     batch_id := batch_id r;
     commits_map := commits_map r;
     previous_failure := previous_failure r |}.

Definition set_reviewed_by (v : option Z) (r : row) : row :=
  {| number := number r; repository := repository r; target := target r;
     author := author r; head := head r; label := label r;
     message := message r; draft := draft r; squash := squash r;
     merge_method := merge_method r; reviewed_by := v; closed := closed r;
     error := error r; overrides := overrides r; statuses := statuses r;
     statuses_full := statuses_full r; status := status r; state := state r;
     parent_id := parent_id r; source_id := source_id r;
     batch_id := batch_id r;
     commits_map := commits_map r;
     previous_failure := previous_failure r |}.

Definition set_closed (v : bool) (r : row) : row :=
  {| number := number r; repository := repository r; target := target r;
     author := author r; head := head r; label := label r;
     message := message r; draft := draft r; squash := squash r;
     merge_method := merge_method r; reviewed_by := reviewed_by r;
     closed := v; error := error r; overrides := overrides r;
     statuses := statuses r; statuses_full := statuses_full r;
     status := status r; state := state r; parent_id := parent_id r;
     source_id := source_id r; batch_id := batch_id r;
     commits_map := commits_map r;
     previous_failure := previous_failure r |}.

Definition set_error (v : bool) (r : row) : row :=
  {| number := number r; repository := repository r; target := target r;
     author := author r; head := head r; label := label r;
     message := message r; draft := draft r; squash := squash r;
     merge_method := merge_method r; reviewed_by := reviewed_by r;
     closed := closed r; error := v; overrides := overrides r;
     statuses := statuses r; statuses_full := statuses_full r;
     status := status r; state := state r; parent_id := parent_id r;
     source_id := source_id r; batch_id := batch_id r;
     commits_map := commits_map r;
     previous_failure := previous_failure r |}.

Definition set_overrides (v : status_dict) (r : row) : row :=
  {| number := number r; repository := repository r; target := target r;
     author := author r; head := head r; label := label r;
     message := message r; draft := draft r; squash := squash r;
     merge_method := merge_method r; reviewed_by := reviewed_by r;
     closed := closed r; error := error r; overrides := v;
     statuses := statuses r; statuses_full := statuses_full r;
     status := status r; state := state r; parent_id := parent_id r;
     source_id := source_id r; batch_id := batch_id r;
     commits_map := commits_map r;
     previous_failure := previous_failure r |}.

Definition set_statuses (v : status_dict) (r : row) : row :=
  {| number := number r; repository := repository r; target := target r;
     author := author r; head := head r; label := label r;
     message := message r; draft := draft r; squash := squash r;
     merge_method := merge_method r; reviewed_by := reviewed_by r;
     closed := closed r; error := error r; overrides := overrides r;
     statuses := v; statuses_full := statuses_full r; status := status r;
     state := state r; parent_id := parent_id r; source_id := source_id r;
     batch_id := batch_id r;
     commits_map := commits_map r;
     previous_failure := previous_failure r |}.

Definition set_statuses_full (v : status_dict) (r : row) : row :=
  {| number := number r; repository := repository r; target := target r;
     author := author r; head := head r; label := label r;
     message := message r; draft := draft r; squash := squash r;
     merge_method := merge_method r; reviewed_by := reviewed_by r;
     closed := closed r; error := error r; overrides := overrides r;
     statuses := statuses r; statuses_full := v; status := status r;
     state := state r; parent_id := parent_id r; source_id := source_id r;
     batch_id := batch_id r;
     commits_map := commits_map r;
     previous_failure := previous_failure r |}.

Definition set_status (v : string) (r : row) : row :=
  {| number := number r; repository := repository r; target := target r;
     author := author r; head := head r; label := label r;
     message := message r; draft := draft r; squash := squash r;
     merge_method := merge_method r; reviewed_by := reviewed_by r;
     closed := closed r; error := error r; overrides := overrides r;
     statuses := statuses r; statuses_full := statuses_full r; status := v;
     state := state r; parent_id := parent_id r; source_id := source_id r;
     batch_id := batch_id r;
     commits_map := commits_map r;
     previous_failure := previous_failure r |}.

Definition set_state (v : string) (r : row) : row :=
  {| number := number r; repository := repository r; target := target r;
     author := author r; head := head r; label := label r;
     message := message r; draft := draft r; squash := squash r;
     merge_method := merge_method r; reviewed_by := reviewed_by r;
     closed := closed r; error := error r; overrides := overrides r;
     statuses := statuses r; statuses_full := statuses_full r;
     status := status r; state := v; parent_id := parent_id r;
     source_id := source_id r; batch_id := batch_id r;
     commits_map := commits_map r;
     previous_failure := previous_failure r |}.

Definition set_batch_id (v : option Z) (r : row) : row :=
  {| number := number r; repository := repository r; target := target r;
     author := author r; head := head r; label := label r;
     message := message r; draft := draft r; squash := squash r;
     merge_method := merge_method r; reviewed_by := reviewed_by r;
     closed := closed r; error := error r; overrides := overrides r;
     statuses := statuses r; statuses_full := statuses_full r;
     status := status r; state := state r; parent_id := parent_id r;
     source_id := source_id r; batch_id := v;
     commits_map := commits_map r;
     previous_failure := previous_failure r |}.

Definition set_target (v : Z) (r : row) : row :=
  {| number := number r; repository := repository r; target := v;
     author := author r; head := head r; label := label r;
     message := message r; draft := draft r; squash := squash r;
     merge_method := merge_method r; reviewed_by := reviewed_by r;
     closed := closed r; error := error r; overrides := overrides r;
     statuses := statuses r; statuses_full := statuses_full r;
     status := status r; state := state r; parent_id := parent_id r;
     source_id := source_id r; batch_id := batch_id r;
     commits_map := commits_map r;
     previous_failure := previous_failure r |}.

Definition set_label (v : string) (r : row) : row :=
  {| number := number r; repository := repository r; target := target r;
     author := author r; head := head r; label := v; message := message r;
     draft := draft r; squash := squash r; merge_method := merge_method r;
     reviewed_by := reviewed_by r; closed := closed r; error := error r;
     overrides := overrides r; statuses := statuses r;
     statuses_full := statuses_full r; status := status r; state := state r;
     parent_id := parent_id r; source_id := source_id r;
     batch_id := batch_id r;
     commits_map := commits_map r;
     previous_failure := previous_failure r |}.

Definition set_message (v : string) (r : row) : row :=
  {| number := number r; repository := repository r; target := target r;
     author := author r; head := head r; label := label r; message := v;
     draft := draft r; squash := squash r; merge_method := merge_method r;
     reviewed_by := reviewed_by r; closed := closed r; error := error r;
     overrides := overrides r; statuses := statuses r;
     statuses_full := statuses_full r; status := status r; state := state r;
     parent_id := parent_id r; source_id := source_id r;
     batch_id := batch_id r;
     commits_map := commits_map r;
     previous_failure := previous_failure r |}.

Definition set_head (v : string) (r : row) : row :=
  {| number := number r; repository := repository r; target := target r;
     author := author r; head := v; label := label r; message := message r;
     draft := draft r; squash := squash r; merge_method := merge_method r;
     reviewed_by := reviewed_by r; closed := closed r; error := error r;
     overrides := overrides r; statuses := statuses r;
     statuses_full := statuses_full r; status := status r; state := state r;
     parent_id := parent_id r; source_id := source_id r;
     batch_id := batch_id r;
     commits_map := commits_map r;
     previous_failure := previous_failure r |}.

Definition set_draft (v : bool) (r : row) : row :=
  {| number := number r; repository := repository r; target := target r;
     author := author r; head := head r; label := label r;
     message := message r; draft := v; squash := squash r;
     merge_method := merge_method r; reviewed_by := reviewed_by r;
     closed := closed r; error := error r; overrides := overrides r;
     statuses := statuses r; statuses_full := statuses_full r;
     status := status r; state := state r; parent_id := parent_id r;
     source_id := source_id r; batch_id := batch_id r;
     commits_map := commits_map r;
     previous_failure := previous_failure r |}.

Definition set_parent_id (v : option Z) (r : row) : row :=
  {| number := number r; repository := repository r; target := target r;
     author := author r; head := head r; label := label r;
     message := message r; draft := draft r; squash := squash r;
     merge_method := merge_method r; reviewed_by := reviewed_by r;
     closed := closed r; error := error r; overrides := overrides r;
     statuses := statuses r; statuses_full := statuses_full r;
     status := status r; state := state r; parent_id := v;
     source_id := source_id r; batch_id := batch_id r;
     commits_map := commits_map r;
     previous_failure := previous_failure r |}.
Definition set_previous_failure (v : status_dict) (r : row) : row :=
  {| number := number r; repository := repository r; target := target r;
     author := author r; head := head r; label := label r;
     message := message r; draft := draft r; squash := squash r;
     merge_method := merge_method r; reviewed_by := reviewed_by r;
     closed := closed r; error := error r; overrides := overrides r;
     statuses := statuses r; statuses_full := statuses_full r;
     status := status r; state := state r; parent_id := parent_id r;
     source_id := source_id r; batch_id := batch_id r;
     commits_map := commits_map r; previous_failure := v |}.
End PullRequest.

Module Commit.
Record row := {
  sha : string;
  statuses : status_dict;
  to_check : bool;
}.

Definition set_to_check (v : bool) (r : row) : row :=
  {| sha := sha r; statuses := statuses r; to_check := v |}.
End Commit.

Module Project.
Record row := {
  (* minutes *)
  ci_timeout : Z;
}.
End Project.

Module Branch.
Record row := {
  name : string;
  project_id : Z;
}.
End Branch.

(** Rows of [runbot_merge.stagings.heads] and
    [runbot_merge.stagings.commits]. *)
Module StagingCommits.
Record row := {
  commit_id : Z;
  repository_id : Z;
}.
End StagingCommits.

Module Staging.
Record row := {
  target : Z;
  batch_ids : list Z;
  state : string;
  active : bool;
  staged_at : Z;
  timeout_limit : Z;
  reason : option string;
  heads : list StagingCommits.row;
  commits : list StagingCommits.row;
  (* rendered (repository, context, state, url) tuples *)
  statuses_cache : option (list (string * string * string * string));
}.

Definition set_state (v : string) (r : row) : row :=
  {| target := target r; batch_ids := batch_ids r; state := v;
     active := active r; staged_at := staged_at r;
     timeout_limit := timeout_limit r; reason := reason r; heads := heads r;
     commits := commits r; statuses_cache := statuses_cache r |}.

Definition set_active (v : bool) (r : row) : row :=
  {| target := target r; batch_ids := batch_ids r; state := state r;
     active := v; staged_at := staged_at r; timeout_limit := timeout_limit r;
     reason := reason r; heads := heads r; commits := commits r;
     statuses_cache := statuses_cache r |}.

Definition set_reason (v : option string) (r : row) : row :=
  {| target := target r; batch_ids := batch_ids r; state := state r;
     active := active r; staged_at := staged_at r;
     timeout_limit := timeout_limit r; reason := v; heads := heads r;
     commits := commits r; statuses_cache := statuses_cache r |}.

Definition set_timeout_limit (v : Z) (r : row) : row :=
  {| target := target r; batch_ids := batch_ids r; state := state r;
     active := active r; staged_at := staged_at r; timeout_limit := v;
     reason := reason r; heads := heads r; commits := commits r;
     statuses_cache := statuses_cache r |}.

Definition set_statuses_cache (v : option (list (string * string * string * string))) (r : row) : row :=
  {| target := target r; batch_ids := batch_ids r; state := state r;
     active := active r; staged_at := staged_at r;
     timeout_limit := timeout_limit r; reason := reason r; heads := heads r;
     commits := commits r; statuses_cache := v |}.
End Staging.

Module Split.
Record row := {
  target : Z;
  batch_ids : list Z;
}.
End Split.

Module Feedback.
Record row := {
  repository : Z;
  pull_request : Z;
  message : option string;
  close : bool;
}.
End Feedback.

Module FetchJob.
Record row := {
  repository : Z;
  number : Z;
  closing : bool;
}.
End FetchJob.

Module Tagging.
Record row := {
  repository : Z;
  pull_request : Z;
  tags_add : list string;
}.
End Tagging.

Module OverrideRights.
Record row := {
  context : string;
  repository_id : option Z;
}.
End OverrideRights.

Module Partner.
Record row := {
  name : string;
  github_login : string;
  email : option string;
  override_rights : list OverrideRights.row;
  (* pull requests this partner may review as a delegate *)
  delegate_reviewer : gset Z;
}.

Definition set_delegate_reviewer (v : gset Z) (r : row) : row :=
  {| name := name r; github_login := github_login r; email := email r;
     override_rights := override_rights r; delegate_reviewer := v |}.
End Partner.

(** Rows of [res.partner.review]. *)
Module Review.
Record row := {
  partner_id : Z;
  repository_id : Z;
  review : bool;
  self_review : bool;
}.
End Review.

(** ** The database *)

Record DB := {
  project : gmap Z Project.row;
  branch : gmap Z Branch.row;
  repository : gmap Z Repository.row;
  partner : gmap Z Partner.row;
  review : list Review.row;
  commit : gmap Z Commit.row;
  batch : gmap Z Batch.row;
  pull_requests : gmap Z PullRequest.row;
  stagings : gmap Z Staging.row;
  split : gmap Z Split.row;
  feedback : list Feedback.row;
  fetch_job : list FetchJob.row;
  tagging : list Tagging.row;
}.

Definition set_partner (v : gmap Z Partner.row) (db : DB) : DB :=
  {| project := project db; branch := branch db; repository := repository db;
     partner := v; review := review db; commit := commit db;
     batch := batch db; pull_requests := pull_requests db;
     stagings := stagings db; split := split db; feedback := feedback db;
     fetch_job := fetch_job db;
     tagging := tagging db |}.

Definition set_commit (v : gmap Z Commit.row) (db : DB) : DB :=
  {| project := project db; branch := branch db; repository := repository db;
     partner := partner db; review := review db; commit := v;
     batch := batch db; pull_requests := pull_requests db;
     stagings := stagings db; split := split db; feedback := feedback db;
     fetch_job := fetch_job db;
     tagging := tagging db |}.

Definition set_batch (v : gmap Z Batch.row) (db : DB) : DB :=
  {| project := project db; branch := branch db; repository := repository db;
     partner := partner db; review := review db; commit := commit db;
     batch := v; pull_requests := pull_requests db; stagings := stagings db;
     split := split db; feedback := feedback db;
     fetch_job := fetch_job db;
     tagging := tagging db |}.

Definition set_pull_requests (v : gmap Z PullRequest.row) (db : DB) : DB :=
  {| project := project db; branch := branch db; repository := repository db;
     partner := partner db; review := review db; commit := commit db;
     batch := batch db; pull_requests := v; stagings := stagings db;
     split := split db; feedback := feedback db;
     fetch_job := fetch_job db;
     tagging := tagging db |}.

Definition set_stagings (v : gmap Z Staging.row) (db : DB) : DB :=
  {| project := project db; branch := branch db; repository := repository db;
     partner := partner db; review := review db; commit := commit db;
     batch := batch db; pull_requests := pull_requests db; stagings := v;
     split := split db; feedback := feedback db;
     fetch_job := fetch_job db;
     tagging := tagging db |}.

Definition set_split (v : gmap Z Split.row) (db : DB) : DB :=
  {| project := project db; branch := branch db; repository := repository db;
     partner := partner db; review := review db; commit := commit db;
     batch := batch db; pull_requests := pull_requests db;
     stagings := stagings db; split := v; feedback := feedback db;
     fetch_job := fetch_job db;
     tagging := tagging db |}.

Definition set_feedback (v : list Feedback.row) (db : DB) : DB :=
  {| project := project db; branch := branch db; repository := repository db;
     partner := partner db; review := review db; commit := commit db;
     batch := batch db; pull_requests := pull_requests db;
     stagings := stagings db; split := split db; feedback := v;
     fetch_job := fetch_job db;
     tagging := tagging db |}.

Definition set_fetch_job (v : list FetchJob.row) (db : DB) : DB :=
  {| project := project db; branch := branch db; repository := repository db;
     partner := partner db; review := review db; commit := commit db;
     batch := batch db; pull_requests := pull_requests db;
     stagings := stagings db; split := split db; feedback := feedback db;
     fetch_job := v;
     tagging := tagging db |}.

Definition set_tagging (v : list Tagging.row) (db : DB) : DB :=
  {| project := project db; branch := branch db;
     repository := repository db; partner := partner db;
     review := review db; commit := commit db; batch := batch db;
     pull_requests := pull_requests db; stagings := stagings db;
     split := split db; feedback := feedback db;
     fetch_job := fetch_job db; tagging := v |}.

(** Time stamps are seconds; [datetime.timedelta(minutes=m)]. *)
Definition minutes (m : Z) : Z := 60 * m.

(** ** Required statuses *)

Module StatusConfigurations.
Import StatusConfiguration.

Definition _for_branch (self : list row) (branch : Z) : list row :=
  List.filter (fun st =>
    match branch_filter st with
    | None => true
    | Some dom => dom branch
    end) self.

Definition _for_pr (self : list row) (pr : PullRequest.row) : list row :=
  List.filter prs (_for_branch self (PullRequest.target pr)).

Definition _for_staging (self : list row) (staging : Staging.row) : list row :=
  List.filter stagings (_for_branch self (Staging.target staging)).
End StatusConfigurations.

(** [record.repository.status_ids]; empty on the empty recordset. *)
Definition status_ids_of (db : DB) (repo : Z) : list StatusConfiguration.row :=
  match repository db !! repo with
  | Some r => Repository.status_ids r
  | None => []
  end.

(** ** Pull requests: state machine and status aggregation *)

Module PullRequests.
Import PullRequest.

(** [self.write({field: v})] on one record. *)
Definition update (i : Z) (f : row -> row) (db : DB) : DB :=
  set_pull_requests (alter f i (pull_requests db)) db.

(** [pr.batch_id], the row of the batch when there is one. *)
Definition batch_of (db : DB) (pr : row) : option Batch.row :=
  batch_id pr ≫= fun b => batch db !! b.

Definition truthy {A} (o : option A) : bool :=
  match o with Some _ => true | None => false end.

Definition states : list string :=
  ["opened"; "approved"; "validated"; "ready"].

(** The value [_compute_state] assigns to [pr.state]. *)
Definition compute_state_value (db : DB) (pr : row) : string :=
  let b := batch_of db pr in
  if truthy (b ≫= Batch.merge_date) then "merged"
  else if closed pr then "closed"
  else if error pr then "error"
  else if default false (Batch.skipchecks <$> b) then "ready"
  else
    nth (Z.to_nat (Z.lor (Z.b2z (truthy (reviewed_by pr)))
                         (Z.shiftl (Z.b2z (bool_decide (status pr = "success"))) 1)))
        states "".

Definition _compute_state (db : DB) (self : list Z) : DB :=
  fold_left (fun db i =>
    match pull_requests db !! i with
    | Some pr => update i (set_state (compute_state_value db pr)) db
    | None => db
    end) self db.

(** [_get_overrides]: the overrides of the record on top of those it
    inherits through [parent_id]. [self] is a recordset of at most one
    record. *)
Fixpoint _get_overrides (fuel : nat) (db : DB) (self : option Z)
  : outcome status_dict :=
  match fuel with
  | O => OutOfFuel
  | S fuel =>
    match self ≫= fun i => pull_requests db !! i with
    | None => Done ∅
    | Some pr =>
      match parent_id pr with
      | Some p =>
        inherited <<- _get_overrides fuel db (Some p) ;;
        Done (dict_merge inherited (overrides pr))
      | None => Done (overrides pr)
      end
    end
  end.

(** [(statuses.get(context) or {'state': 'pending'})['state']] *)
Definition ci_state (statuses : status_dict) (context : string)
  : outcome string :=
  let pending : status_entry := {[ "state" := "pending" ]} in
  let st := match statuses !! context with
            | Some e => if dict_truthy e then e else pending
            | None => pending
            end in
  match st !! "state" with
  | Some v => Done v
  | None => Raised (KeyError "state")
  end.

Definition is_failure (v : string) : bool :=
  bool_decide (v = "error") || bool_decide (v = "failure").

(** The loop of [_compute_statuses] over the required contexts, [st]
    being the value of the variable on entry. *)
Fixpoint aggregate (statuses : status_dict)
  (cis : list StatusConfiguration.row) (st : string) : outcome string :=
  match cis with
  | [] => Done st
  | ci :: cis =>
    v <<- ci_state statuses (StatusConfiguration.context ci) ;;
    if is_failure v then Done "failure"
    else if bool_decide (v = "pending") then aggregate statuses cis "pending"
    else aggregate statuses cis st
  end.

Definition required_for_pr (db : DB) (pr : row) : list StatusConfiguration.row :=
  StatusConfigurations._for_pr (status_ids_of db (repository pr)) pr.

Definition _compute_statuses (fuel : nat) (db : DB) (self : list Z)
  : outcome DB :=
  fold_left (fun acc i =>
    db <<- acc ;;
    match pull_requests db !! i with
    | None => Done db
    | Some pr =>
      ov <<- _get_overrides fuel db (Some i) ;;
      let statuses := dict_merge (PullRequest.statuses pr) ov in
      let db := update i (set_statuses_full statuses) db in
      st <<- aggregate statuses (required_for_pr db pr) "success" ;;
      Done (update i (set_status st) db)
    end) self (Done db).

(** [self.search([('parent_id', '=', p)])]; the order of the result
    ([number desc]) is immaterial below. *)
Definition search_parent (db : DB) (p : option Z) : list Z :=
  (map_to_list (filter (fun kv => parent_id kv.2 = p) (pull_requests db))).*1.

(** [pr.id] on a recordset: [False] when empty, an error on several
    records. *)
Definition record_id (pr : list Z) : outcome (option Z) :=
  match pr with
  | [] => Done None
  | [i] => Done (Some i)
  | _ => Raised (ValueError "Expected singleton")
  end.

(** [_iter_descendants], the recordsets it yields collected in order. *)
Fixpoint iter_descendants_from (fuel : nat) (db : DB) (pr : list Z)
  : outcome (list (list Z)) :=
  match fuel with
  | O => OutOfFuel
  | S fuel =>
    i <<- record_id pr ;;
    match search_parent db i with
    | [] => Done []
    | found =>
      rest <<- iter_descendants_from fuel db found ;;
      Done (found :: rest)
    end
  end.

Definition _iter_descendants (fuel : nat) (db : DB) (self : list Z)
  : outcome (list (list Z)) :=
  iter_descendants_from fuel db self.

(** Records waiting for a recomputation, per field
    ([env.add_to_compute]). *)
Definition add_to_compute (field : string) (records : list Z)
  (tocompute : gmap string (gset Z)) : gmap string (gset Z) :=
  <[ field := list_to_set records ∪ default ∅ (tocompute !! field) ]> tocompute.

(** The part of [modified] which this model adds to the ORM's. *)
Definition modified_overrides (fuel : nat) (db : DB) (self : list Z)
  (fnames : list string) (tocompute : gmap string (gset Z))
  : outcome (gmap string (gset Z)) :=
  if bool_decide ("overrides" ∈ fnames) then
    desc <<- _iter_descendants fuel db self ;;
    let descendants_or_self := self ++ concat desc in
    Done (add_to_compute "state" descendants_or_self
           (add_to_compute "statuses_full" descendants_or_self
             (add_to_compute "status" descendants_or_self tocompute)))
  else Done tocompute.

(** [modified]: the block above, then the inherited method, which is
    the ORM's and is taken as given. *)
Definition modified
  (super_modified : list Z -> list string -> gmap string (gset Z) -> gmap string (gset Z))
  (fuel : nat) (db : DB) (self : list Z) (fnames : list string)
  (tocompute : gmap string (gset Z)) : outcome (gmap string (gset Z)) :=
  tc <<- modified_overrides fuel db self fnames tocompute ;;
  Done (super_modified self fnames tc).

End PullRequests.

(** ** The transaction and the remote *)

(** The cursor: the working database, the database as of the last
    commit, and the data posted for the pre-commit hooks. *)
Record Env := {
  db : DB;
  committed : DB;
  change_author : option Z;
  change_message : option string;
  (* batches whose [unlink] waits for the commit *)
  precommit_unlink : list Z;
}.

Definition with_db (f : DB -> DB) (env : Env) : Env :=
  {| db := f (db env); committed := committed env;
     change_author := change_author env;
     change_message := change_message env;
     precommit_unlink := precommit_unlink env |}.

Definition set_change_message (m : string) (env : Env) : Env :=
  {| db := db env; committed := committed env;
     change_author := change_author env; change_message := Some m;
     precommit_unlink := precommit_unlink env |}.


Definition precommit_add (b : list Z) (env : Env) : Env :=
  {| db := db env; committed := committed env;
     change_author := change_author env;
     change_message := change_message env;
     precommit_unlink := precommit_unlink env ++ b |}.


(** Modelled from the spec: the remote repository client, which is not
    part of this file. Per repository and ref name it holds a commit;
    [head] reads a ref, [set_ref] forces it, and [fast_forward] either
    moves the ref or fails with a fast-forward error and leaves it.
    Whether the n-th fast-forward request fails (and why) is up to the
    remote: [ff_fate]. [slept] logs the pauses of [time.sleep]. *)
Record World := {
  refs : string -> string -> string;
  ff_calls : nat;
  ff_fate : nat -> option string;
  slept : list Q;
}.

Module Github.
Definition head (repo branch : string) (w : World) : string :=
  refs w repo branch.

Definition set_ref (repo branch sha : string) (w : World) : World :=
  {| refs := fun r b =>
       if bool_decide (r = repo) && bool_decide (b = branch) then sha
       else refs w r b;
     ff_calls := ff_calls w; ff_fate := ff_fate w; slept := slept w |}.

Definition fast_forward (repo branch sha : string) (w : World)
  : World * option exn :=
  let w' := {| refs := refs w; ff_calls := S (ff_calls w);
               ff_fate := ff_fate w; slept := slept w |} in
  match ff_fate w (ff_calls w) with
  | None => (set_ref repo branch sha w', None)
  | Some cause => (w', Some (FastForwardError repo cause))
  end.
End Github.

(** [time.sleep(pause)] *)
Definition sleep (pause : Q) (w : World) : World :=
  {| refs := refs w; ff_calls := ff_calls w; ff_fate := ff_fate w;
     slept := slept w ++ [pause] |}.

(** ** Small helpers shared by the models *)

(** [x or d] on an optional string: [None] and the empty string are
    falsy. *)
Definition str_or (x : option string) (d : string) : string :=
  match x with
  | Some v => if bool_decide (v = "") then d else v
  | None => d
  end.

(** Ids of a recordset obtained through [mapped]: each record once, in
    the order of first occurrence. *)
Definition distinct (l : list Z) : list Z :=
  fold_left (fun acc x => if bool_decide (x ∈ acc) then acc else acc ++ [x]) l [].

(** A loop which returns from its first successful turn. *)
Fixpoint first_some {A B} (f : A -> option B) (l : list A) : option B :=
  match l with
  | [] => None
  | x :: l =>
    match f x with
    | Some y => Some y
    | None => first_some f l
    end
  end.

(** The id given to a created row. *)
Definition fresh_id {A} (m : gmap Z A) : Z :=
  Z.succ (foldr Z.max 0 (map_to_list m).*1).

Definition commit_sha (db : DB) (c : Z) : string :=
  default "" (Commit.sha <$> commit db !! c).

Definition repository_name (db : DB) (r : Z) : string :=
  default "" (Repository.name <$> repository db !! r).

Definition branch_name (db : DB) (b : Z) : string :=
  default "" (Branch.name <$> branch db !! b).

(** [branch.project_id.ci_timeout] *)
Definition ci_timeout_of (db : DB) (b : Z) : Z :=
  default 0 (Project.ci_timeout <$>
    (branch db !! b ≫= fun br => project db !! Branch.project_id br)).

(** [batches.prs]: the pull requests of the given batches. *)
Definition prs_of_batches (db : DB) (batches : list Z) : list Z :=
  (map_to_list (filter (fun kv =>
     match PullRequest.batch_id kv.2 with
     | Some b => bool_decide (b ∈ batches)
     | None => false
     end = true) (pull_requests db))).*1.

(** [display_name] of a pull request: [repository#number]. *)
Definition pr_display_name (db : DB) (i : Z) : string :=
  match pull_requests db !! i with
  | Some pr => repository_name db (PullRequest.repository pr) +:+ "#" +:+
               pretty (PullRequest.number pr)
  | None => ""
  end.

Definition dquote : string := String (Ascii.ascii_of_nat 34) "".

(** [json.dumps({'sha': sha})] *)
Definition json_sha (sha : string) : string :=
  "{" +:+ dquote +:+ "sha" +:+ dquote +:+ ": " +:+ dquote +:+ sha +:+ dquote +:+ "}".

(** Pauses between the attempts of one fast-forward. *)
Definition pauses : list Q := [1 # 10; 3 # 10; 5 # 10; 9 # 10; 0]%Q.

(** ** Stagings *)

Module Stagings.
Import Staging.

(** The values of a [write]; [None]: the key is absent. *)
Record vals := {
  vals_state : option string;
  vals_active : option bool;
  vals_reason : option (option string);
  vals_timeout_limit : option Z;
  vals_statuses_cache : option (option (list (string * string * string * string)));
}.

Definition no_vals : vals :=
  {| vals_state := None; vals_active := None; vals_reason := None;
     vals_timeout_limit := None; vals_statuses_cache := None |}.

Definition update (i : Z) (f : row -> row) (db : DB) : DB :=
  set_stagings (alter f i (stagings db)) db.

Definition assign {A} (o : option A) (set : A -> row -> row) (r : row) : row :=
  match o with
  | Some v => set v r
  | None => r
  end.

Definition apply_vals (v : vals) (r : row) : row :=
  assign (vals_statuses_cache v) set_statuses_cache
    (assign (vals_timeout_limit v) set_timeout_limit
      (assign (vals_reason v) set_reason
        (assign (vals_active v) set_active
          (assign (vals_state v) set_state r)))).

(** The ORM's [write]. *)
Definition super_write (self : list Z) (v : vals) (db : DB) : DB :=
  fold_left (fun db i => update i (apply_vals v) db) self db.

(** [st.head_ids]: the commits of the heads. *)
Definition head_ids (db : DB) (st : row) : list (Z * Commit.row) :=
  omap (fun c => (fun r => (c, r)) <$> commit db !! c)
       (distinct (map StagingCommits.commit_id (heads st))).

(** [{h.commit_id: h.repository_id for h in heads}[commit]] *)
Definition head_repository (st : row) (c : Z) : option Z :=
  StagingCommits.repository_id <$>
    List.find (fun h => bool_decide (StagingCommits.commit_id h = c))
              (rev (heads st)).

(** [_compute_statuses]: the (repository, context, state, url) of every
    status of every head, or the frozen copy when there is one. *)
Definition rendered_statuses (db : DB) (st : row)
  : list (string * string * string * string) :=
  match statuses_cache st with
  | Some cache => cache
  | None =>
    flat_map (fun cr : Z * Commit.row =>
      map (fun cs : string * status_entry =>
             (default "" (repository_name db <$> head_repository st cr.1),
              cs.1,
              str_or (cs.2 !! "state") "pending",
              str_or (cs.2 !! "target_url") ""))
          (map_to_list (Commit.statuses cr.2)))
      (head_ids db st)
  end.

Definition state_is (db : DB) (s : string) (i : Z) : bool :=
  match stagings db !! i with
  | Some st => bool_decide (state st = s)
  | None => false
  end.

Definition is_active (db : DB) (i : Z) : bool :=
  match stagings db !! i with
  | Some st => active st
  | None => false
  end.

(** [write]: the statuses are frozen when a staging leaves [pending];
    the cache can not be written otherwise. *)
Definition write (self : list Z) (v : vals) (db : DB) : DB :=
  let v := {| vals_state := vals_state v; vals_active := vals_active v;
              vals_reason := vals_reason v;
              vals_timeout_limit := vals_timeout_limit v;
              vals_statuses_cache := None |} in
  match vals_state v with
  | None => super_write self v db
  | Some _ =>
    let previously_pending := List.filter (state_is db "pending") self in
    let db := super_write self v db in
    fold_left (fun db i =>
      match stagings db !! i with
      | Some st =>
        if bool_decide (state st ≠ "pending")
        then update i (set_statuses_cache (Some (rendered_statuses db st))) db
        else db
      | None => db
      end) previously_pending db
  end.

(** *** Validation *)

(** [statuses.get(n, {}).get('state')] *)
Definition observed_state (statuses : status_dict) (n : string)
  : option string :=
  statuses !! n ≫= fun e => e !! "state".

Definition in_failure (v : option string) : bool :=
  match v with
  | Some v => bool_decide (v = "error") || bool_decide (v = "failure")
  | None => false
  end.

(** One turn of the inner loop of [_validate], on the pair
    ([st], [update_timeout_limit]). *)
Definition validate_step (acc : string * bool) (v : option string)
  : outcome (string * bool) :=
  if bool_decide (acc.1 = "failure") || in_failure v then Done ("failure", acc.2)
  else match v with
       | None => Done ("pending", acc.2)
       | Some s =>
         if bool_decide (s = "pending") then Done ("pending", true)
         else if bool_decide (s = "success") then Done acc
         else Raised AssertionError
       end.

Definition validate_loop (acc : string * bool) (vs : list (option string))
  : outcome (string * bool) :=
  fold_left (fun acc v => a <<- acc ;; validate_step a v) vs (Done acc).

(** [required_statuses]: per head, the sha and the required contexts. *)
Definition required_statuses (db : DB) (s : row)
  : list (string * list string) :=
  map (fun h =>
         (commit_sha db (StagingCommits.commit_id h),
          map StatusConfiguration.context
              (StatusConfigurations._for_staging
                 (status_ids_of db (StagingCommits.repository_id h)) s)))
      (heads s).

(** [cmap]: sha -> statuses of the commits of [head_ids]. *)
Definition cmap (db : DB) (s : row) : gmap string status_dict :=
  fold_left (fun m cr => <[ Commit.sha cr.2 := Commit.statuses cr.2 ]> m)
            (head_ids db s) ∅.

(** The states met by the two nested loops, in order. *)
Definition observations (db : DB) (s : row) : list (option string) :=
  flat_map (fun hr : string * list string =>
              let statuses := default ∅ (cmap db s !! hr.1) in
              map (observed_state statuses) hr.2)
           (required_statuses db s).

Definition validate_one (now : Z) (i : Z) (db : DB) : outcome DB :=
  match stagings db !! i with
  | None => Done db
  | Some s =>
    if bool_decide (state s ≠ "pending") then Done db
    else
      r <<- fold_left (fun acc (hr : string * list string) =>
              a <<- acc ;;
              let statuses := default ∅ (cmap db s !! hr.1) in
              validate_loop a (map (observed_state statuses) hr.2))
            (required_statuses db s) (Done ("success", false)) ;;
      let v := {| vals_state := Some r.1; vals_active := None;
                  vals_reason := None;
                  vals_timeout_limit :=
                    if r.2 then Some (now + minutes (ci_timeout_of db (target s)))
                    else None;
                  vals_statuses_cache := None |} in
      Done (write [i] v db)
  end.

Definition _validate (now : Z) (self : list Z) (db : DB) : outcome DB :=
  fold_left (fun acc i => d <<- acc ;; validate_one now i d) self (Done db).

(** *** Cancellation, failure, split *)

Section Methods.
(** Python's [reason % args]. *)
Variable percent : string -> list string -> string.
(** The text of a feedback template (by external id) for a pull request
    and further arguments. *)
Variable format_template : string -> DB -> Z -> list string -> string.
(** [project._next_freeze()] when the branch is the first of its
    project, [None] otherwise. *)
Variable next_freeze : DB -> Z -> option string.

Definition cancel (self : list Z) (reason : string) (args : list string)
  (db : DB) : DB * bool :=
  match List.filter (is_active db) self with
  | [] => (db, false)
  | self =>
    (write self {| vals_state := Some "cancelled";
                   vals_active := Some false;
                   vals_reason := Some (Some (percent reason args));
                   vals_timeout_limit := None;
                   vals_statuses_cache := None |} db, true)
  end.

(** [FeedbackTemplate._send] *)
Definition send_template (xmlid : string) (pr : Z) (args : list string)
  (db : DB) : DB :=
  match pull_requests db !! pr with
  | Some r =>
    set_feedback (feedback db ++
      [{| Feedback.repository := PullRequest.repository r;
          Feedback.pull_request := PullRequest.number r;
          Feedback.message := Some (format_template xmlid db pr args);
          Feedback.close := false |}]) db
  | None => db
  end.

(** [prs.error = True], the stored state following. *)
Definition mark_error (prs : list Z) (db : DB) : DB :=
  PullRequests._compute_state
    (fold_left (fun db p => PullRequests.update p (PullRequest.set_error true) db)
               prs db) prs.

(** [fail]; an empty [prs] stands for the default. *)
Definition fail (i : Z) (message : string) (prs : list Z) (env : Env)
  : Env * bool :=
  let env := set_change_message
               ("staging " +:+ pretty i +:+ " failed: " +:+ message) env in
  let batches := default [] (batch_ids <$> stagings (db env) !! i) in
  let prs := match prs with
             | [] => prs_of_batches (db env) batches
             | _ => prs
             end in
  let env := with_db (mark_error prs) env in
  let env := with_db (fun d =>
               fold_left (fun d pr =>
                 send_template "runbot_merge.pr.staging.fail" pr [message] d)
                 prs d) env in
  (with_db (write [i] {| vals_state := Some "failure";
                         vals_active := Some false;
                         vals_reason := Some (Some message);
                         vals_timeout_limit := None;
                         vals_statuses_cache := None |}) env, true).

(** [env['runbot_merge.split'].create({'target': ..., 'batch_ids':
    [Command.link(b) for b in batches]})]: the batches now point to the
    new split. *)
Definition create_split (target : Z) (batches : list Z) (db : DB) : DB :=
  let sid := fresh_id (split db) in
  let db := set_split (<[ sid := {| Split.target := target;
                                    Split.batch_ids := batches |} ]> (split db)) db in
  set_batch (fold_left (fun m b => alter (Batch.set_split_id (Some sid)) b m)
                       batches (batch db)) db.

(** [split.batch_ids]: the batches linked to the split which still point
    to it. *)
Definition split_batch_ids (db : DB) (sid : Z) : list Z :=
  match split db !! sid with
  | Some sp =>
    List.filter (fun b =>
      bool_decide (batch db !! b ≫= Batch.split_id = Some sid))
      (Split.batch_ids sp)
  | None => []
  end.

(** The first required context of a head found in error or failure. *)
Definition failed_context (db : DB) (s : row) (head : StagingCommits.row)
  : option (string * status_entry) :=
  let required := map StatusConfiguration.context
    (StatusConfigurations._for_staging
       (status_ids_of db (StagingCommits.repository_id head)) s) in
  let statuses := default ∅ (Commit.statuses <$>
                    commit db !! StagingCommits.commit_id head) in
  List.find (fun cs : string * status_entry =>
               bool_decide (cs.1 ∈ required) && in_failure (cs.2 !! "state"))
            (map_to_list statuses).

Definition try_splitting (i : Z) (env : Env) : Env * bool :=
  match stagings (db env) !! i with
  | None => (env, false)
  | Some s =>
    let batches := length (batch_ids s) in
    if bool_decide (1 < batches)%nat then
      let midpoint := (batches / 2)%nat in
      let h := take midpoint (batch_ids s) in
      let t := drop midpoint (batch_ids s) in
      let env := with_db (create_split (target s) h) env in
      let env := with_db (create_split (target s) t) env in
      (with_db (write [i]
         {| vals_state := Some "failure";
            vals_active := Some false;
            vals_reason := Some (if bool_decide (state s = "failure")
                                 then reason s else Some "timed out");
            vals_timeout_limit := None;
            vals_statuses_cache := None |}) env, true)
    else if bool_decide (state s ≠ "failure") then
      ((fail i ("timed out (>" +:+ pretty (ci_timeout_of (db env) (target s))
                +:+ " minutes)") [] env).1, false)
    else
      let attempt := fun (head : StagingCommits.row) =>
        match failed_context (db env) s head with
        | Some (reason, status) =>
          if bool_decide (reason = "") then None
          else
            let pr := List.find (fun p =>
              bool_decide (PullRequest.repository <$> pull_requests (db env) !! p
                           = Some (StagingCommits.repository_id head)))
              (prs_of_batches (db env) (batch_ids s)) in
            let viewmore :=
              match status !! "target_url" with
              | Some url => if bool_decide (url = "") then ""
                            else " (view more at " +:+ url +:+ ")"
              | None => ""
              end in
            Some match pr with
                 | Some p => (fail i (reason +:+ viewmore) [p] env).1
                 | None =>
                   (fail i (reason +:+ " on " +:+
                            commit_sha (db env) (StagingCommits.commit_id head)
                            +:+ viewmore) [] env).1
                 end
        | None => None
        end in
      match first_some attempt (heads s) with
      | Some env' => (env', false)
      | None => ((fail i "unknown reason" [] env).1, false)
      end
  end.

(** *** The fast-forward protocol *)

(** A loop over the staging commits with their index, left by the first
    exception. *)
Fixpoint each_commit
  (f : nat -> StagingCommits.row -> World -> World * option exn)
  (i : nat) (cs : list StagingCommits.row) (w : World) : World * option exn :=
  match cs with
  | [] => (w, None)
  | c :: cs =>
    let wr := f i c w in
    match wr.2 with
    | None => each_commit f (S i) cs wr.1
    | Some _ => wr
    end
  end.

(** The attempts at one fast-forward of a real branch: the loop over
    the pauses, for the commit of index [i]. *)
Fixpoint fast_forward_retry (i : nat) (repo branch sha : string)
  (pauses : list Q) (w : World) : World * option exn :=
  match pauses with
  | [] => (w, None)
  | pause :: pauses =>
    let wr := Github.fast_forward repo branch sha w in
    match wr.2 with
    | None => wr
    | Some _ =>
      if negb (i =? 0)%nat && negb (Qeq_bool pause 0)
      then fast_forward_retry i repo branch sha pauses (sleep pause wr.1)
      else wr
    end
  end.

Definition tmp_target (db : DB) (s : row) : string :=
  "tmp." +:+ branch_name db (target s).

(** First phase: every temporary branch is forced to the head of its
    target. *)
Definition reset_tmps (db : DB) (s : row)
  (staging_commits : list StagingCommits.row) (w : World) : World :=
  fold_left (fun w repo_name =>
      Github.set_ref repo_name (tmp_target db s)
        (Github.head repo_name (branch_name db (target s)) w) w)
    (map (repository_name db)
         (distinct (map StagingCommits.repository_id staging_commits)))
    w.

(** Second phase: the dry run on the temporary branches. *)
Definition dry_run (db : DB) (s : row)
  (staging_commits : list StagingCommits.row) (w : World)
  : World * option exn :=
  each_commit (fun _ c =>
      Github.fast_forward
        (repository_name db (StagingCommits.repository_id c))
        (tmp_target db s)
        (commit_sha db (StagingCommits.commit_id c)))
    0%nat staging_commits w.

(** Third phase: the real branches. *)
Definition real_run (db : DB) (s : row)
  (staging_commits : list StagingCommits.row) (w : World)
  : World * option exn :=
  each_commit (fun i c =>
      fast_forward_retry i
        (repository_name db (StagingCommits.repository_id c))
        (branch_name db (target s))
        (commit_sha db (StagingCommits.commit_id c))
        pauses)
    0%nat staging_commits w.

Definition _safety_dance (db : DB) (s : row)
  (staging_commits : list StagingCommits.row) (w : World)
  : World * option exn :=
  let w := reset_tmps db s staging_commits w in
  let wr := dry_run db s staging_commits w in
  match wr.2 with
  | Some _ => wr
  | None => real_run db s staging_commits wr.1
  end.

(** *** Status check *)

(** [is_timed_out] *)
Definition is_timed_out (s : row) (now : Z) : bool :=
  bool_decide (timeout_limit s < now).

(** The feedback (and tag) of each merged pull request; the loop stops
    on a pull request without integration head. *)
Fixpoint close_merged (pseudobranch : option string) (prs : list Z) (d : DB)
  : DB * option exn :=
  match prs with
  | [] => (d, None)
  | p :: prs =>
    match pull_requests d !! p with
    | None => close_merged pseudobranch prs d
    | Some pr =>
      match PullRequest.commits_map pr !! "" with
      | None => (d, Some (KeyError ""))
      | Some sha =>
        let d := set_feedback (feedback d ++
          [{| Feedback.repository := PullRequest.repository pr;
              Feedback.pull_request := PullRequest.number pr;
              Feedback.message := Some (json_sha sha);
              Feedback.close := true |}]) d in
        let d := match pseudobranch with
                 | Some b =>
                   set_tagging (tagging d ++
                     [{| Tagging.repository := PullRequest.repository pr;
                         Tagging.pull_request := PullRequest.number pr;
                         Tagging.tags_add := [b] |}]) d
                 | None => d
                 end in
        close_merged pseudobranch prs d
      end
    end
  end.

(** [batches.merge_date = now], the stored states following. *)
Definition stamp_merged (now : Z) (batches prs : list Z) (d : DB) : DB :=
  PullRequests._compute_state
    (set_batch (fold_left (fun m b => alter (Batch.set_merge_date (Some now)) b m)
                          batches (batch d)) d)
    prs.

Definition deactivate (i : Z) : DB -> DB :=
  write [i] {| vals_state := None; vals_active := Some false;
               vals_reason := None; vals_timeout_limit := None;
               vals_statuses_cache := None |}.

Definition check_status (now : Z) (i : Z) (env : Env) (w : World)
  : Env * World * option exn :=
  match stagings (db env) !! i with
  | None => (env, w, None)
  | Some s =>
    if negb (active s) then (env, w, None)
    else if bool_decide (state s = "success") then
      let wr := _safety_dance (db env) s (commits s) w in
      match wr.2 with
      | Some (FastForwardError _ cause) =>
        let env := with_db (write [i]
          {| vals_state := Some "ff_failed"; vals_active := None;
             vals_reason := Some (Some cause); vals_timeout_limit := None;
             vals_statuses_cache := None |}) env in
        (with_db (deactivate i) env, wr.1, None)
      | Some e => (with_db (deactivate i) env, wr.1, Some e)
      | None =>
        let env := set_change_message
                     ("staging " +:+ pretty i +:+ " succeeded") env in
        let prs := prs_of_batches (db env) (batch_ids s) in
        let env := with_db (stamp_merged now (batch_ids s) prs) env in
        let pseudobranch := next_freeze (db env) (target s) in
        let dr := close_merged pseudobranch prs (db env) in
        (with_db (deactivate i) (with_db (fun _ => dr.1) env), wr.1, dr.2)
      end
    else if bool_decide (state s = "failure") || is_timed_out s now then
      ((try_splitting i env).1, w, None)
    else (env, w, None)
  end.

End Methods.
End Stagings.

(** ** Commands *)

(** Modelled from the spec: the commands of the [commands] module, which
    is not part of this file, as [_parse_commands] matches them. *)
Inductive fw := DEFAULT | SKIPCI | SKIPMERGE.

Inductive command :=
| Approve (ids : option (list Z))
| Reject
| MergeMethod (value : string)
| Retry
| Check
| Delegate (users : list string)
| Priority
| SkipChecks
| CancelStaging
| Override (statuses : list string)
| Close
| FW (policy : fw)
| Limit (branch : option string)
| Help.

(** [command.name.lower()] *)
Definition fw_name (p : fw) : string :=
  match p with
  | DEFAULT => "default"
  | SKIPCI => "skipci"
  | SKIPMERGE => "skipmerge"
  end.

(** ** Text *)




(** [', '.join(l)] *)
Fixpoint join (sep : string) (l : list string) : string :=
  match l with
  | [] => ""
  | [x] => x
  | x :: l => x +:+ sep +:+ join sep l
  end.

Definition is_digit (c : Ascii.ascii) : bool :=
  (48 <=? Ascii.nat_of_ascii c)%nat && (Ascii.nat_of_ascii c <=? 57)%nat.

Fixpoint drop_digits (l : list Ascii.ascii) : list Ascii.ascii :=
  match l with
  | c :: l' => if is_digit c then drop_digits l' else l
  | [] => []
  end.

(** [re.search(r':patch-\d+$', label)] *)
Definition is_patch_label (label : string) : bool :=
  let r := rev (String.list_ascii_of_string label) in
  match r with
  | c :: _ =>
    is_digit c &&
    String.prefix "-hctap:" (String.string_of_list_ascii (drop_digits r))
  | [] => false
  end.

(** The selection of [merge_method]. *)
Definition merge_method_selection : list (string * string) :=
  [("merge", "merge directly, using the PR as merge commit message");
   ("rebase-merge", "rebase and merge, using the PR as merge commit message");
   ("rebase-ff", "rebase and fast-forward");
   ("squash", "squash")].

(** State changes on reviews. *)
Definition RPLUS (state : string) : option string :=
  if bool_decide (state = "opened") then Some "approved"
  else if bool_decide (state = "validated") then Some "ready"
  else None.

Record ACL := {
  is_admin : bool;
  is_reviewer : bool;
  is_author : bool;
}.

(** A comment: its body and its address. *)
Record Comment := {
  body : option string;
  html_url : string;
}.

(** ** Pull requests: commands and writes *)

Module PullRequestMethods.
Import PullRequest.

(** The variables of the loop of [_parse_commands] which its body
    rebinds. *)
Record vars := {
  login : string;
  source_reviewer : bool;
  source_author : bool;
}.

(** [itertools.dropwhile] *)
Fixpoint dropwhile {A} (f : A -> bool) (l : list A) : list A :=
  match l with
  | x :: l' => if f x then dropwhile f l' else l
  | [] => []
  end.

(** [repr] of a list of integers. *)
Definition repr_ids (l : list Z) : string :=
  "[" +:+ join ", " (map pretty l) +:+ "]".

(** [pr.state] and [pr.number] of a record. *)
Definition state_of (db : DB) (i : Z) : string :=
  default "" (state <$> pull_requests db !! i).

(** [pr.batch_id.staging_ids.filtered('active')] *)
Definition staging_id (db : DB) (pr : row) : list Z :=
  match batch_id pr with
  | None => []
  | Some b =>
    (map_to_list (filter (fun kv =>
       Staging.active kv.2 = true /\ b ∈ Staging.batch_ids kv.2)
       (stagings db))).*1
  end.

(** [branch.active_staging_id] *)
Definition active_staging_id (db : DB) (branch : Z) : list Z :=
  (map_to_list (filter (fun kv =>
     Staging.active kv.2 = true /\ Staging.target kv.2 = branch)
     (stagings db))).*1.

(** A write to an input of the state, the stored state following. *)
Definition assign (i : Z) (f : row -> row) (db : DB) : DB :=
  PullRequests._compute_state (PullRequests.update i f db) [i].

Definition batch_update (b : option Z) (f : Batch.row -> Batch.row) (db : DB)
  : DB :=
  match b with
  | Some b => set_batch (alter f b (batch db)) db
  | None => db
  end.

(** [batch.skipchecks = v], the stored state of its pull requests
    following. *)
Definition set_batch_skipchecks (b : option Z) (v : bool) (db : DB) : DB :=
  match b with
  | Some b' =>
    PullRequests._compute_state
      (batch_update b (Batch.set_skipchecks v) db) (prs_of_batches db [b'])
  | None => db
  end.

(** [split.unlink()]: the batches of the split point nowhere. *)
Definition unlink_split (sid : Z) (db : DB) : DB :=
  set_split (delete sid (split db))
    (set_batch ((fun b => if bool_decide (Batch.split_id b = Some sid)
                          then Batch.set_split_id None b else b) <$> batch db) db).

(** [_iter_ancestors], the record first. *)
Fixpoint _iter_ancestors (fuel : nat) (db : DB) (self : option Z)
  : outcome (list Z) :=
  match fuel with
  | O => OutOfFuel
  | S fuel =>
    match self with
    | None => Done []
    | Some i =>
      match pull_requests db !! i with
      | None => Done []
      | Some pr =>
        rest <<- _iter_ancestors fuel db (parent_id pr) ;;
        Done (i :: rest)
      end
    end
  end.

Definition _pr_acl (db : DB) (self : option Z) (user : option Z) : ACL :=
  match self with
  | None => {| is_admin := false; is_reviewer := false; is_author := false |}
  | Some i =>
    match pull_requests db !! i with
    | None => {| is_admin := false; is_reviewer := false; is_author := false |}
    | Some pr =>
      let admin :=
        bool_decide (length (List.filter (fun r : Review.row =>
          bool_decide (Some (Review.partner_id r) = user) &&
          bool_decide (Review.repository_id r = repository pr) &&
          (if bool_decide (author pr ≠ user) then Review.review r
           else Review.self_review r)) (review db)) = 1%nat) in
      let reviewer :=
        admin ||
        match user ≫= fun u => partner db !! u with
        | Some p => bool_decide (i ∈ Partner.delegate_reviewer p)
        | None => false
        end in
      {| is_admin := admin; is_reviewer := reviewer;
         is_author := reviewer || bool_decide (author pr = user) |}
    end
  end.

(** The values of a [write]; [None]: the key is absent. *)
Record vals := {
  vals_squash : option bool;
  vals_merge_method : option (option string);
  vals_state : option string;
  vals_reviewed_by : option (option Z);
  vals_target : option Z;
  vals_message : option string;
  vals_closed : option bool;
  vals_batch_id : option (option Z);
  vals_label : option string;
  vals_head : option string;
  vals_draft : option bool;
}.

Definition with_merge_method (m : option (option string)) (v : vals) : vals :=
  {| vals_squash := vals_squash v; vals_merge_method := m;
     vals_state := vals_state v; vals_reviewed_by := vals_reviewed_by v;
     vals_target := vals_target v; vals_message := vals_message v;
     vals_closed := vals_closed v; vals_batch_id := vals_batch_id v;
     vals_label := vals_label v; vals_head := vals_head v;
     vals_draft := vals_draft v |}.

Definition with_reviewed_by (r : option (option Z)) (v : vals) : vals :=
  {| vals_squash := vals_squash v; vals_merge_method := vals_merge_method v;
     vals_state := vals_state v; vals_reviewed_by := r;
     vals_target := vals_target v; vals_message := vals_message v;
     vals_closed := vals_closed v; vals_batch_id := vals_batch_id v;
     vals_label := vals_label v; vals_head := vals_head v;
     vals_draft := vals_draft v |}.

Definition with_batch_id (b : option (option Z)) (v : vals) : vals :=
  {| vals_squash := vals_squash v; vals_merge_method := vals_merge_method v;
     vals_state := vals_state v; vals_reviewed_by := vals_reviewed_by v;
     vals_target := vals_target v; vals_message := vals_message v;
     vals_closed := vals_closed v; vals_batch_id := b;
     vals_label := vals_label v; vals_head := vals_head v;
     vals_draft := vals_draft v |}.

Definition put {A} (o : option A) (set : A -> row -> row) (r : row) : row :=
  match o with
  | Some v => set v r
  | None => r
  end.

(** The columns of [vals] written to a row. *)
Definition apply_vals (v : vals) (r : row) : row :=
  put (vals_draft v) set_draft
    (put (vals_head v) set_head
      (put (vals_label v) set_label
        (put (vals_batch_id v) set_batch_id
          (put (vals_closed v) set_closed
            (put (vals_message v) set_message
              (put (vals_target v) set_target
                (put (vals_reviewed_by v) set_reviewed_by
                  (put (vals_state v) set_state
                    (put (vals_merge_method v) set_merge_method
                      (put (vals_squash v) set_squash r)))))))))).

(** [_statuses_equivalent]: the description is ignored. *)
Definition _statuses_equivalent (a b : status_entry) : bool :=
  bool_decide (a !! "state" = b !! "state") &&
  bool_decide (a !! "target_url" = b !! "target_url").

Definition partner_of (db : DB) (user : option Z) : option Partner.row :=
  user ≫= fun u => partner db !! u.

Definition github_login_of (db : DB) (user : option Z) : string :=
  default "" (Partner.github_login <$> partner_of db user).

Section Methods.
(** Python's [reason % args]. *)
Variable percent : string -> list string -> string.
(** The text of a feedback template for a pull request and further
    arguments. *)
Variable format_template : string -> DB -> Z -> list string -> string.
(** [str(command)] *)
Variable str_command : command -> string.
(** [project._find_commands(body)]: the command lines of a comment. *)
Variable find_commands : string -> list string.
(** [commands.Parser(line)]: the commands of a line, or the message of
    the error it raises. *)
Variable parse_line : string -> string + list command.
(** [_maybe_update_limit], of the forward-port module. *)
Variable maybe_update_limit : DB -> Z -> string -> DB * (bool * string).

Definition unstage (i : Z) (reason : string) (args : list string) (db : DB)
  : DB :=
  match pull_requests db !! i with
  | None => db
  | Some pr =>
    let reset := batch_update (batch_id pr) (Batch.set_split_id None) db in
    let db :=
      match PullRequests.batch_of db pr ≫= Batch.split_id with
      | Some sid =>
        if bool_decide (length (Stagings.split_batch_ids db sid) = 1%nat)
        then unlink_split sid db
        else reset
      | None => reset
      end in
    (Stagings.cancel percent (staging_id db pr) ("%s " +:+ reason)
       (pr_display_name db i :: args) db).1
  end.

(** The closure [feedback] of [_parse_commands]. *)
Definition send_feedback (i : Z) (message : option string) (close : bool)
  (db : DB) : outcome DB :=
  match pull_requests db !! i with
  | None => Raised MissingError
  | Some pr =>
    Done (set_feedback (feedback db ++
      [{| Feedback.repository := repository pr;
          Feedback.pull_request := number pr;
          Feedback.message := message;
          Feedback.close := close |}]) db)
  end.

Definition _approve (i : Z) (author : option Z) (login : string) (db : DB)
  : DB * option string :=
  match pull_requests db !! i with
  | None => (db, None)
  | Some pr =>
    let newstate := RPLUS (state pr) in
    let r :=
      if bool_decide (str_or (partner_of db author ≫= Partner.email) "" = "")
      then (db, Some "I must know your email before you can review PRs. Please contact an administrator.")
      else if negb (PullRequests.truthy newstate)
      then (db, Some "this PR is already reviewed, reviewing it again is useless.")
      else (assign i (set_reviewed_by author) db, None) in
    (if bool_decide (status pr = "failure")
     then Stagings.send_template format_template
            "runbot_merge.command.approve.failure" i [login] r.1
     else r.1, r.2)
  end.

(** *** The commands, one by one *)

Definition skill_issue (cmd : command) : option string :=
  Some ("you can't " +:+ str_command cmd +:+ ". Skill issue.").

(** The loop of a forward-port approval over the approvable ancestors. *)
Fixpoint approve_each (prs : list Z) (author : option Z) (login : string)
  (db : DB) : DB * option string :=
  match prs with
  | [] => (db, None)
  | p :: prs =>
    if PullRequests.truthy (RPLUS (state_of db p)) then
      let r := _approve p author login db in
      match r.2 with
      | Some _ => r
      | None => approve_each prs author login r.1
      end
    else approve_each prs author login db
  end.

Definition approve_forwardport (fuel : nat) (i : Z) (pr : row)
  (author : option Z) (st : vars) (cmd : command) (db : DB)
  : outcome (DB * vars * option string) :=
  let sacl := _pr_acl db (source_id pr) author in
  let st := {| login := login st; source_reviewer := is_reviewer sacl;
               source_author := is_author sacl |} in
  ancestors <<- _iter_ancestors fuel db (Some i) ;;
  let approveable :=
    if source_reviewer st then ancestors
    else
      let mergeors :=
        dropwhile (fun p => bool_decide (state_of db p ≠ "merged"))
                  (rev ancestors) in
      let reviewors :=
        dropwhile (fun p => negb (is_reviewer (_pr_acl db (Some p) author)))
                  (rev ancestors) in
      if source_author st && (length reviewors <? length mergeors)%nat
      then mergeors else reviewors in
  match approveable with
  | [] => Done (db, st, Some ("you can't " +:+ str_command cmd +:+
                               " you silly little bean."))
  | _ =>
    let r := approve_each approveable author (login st) db in
    Done (r.1, st, r.2)
  end.

Definition reject (i : Z) (pr : row) (st : vars) (db : DB)
  : DB * option string :=
  let skip := default false (Batch.skipchecks <$> PullRequests.batch_of db pr) in
  if skip || PullRequests.truthy (reviewed_by pr) then
    let db := if error pr then assign i (set_error false) db else db in
    let db := if PullRequests.truthy (reviewed_by pr)
              then assign i (set_reviewed_by None) db else db in
    let db :=
      if skip then
        Stagings.send_template format_template
          "runbot_merge.command.unapprove.p0" i [login st]
          (set_batch_skipchecks (batch_id pr) false db)
      else db in
    (unstage i "unreviewed (r-) by %s" [login st] db, None)
  else (db, Some "r- makes no sense in the current PR state.").

(** The partners of [commands.Delegate(users)], created when unknown;
    the last login stays in [login]. *)
Definition delegates_of (users : list string) (db : DB) : DB * list Z :=
  fold_left (fun acc (l : string) =>
    let found := (map_to_list (filter (fun kv =>
                    Partner.github_login kv.2 = l) (partner acc.1))).*1 in
    match found with
    | [] =>
      let p := fresh_id (partner acc.1) in
      (set_partner (<[ p := {| Partner.name := l; Partner.github_login := l;
                               Partner.email := None;
                               Partner.override_rights := [];
                               Partner.delegate_reviewer := ∅ |} ]>
                      (partner acc.1)) acc.1,
       acc.2 ++ [p])
    | _ => (acc.1, acc.2 ++ List.filter (fun p => negb (bool_decide (p ∈ acc.2))) found)
    end) users (db, []).

Definition delegate (i : Z) (pr : row) (users : list string) (st : vars)
  (db : DB) : DB * vars :=
  let r := match users with
           | [] => (db, match author pr with Some a => [a] | None => [] end)
           | _ => delegates_of users db
           end in
  (set_partner
     (fold_left (fun m p =>
        alter (fun row => Partner.set_delegate_reviewer
                 ({[ i ]} ∪ Partner.delegate_reviewer row) row) p m)
        r.2 (partner r.1)) r.1,
   {| login := List.last users (login st);
      source_reviewer := source_reviewer st;
      source_author := source_author st |}).

Definition skip_checks (i : Z) (pr : row) (author : option Z) (db : DB) : DB :=
  let db := set_batch_skipchecks (batch_id pr) true db in
  let db := assign i (set_reviewed_by author) db in
  fold_left (fun db p =>
      match pull_requests db !! p with
      | Some r =>
        if PullRequests.truthy (reviewed_by r) then db
        else assign p (set_reviewed_by author) db
      | None => db
      end)
    (List.filter (fun p => negb (bool_decide (p = i)))
       (match batch_id pr with
        | Some b => prs_of_batches db [b]
        | None => []
        end))
    db.

Definition cancel_staging (i : Z) (pr : row) (author : option Z) (db : DB)
  : DB :=
  let db := batch_update (batch_id pr) (Batch.set_cancel_staging true) db in
  if bool_decide (str_or (PullRequests.batch_of db pr ≫= Batch.blocked) "" = "")
  then (Stagings.cancel percent (active_staging_id db (target pr))
          "Unstaged by %s on %s"
          [github_login_of db author; pr_display_name db i] db).1
  else db.

(** One status of [commands.Override(statuses)]. *)
Definition override_one (fuel : nat) (i : Z) (author : option Z)
  (comment : Comment) (acc : DB * option string) (status : string)
  : outcome (DB * option string) :=
  let db := acc.1 in
  match pull_requests db !! i with
  | None => Raised MissingError
  | Some pr =>
    let overridable :=
      map OverrideRights.context
        (List.filter (fun r =>
           match OverrideRights.repository_id r with
           | None => true
           | Some repo => bool_decide (repo = repository pr)
           end)
           (default [] (Partner.override_rights <$> partner_of db author))) in
    if bool_decide (status ∈ overridable) then
      let entry : status_entry :=
        {[ "state" := "success";
           "target_url" := html_url comment;
           "description" := "Overridden by @" +:+ github_login_of db author ]} in
      let db := PullRequests.update i
                  (set_overrides (<[ status := entry ]> (overrides pr))) db in
      desc <<- PullRequests._iter_descendants fuel db [i] ;;
      let descendants_or_self := i :: concat desc in
      db <<- PullRequests._compute_statuses fuel db descendants_or_self ;;
      let db := PullRequests._compute_state db descendants_or_self in
      let found := (map_to_list (filter (fun kv =>
                      Commit.sha kv.2 = head pr) (commit db))).*1 in
      let db :=
        match found with
        | [] =>
          set_commit (<[ fresh_id (commit db) :=
                         {| Commit.sha := head pr; Commit.statuses := ∅;
                            Commit.to_check := true |} ]> (commit db)) db
        | _ =>
          set_commit (fold_left (fun m c => alter (Commit.set_to_check true) c m)
                                found (commit db)) db
        end in
      Done (db, acc.2)
    else
      Done (db, Some ("you are not allowed to override '" +:+ status +:+ "'."))
  end.

Definition fw_message (p : fw) : string :=
  match p with
  | DEFAULT => "Waiting for CI to create followup forward-ports."
  | SKIPCI => "Not waiting for CI to create followup forward-ports."
  | SKIPMERGE => "Not waiting for merge to create followup forward-ports."
  end.

(** One turn of the loop over the commands: the database, the rebound
    variables, and the message [msg]. *)
Definition run_command (fuel : nat) (i : Z) (author : option Z)
  (comment : Comment) (acl : ACL) (st : vars) (cmd : command) (db : DB)
  : outcome (DB * vars * option string) :=
  match pull_requests db !! i with
  | None => Raised MissingError
  | Some pr =>
    match cmd with
    | Approve ids =>
      if draft pr then Done (db, st, Some "draft PRs can not be approved.")
      else if PullRequests.truthy (parent_id pr)
      then approve_forwardport fuel i pr author st cmd db
      else if is_reviewer acl then
        match ids with
        | Some l =>
          if bool_decide (l ≠ [number pr]) then
            Done (db, st, Some ("tried to approve PRs " +:+ repr_ids l +:+
                                " but the current PR is " +:+ pretty (number pr)))
          else let r := _approve i author (login st) db in Done (r.1, st, r.2)
        | None => let r := _approve i author (login st) db in Done (r.1, st, r.2)
        end
      else Done (db, st, skill_issue cmd)
    | Reject =>
      if is_author acl
      then let r := reject i pr st db in Done (r.1, st, r.2)
      else Done (db, st, skill_issue cmd)
    | MergeMethod value =>
      if is_reviewer acl then
        let db := PullRequests.update i (set_merge_method (Some value)) db in
        match List.find (fun vl : string * string => bool_decide (vl.1 = value))
                        merge_method_selection with
        | None => Raised StopIteration
        | Some vl =>
          Done (Stagings.send_template format_template
                  "runbot_merge.command.method" i [vl.2; login st] db, st, None)
        end
      else Done (db, st, skill_issue cmd)
    | Retry =>
      if is_author acl || source_author st then
        if error pr then Done (assign i (set_error false) db, st, None)
        else Done (db, st, Some "retry makes no sense when the PR is not in error.")
      else Done (db, st, skill_issue cmd)
    | Check =>
      if is_author acl then
        Done (set_fetch_job (fetch_job db ++
                [{| FetchJob.repository := repository pr;
                    FetchJob.number := number pr;
                    FetchJob.closing := false |}]) db, st, None)
      else Done (db, st, skill_issue cmd)
    | Delegate users =>
      if is_reviewer acl
      then let r := delegate i pr users st db in Done (r.1, r.2, None)
      else Done (db, st, skill_issue cmd)
    | Priority =>
      if is_admin acl
      then Done (batch_update (batch_id pr)
                   (Batch.set_priority (str_command cmd)) db, st, None)
      else Done (db, st, skill_issue cmd)
    | SkipChecks =>
      if is_admin acl then Done (skip_checks i pr author db, st, None)
      else Done (db, st, skill_issue cmd)
    | CancelStaging =>
      if is_admin acl then Done (cancel_staging i pr author db, st, None)
      else Done (db, st, skill_issue cmd)
    | Override statuses =>
      r <<- fold_left (fun acc status =>
              a <<- acc ;; override_one fuel i author comment a status)
            statuses (Done (db, None)) ;;
      Done (r.1, st, r.2)
    | Close =>
      if source_author st then
        db <<- send_feedback i None true db ;; Done (db, st, None)
      else Done (db, st, skill_issue cmd)
    | FW policy =>
      if source_reviewer st || is_reviewer acl then
        let owner := match source_id pr with
                     | Some s => pull_requests db !! s ≫= batch_id
                     | None => batch_id pr
                     end in
        let db := batch_update owner (Batch.set_fw_policy (fw_name policy)) db in
        db <<- send_feedback i (Some (fw_message policy)) false db ;;
        Done (db, st, None)
      else Done (db, st, Some "you can't configure forward-port CI.")
    | Limit branch =>
      if is_author acl then
        let r := maybe_update_limit db i
                   (str_or branch (branch_name db (target pr))) in
        if r.2.1 then Done (r.1, st, Some r.2.2)
        else db <<- send_feedback i (Some r.2.2) false r.1 ;; Done (db, st, None)
      else Done (db, st, Some "you can't set a forward-port limit.")
    | Help => Done (db, st, skill_issue cmd)
    end
  end.


(** *** The interpreter *)





(** *** Writes *)

(** The partner of the current user. *)
Variable user_partner : option Z.
(** The row with which the batch model creates a batch for a target. *)
Variable new_batch : Z -> Batch.row.

(** [_get_batch]: the active batch of the target and label, or a new
    one. *)
Definition _get_batch (target : Z) (label : string) (db : DB) : DB * Z :=
  let found :=
    if is_patch_label label then []
    else (map_to_list (filter (fun kv =>
            Batch.merge_date kv.2 = None /\ Batch.target kv.2 = target /\
            existsb (fun p => bool_decide
                       (PullRequest.label <$> pull_requests db !! p = Some label))
                    (prs_of_batches db [kv.1]) = true)
            (batch db))).*1 in
  match found with
  | b :: _ => (db, b)
  | [] =>
    let b := fresh_id (batch db) in
    (set_batch (<[ b := new_batch target ]> (batch db)) db, b)
  end.

Definition _notify_ci_failed (i : Z) (ci : string) (db : DB) : DB :=
  if bool_decide (state_of db i = "approved")
  then Stagings.send_template format_template
         "runbot_merge.failure.approved" i [ci] db
  else db.

Definition _notify_ci_new_failure (i : Z) (ci : string) (st : status_entry)
  (db : DB) : DB :=
  match pull_requests db !! i with
  | None => db
  | Some pr =>
    let prev := previous_failure pr in
    if existsb (_statuses_equivalent st) (map_to_list prev).*2 then db
    else _notify_ci_failed i ci
           (PullRequests.update i (set_previous_failure (<[ ci := st ]> prev)) db)
  end.

(** The failures of one pull request notified by [_validate]. *)
Definition notify_failures (i : Z) (db : DB) : outcome DB :=
  match pull_requests db !! i with
  | None => Done db
  | Some pr =>
    if bool_decide (status pr = "failure") then
      fold_left (fun acc (ci : StatusConfiguration.row) =>
          d <<- acc ;;
          let ctx := StatusConfiguration.context ci in
          let pending : status_entry := {[ "state" := "pending" ]} in
          let st := match statuses_full pr !! ctx with
                    | Some e => if dict_truthy e then e else pending
                    | None => pending
                    end in
          match st !! "state" with
          | None => Raised (KeyError "state")
          | Some v =>
            if PullRequests.is_failure v
            then Done (_notify_ci_new_failure i ctx st d)
            else Done d
          end)
        (PullRequests.required_for_pr db pr) (Done db)
    else Done db
  end.

Definition _validate (fuel : nat) (self : list Z) (statuses : status_dict)
  (db : DB) : outcome DB :=
  let updateable :=
    List.filter (fun p => bool_decide (state_of db p ≠ "merged")) self in
  let db := fold_left (fun d p =>
              PullRequests.update p (set_statuses statuses) d) updateable db in
  db <<- PullRequests._compute_statuses fuel db updateable ;;
  let db := PullRequests._compute_state db updateable in
  fold_left (fun acc p => d <<- acc ;; notify_failures p d) updateable (Done db).

(** The ORM's [write] of one record, the stored computed fields
    following their inputs. *)
Definition super_write (fuel : nat) (i : Z) (v : vals) (db : DB) : outcome DB :=
  let db := PullRequests.update i (apply_vals v) db in
  db <<- (if PullRequests.truthy (vals_target v)
          then PullRequests._compute_statuses fuel db [i] else Done db) ;;
  if PullRequests.truthy (vals_target v) ||
     PullRequests.truthy (vals_reviewed_by v) ||
     PullRequests.truthy (vals_closed v) ||
     PullRequests.truthy (vals_batch_id v)
  then Done (PullRequests._compute_state db [i])
  else Done db.

(** [write], on one record, in the order of the source. *)

(** A squash has no merge method. *)
Definition squash_rule (v : vals) : vals :=
  if default false (vals_squash v) then with_merge_method (Some None) v else v.

(** When explicitly marking a PR as ready: the checks are skipped and
    the current user is the reviewer. *)
Definition mark_ready (i : Z) (pr : row) (v : vals) (env : Env) : Env * vals :=
  if bool_decide (vals_state v = Some "ready") then
    (with_db (fun d =>
       let d := set_batch_skipchecks (batch_id pr) true d in
       fold_left (fun d p =>
           match pull_requests d !! p with
           | Some r =>
             if PullRequests.truthy (reviewed_by r) then d
             else assign p (set_reviewed_by user_partner) d
           | None => d
           end)
         (List.filter (fun p => negb (bool_decide (p = i)))
            (match batch_id pr with
             | Some b => prs_of_batches d [b]
             | None => []
             end)) d) env,
     if PullRequests.truthy (vals_reviewed_by v) then v
     else with_reviewed_by (Some user_partner) v)
  else (env, v).

(** A new target or a new merge message takes the PR out of its
    staging. *)
Definition unstage_on_change (i : Z) (pr : row) (v : vals) (env : Env) : Env :=
  let env :=
    match vals_target v with
    | Some t =>
      if bool_decide (target pr ≠ t)
      then with_db (unstage i
             "target (base) branch was changed from %r to %r"
             [branch_name (db env) (target pr); branch_name (db env) t]) env
      else env
    | None => env
    end in
  match vals_message v with
  | Some m =>
    let merge_method := match vals_merge_method v with
                        | Some mm => mm
                        | None => merge_method pr
                        end in
    if negb (bool_decide (merge_method = None) ||
             bool_decide (merge_method = Some "rebase-ff")) &&
       bool_decide (message pr ≠ m)
    then with_db (unstage i "merge message updated" []) env
    else env
  | None => env
  end.

(** Closing, reopening and retargeting move the PR between batches. *)
Definition rebatch (i : Z) (pr : row) (v : vals) (env : Env) : Env * vals :=
  let alone :=
    match batch_id pr with
    | Some b => bool_decide (length (prs_of_batches (db env) [b]) = 1%nat)
    | None => false
    end in
  let hook := match batch_id pr with Some b => [b] | None => [] end in
  let label := str_or (vals_label v) (label pr) in
  match vals_closed v with
  | Some true =>
    if negb (closed pr) then
      (if alone then precommit_add hook env else env,
       with_batch_id (Some None) (with_reviewed_by (Some None) v))
    else (env, v)
  | Some false =>
    if closed pr then
      let r := _get_batch (match vals_target v with
                           | Some t => if bool_decide (t = 0) then target pr else t
                           | None => target pr
                           end) label (db env) in
      (with_db (fun _ => r.1) env, with_batch_id (Some (Some r.2)) v)
    else (env, v)
  | None =>
    match vals_target v with
    | Some t =>
      if negb (bool_decide (t = 0)) && bool_decide (t ≠ target pr) then
        let r := _get_batch t label (db env) in
        (if alone then precommit_add hook (with_db (fun _ => r.1) env)
         else with_db (fun _ => r.1) env,
         with_batch_id (Some (Some r.2)) v)
      else (env, v)
    | None => (env, v)
    end
  end.

(** A new head takes the statuses of its commit. *)
Definition validate_head (fuel : nat) (i : Z) (v : vals) (d : DB) : outcome DB :=
  match vals_head v with
  | Some newhead =>
    if bool_decide (newhead = "") then Done d
    else
      let found := List.find (fun c : Z * Commit.row =>
                     bool_decide (Commit.sha c.2 = newhead))
                     (map_to_list (commit d)) in
      _validate fuel [i] (default ∅ (Commit.statuses <$> (snd <$> found))) d
  | None => Done d
  end.

Definition write (fuel : nat) (i : Z) (vals0 : vals) (env : Env) : outcome Env :=
  match pull_requests (db env) !! i with
  | None => Raised MissingError
  | Some pr =>
    let v := squash_rule vals0 in
    let ev := mark_ready i pr v env in
    let env := unstage_on_change i pr ev.2 ev.1 in
    let ev := rebatch i pr ev.2 env in
    d <<- super_write fuel i ev.2 (db ev.1) ;;
    d <<- validate_head fuel i ev.2 d ;;
    Done (with_db (fun _ => d) ev.1)
  end.

End Methods.
End PullRequestMethods.

(** ** Repositories: the required statuses as a text *)

Module Repositories.

Definition comma : Ascii.ascii := Ascii.ascii_of_nat 44.

(** [s.split(sep)], for a separator of one character. *)
Fixpoint str_split (sep : Ascii.ascii) (s : string) : list string :=
  match s with
  | EmptyString => [""]
  | String c s' =>
    if Ascii.eqb c sep then "" :: str_split sep s'
    else match str_split sep s' with
         | x :: l => String c x :: l
         | [] => [String c ""]
         end
  end.

(** The commands on [status_ids] which the model writes: [(0, 0, vals)]
    creates a status, [(5, 0, {})] drops them all. *)
Inductive command :=
| Create (st : StatusConfiguration.row)
| Clear.

(** The status which the ORM creates from [{'context': c}], the other
    fields at their defaults. *)
Definition of_context (c : string) : StatusConfiguration.row :=
  {| StatusConfiguration.context := c;
     StatusConfiguration.branch_filter := None;
     StatusConfiguration.prs := true;
     StatusConfiguration.stagings := true |}.

Definition run (cmds : list command) (current : list StatusConfiguration.row)
  : list StatusConfiguration.row :=
  fold_left (fun acc cmd =>
    match cmd with
    | Create st => acc ++ [st]
    | Clear => []
    end) cmds current.

(** The values of [create] and [write]; [None]: the key is absent. *)
Record vals := {
  vals_name : option string;
  vals_status_ids : option (list command);
  vals_required_statuses : option string;
}.

(** The ORM's [write] of one record. *)
Definition apply_vals (v : vals) (r : Repository.row) : Repository.row :=
  {| Repository.name := default (Repository.name r) (vals_name v);
     Repository.status_ids :=
       match vals_status_ids v with
       | Some cmds => run cmds (Repository.status_ids r)
       | None => Repository.status_ids r
       end |}.

Definition set_repository (v : gmap Z Repository.row) (db : DB) : DB :=
  {| project := project db; branch := branch db; repository := v;
     partner := partner db; review := review db; commit := commit db;
     batch := batch db; pull_requests := pull_requests db;
     stagings := stagings db; split := split db;
     feedback := feedback db; fetch_job := fetch_job db;
     tagging := tagging db |}.

Definition statuses_of_text (st : string) : list command :=
  map (fun c => Create (of_context c)) (str_split comma st).

(** [create]: the id of the new repository comes with the database. *)
Definition create (v : vals) (db : DB) : DB * Z :=
  let v :=
    match vals_status_ids v with
    | Some _ => v
    | None =>
      let st := default "legal/cla,ci/runbot" (vals_required_statuses v) in
      if bool_decide (st = "") then v
      else {| vals_name := vals_name v;
              vals_status_ids := Some (statuses_of_text st);
              vals_required_statuses := None |}
    end in
  let i := fresh_id (repository db) in
  (set_repository
     (<[ i := apply_vals v {| Repository.name := ""; Repository.status_ids := [] |} ]>
        (repository db)) db, i).

Definition write (self : list Z) (v : vals) (db : DB) : DB :=
  let v :=
    match vals_required_statuses v with
    | Some st =>
      if bool_decide (st = "") then v
      else {| vals_name := vals_name v;
              vals_status_ids := Some (Clear :: statuses_of_text st);
              vals_required_statuses := None |}
    | None => v
    end in
  set_repository
    (fold_left (fun m i => alter (apply_vals v) i m) self (repository db)) db.

End Repositories.

(** ** Pull requests: fields computed on demand *)

Module PullRequestFields.
Import PullRequest.

Definition colon : Ascii.ascii := Ascii.ascii_of_nat 58.

(** [s.split(sep, 1)], for a separator of one character. *)
Fixpoint split_once (sep : Ascii.ascii) (s : string) : list string :=
  match s with
  | EmptyString => [""]
  | String c s' =>
    if Ascii.eqb c sep then [""; s']
    else match split_once sep s' with
         | x :: l => String c x :: l
         | [] => [String c ""]
         end
  end.

(** The value of [refname]: [label.split(':', 1)[-1]]. *)
Definition _compute_refname (pr : row) : string :=
  List.last (split_once colon (label pr)) "".

(** The first requirement which a pull request of a batch does not
    meet, [prs] being the pull requests of that batch. *)
Definition unmet (db : DB) (prs : list Z) (p : row) : option string :=
  if draft p then Some "is in draft"
  else if negb (squash p || PullRequests.truthy (merge_method p))
  then Some "has no merge method"
  else if negb (bool_decide (state p = "ready") ||
                default false (Batch.skipchecks <$> PullRequests.batch_of db p) &&
                forallb (fun q => bool_decide (PullRequestMethods.state_of db q ≠ "error")) prs)
  then Some "is not ready"
  else None.

(** The value of [blocked] for the pull request [i], [None] being
    [False]; [prs] is [pr.batch_id.prs], in the order of the model. *)
Definition _compute_is_blocked (db : DB) (prs : list Z) (i : Z) (pr : row)
  : option string :=
  if bool_decide (state pr = "merged") || bool_decide (state pr = "closed") then None
  else
    match first_some (fun blocking =>
            pull_requests db !! blocking ≫= fun r =>
            unmet db prs r ≫= fun message => Some (blocking, message)) prs with
    | None => None
    | Some (blocking, message) =>
      if bool_decide (blocking = i) then Some message
      else Some ("linked PR " +:+ pr_display_name db blocking +:+ " " +:+ message)
    end.

End PullRequestFields.

(** ** Pull requests: looking one up, or fetching it *)

Module PullRequestFetch.

Section Methods.
(** [project._has_branch(name)], for the project of the repositories
    [repo]. *)
Variable has_branch : DB -> list Z -> string -> bool.
(** The text of the template [runbot_merge.pr.fetch.unmanaged] for a
    repository, a branch and a number. *)
Variable format_unmanaged : DB -> Z -> string -> Z -> string.

(** [_get_or_schedule]: the pull request when it is known, else
    nothing, a fetch job being queued unless one waits already. The
    rows of [fetch_job] are the active ones, which [search] sees. *)
Definition _get_or_schedule (repo_name : string) (number : Z)
  (target : option string) (closing : bool) (db : DB) : outcome (DB * list Z) :=
  let repo := (map_to_list (filter (fun kv : Z * Repository.row =>
                 Repository.name kv.2 = repo_name) (repository db))).*1 in
  match repo with
  | [] => Done (db, [])
  | _ =>
    let unmanaged :=
      match target with
      | Some t => negb (bool_decide (t = "")) && negb (has_branch db repo t)
      | None => false
      end in
    r <<- PullRequests.record_id repo ;;
    match r with
    | None => Done (db, [])
    | Some r =>
      if unmanaged then
        Done (set_feedback (feedback db ++
                [{| Feedback.repository := r;
                    Feedback.pull_request := number;
                    Feedback.message :=
                      Some (format_unmanaged db r (default "" target) number);
                    Feedback.close := false |}]) db, [])
      else
        let pr := (map_to_list (filter (fun kv : Z * PullRequest.row =>
                     PullRequest.repository kv.2 = r /\
                     PullRequest.number kv.2 = number) (pull_requests db))).*1 in
        match pr with
        | _ :: _ => Done (db, pr)
        | [] =>
          if existsb (fun f : FetchJob.row =>
               bool_decide (FetchJob.repository f = r) &&
               bool_decide (FetchJob.number f = number)) (fetch_job db)
          then Done (db, [])
          else Done (set_fetch_job (fetch_job db ++
                       [{| FetchJob.repository := r;
                           FetchJob.number := number;
                           FetchJob.closing := closing |}]) db, [])
        end
    end
  end.

End Methods.
End PullRequestFetch.

(** ** Tags *)

Module Taggings.

(** The tags of a state ([_TAGS]); [None] is the key [False]. *)
Definition _TAGS (state : option string) : option (gset string) :=
  let opened : gset string := {[ "seen 🙂" ]} in
  let validated : gset string := opened ∪ {[ "CI 🤖" ]} in
  let approved : gset string := opened ∪ {[ "r+ 👌" ]} in
  let ready : gset string := validated ∪ approved in
  match state with
  | None => Some ∅
  | Some s =>
    if bool_decide (s = "opened") then Some opened
    else if bool_decide (s = "validated") then Some validated
    else if bool_decide (s = "approved") then Some approved
    else if bool_decide (s = "ready") then Some ready
    else if bool_decide (s = "staged") then Some (ready ∪ {[ "merging 👷" ]})
    else if bool_decide (s = "merged") then Some (ready ∪ {[ "merged 🎉" ]})
    else if bool_decide (s = "error") then Some (opened ∪ {[ "error 🙅" ]})
    else if bool_decide (s = "closed") then Some (opened ∪ {[ "closed 💔" ]})
    else None
  end.

Definition ALL_TAGS : gset string :=
  ⋃ omap _TAGS [None; Some "opened"; Some "validated"; Some "approved";
                Some "ready"; Some "staged"; Some "merged"; Some "error";
                Some "closed"].

(** The values of [create]; [None]: the key is absent. *)
Record vals := {
  state_from : option (option string);
  state_to : option (option string);
  vals_tags_remove : option (gset string);
  vals_tags_add : option (gset string);
}.

(** [create]: the tags to remove and to add of the new row, the
    default of both columns being the empty list. *)
Definition create (v : vals) : outcome (gset string * gset string) :=
  let remove :=
    match state_from v with
    | Some (Some s) => if bool_decide (s = "") then vals_tags_remove v else Some ALL_TAGS
    | _ => vals_tags_remove v
    end in
  add <<- match state_to v with
          | Some s =>
            match _TAGS s with
            | Some tags => Done (Some tags)
            | None => Raised (KeyError (default "" s))
            end
          | None => Done (vals_tags_add v)
          end ;;
  Done (default ∅ remove, default ∅ add).

(** The loop of [_send] over the rows queued for one pull request: the
    tags to remove and to add in the end. *)
Definition fold_tags (rows : list (gset string * gset string))
  : gset string * gset string :=
  fold_left (fun acc (row : gset string * gset string) =>
    (acc.1 ∪ row.1, (acc.2 ∖ row.1) ∪ row.2)) rows (∅, ∅).

End Taggings.

(** * Vocabulary of the properties *)

(** The state machine, in the words of the specification. *)
Definition state_chain (merge_date_set is_closed in_error skips has_reviewer success : bool) : string :=
  if merge_date_set then "merged"
  else if is_closed then "closed"
  else if in_error then "error"
  else if skips then "ready"
  else match has_reviewer, success with
       | false, false => "opened"
       | false, true => "validated"
       | true, false => "approved"
       | true, true => "ready"
       end.

(** [ancestry db self chain]: [chain] holds the rows of [self] and of
    its ancestors through [parent_id], the nearest first. *)
Inductive ancestry (db : DB) : option Z -> list PullRequest.row -> Prop :=
| ancestry_end self :
    self ≫= (fun i => pull_requests db !! i) = None ->
    ancestry db self []
| ancestry_step i pr chain :
    pull_requests db !! i = Some pr ->
    ancestry db (PullRequest.parent_id pr) chain ->
    ancestry db (Some i) (pr :: chain).

(** The overrides of a chain, those of the nearest record winning. *)
Definition inherited_overrides (chain : list PullRequest.row) : status_dict :=
  foldr (fun pr acc => PullRequest.overrides pr ∪ acc) ∅ chain.

(** The aggregate of the reported states, in the words of the
    specification: failure first, then pending, else success. *)
Definition spec_aggregate (reported : list string) : string :=
  if existsb PullRequests.is_failure reported then "failure"
  else if existsb (fun v => bool_decide (v = "pending")) reported then "pending"
  else "success".

(** Forward ports: [q] is a child of [p], a descendant of [p]. *)
Definition child_of (db : DB) (p q : Z) : Prop :=
  exists r, pull_requests db !! q = Some r /\ PullRequest.parent_id r = Some p.

Inductive descendant (db : DB) (p : Z) : Z -> Prop :=
| descendant_child q : child_of db p q -> descendant db p q
| descendant_step r q : descendant db p r -> child_of db r q -> descendant db p q.

(** [descent db p chain]: below [p] there is one line of forward ports,
    [chain], each the only child of the one before, the last without
    child. *)
Inductive descent (db : DB) : Z -> list Z -> Prop :=
| descent_end p :
    PullRequests.search_parent db (Some p) = [] -> descent db p []
| descent_step p c chain :
    PullRequests.search_parent db (Some p) = [c] ->
    descent db c chain ->
    descent db p (c :: chain).

(** Two databases which differ by their stagings at most. *)
Definition same_but_stagings (d d' : DB) : Prop :=
  project d' = project d /\ branch d' = branch d /\ repository d' = repository d /\
  partner d' = partner d /\ review d' = review d /\ commit d' = commit d /\
  batch d' = batch d /\ pull_requests d' = pull_requests d /\ split d' = split d /\
  feedback d' = feedback d /\ fetch_job d' = fetch_job d /\ tagging d' = tagging d.

(** The row [s'] of a staging [s] after the values [v] were written. *)
Definition written (v : Stagings.vals) (s s' : Staging.row) : Prop :=
  Staging.target s' = Staging.target s /\
  Staging.batch_ids s' = Staging.batch_ids s /\
  Staging.staged_at s' = Staging.staged_at s /\
  Staging.heads s' = Staging.heads s /\
  Staging.commits s' = Staging.commits s /\
  Staging.state s' = default (Staging.state s) (Stagings.vals_state v) /\
  Staging.active s' = default (Staging.active s) (Stagings.vals_active v) /\
  Staging.reason s' = default (Staging.reason s) (Stagings.vals_reason v) /\
  Staging.timeout_limit s' = default (Staging.timeout_limit s) (Stagings.vals_timeout_limit v).

(** The states observed by a validation. *)
Definition is_pending (v : option string) : bool := bool_decide (v = Some "pending").

Definition benign (v : option string) : bool :=
  bool_decide (v = None) || is_pending v || bool_decide (v = Some "success").

Definition valid (v : option string) : bool := benign v || Stagings.in_failure v.

(** The observations made before the first error or failure. *)
Fixpoint before_failure (vs : list (option string)) : list (option string) :=
  match vs with
  | [] => []
  | v :: vs => if Stagings.in_failure v then [] else v :: before_failure vs
  end.

(** The state of a staging after a validation, in the words of the
    specification. *)
Definition spec_staging_state (vs : list (option string)) : string :=
  if existsb Stagings.in_failure vs then "failure"
  else if existsb (fun v => bool_decide (v = None) || is_pending v) vs then "pending"
  else "success".

(** The loop of a validation on an outcome. *)
Definition loop_o (acc : outcome (string * bool)) (vs : list (option string)) :=
  fold_left (fun acc v => a <<- acc ;; Stagings.validate_step a v) vs acc.

(** A step of the fast-forward protocol which leaves all branches but
    [tmp] as they are. *)
Definition keeps_branches (tmp : string) (w w' : World) : Prop :=
  ff_fate w' = ff_fate w /\
  forall repo branch, branch <> tmp -> refs w' repo branch = refs w repo branch.

(** A pause which is slept. *)
Definition nonzero (q : Q) : bool := negb (Qeq_bool q 0).


(** Two databases which differ by their pull requests at most. *)
Definition same_but_prs (d d' : DB) : Prop :=
  project d' = project d /\ branch d' = branch d /\ repository d' = repository d /\
  partner d' = partner d /\ review d' = review d /\ commit d' = commit d /\
  batch d' = batch d /\ stagings d' = stagings d /\ split d' = split d /\
  feedback d' = feedback d /\ fetch_job d' = fetch_job d /\ tagging d' = tagging d.

(** The pull requests stay, the row of each related to what it was. *)
Definition rows_rel (R : Z -> PullRequest.row -> PullRequest.row -> Prop)
  (d d' : DB) : Prop :=
  forall j r, pull_requests d !! j = Some r ->
    exists r', pull_requests d' !! j = Some r' /\ R j r r'.

Definition row_preorder (R : Z -> PullRequest.row -> PullRequest.row -> Prop) : Prop :=
  (forall j r, R j r r) /\
  (forall j r1 r2 r3, R j r1 r2 -> R j r2 r3 -> R j r1 r3).

(** The rows of [touched] keep the column [col], the others are
    untouched. *)
Definition keeps {A} (col : PullRequest.row -> A) (touched : list Z)
  (j : Z) (r r' : PullRequest.row) : Prop :=
  if bool_decide (j ∈ touched) then col r' = col r else r' = r.

(** The state of a pull request without reviewer nor error, in a batch
    which does not skip the checks. *)
Definition unreviewed_state (brow : Batch.row) (pr : PullRequest.row) : string :=
  if PullRequests.truthy (Batch.merge_date brow) then "merged"
  else if PullRequest.closed pr then "closed"
  else if bool_decide (PullRequest.status pr = "success") then "validated"
  else "opened".

(** The batches which [_get_batch] searches: the open batches of a
    target which hold a pull request of a label. *)
Definition open_batches (target : Z) (label : string) (db : DB) : list Z :=
  (map_to_list (filter (fun kv : Z * Batch.row =>
     Batch.merge_date kv.2 = None /\ Batch.target kv.2 = target /\
     existsb (fun p => bool_decide
                (PullRequest.label <$> pull_requests db !! p = Some label))
             (prs_of_batches db [kv.1]) = true)
     (batch db))).*1.

(** A label of ASCII characters on one line: on these [is_patch_label]
    is the regular expression of the source, whose [\d] and [$] see more
    in other texts. *)
Definition plain_label (label : string) : bool :=
  forallb (fun c => (Ascii.nat_of_ascii c <? 128)%nat &&
                    negb (Ascii.eqb c (Ascii.ascii_of_nat 10)))
          (String.list_ascii_of_string label).

(** The state which a context reports in a dictionary of statuses: the
    [state] of its entry, [pending] when the entry is missing or
    empty. *)
Definition reports_state (full : status_dict) (ctx v : string) : Prop :=
  match full !! ctx with
  | Some e => if bool_decide (e = ∅) then v = "pending" else e !! "state" = Some v
  | None => v = "pending"
  end.

(** [lineage db p l q]: from [p] down to [q] each pull request has one
    forward port, the next of [l]. *)
Inductive lineage (db : DB) : Z -> list Z -> Z -> Prop :=
| lineage_end p : lineage db p [] p
| lineage_step p c l q :
    PullRequests.search_parent db (Some p) = [c] ->
    lineage db c l q ->
    lineage db p (c :: l) q.

(** * Sample data *)

Definition reported (s : string) : status_entry := {[ "state" := s ]}.

Definition sample_pr (n : Z) (parent : option Z) (ov sts : status_dict)
  : PullRequest.row :=
  {| PullRequest.number := n; PullRequest.repository := 1;
     PullRequest.target := 1; PullRequest.author := Some 9;
     PullRequest.head := "h"; PullRequest.label := "dev:fix";
     PullRequest.message := "m"; PullRequest.draft := false;
     PullRequest.squash := false; PullRequest.merge_method := Some "merge";
     PullRequest.reviewed_by := None; PullRequest.closed := false;
     PullRequest.error := false; PullRequest.overrides := ov;
     PullRequest.statuses := sts; PullRequest.statuses_full := ∅;
     PullRequest.status := "pending"; PullRequest.state := "opened";
     PullRequest.parent_id := parent; PullRequest.source_id := None;
     PullRequest.batch_id := None; PullRequest.commits_map := ∅;
     PullRequest.previous_failure := ∅ |}.

Definition required (c : string) : StatusConfiguration.row :=
  {| StatusConfiguration.context := c;
     StatusConfiguration.branch_filter := None;
     StatusConfiguration.prs := true; StatusConfiguration.stagings := true |}.

Definition sample_batch : Batch.row :=
  {| Batch.target := 1; Batch.skipchecks := false;
     Batch.cancel_staging := false; Batch.priority := "default";
     Batch.merge_date := None; Batch.fw_policy := "default";
     Batch.split_id := None; Batch.blocked := None |}.

Definition sample_staging (st : string) (act : bool) (batches : list Z)
  (cs : list StagingCommits.row) : Staging.row :=
  {| Staging.target := 1; Staging.batch_ids := batches; Staging.state := st;
     Staging.active := act; Staging.staged_at := 0;
     Staging.timeout_limit := 1000; Staging.reason := None;
     Staging.heads := cs; Staging.commits := cs;
     Staging.statuses_cache := None |}.

Definition sample_commit (sha : string) (sts : status_dict) : Commit.row :=
  {| Commit.sha := sha; Commit.statuses := sts; Commit.to_check := false |}.

Definition head_of (c r : Z) : StagingCommits.row :=
  {| StagingCommits.commit_id := c; StagingCommits.repository_id := r |}.

Definition base_db : DB :=
  {| project := {[ 1 := {| Project.ci_timeout := 120 |} ]};
     branch := {[ 1 := {| Branch.name := "master"; Branch.project_id := 1 |} ]};
     repository :=
       {[ 1 := {| Repository.name := "odoo";
                  Repository.status_ids := [required "ci"; required "lint"] |};
          2 := {| Repository.name := "enterprise";
                  Repository.status_ids := [required "ci"] |} ]};
     partner := ∅; review := []; commit := ∅; batch := ∅;
     pull_requests := ∅; stagings := ∅; split := ∅;
     feedback := []; fetch_job := []; tagging := [] |}.

Definition pr1 : PullRequest.row :=
  sample_pr 1 None {[ "ci" := reported "success" ]} ∅.

Definition pr2 : PullRequest.row :=
  sample_pr 2 (Some 1) {[ "lint" := reported "success" ]}
    {[ "ci" := reported "failure"; "lint" := reported "failure" ]}.

Definition pr3 : PullRequest.row := sample_pr 3 (Some 2) ∅ ∅.

Definition chain_db : DB :=
  set_pull_requests {[ 1 := pr1; 2 := pr2; 3 := pr3 ]} base_db.

Definition staging_db (st : string) (act : bool) (sts : status_dict) : DB :=
  set_stagings {[ 1 := sample_staging st act [1; 2; 3; 4] [head_of 1 1; head_of 2 2] ]}
    (set_batch {[ 1 := sample_batch; 2 := sample_batch; 3 := sample_batch;
                  4 := sample_batch ]}
      (set_commit {[ 1 := sample_commit "abc" sts;
                     2 := sample_commit "def" {[ "ci" := reported "success" ]} ]}
         base_db)).

Definition no_percent (reason : string) (args : list string) : string := reason.

Definition no_template (xmlid : string) (d : DB) (pr : Z) (args : list string)
  : string := xmlid.

Definition no_freeze (d : DB) (b : Z) : option string := None.

Definition sample_env (d : DB) : Env :=
  {| db := d; committed := d; change_author := None; change_message := None;
     precommit_unlink := [] |}.

Definition pending_staging : Staging.row :=
  sample_staging "pending" true [1; 2; 3; 4] [head_of 1 1; head_of 2 2].

Definition sample_world (fate : nat -> option string) : World :=
  {| refs := fun _ _ => "old"; ff_calls := 0; ff_fate := fate; slept := [] |}.

Definition success_env : Env := sample_env (staging_db "success" true ∅).

Definition flaky (n : nat) : option string :=
  if (n =? 1)%nat then Some "timeout" else None.

Definition after_first : World :=
  Github.set_ref "odoo" "master" "abc"
    {| refs := fun _ _ => "old"; ff_calls := 1; ff_fate := flaky; slept := [] |}.

Definition sample_partner : Partner.row :=
  {| Partner.name := "Reviewer"; Partner.github_login := "rev";
     Partner.email := Some "rev@example.com"; Partner.override_rights := [];
     Partner.delegate_reviewer := {[ 1 ]} |}.

Definition command_db : DB :=
  set_partner {[ 7 := sample_partner ]}
    (set_pull_requests {[ 1 := sample_pr 1 None ∅ ∅ ]} base_db).

Definition sample_str (c : command) : string :=
  match c with
  | Approve _ => "review+"
  | SkipChecks => "skipchecks"
  | _ => "command"
  end.



Definition sample_limit (d : DB) (i : Z) (b : string) : DB * (bool * string) :=
  (d, (false, "")).

Definition sample_comment : Comment :=
  {| body := Some "robot r+ skipchecks"; html_url := "https://example.com/1" |}.

Definition sample_vars : PullRequestMethods.vars :=
  {| PullRequestMethods.login := "rev";
     PullRequestMethods.source_reviewer := false;
     PullRequestMethods.source_author := false |}.



Definition sample_new_batch (target : Z) : Batch.row := sample_batch.

(** A pull request of a repository, in a batch. *)
Definition batched_pr (n repo : Z) (b : option Z) : PullRequest.row :=
  {| PullRequest.number := n; PullRequest.repository := repo;
     PullRequest.target := 1; PullRequest.author := Some 9;
     PullRequest.head := "h"; PullRequest.label := "dev:fix";
     PullRequest.message := "m"; PullRequest.draft := false;
     PullRequest.squash := false; PullRequest.merge_method := Some "merge";
     PullRequest.reviewed_by := None; PullRequest.closed := false;
     PullRequest.error := false; PullRequest.overrides := ∅;
     PullRequest.statuses := ∅; PullRequest.statuses_full := ∅;
     PullRequest.status := "pending"; PullRequest.state := "opened";
     PullRequest.parent_id := None; PullRequest.source_id := None;
     PullRequest.batch_id := b; PullRequest.commits_map := {[ "" := "abc" ]};
     PullRequest.previous_failure := ∅ |}.

(** A staging of one batch of two pull requests, one per repository. *)
Definition single_db (st : string) (sts : status_dict) : DB :=
  set_stagings {[ 1 := sample_staging st true [1] [head_of 1 1; head_of 2 2] ]}
    (set_batch {[ 1 := sample_batch ]}
      (set_commit {[ 1 := sample_commit "abc" sts;
                     2 := sample_commit "def" {[ "ci" := reported "success" ]} ]}
        (set_pull_requests {[ 1 := batched_pr 1 1 (Some 1);
                              2 := batched_pr 2 2 (Some 1) ]} base_db))).

Definition single_staging (st : string) : Staging.row :=
  sample_staging st true [1] [head_of 1 1; head_of 2 2].

(** A partner who may override [ci] on repository 1 and [lint] on
    repository 2. *)
Definition overrider : Partner.row :=
  {| Partner.name := "Overrider"; Partner.github_login := "ovr";
     Partner.email := Some "ovr@example.com";
     Partner.override_rights :=
       [{| OverrideRights.context := "ci"; OverrideRights.repository_id := Some 1 |};
        {| OverrideRights.context := "lint"; OverrideRights.repository_id := Some 2 |}];
     Partner.delegate_reviewer := ∅ |}.

Definition override_db : DB :=
  set_partner {[ 7 := overrider ]}
    (set_pull_requests
       {[ 1 := sample_pr 1 None ∅ {[ "ci" := reported "failure";
                                     "lint" := reported "success" ]} ]} base_db).

(** A pull request whose first required context has failed, the second
    being overridden. *)
Definition failed_pr : PullRequest.row :=
  sample_pr 5 None {[ "lint" := reported "success" ]}
    {[ "ci" := reported "failure"; "lint" := reported "pending" ]}.

Definition failed_db : DB :=
  set_pull_requests {[ 5 := failed_pr ]} base_db.

(** An inherited [modified] which schedules nothing more. *)
Definition no_super_modified (self : list Z) (fnames : list string)
  (tocompute : gmap string (gset Z)) : gmap string (gset Z) := tocompute.

(** Two forward ports of the same pull request. *)
Definition forked_db : DB :=
  set_pull_requests {[ 1 := pr1; 2 := pr2; 3 := sample_pr 3 (Some 1) ∅ ∅ ]} base_db.


(** * Properties *)

(** ** The state of a pull request *)

Section StateAndStatus.
Import PullRequest.

Lemma compute_state_value_chain db pr :
  PullRequests.compute_state_value db pr =
  state_chain (PullRequests.truthy (PullRequests.batch_of db pr ≫= Batch.merge_date))
              (closed pr) (error pr)
              (default false (Batch.skipchecks <$> PullRequests.batch_of db pr))
              (PullRequests.truthy (reviewed_by pr))
              (bool_decide (status pr = "success")).
Proof.
  unfold PullRequests.compute_state_value, state_chain.
  repeat case_match; try reflexivity.
Qed.

Lemma compute_state_value_ext db db' pr s :
  batch db' = batch db ->
  PullRequests.compute_state_value db' (set_state s pr) =
  PullRequests.compute_state_value db pr.
Proof.
  intros Hb. unfold PullRequests.compute_state_value, PullRequests.batch_of.
  simpl. rewrite Hb. reflexivity.
Qed.

Lemma compute_state_value_batch db db' pr :
  batch db' = batch db ->
  PullRequests.compute_state_value db' pr = PullRequests.compute_state_value db pr.
Proof.
  intros Hb. unfold PullRequests.compute_state_value, PullRequests.batch_of.
  rewrite Hb. reflexivity.
Qed.

Lemma pr_update_lookup i j f db :
  pull_requests (PullRequests.update i f db) !! j =
  if bool_decide (i = j) then f <$> pull_requests db !! j else pull_requests db !! j.
Proof.
  unfold PullRequests.update. simpl. rewrite lookup_alter.
  case_decide; case_bool_decide; congruence.
Qed.

Lemma elem_of_snoc_ne (done : list Z) i j : i <> j -> j ∈ done ++ [i] <-> j ∈ done.
Proof.
  intros Hij. rewrite elem_of_app, list_elem_of_singleton. intuition congruence.
Qed.

Lemma compute_state_fold self : forall db0 db done,
  batch db = batch db0 ->
  (forall j, pull_requests db !! j =
     (fun pr => if bool_decide (j ∈ done)
                then set_state (PullRequests.compute_state_value db0 pr) pr else pr)
       <$> pull_requests db0 !! j) ->
  let db' := fold_left (fun db i =>
    match pull_requests db !! i with
    | Some pr => PullRequests.update i (set_state (PullRequests.compute_state_value db pr)) db
    | None => db
    end) self db in
  batch db' = batch db0 /\
  forall j, pull_requests db' !! j =
     (fun pr => if bool_decide (j ∈ done ++ self)
                then set_state (PullRequests.compute_state_value db0 pr) pr else pr)
       <$> pull_requests db0 !! j.
Proof.
  induction self as [|i self IH]; intros db0 db done Hb Hl; simpl.
  - split; [done|]. intros j. rewrite Hl. rewrite app_nil_r. done.
  - assert (Hassoc : forall j, (j ∈ (done ++ [i]) ++ self) <-> (j ∈ done ++ i :: self)).
    { intros j. rewrite <- app_assoc. done. }
    destruct (pull_requests db !! i) as [pr|] eqn:Hi.
    + destruct (IH db0 (PullRequests.update i (set_state (PullRequests.compute_state_value db pr)) db) (done ++ [i])) as [H1 H2].
      * simpl. done.
      * intros j. rewrite pr_update_lookup. case_bool_decide as Hij.
        -- subst j. rewrite Hl in Hi |- *.
           destruct (pull_requests db0 !! i) as [pr0|] eqn:H0; simpl in *; [|done].
           inversion Hi; subst pr; clear Hi.
           rewrite (bool_decide_eq_true_2 (i ∈ done ++ [i])).
           2:{ rewrite elem_of_app, list_elem_of_singleton. auto. }
           f_equal. case_bool_decide.
           ++ rewrite (compute_state_value_ext db0 db) by done. done.
           ++ rewrite (compute_state_value_batch db0 db) by done. done.
        -- rewrite Hl. rewrite (bool_decide_ext _ _ (elem_of_snoc_ne done i j Hij)). done.
      * split; [done|]. intros j. rewrite H2.
        rewrite (bool_decide_ext _ _ (Hassoc j)). done.
    + destruct (IH db0 db (done ++ [i])) as [H1 H2]; [done| |].
      * intros j. rewrite Hl. destruct (decide (i = j)) as [<-|Hij].
        -- rewrite Hl in Hi. destruct (pull_requests db0 !! i); done.
        -- rewrite (bool_decide_ext _ _ (elem_of_snoc_ne done i j Hij)). done.
      * split; [done|]. intros j. rewrite H2.
        rewrite (bool_decide_ext _ _ (Hassoc j)). done.
Qed.

Lemma compute_state_lookup db self j :
  pull_requests (PullRequests._compute_state db self) !! j =
  (fun pr => if bool_decide (j ∈ self)
             then set_state (PullRequests.compute_state_value db pr) pr else pr)
    <$> pull_requests db !! j.
Proof.
  destruct (compute_state_fold self db db []) as [_ H].
  - done.
  - intros k. rewrite bool_decide_eq_false_2 by apply not_elem_of_nil.
    destruct (pull_requests db !! k); done.
  - apply H.
Qed.

(** C1. [_compute_state] follows the priority chain: the state of
    every pull request of the recordset is [merged] when its batch has a
    merge date, else [closed] when it is closed, else [error] when it is
    in error, else [ready] when its batch skips the checks, else it is
    given by the reviewer and the status: opened, validated, approved or
    ready. *)
Theorem compute_state_priority_chain db self i pr :
  i ∈ self ->
  pull_requests db !! i = Some pr ->
  exists pr',
    pull_requests (PullRequests._compute_state db self) !! i = Some pr' /\
    state pr' =
      state_chain (PullRequests.truthy (PullRequests.batch_of db pr ≫= Batch.merge_date))
                  (closed pr) (error pr)
                  (default false (Batch.skipchecks <$> PullRequests.batch_of db pr))
                  (PullRequests.truthy (reviewed_by pr))
                  (bool_decide (status pr = "success")).
Proof.
  intros Hin Hi. rewrite compute_state_lookup, Hi. simpl.
  rewrite bool_decide_eq_true_2 by done.
  eexists. split; [reflexivity|]. simpl. apply compute_state_value_chain.
Qed.

Lemma compute_state_priority_chain_witness :
  2 ∈ [2] /\ pull_requests chain_db !! 2 = Some pr2 /\
  exists pr', pull_requests (PullRequests._compute_state chain_db [2]) !! 2 = Some pr' /\
              PullRequest.state pr' = "opened".
Proof.
  assert (H1 : 2 ∈ [2]) by (apply list_elem_of_singleton; reflexivity).
  assert (H2 : pull_requests chain_db !! 2 = Some pr2) by reflexivity.
  split; [exact H1|]. split; [exact H2|].
  destruct (compute_state_priority_chain chain_db [2] 2 pr2 H1 H2) as (pr' & Hl & Hs).
  exists pr'. split; [exact Hl|]. rewrite Hs. reflexivity.
Defined.

(** ** The status of a pull request *)

Lemma get_overrides_chain db self chain :
  ancestry db self chain ->
  forall fuel, (length chain < fuel)%nat ->
  PullRequests._get_overrides fuel db self = Done (inherited_overrides chain).
Proof.
  induction 1 as [self Hnone | i pr chain Hi Hanc IH]; intros fuel Hfuel.
  - destruct fuel as [|fuel]; [simpl in Hfuel; lia|]. simpl. rewrite Hnone. done.
  - destruct fuel as [|fuel]; [simpl in Hfuel; lia|]. simpl in *. rewrite Hi.
    destruct (parent_id pr) as [p|] eqn:Hp.
    + rewrite IH by lia. simpl. done.
    + inversion Hanc; subst. simpl. unfold dict_merge.
      rewrite (right_id_L ∅ (∪)). done.
Qed.

Lemma inherited_own ctx e pr chain :
  overrides pr !! ctx = Some e -> inherited_overrides (pr :: chain) !! ctx = Some e.
Proof. intros H. simpl. apply lookup_union_Some_l. done. Qed.

Lemma inherited_skip ctx l1 l2 :
  (forall b, b ∈ l1 -> overrides b !! ctx = None) ->
  inherited_overrides (l1 ++ l2) !! ctx = inherited_overrides l2 !! ctx.
Proof.
  induction l1 as [|b l1 IH]; intros H; simpl; [done|].
  rewrite lookup_union_r.
  - apply IH. intros b' Hb'. apply H. apply elem_of_cons. auto.
  - apply H. apply elem_of_cons. auto.
Qed.

Lemma inherited_none ctx l :
  (forall b, b ∈ l -> overrides b !! ctx = None) ->
  inherited_overrides l !! ctx = None.
Proof.
  intros H. rewrite <- (app_nil_r l). rewrite inherited_skip by done. done.
Qed.

Lemma aggregate_short_circuit full l1 c l2 v st :
  Forall (fun x => exists w, PullRequests.ci_state full (StatusConfiguration.context x) = Done w /\
                             PullRequests.is_failure w = false) l1 ->
  PullRequests.ci_state full (StatusConfiguration.context c) = Done v ->
  PullRequests.is_failure v = true ->
  PullRequests.aggregate full (l1 ++ c :: l2) st = Done "failure".
Proof.
  intros Hl1 Hc Hv. revert st.
  induction Hl1 as [|x l1 (w & Hw & Hf) _ IH]; intros st; simpl.
  - rewrite Hc. simpl. rewrite Hv. done.
  - rewrite Hw. simpl. rewrite Hf. case_bool_decide; apply IH.
Qed.

Lemma aggregate_all full cis : forall vs st,
  Forall2 (fun c v => PullRequests.ci_state full (StatusConfiguration.context c) = Done v) cis vs ->
  PullRequests.aggregate full cis st =
  Done (if existsb PullRequests.is_failure vs then "failure"
        else if existsb (fun v => bool_decide (v = "pending")) vs then "pending"
        else st).
Proof.
  induction cis as [|c cis IH]; intros vs st H; inversion H; subst; simpl; [done|].
  rewrite H2. simpl. destruct (PullRequests.is_failure y) eqn:Hf; simpl; [done|].
  case_bool_decide; simpl.
  - rewrite (IH _ _ H4). repeat case_match; done.
  - apply IH. done.
Qed.

Lemma compute_statuses_one fuel db i pr chain st :
  ancestry db (Some i) (pr :: chain) ->
  (S (length chain) < fuel)%nat ->
  let full := dict_merge (statuses pr) (inherited_overrides (pr :: chain)) in
  PullRequests.aggregate full (PullRequests.required_for_pr db pr) "success" = Done st ->
  exists db',
    PullRequests._compute_statuses fuel db [i] = Done db' /\
    pull_requests db' !! i = Some (set_status st (set_statuses_full full pr)).
Proof.
  intros Hanc Hfuel full Hagg.
  assert (Hi : pull_requests db !! i = Some pr) by (inversion Hanc; done).
  unfold PullRequests._compute_statuses. simpl. rewrite Hi.
  rewrite (get_overrides_chain _ _ _ Hanc) by (simpl; lia). simpl.
  change (overrides pr ∪ inherited_overrides chain)
    with (inherited_overrides (pr :: chain)).
  fold full.
  change (PullRequests.required_for_pr
            (PullRequests.update i (set_statuses_full full) db) pr)
    with (PullRequests.required_for_pr db pr).
  rewrite Hagg. simpl. eexists. split; [reflexivity|].
  rewrite !pr_update_lookup, !bool_decide_eq_true_2 by done.
  rewrite Hi. done.
Qed.

Lemma reports_state_ci_state full ctx v :
  reports_state full ctx v <-> PullRequests.ci_state full ctx = Done v.
Proof.
  unfold reports_state, PullRequests.ci_state, dict_truthy.
  destruct (full !! ctx) as [e|].
  - destruct (decide (e = ∅)) as [->|Hne].
    + rewrite bool_decide_eq_true_2 by done.
      rewrite (bool_decide_eq_false_2 (∅ ≠ ∅)) by (intros H; apply H; reflexivity).
      rewrite lookup_singleton_eq. split; [intros ->; reflexivity|intros [= <-]; reflexivity].
    + rewrite (bool_decide_eq_false_2 (e = ∅)) by done.
      rewrite (bool_decide_eq_true_2 (e ≠ ∅)) by done.
      destruct (e !! "state") as [w|]; split; try congruence; discriminate.
  - rewrite lookup_singleton_eq. split; [intros ->; reflexivity|intros [= <-]; reflexivity].
Qed.

Lemma aggregate_raises full l1 c l2 ex st :
  Forall (fun x => exists w, PullRequests.ci_state full (StatusConfiguration.context x) = Done w /\
                             PullRequests.is_failure w = false) l1 ->
  PullRequests.ci_state full (StatusConfiguration.context c) = Raised ex ->
  PullRequests.aggregate full (l1 ++ c :: l2) st = Raised ex.
Proof.
  intros Hl1 Hc. revert st.
  induction Hl1 as [|x l1 (w & Hw & Hf) _ IH]; intros st; simpl.
  - rewrite Hc. reflexivity.
  - rewrite Hw. simpl. rewrite Hf. case_bool_decide; apply IH.
Qed.

(** C2. [_compute_statuses] merges the statuses of the head with the
    overrides of the pull request and of its ancestors: an override wins
    over a status, the override of the pull request over those of its
    ancestors, a nearer ancestor over a farther one. Each context
    required of pull requests reports the state of its entry in the
    merged statuses, a missing or empty entry counting as pending. The
    status is [failure] from the first context in error or failure on,
    whatever follows; otherwise [pending] when a context is missing or
    pending; otherwise [success]. *)
Theorem compute_statuses_composite fuel db i pr chain :
  ancestry db (Some i) (pr :: chain) ->
  (S (length chain) < fuel)%nat ->
  let full := dict_merge (statuses pr) (inherited_overrides (pr :: chain)) in
  let required := PullRequests.required_for_pr db pr in
  let reports := fun c v => reports_state full (StatusConfiguration.context c) v in
  let result := fun st => exists db',
    PullRequests._compute_statuses fuel db [i] = Done db' /\
    pull_requests db' !! i = Some (set_status st (set_statuses_full full pr)) in
  (* overrides win, the nearest first *)
  (forall ctx e, overrides pr !! ctx = Some e -> full !! ctx = Some e) /\
  (forall ctx l1 a l2 e,
     chain = l1 ++ a :: l2 ->
     overrides pr !! ctx = None ->
     (forall b, b ∈ l1 -> overrides b !! ctx = None) ->
     overrides a !! ctx = Some e ->
     full !! ctx = Some e) /\
  (forall ctx,
     (forall b, b ∈ pr :: chain -> overrides b !! ctx = None) ->
     full !! ctx = statuses pr !! ctx) /\
  (* a context reports the state of its entry in the merged statuses, a
     missing context counting as pending *)
  (forall ctx v, reports_state full ctx v <-> PullRequests.ci_state full ctx = Done v) /\
  (forall ctx e v, full !! ctx = Some e -> e !! "state" = Some v ->
     PullRequests.ci_state full ctx = Done v) /\
  (forall ctx, full !! ctx = None -> PullRequests.ci_state full ctx = Done "pending") /\
  (* the first error or failure decides, whatever follows *)
  (forall l1 c l2 v,
     required = l1 ++ c :: l2 ->
     Forall (fun x => exists w, reports x w /\ PullRequests.is_failure w = false) l1 ->
     reports c v ->
     PullRequests.is_failure v = true ->
     result "failure") /\
  (* otherwise pending beats success *)
  (forall vs,
     Forall2 reports required vs ->
     result (spec_aggregate vs)) /\
  (* an entry without state met before any failure is an error *)
  (forall l1 c l2 e,
     required = l1 ++ c :: l2 ->
     Forall (fun x => exists w, reports x w /\ PullRequests.is_failure w = false) l1 ->
     full !! StatusConfiguration.context c = Some e -> e <> ∅ -> e !! "state" = None ->
     PullRequests._compute_statuses fuel db [i] = Raised (KeyError "state")).
Proof.
  intros Hanc Hfuel full required reports result.
  assert (Hrep : forall l, Forall (fun x => exists w, reports x w /\
                                     PullRequests.is_failure w = false) l ->
            Forall (fun x => exists w,
                      PullRequests.ci_state full (StatusConfiguration.context x) = Done w /\
                      PullRequests.is_failure w = false) l).
  { intros l Hl. eapply Forall_impl; [exact Hl|]. intros x (w & Hw & Hf). exists w.
    split; [apply reports_state_ci_state; exact Hw|exact Hf]. }
  split; [|split; [|split; [|split; [|split; [|split; [|split; [|split]]]]]]].
  - intros ctx e He. unfold full, dict_merge.
    apply lookup_union_Some_l. apply inherited_own. done.
  - intros ctx l1 a l2 e -> Hpr Hl1 Ha. unfold full, dict_merge.
    apply lookup_union_Some_l.
    change (pr :: l1 ++ a :: l2) with ((pr :: l1) ++ a :: l2).
    rewrite inherited_skip.
    + apply inherited_own. done.
    + intros b Hb. apply elem_of_cons in Hb as [->|Hb]; auto.
  - intros ctx Hall. unfold full, dict_merge.
    rewrite lookup_union_r; [done|]. apply inherited_none. done.
  - intros ctx v. apply reports_state_ci_state.
  - intros ctx e v He Hv. apply reports_state_ci_state. unfold reports_state.
    rewrite He. rewrite bool_decide_eq_false_2; [exact Hv|].
    intros ->. rewrite lookup_empty in Hv. discriminate Hv.
  - intros ctx Hnone. unfold PullRequests.ci_state. rewrite Hnone. reflexivity.
  - intros l1 c l2 v Hreq Hl1 Hc Hv.
    eapply compute_statuses_one; [done..|].
    fold full. fold required. rewrite Hreq.
    eapply aggregate_short_circuit; [apply Hrep; exact Hl1| |exact Hv].
    apply reports_state_ci_state. exact Hc.
  - intros vs Hvs.
    eapply compute_statuses_one; [done..|].
    fold full. fold required.
    rewrite (aggregate_all _ _ vs "success"); [done|].
    eapply Forall2_impl; [exact Hvs|]. intros c v Hcv.
    apply reports_state_ci_state. exact Hcv.
  - intros l1 c l2 e Hreq Hl1 He Hne Hst.
    assert (Hi : pull_requests db !! i = Some pr) by (inversion Hanc; done).
    unfold PullRequests._compute_statuses. simpl. rewrite Hi.
    rewrite (get_overrides_chain _ _ _ Hanc) by (simpl; lia). simpl.
    change (overrides pr ∪ inherited_overrides chain)
      with (inherited_overrides (pr :: chain)).
    fold full.
    change (PullRequests.required_for_pr
              (PullRequests.update i (set_statuses_full full) db) pr)
      with required.
    rewrite Hreq, (aggregate_raises full l1 c l2 (KeyError "state")); [reflexivity| |].
    + apply Hrep. exact Hl1.
    + unfold PullRequests.ci_state, dict_truthy. rewrite He.
      rewrite bool_decide_eq_true_2 by done. rewrite Hst. reflexivity.
Qed.

Lemma compute_statuses_composite_witness :
  ancestry chain_db (Some 2) [pr2; pr1] /\ (2 < 5)%nat /\
  (* the failures of the head are overridden *)
  (exists db', PullRequests._compute_statuses 5 chain_db [2] = Done db' /\
               PullRequest.status <$> pull_requests db' !! 2 = Some "success") /\
  (* a failure which is not overridden decides *)
  (exists db', PullRequests._compute_statuses 5 failed_db [5] = Done db' /\
               PullRequest.status <$> pull_requests db' !! 5 = Some "failure").
Proof.
  assert (H1 : ancestry chain_db (Some 2) [pr2; pr1]).
  { apply ancestry_step; [reflexivity|]. apply ancestry_step; [reflexivity|].
    apply ancestry_end. reflexivity. }
  assert (H2 : (2 < 5)%nat) by lia.
  split; [exact H1|]. split; [exact H2|]. split.
  - destruct (compute_statuses_composite 5 chain_db 2 pr2 [pr1] H1 H2)
      as (_ & _ & _ & _ & _ & _ & _ & Hall & _).
    destruct (Hall ["success"; "success"]) as (db' & Hrun & Hrow).
    { repeat constructor. }
    exists db'. split; [exact Hrun|]. rewrite Hrow. reflexivity.
  - assert (H3 : ancestry failed_db (Some 5) [failed_pr]).
    { apply ancestry_step; [reflexivity|]. apply ancestry_end. reflexivity. }
    destruct (compute_statuses_composite 5 failed_db 5 failed_pr [] H3)
      as (_ & _ & _ & _ & _ & _ & Hfail & _); [simpl; lia|].
    destruct (Hfail [] (required "ci") [required "lint"] "failure")
      as (db' & Hrun & Hrow).
    + reflexivity.
    + constructor.
    + reflexivity.
    + reflexivity.
    + exists db'. split; [exact Hrun|]. rewrite Hrow. reflexivity.
Defined.

End StateAndStatus.

(** ** Recomputation after a change of overrides *)

Lemma search_parent_spec db p q :
  q ∈ PullRequests.search_parent db (Some p) <-> child_of db p q.
Proof.
  unfold PullRequests.search_parent, child_of.
  rewrite list_elem_of_fmap. split.
  - intros ([k r] & -> & Hin). apply elem_of_map_to_list in Hin.
    apply map_lookup_filter_Some in Hin as [Hl Hp]. simpl in *. eauto.
  - intros (r & Hl & Hp). exists (q, r). split; [done|].
    apply elem_of_map_to_list. apply map_lookup_filter_Some. done.
Qed.

Lemma iter_descendants_chain db p chain :
  descent db p chain ->
  forall fuel, (length chain < fuel)%nat ->
  PullRequests._iter_descendants fuel db [p] = Done (map (fun c => [c]) chain).
Proof.
  unfold PullRequests._iter_descendants.
  induction 1 as [p Hs | p c chain Hs Hd IH]; intros fuel Hfuel;
    (destruct fuel as [|fuel]; [simpl in Hfuel; lia|]); simpl; rewrite Hs.
  - done.
  - rewrite IH by (simpl in Hfuel; lia). done.
Qed.

Lemma concat_singletons (l : list Z) : concat (map (fun c => [c]) l) = l.
Proof. induction l; simpl; congruence. Qed.

Lemma descendant_under db p c q :
  child_of db p c -> descendant db c q -> descendant db p q.
Proof.
  intros Hc. induction 1 as [q Hq | r q _ IH Hq].
  - eapply descendant_step; [apply descendant_child|]; eauto.
  - eapply descendant_step; eauto.
Qed.

Lemma descendant_trans db p a q :
  descendant db p a -> descendant db a q -> descendant db p q.
Proof.
  intros Hpa. induction 1 as [q Hq | r q _ IH Hq].
  - eapply descendant_step; eauto.
  - eapply descendant_step; eauto.
Qed.

Lemma descent_sound db p chain :
  descent db p chain -> forall q, q ∈ chain -> descendant db p q.
Proof.
  induction 1 as [p Hs | p c chain Hs Hd IH]; intros q Hq.
  - apply elem_of_nil in Hq. done.
  - assert (Hc : child_of db p c).
    { apply search_parent_spec. rewrite Hs. apply list_elem_of_singleton. done. }
    apply elem_of_cons in Hq as [->|Hq].
    + apply descendant_child. done.
    + eapply descendant_under; eauto.
Qed.

Lemma descent_closed db p chain :
  descent db p chain ->
  forall r q, r = p \/ r ∈ chain -> child_of db r q -> q ∈ chain.
Proof.
  induction 1 as [p Hs | p c chain Hs Hd IH]; intros r q Hr Hq.
  - destruct Hr as [->|Hr]; [|apply elem_of_nil in Hr; done].
    apply search_parent_spec in Hq. rewrite Hs in Hq. done.
  - destruct Hr as [->|Hr].
    + apply search_parent_spec in Hq. rewrite Hs in Hq.
      apply list_elem_of_singleton in Hq as ->. apply elem_of_cons. auto.
    + apply elem_of_cons. right. apply (IH r q); [|done].
      apply elem_of_cons in Hr. done.
Qed.

Lemma descent_complete db p chain :
  descent db p chain -> forall q, descendant db p q -> q ∈ chain.
Proof.
  intros Hd q. induction 1 as [q Hq | r q _ IH Hq].
  - eapply descent_closed; eauto.
  - eapply descent_closed; eauto.
Qed.

Lemma descent_det db p l :
  descent db p l -> forall l', descent db p l' -> l = l'.
Proof.
  induction 1 as [p Hs | p c chain Hs Hd IH]; intros l' Hl'; inversion Hl'; subst;
    try congruence.
  assert (c0 = c) by congruence. subst. f_equal. apply IH. done.
Qed.

Lemma descent_suffix db l1 : forall p c l2,
  descent db p (l1 ++ c :: l2) -> descent db c l2.
Proof.
  induction l1 as [|x l1 IH]; intros p c l2 H; inversion H; subst; eauto.
Qed.

Lemma descent_acyclic db p chain :
  descent db p chain -> ~ descendant db p p.
Proof.
  intros Hd Hpp. apply (descent_complete _ _ _ Hd) in Hpp.
  apply list_elem_of_split in Hpp as (l1 & l2 & ->).
  pose proof (descent_suffix _ _ _ _ _ Hd) as Hs.
  pose proof (descent_det _ _ _ Hd _ Hs) as Heq.
  apply (f_equal length) in Heq. rewrite length_app in Heq. simpl in Heq. lia.
Qed.

Lemma add_to_compute_elem f recs (tc : gmap string (gset Z)) g q :
  q ∈ default ∅ (PullRequests.add_to_compute f recs tc !! g) <->
  (f = g /\ q ∈ recs) \/ q ∈ default ∅ (tc !! g).
Proof.
  unfold PullRequests.add_to_compute. rewrite lookup_insert. case_decide as Hfg.
  - subst g. simpl. rewrite elem_of_union, elem_of_list_to_set. tauto.
  - tauto.
Qed.

Lemma iter_descendants_done db : forall fuel p ls,
  PullRequests.iter_descendants_from fuel db [p] = Done ls ->
  exists chain, descent db p chain /\ ls = map (fun c => [c]) chain.
Proof.
  induction fuel as [|fuel IH]; intros p ls H; [discriminate H|].
  simpl in H.
  destruct (PullRequests.search_parent db (Some p)) as [|c found] eqn:Hs.
  - injection H as <-. exists []. split; [apply descent_end; exact Hs|reflexivity].
  - destruct found as [|c' found].
    + destruct (PullRequests.iter_descendants_from fuel db [c]) as [rest| |] eqn:Hrest;
        try discriminate H.
      simpl in H. injection H as <-.
      destruct (IH c rest Hrest) as (chain & Hd & ->).
      exists (c :: chain). split; [|reflexivity].
      apply descent_step; assumption.
    + destruct fuel; discriminate H.
Qed.

Lemma iter_descendants_forked db l : forall p q a b rest fuel,
  lineage db p l q ->
  PullRequests.search_parent db (Some q) = a :: b :: rest ->
  (S (length l) < fuel)%nat ->
  PullRequests.iter_descendants_from fuel db [p]
  = Raised (ValueError "Expected singleton").
Proof.
  induction l as [|c l IH]; intros p q a b rest fuel Hl Hq Hfuel;
    inversion Hl as [? | ? ? ? ? Hs Hl']; subst.
  - destruct fuel as [|[|fuel]]; [simpl in Hfuel; lia..|].
    simpl. rewrite Hq. reflexivity.
  - destruct fuel as [|fuel]; [simpl in Hfuel; lia|].
    change (PullRequests.iter_descendants_from (S fuel) db [p])
      with (match PullRequests.search_parent db (Some p) with
            | [] => Done []
            | found =>
              rest <<- PullRequests.iter_descendants_from fuel db found ;;
              Done (found :: rest)
            end).
    rewrite Hs. cbv beta iota zeta. rewrite (IH c q a b rest fuel); [reflexivity|assumption..|].
    simpl in Hfuel. lia.
Qed.

Section Modified.
(** The inherited [modified], which is the ORM's. *)
Variable super_modified :
  list Z -> list string -> gmap string (gset Z) -> gmap string (gset Z).

(** C8. When the overrides of a pull request are modified,
    [modified] schedules the status, the full statuses and the state
    for recomputation for the pull request and for all its descendants
    in the chain of forward ports, and for these only: no ancestor is
    scheduled; then the inherited method runs. Whenever [modified]
    returns this is what it did; it returns below a chain of forward
    ports, does nothing of its own when the overrides are not modified,
    and fails before it schedules anything when a pull request of the
    chain has several forward ports. *)
Theorem overrides_recompute_descendants fuel db p fnames tocompute :
  let run := PullRequests.modified super_modified fuel db [p] fnames tocompute in
  let after := fun scheduled =>
    PullRequests.add_to_compute "state" scheduled
      (PullRequests.add_to_compute "statuses_full" scheduled
        (PullRequests.add_to_compute "status" scheduled tocompute)) in
  (* below a chain of forward ports *)
  (forall chain,
     "overrides" ∈ fnames ->
     descent db p chain ->
     (length chain < fuel)%nat ->
     let scheduled := p :: chain in
     run = Done (super_modified [p] fnames (after scheduled)) /\
     PullRequests.modified_overrides fuel db [p] fnames tocompute = Done (after scheduled) /\
     (* what is added to the pending computations *)
     (forall field q,
        q ∈ default ∅ (after scheduled !! field) <->
        (field ∈ ["status"; "statuses_full"; "state"] /\ q ∈ scheduled) \/
        q ∈ default ∅ (tocompute !! field)) /\
     (* the record and its descendants, and they only *)
     (forall q, q ∈ scheduled <-> q = p \/ descendant db p q) /\
     (forall a, descendant db a p -> a ∉ scheduled)) /\
  (* whenever it returns, the forward ports are a chain, all scheduled *)
  (forall result,
     "overrides" ∈ fnames ->
     run = Done result ->
     exists chain,
       descent db p chain /\
       result = super_modified [p] fnames (after (p :: chain)) /\
       forall q, q = p \/ descendant db p q ->
         forall field, field ∈ ["status"; "statuses_full"; "state"] ->
           q ∈ default ∅ (after (p :: chain) !! field)) /\
  (* several forward ports of a pull request of the chain: an error *)
  (forall l q a b rest,
     "overrides" ∈ fnames ->
     lineage db p l q ->
     PullRequests.search_parent db (Some q) = a :: b :: rest ->
     (S (length l) < fuel)%nat ->
     run = Raised (ValueError "Expected singleton")) /\
  (* other fields: the inherited method alone *)
  ("overrides" ∉ fnames -> run = Done (super_modified [p] fnames tocompute)).
Proof.
  intros run after.
  assert (Helem : forall scheduled field q,
            q ∈ default ∅ (after scheduled !! field) <->
            (field ∈ ["status"; "statuses_full"; "state"] /\ q ∈ scheduled) \/
            q ∈ default ∅ (tocompute !! field)).
  { intros scheduled field q. unfold after. rewrite !add_to_compute_elem.
    rewrite !elem_of_cons, elem_of_nil. intuition congruence. }
  assert (Hline : forall chain, "overrides" ∈ fnames -> descent db p chain ->
            (length chain < fuel)%nat ->
            PullRequests.modified_overrides fuel db [p] fnames tocompute
            = Done (after (p :: chain))).
  { intros chain Hin Hd Hfuel. unfold PullRequests.modified_overrides.
    rewrite bool_decide_eq_true_2 by done.
    rewrite (iter_descendants_chain _ _ _ Hd) by done. simpl.
    rewrite concat_singletons. done. }
  split; [|split; [|split]].
  - intros chain Hin Hd Hfuel scheduled.
    split; [|split; [|split; [|split; [split|]]]].
    + unfold run, PullRequests.modified. rewrite (Hline chain) by done. reflexivity.
    + apply Hline; done.
    + apply Helem.
    + intros Hq. apply elem_of_cons in Hq as [->|Hq]; [auto|].
      right. eapply descent_sound; eauto.
    + intros [->|Hq]; apply elem_of_cons; [auto|].
      right. eapply descent_complete; eauto.
    + intros a Ha Hin'. apply (descent_acyclic _ _ _ Hd).
      apply elem_of_cons in Hin' as [->|Hin']; [done|].
      eapply descendant_trans; [|apply Ha]. eapply descent_sound; eauto.
  - intros result Hin Hrun. unfold run, PullRequests.modified in Hrun.
    unfold PullRequests.modified_overrides in Hrun.
    rewrite bool_decide_eq_true_2 in Hrun by done.
    unfold PullRequests._iter_descendants in Hrun.
    destruct (PullRequests.iter_descendants_from fuel db [p]) as [ls| |] eqn:Hls;
      try discriminate Hrun.
    destruct (iter_descendants_done db fuel p ls Hls) as (chain & Hd & ->).
    cbn [obind] in Hrun. rewrite concat_singletons in Hrun.
    injection Hrun as <-. exists chain. split; [exact Hd|]. split; [reflexivity|].
    intros q Hq field Hfield. apply Helem. left. split; [exact Hfield|].
    destruct Hq as [->|Hq]; apply elem_of_cons; [auto|].
    right. eapply descent_complete; eauto.
  - intros l q a b rest Hin Hl Hq Hfuel. unfold run, PullRequests.modified.
    unfold PullRequests.modified_overrides.
    rewrite bool_decide_eq_true_2 by done.
    unfold PullRequests._iter_descendants.
    rewrite (iter_descendants_forked db l p q a b rest fuel Hl Hq Hfuel). reflexivity.
  - intros Hnot. unfold run, PullRequests.modified, PullRequests.modified_overrides.
    rewrite bool_decide_eq_false_2 by done. reflexivity.
Qed.

End Modified.

Lemma overrides_recompute_descendants_witness :
  descent chain_db 1 [2; 3] /\ (2 < 5)%nat /\ "overrides" ∈ ["overrides"] /\
  PullRequests.modified no_super_modified 5 chain_db [1] ["overrides"] ∅ =
    Done (PullRequests.add_to_compute "state" [1; 2; 3]
           (PullRequests.add_to_compute "statuses_full" [1; 2; 3]
             (PullRequests.add_to_compute "status" [1; 2; 3] ∅))) /\
  (* with two forward ports nothing is scheduled *)
  PullRequests.modified no_super_modified 5 forked_db [1] ["overrides"] ∅ =
    Raised (ValueError "Expected singleton").
Proof.
  assert (H1 : descent chain_db 1 [2; 3]).
  { apply descent_step; [vm_compute; reflexivity|].
    apply descent_step; [vm_compute; reflexivity|].
    apply descent_end. vm_compute. reflexivity. }
  assert (H2 : (2 < 5)%nat) by (simpl; lia).
  assert (H3 : "overrides" ∈ ["overrides"]) by (apply list_elem_of_singleton; reflexivity).
  split; [exact H1|]. split; [exact H2|]. split; [exact H3|]. split.
  - exact (proj1 (proj1 (overrides_recompute_descendants no_super_modified 5 chain_db 1
                           ["overrides"] ∅) [2; 3] H3 H1 H2)).
  - apply (proj1 (proj2 (proj2 (overrides_recompute_descendants no_super_modified 5
                                  forked_db 1 ["overrides"] ∅))) [] 1 3 2 [] H3).
    + apply lineage_end.
    + vm_compute. reflexivity.
    + simpl. lia.
Defined.

(** ** Writing and cancelling stagings *)

Lemma staging_update_lookup i j f db :
  stagings (Stagings.update i f db) !! j =
  if bool_decide (i = j) then f <$> stagings db !! j else stagings db !! j.
Proof.
  unfold Stagings.update. simpl. rewrite lookup_alter.
  case_decide; case_bool_decide; congruence.
Qed.

Lemma super_write_other self v : forall db j,
  j ∉ self ->
  stagings (Stagings.super_write self v db) !! j = stagings db !! j.
Proof.
  unfold Stagings.super_write.
  induction self as [|i self IH]; intros db j Hj; simpl; [done|].
  rewrite IH by (intros ?; apply Hj, elem_of_cons; auto).
  rewrite staging_update_lookup, bool_decide_eq_false_2; [done|].
  intros ->. apply Hj, elem_of_cons. auto.
Qed.

Lemma freeze_other (pp : list Z) : forall db j,
  j ∉ pp ->
  stagings (fold_left (fun db i =>
      match stagings db !! i with
      | Some st =>
        if bool_decide (Staging.state st ≠ "pending")
        then Stagings.update i (Staging.set_statuses_cache
               (Some (Stagings.rendered_statuses db st))) db
        else db
      | None => db
      end) pp db) !! j = stagings db !! j.
Proof.
  induction pp as [|i pp IH]; intros db j Hj; simpl; [done|].
  rewrite IH by (intros ?; apply Hj, elem_of_cons; auto).
  assert (i <> j) by (intros ->; apply Hj, elem_of_cons; auto).
  destruct (stagings db !! i); [|done]. case_bool_decide; [|done].
  rewrite staging_update_lookup, bool_decide_eq_false_2; done.
Qed.

Lemma write_other self v db j :
  j ∉ self ->
  stagings (Stagings.write self v db) !! j = stagings db !! j.
Proof.
  intros Hj. unfold Stagings.write. simpl.
  destruct (Stagings.vals_state v).
  - rewrite freeze_other.
    + apply super_write_other. done.
    + intros Hin. apply Hj. apply list_elem_of_In, filter_In in Hin as [Hin _].
      apply list_elem_of_In. done.
  - apply super_write_other. done.
Qed.

(** C10. [cancel] acts on active stagings only: on a recordset
    without active staging it returns [False] and changes nothing, and a
    staging which is not active keeps its row (state, reason and active
    flag) whatever the recordset. *)
Theorem cancel_skips_inactive percent self reason args db :
  (* the recordset holds no active staging: nothing happens *)
  ((forall i, i ∈ self -> Stagings.is_active db i = false) ->
   Stagings.cancel percent self reason args db = (db, false)) /\
  (* in any case an inactive staging is left as it is *)
  (forall i s,
     stagings db !! i = Some s ->
     Staging.active s = false ->
     stagings (Stagings.cancel percent self reason args db).1 !! i = Some s).
Proof.
  split.
  - intros Hall. unfold Stagings.cancel.
    replace (List.filter (Stagings.is_active db) self) with (@nil Z); [done|].
    symmetry. induction self as [|i self IH]; simpl; [done|].
    rewrite Hall by (apply elem_of_cons; auto).
    apply IH. intros j Hj. apply Hall, elem_of_cons. auto.
  - intros i s Hi Hs. unfold Stagings.cancel.
    destruct (List.filter (Stagings.is_active db) self) as [|k l] eqn:Hf; [done|].
    simpl. rewrite write_other; [done|].
    rewrite <- Hf. intros Hin. apply list_elem_of_In, filter_In in Hin as [_ Hin].
    unfold Stagings.is_active in Hin. rewrite Hi, Hs in Hin. done.
Qed.

Lemma cancel_skips_inactive_witness :
  (forall i, i ∈ [1] -> Stagings.is_active (staging_db "success" false ∅) i = false) /\
  Stagings.cancel no_percent [1] "cancelled by %s" ["admin"]
    (staging_db "success" false ∅) = (staging_db "success" false ∅, false).
Proof.
  assert (H : forall i, i ∈ [1] ->
              Stagings.is_active (staging_db "success" false ∅) i = false).
  { intros i Hi. apply list_elem_of_singleton in Hi. subst i. reflexivity. }
  split; [exact H|].
  exact (proj1 (cancel_skips_inactive no_percent [1] "cancelled by %s" ["admin"]
                  (staging_db "success" false ∅)) H).
Defined.

Lemma same_but_stagings_refl d : same_but_stagings d d.
Proof. repeat split. Qed.

Lemma same_but_stagings_trans d1 d2 d3 :
  same_but_stagings d1 d2 -> same_but_stagings d2 d3 -> same_but_stagings d1 d3.
Proof.
  unfold same_but_stagings. intros H1 H2.
  destruct H1 as (?&?&?&?&?&?&?&?&?&?&?&?), H2 as (?&?&?&?&?&?&?&?&?&?&?&?).
  repeat split; congruence.
Qed.

Lemma update_same i f d : same_but_stagings d (Stagings.update i f d).
Proof. repeat split. Qed.

Lemma super_write_same self v : forall d, same_but_stagings d (Stagings.super_write self v d).
Proof.
  unfold Stagings.super_write. induction self as [|i self IH]; intros d; simpl.
  - apply same_but_stagings_refl.
  - eapply same_but_stagings_trans; [|apply IH]. apply update_same.
Qed.

Lemma freeze_same (pp : list Z) : forall d,
  same_but_stagings d (fold_left (fun db i =>
      match stagings db !! i with
      | Some st =>
        if bool_decide (Staging.state st ≠ "pending")
        then Stagings.update i (Staging.set_statuses_cache
               (Some (Stagings.rendered_statuses db st))) db
        else db
      | None => db
      end) pp d).
Proof.
  induction pp as [|i l IH]; intros d0; simpl.
  - apply same_but_stagings_refl.
  - eapply same_but_stagings_trans; [|apply IH].
    destruct (stagings d0 !! i); [|apply same_but_stagings_refl].
    case_bool_decide; [apply update_same|apply same_but_stagings_refl].
Qed.

Lemma write_same self v d : same_but_stagings d (Stagings.write self v d).
Proof.
  unfold Stagings.write. simpl. destruct (Stagings.vals_state v).
  - eapply same_but_stagings_trans; [|apply freeze_same]. apply super_write_same.
  - apply super_write_same.
Qed.

Lemma write_one_lookup i v d s :
  stagings d !! i = Some s ->
  exists s', stagings (Stagings.write [i] v d) !! i = Some s' /\ written v s s'.
Proof.
  intros Hi. unfold Stagings.write. cbn [Stagings.vals_state].
  destruct (Stagings.vals_state v) as [st|] eqn:Hst.
  - cbn [List.filter]. unfold Stagings.super_write. cbn [fold_left].
    set (v' := {| Stagings.vals_state := Some st; Stagings.vals_active := _;
                  Stagings.vals_reason := _; Stagings.vals_timeout_limit := _;
                  Stagings.vals_statuses_cache := None |}).
    set (d1 := Stagings.update i (Stagings.apply_vals v') d).
    assert (H1 : stagings d1 !! i = Some (Stagings.apply_vals v' s)).
    { unfold d1. rewrite staging_update_lookup, bool_decide_eq_true_2, Hi; done. }
    assert (Hw : written v s (Stagings.apply_vals v' s)).
    { unfold written, Stagings.apply_vals, Stagings.assign, v'. simpl. rewrite Hst.
      destruct (Stagings.vals_active v), (Stagings.vals_reason v),
        (Stagings.vals_timeout_limit v); simpl; repeat split. }
    destruct (Stagings.state_is d "pending" i); cbn [fold_left].
    + rewrite H1. case_bool_decide.
      * rewrite staging_update_lookup, bool_decide_eq_true_2, H1 by done. simpl.
        eexists. split; [reflexivity|].
        destruct Hw as (?&?&?&?&?&?&?&?&?). repeat split; done.
      * eauto.
    + eauto.
  - unfold Stagings.super_write. cbn [fold_left].
    rewrite staging_update_lookup, bool_decide_eq_true_2, Hi by done. simpl.
    eexists. split; [reflexivity|].
    unfold written, Stagings.apply_vals, Stagings.assign. simpl. rewrite Hst.
    destruct (Stagings.vals_active v), (Stagings.vals_reason v),
      (Stagings.vals_timeout_limit v); simpl; repeat split.
Qed.

(** ** Splitting *)

Lemma foldr_max_ge (l : list Z) x : x ∈ l -> x <= foldr Z.max 0 l.
Proof.
  induction l as [|y l IH]; intros H.
  - apply elem_of_nil in H. done.
  - apply elem_of_cons in H as [->|H]; simpl; [lia|]. specialize (IH H). lia.
Qed.

Lemma fresh_id_fresh {A} (m : gmap Z A) : m !! fresh_id m = None.
Proof.
  destruct (m !! fresh_id m) as [x|] eqn:H; [|done].
  apply elem_of_map_to_list in H.
  assert (Hin : fresh_id m ∈ (map_to_list m).*1).
  { apply list_elem_of_fmap. exists (fresh_id m, x). done. }
  apply foldr_max_ge in Hin. unfold fresh_id in Hin at 1. lia.
Qed.

Lemma fold_alter_lookup {A} (f : A -> A) (bs : list Z) :
  (forall x, f (f x) = f x) ->
  forall (m : gmap Z A) b,
  fold_left (fun m b => alter f b m) bs m !! b =
  if bool_decide (b ∈ bs) then f <$> m !! b else m !! b.
Proof.
  intros Hf. induction bs as [|c bs IH]; intros m b; simpl.
  - done.
  - rewrite IH. rewrite lookup_alter.
    destruct (decide (c = b)) as [->|Hne].
    + rewrite (bool_decide_eq_true_2 (b ∈ b :: bs)) by (apply elem_of_cons; auto).
      case_bool_decide; [|done].
      destruct (m !! b); simpl; [|done]. rewrite Hf. done.
    + rewrite (bool_decide_ext (b ∈ c :: bs) (b ∈ bs)); [done|].
      rewrite elem_of_cons. intuition congruence.
Qed.

Lemma create_split_split target bs d :
  split (Stagings.create_split target bs d) =
  <[ fresh_id (split d) := {| Split.target := target; Split.batch_ids := bs |} ]> (split d).
Proof. reflexivity. Qed.

Lemma create_split_batch target bs d b :
  batch (Stagings.create_split target bs d) !! b =
  if bool_decide (b ∈ bs)
  then Batch.set_split_id (Some (fresh_id (split d))) <$> batch d !! b
  else batch d !! b.
Proof.
  unfold Stagings.create_split. simpl. apply fold_alter_lookup. done.
Qed.

Lemma filter_all {A} (f : A -> bool) (l : list A) :
  (forall x, x ∈ l -> f x = true) -> List.filter f l = l.
Proof.
  induction l as [|x l IH]; intros H; simpl; [done|].
  rewrite H by (apply elem_of_cons; auto).
  rewrite IH; [done|]. intros y Hy. apply H, elem_of_cons. auto.
Qed.

Lemma prs_of_batches_spec d bs p :
  p ∈ prs_of_batches d bs <->
  exists r b, pull_requests d !! p = Some r /\ PullRequest.batch_id r = Some b /\ b ∈ bs.
Proof.
  unfold prs_of_batches. rewrite list_elem_of_fmap. split.
  - intros ([k r] & -> & Hin). apply elem_of_map_to_list in Hin.
    apply map_lookup_filter_Some in Hin as [Hl Hp]. simpl in *.
    destruct (PullRequest.batch_id r) as [b|] eqn:Hb; [|done].
    apply bool_decide_eq_true in Hp. eauto.
  - intros (r & b & Hl & Hb & Hin). exists (p, r). split; [done|].
    apply elem_of_map_to_list. apply map_lookup_filter_Some. split; [done|].
    simpl. rewrite Hb. apply bool_decide_eq_true. done.
Qed.

(** C7. [try_splitting] on a staging of more than one batch creates
    two splits and nothing else: over the first half and over the second
    half of the batches, cut at the midpoint, in the order of the
    staging, so that both together are the batches of the staging and
    cover the same pull requests; the staging is deactivated, in state
    [failure]. *)
Theorem try_splitting_bisects format_template i env s :
  stagings (db env) !! i = Some s ->
  (1 < length (Staging.batch_ids s))%nat ->
  NoDup (Staging.batch_ids s) ->
  (forall b, b ∈ Staging.batch_ids s -> is_Some (batch (db env) !! b)) ->
  let midpoint := (length (Staging.batch_ids s) / 2)%nat in
  let h := take midpoint (Staging.batch_ids s) in
  let t := drop midpoint (Staging.batch_ids s) in
  exists env' sh st s',
    Stagings.try_splitting format_template i env = (env', true) /\
    (* two new splits, and nothing else *)
    split (db env) !! sh = None /\ split (db env) !! st = None /\ sh <> st /\
    split (db env') =
      <[ st := {| Split.target := Staging.target s; Split.batch_ids := t |} ]>
        (<[ sh := {| Split.target := Staging.target s; Split.batch_ids := h |} ]>
           (split (db env))) /\
    (* over the two halves of the batches, in order *)
    Stagings.split_batch_ids (db env') sh = h /\
    Stagings.split_batch_ids (db env') st = t /\
    h ++ t = Staging.batch_ids s /\
    (forall p, p ∈ prs_of_batches (db env') h \/ p ∈ prs_of_batches (db env') t <->
               p ∈ prs_of_batches (db env) (Staging.batch_ids s)) /\
    (* the staging is over *)
    stagings (db env') !! i = Some s' /\
    Staging.active s' = false /\
    Staging.state s' = "failure" /\
    Staging.batch_ids s' = Staging.batch_ids s.
Proof.
  intros Hi Hlen Hnd Hex midpoint h t.
  unfold Stagings.try_splitting. rewrite Hi.
  rewrite bool_decide_eq_true_2 by done.
  fold midpoint. fold h. fold t.
  set (d0 := db env).
  set (sh := fresh_id (split d0)).
  set (d1 := Stagings.create_split (Staging.target s) h d0).
  set (st := fresh_id (split d1)).
  set (d2 := Stagings.create_split (Staging.target s) t d1).
  set (v := {| Stagings.vals_state := Some "failure"; Stagings.vals_active := Some false;
               Stagings.vals_reason := _; Stagings.vals_timeout_limit := None;
               Stagings.vals_statuses_cache := None |}).
  assert (Hi2 : stagings d2 !! i = Some s) by exact Hi.
  destruct (write_one_lookup i v d2 s Hi2) as (s' & Hs' & Hw).
  destruct (write_same [i] v d2) as (_&_&_&_&_&_&Hbatch&Hprs&Hsplit&_).
  assert (Hht : h ++ t = Staging.batch_ids s) by apply take_drop.
  assert (Hsh : split d0 !! sh = None) by apply fresh_id_fresh.
  assert (Hst1 : split d1 !! st = None) by apply fresh_id_fresh.
  assert (Hne : sh <> st).
  { intros Heq. unfold d1 in Hst1. rewrite create_split_split in Hst1.
    fold sh in Hst1. rewrite <- Heq, lookup_insert_eq in Hst1. done. }
  assert (Hst : split d0 !! st = None).
  { unfold d1 in Hst1. rewrite create_split_split in Hst1. fold sh in Hst1.
    rewrite lookup_insert_ne in Hst1 by done. done. }
  assert (Hdisj : forall b, b ∈ h -> b ∉ t).
  { rewrite <- Hht in Hnd. apply NoDup_app in Hnd as (_ & Hd & _). done. }
  exists (with_db (Stagings.write [i] v) (with_db (fun _ => d2) env)), sh, st, s'.
  assert (Hsplit2 : split (Stagings.write [i] v d2) =
    <[ st := {| Split.target := Staging.target s; Split.batch_ids := t |} ]>
      (<[ sh := {| Split.target := Staging.target s; Split.batch_ids := h |} ]>
         (split d0))).
  { rewrite Hsplit. reflexivity. }
  split; [reflexivity|].
  split; [done|]. split; [done|]. split; [done|].
  split; [exact Hsplit2|].
  split.
  { unfold Stagings.split_batch_ids. simpl. rewrite Hsplit2.
    rewrite lookup_insert_ne, lookup_insert_eq by done. simpl.
    apply filter_all. intros b Hb. apply bool_decide_eq_true.
    rewrite Hbatch. unfold d2. rewrite create_split_batch.
    rewrite bool_decide_eq_false_2 by auto.
    unfold d1. rewrite create_split_batch, bool_decide_eq_true_2 by done.
    destruct (Hex b) as [r Hr].
    { rewrite <- Hht. apply elem_of_app. auto. }
    unfold d0. rewrite Hr. reflexivity. }
  split.
  { unfold Stagings.split_batch_ids. simpl. rewrite Hsplit2.
    rewrite lookup_insert_eq. simpl.
    apply filter_all. intros b Hb. apply bool_decide_eq_true.
    rewrite Hbatch. unfold d2. rewrite create_split_batch.
    rewrite bool_decide_eq_true_2 by done.
    destruct (Hex b) as [r Hr].
    { rewrite <- Hht. apply elem_of_app. auto. }
    assert (Hb1 : is_Some (batch d1 !! b)).
    { unfold d1. rewrite create_split_batch. unfold d0. rewrite Hr.
      case_bool_decide; eauto. }
    destruct Hb1 as [r1 ->]. reflexivity. }
  split; [done|].
  split.
  { intros p. rewrite !prs_of_batches_spec. simpl. rewrite Hprs.
    change (pull_requests d2) with (pull_requests d0).
    rewrite <- Hht. split.
    - intros [(r & b & ? & ? & ?)|(r & b & ? & ? & ?)]; exists r, b;
        (split; [done|]); (split; [done|]); apply elem_of_app; auto.
    - intros (r & b & ? & ? & [?|?]%elem_of_app); [left|right]; eauto. }
  destruct Hw as (_ & Hb & _ & _ & _ & Hstate & Hact & _).
  split; [exact Hs'|]. split; [exact Hact|]. split; [exact Hstate|]. exact Hb.
Qed.

Lemma try_splitting_bisects_witness :
  let env := sample_env (staging_db "failure" true ∅) in
  stagings (db env) !! 1 = Some (sample_staging "failure" true [1; 2; 3; 4]
                                   [head_of 1 1; head_of 2 2]) /\
  exists env' sh st,
    Stagings.try_splitting no_template 1 env = (env', true) /\
    Stagings.split_batch_ids (db env') sh = [1; 2] /\
    Stagings.split_batch_ids (db env') st = [3; 4] /\
    Staging.active <$> stagings (db env') !! 1 = Some false.
Proof.
  intros env.
  set (s := sample_staging "failure" true [1; 2; 3; 4] [head_of 1 1; head_of 2 2]).
  assert (H1 : stagings (db env) !! 1 = Some s) by reflexivity.
  assert (H2 : (1 < length (Staging.batch_ids s))%nat) by (simpl; lia).
  assert (H3 : NoDup (Staging.batch_ids s)).
  { apply (bool_decide_unpack (NoDup (Staging.batch_ids s))). vm_compute. exact I. }
  assert (H4 : forall b, b ∈ Staging.batch_ids s -> is_Some (batch (db env) !! b)).
  { intros b Hb. simpl in Hb.
    repeat (apply elem_of_cons in Hb as [->|Hb]; [eexists; reflexivity|]).
    apply elem_of_nil in Hb. destruct Hb. }
  split; [exact H1|].
  destruct (try_splitting_bisects no_template 1 env s H1 H2 H3 H4)
    as (env' & sh & st & s' & Hrun & _ & _ & _ & _ & Hh & Ht & _ & _ & Hs' & Hact & _).
  exists env', sh, st. split; [exact Hrun|]. split; [exact Hh|]. split; [exact Ht|].
  rewrite Hs'. simpl. rewrite Hact. reflexivity.
Defined.

(** ** Validation *)

Lemma loop_o_raised e vs : loop_o (Raised e) vs = Raised e.
Proof. induction vs; simpl; auto. Qed.

Lemma loop_o_fuel vs : loop_o OutOfFuel vs = OutOfFuel.
Proof. induction vs; simpl; auto. Qed.

Lemma loop_o_bind acc vs :
  loop_o acc vs = (a <<- acc ;; Stagings.validate_loop a vs).
Proof.
  destruct acc; simpl; [done| apply loop_o_raised | apply loop_o_fuel].
Qed.

Lemma validate_loop_app a l1 l2 :
  Stagings.validate_loop a (l1 ++ l2) =
  (a' <<- Stagings.validate_loop a l1 ;; Stagings.validate_loop a' l2).
Proof.
  unfold Stagings.validate_loop. rewrite fold_left_app.
  apply (loop_o_bind _ l2).
Qed.

Lemma validate_nested db s (L : list (string * list string)) : forall acc,
  fold_left (fun acc (hr : string * list string) =>
      a <<- acc ;;
      let statuses := default ∅ (Stagings.cmap db s !! hr.1) in
      Stagings.validate_loop a (map (Stagings.observed_state statuses) hr.2))
    L acc =
  (a <<- acc ;;
   Stagings.validate_loop a
     (flat_map (fun hr : string * list string =>
        let statuses := default ∅ (Stagings.cmap db s !! hr.1) in
        map (Stagings.observed_state statuses) hr.2) L)).
Proof.
  induction L as [|hr L IH]; intros acc; simpl.
  - destruct acc; done.
  - rewrite IH. destruct acc as [a| |]; simpl; [|done..].
    rewrite validate_loop_app. done.
Qed.

Lemma loop_failure_sticky u vs :
  Stagings.validate_loop ("failure", u) vs = Done ("failure", u).
Proof.
  unfold Stagings.validate_loop. induction vs as [|v vs IH]; simpl; [done|].
  unfold Stagings.validate_step at 2. simpl. exact IH.
Qed.

Lemma loop_step st u v vs :
  Stagings.validate_loop (st, u) (v :: vs) =
  (a <<- Stagings.validate_step (st, u) v ;; Stagings.validate_loop a vs).
Proof.
  unfold Stagings.validate_loop. simpl.
  apply (loop_o_bind (Stagings.validate_step (st, u) v) vs).
Qed.

Lemma benign_not_failure v : benign v = true -> Stagings.in_failure v = false.
Proof.
  unfold benign, is_pending. intros H.
  repeat (apply orb_true_iff in H as [H|H]); apply bool_decide_eq_true in H; subst; done.
Qed.

Lemma validate_loop_spec vs : forall st u,
  st = "success" \/ st = "pending" ->
  forallb valid vs = true ->
  Stagings.validate_loop (st, u) vs =
  Done (if existsb Stagings.in_failure vs then "failure"
        else if existsb (fun v => bool_decide (v = None) || is_pending v) vs then "pending"
        else st,
        u || existsb is_pending (before_failure vs)).
Proof.
  induction vs as [|v vs IH]; intros st u Hst Hv.
  - simpl. rewrite orb_false_r. done.
  - simpl in Hv. apply andb_true_iff in Hv as [Hv Hvs].
    rewrite loop_step. cbn [existsb before_failure].
    unfold Stagings.validate_step. cbn [fst snd].
    assert (Hnf : bool_decide (st = "failure") = false).
    { apply bool_decide_eq_false. destruct Hst; subst; done. }
    rewrite Hnf. cbn [orb].
    destruct (Stagings.in_failure v) eqn:Hf.
    + cbn [obind orb existsb]. rewrite loop_failure_sticky. rewrite orb_false_r. done.
    + unfold valid in Hv. rewrite Hf, orb_false_r in Hv.
      unfold benign, is_pending in *.
      destruct v as [w|].
      * cbn [orb] in *. rewrite (bool_decide_eq_false_2 (Some w = None)) in * by done.
        cbn [orb] in *.
        destruct (decide (w = "pending")) as [->|Hp].
        -- rewrite !bool_decide_eq_true_2 by done. cbn [obind orb existsb].
           rewrite IH by auto. rewrite orb_true_r.
           destruct (existsb Stagings.in_failure vs); [reflexivity|].
           destruct (existsb _ vs); reflexivity.
        -- rewrite (bool_decide_eq_false_2 (w = "pending")) by done.
           rewrite (bool_decide_eq_false_2 (Some w = Some "pending")) in * by congruence.
           cbn [orb] in *. apply bool_decide_eq_true in Hv. inversion Hv; subst.
           rewrite bool_decide_eq_true_2 by done. cbn [obind orb existsb].
           rewrite IH by auto. reflexivity.
      * cbn [obind orb existsb]. rewrite IH by auto.
        rewrite bool_decide_eq_true_2 by done. cbn [orb].
        rewrite (bool_decide_eq_false_2 (None = Some "pending")) by done. cbn [orb].
        destruct (existsb Stagings.in_failure vs); [reflexivity|].
        destruct (existsb _ vs); reflexivity.
Qed.

Lemma before_failure_app_pending l1 l2 :
  forallb benign l1 = true ->
  existsb is_pending (before_failure (l1 ++ Some "pending" :: l2)) = true.
Proof.
  induction l1 as [|v l1 IH]; intros H; simpl.
  - reflexivity.
  - simpl in H. apply andb_true_iff in H as [Hv Hl].
    rewrite (benign_not_failure _ Hv). simpl. rewrite IH by done.
    apply orb_true_r.
Qed.

Lemma before_failure_no_pending vs :
  existsb is_pending vs = false ->
  existsb is_pending (before_failure vs) = false.
Proof.
  induction vs as [|v vs IH]; simpl; [done|].
  intros H. apply orb_false_iff in H as [Hv Hvs].
  destruct (Stagings.in_failure v); [done|]. simpl. rewrite Hv, IH; done.
Qed.

Lemma validate_one_general now i d s :
  stagings d !! i = Some s ->
  Staging.state s = "pending" ->
  let vs := Stagings.observations d s in
  forallb valid vs = true ->
  exists d' s',
    Stagings.validate_one now i d = Done d' /\
    stagings d' !! i = Some s' /\
    Staging.state s' = spec_staging_state vs /\
    Staging.active s' = Staging.active s /\
    Staging.timeout_limit s' =
      (if existsb is_pending (before_failure vs)
       then now + minutes (ci_timeout_of d (Staging.target s))
       else Staging.timeout_limit s).
Proof.
  intros Hi Hst vs Hvalid.
  unfold Stagings.validate_one. rewrite Hi.
  rewrite bool_decide_eq_false_2 by (rewrite Hst; auto).
  rewrite validate_nested. cbn [obind].
  change (flat_map _ (Stagings.required_statuses d s)) with vs.
  rewrite validate_loop_spec by auto. cbn [obind fst snd orb].
  set (v := {| Stagings.vals_state := _; Stagings.vals_active := None;
               Stagings.vals_reason := None; Stagings.vals_timeout_limit := _;
               Stagings.vals_statuses_cache := None |}).
  destruct (write_one_lookup i v d s Hi) as (s' & Hs' & Hw).
  exists (Stagings.write [i] v d), s'. split; [reflexivity|]. split; [exact Hs'|].
  destruct Hw as (_&_&_&_&_&Hstate&Hact&_&Htl).
  split; [|split].
  - rewrite Hstate. reflexivity.
  - rewrite Hact. reflexivity.
  - rewrite Htl. unfold v. cbn [Stagings.vals_timeout_limit].
    destruct (existsb is_pending (before_failure vs)); reflexivity.
Qed.

Lemma before_failure_id vs :
  existsb Stagings.in_failure vs = false -> before_failure vs = vs.
Proof.
  induction vs as [|v vs IH]; simpl; [done|].
  intros H. apply orb_false_iff in H as [-> Hvs]. rewrite IH; done.
Qed.

(** A pending context met after a failure does not postpone the
    timeout: the first required context of the head has failed, the
    second is pending, and the deadline stays at 1000. *)
Lemma pending_after_failure_not_rearmed :
  let d := staging_db "pending" true
             {[ "ci" := reported "failure"; "lint" := reported "pending" ]} in
  Stagings.observations d pending_staging
    = [Some "failure"; Some "pending"; Some "success"] /\
  match Stagings._validate 5000 [1] d with
  | Done d' =>
    (fun s => (Staging.state s, Staging.timeout_limit s)) <$> stagings d' !! 1
  | _ => None
  end = Some ("failure", 1000) /\
  5000 + minutes (ci_timeout_of d 1) = 12200.
Proof. vm_compute. repeat split; reflexivity. Qed.

Lemma before_failure_app_failure l1 f l2 :
  Stagings.in_failure f = true ->
  before_failure (l1 ++ f :: l2) = before_failure l1.
Proof.
  intros Hf. induction l1 as [|v l1 IH]; simpl.
  - rewrite Hf. reflexivity.
  - destruct (Stagings.in_failure v); [reflexivity|]. rewrite IH. reflexivity.
Qed.

Lemma existsb_app_failure l1 f l2 :
  Stagings.in_failure f = true ->
  existsb Stagings.in_failure (l1 ++ f :: l2) = true.
Proof.
  intros Hf. rewrite existsb_app. simpl. rewrite Hf. apply orb_true_r.
Qed.

(** C6, amended. A validation of a pending staging which meets a
    required context in state [pending] before any context in error or
    failure sets the deadline to now plus the timeout of the project,
    whatever the number of pending contexts; a pending context met after
    an error or failure does not: the deadline is set exactly when a
    pending context comes before the first error or failure. A
    validation which meets no pending context leaves the deadline,
    whatever fails or is missing; and when nothing fails, a pending
    context keeps the staging pending, with the new deadline. *)
Theorem validate_rearms_timeout now i d s :
  stagings d !! i = Some s ->
  Staging.state s = "pending" ->
  let vs := Stagings.observations d s in
  let deadline := now + minutes (ci_timeout_of d (Staging.target s)) in
  forallb valid vs = true ->
  exists d' s',
    Stagings._validate now [i] d = Done d' /\
    stagings d' !! i = Some s' /\
    (* a pending met before any error or failure re-arms the deadline *)
    (forall l1 l2,
       vs = l1 ++ Some "pending" :: l2 ->
       forallb benign l1 = true ->
       Staging.timeout_limit s' = deadline) /\
    (* without a pending the deadline stays, whatever fails *)
    (existsb is_pending vs = false ->
     Staging.timeout_limit s' = Staging.timeout_limit s) /\
    (* a pending and no failure: the staging stays pending, re-armed *)
    (existsb Stagings.in_failure vs = false ->
     existsb is_pending vs = true ->
     Staging.state s' = "pending" /\ Staging.active s' = Staging.active s /\
     Staging.timeout_limit s' = deadline) /\
    (* a pending met after the first error or failure only does not
       re-arm the deadline, and the staging fails *)
    (forall l1 f l2,
       vs = l1 ++ f :: l2 ->
       existsb is_pending l1 = false ->
       Stagings.in_failure f = true ->
       Staging.state s' = "failure" /\
       Staging.timeout_limit s' = Staging.timeout_limit s) /\
    (* in all cases: the deadline is re-armed exactly when a pending
       precedes the first error or failure *)
    Staging.timeout_limit s' =
      (if existsb is_pending (before_failure vs) then deadline
       else Staging.timeout_limit s).
Proof.
  intros Hi Hst vs deadline Hvalid.
  destruct (validate_one_general now i d s Hi Hst Hvalid)
    as (d' & s' & Hrun & Hs' & Hstate & Hact & Htl).
  exists d', s'. split; [exact Hrun|]. split; [exact Hs'|].
  fold vs in Htl, Hstate. split; [|split; [|split; [|split]]].
  - intros l1 l2 Hvs Hl1. rewrite Htl, Hvs, before_failure_app_pending; done.
  - intros Hnp. rewrite Htl, before_failure_no_pending; done.
  - intros Hnf Hp. rewrite Htl, before_failure_id, Hp by done.
    split; [|split; done]. rewrite Hstate. unfold spec_staging_state. rewrite Hnf.
    replace (existsb _ vs) with true; [done|]. symmetry.
    clear -Hp. induction vs as [|v vs IH]; simpl in *; [done|].
    apply orb_true_iff in Hp as [Hp|Hp].
    + rewrite Hp. rewrite orb_true_r. done.
    + rewrite IH by done. apply orb_true_r.
  - intros l1 f l2 Hvs Hl1 Hf. split.
    + rewrite Hstate. unfold spec_staging_state.
      rewrite Hvs, existsb_app_failure by exact Hf. reflexivity.
    + rewrite Htl, Hvs, before_failure_app_failure by exact Hf.
      rewrite before_failure_no_pending by exact Hl1. reflexivity.
  - exact Htl.
Qed.

Lemma validate_rearms_timeout_witness :
  let d := staging_db "pending" true {[ "ci" := reported "pending" ]} in
  stagings d !! 1 = Some pending_staging /\
  Staging.state pending_staging = "pending" /\
  forallb valid (Stagings.observations d pending_staging) = true /\
  exists d' s',
    Stagings._validate 5000 [1] d = Done d' /\
    stagings d' !! 1 = Some s' /\
    Staging.state s' = "pending" /\
    Staging.timeout_limit s' = 12200.
Proof.
  intros d.
  assert (H1 : stagings d !! 1 = Some pending_staging) by reflexivity.
  assert (H2 : Staging.state pending_staging = "pending") by reflexivity.
  assert (H3 : forallb valid (Stagings.observations d pending_staging) = true)
    by (vm_compute; reflexivity).
  split; [exact H1|]. split; [exact H2|]. split; [exact H3|].
  destruct (validate_rearms_timeout 5000 1 d pending_staging H1 H2 H3)
    as (d' & s' & Hrun & Hs' & _ & _ & Hflap & _).
  destruct Hflap as (Hst & _ & Htl); [vm_compute; reflexivity..|].
  exists d', s'. split; [exact Hrun|]. split; [exact Hs'|]. split; [exact Hst|].
  rewrite Htl. vm_compute. reflexivity.
Defined.

(** ** The fast-forward protocol *)

Lemma keeps_refl tmp w : keeps_branches tmp w w.
Proof. split; auto. Qed.

Lemma keeps_trans tmp w1 w2 w3 :
  keeps_branches tmp w1 w2 -> keeps_branches tmp w2 w3 -> keeps_branches tmp w1 w3.
Proof.
  intros [H1 H2] [H3 H4]. split; [congruence|].
  intros r b Hb. rewrite H4, H2; auto.
Qed.

Lemma set_ref_keeps repo tmp sha w : keeps_branches tmp w (Github.set_ref repo tmp sha w).
Proof.
  split; [reflexivity|]. intros r b Hb. unfold Github.set_ref. cbn [refs].
  rewrite (bool_decide_eq_false_2 (b = tmp)) by done. rewrite andb_false_r. done.
Qed.

Lemma string_app_length (a b : string) :
  String.length (a +:+ b) = (String.length a + String.length b)%nat.
Proof. induction a as [|c a IH]; simpl; [reflexivity|]. rewrite IH. reflexivity. Qed.

Lemma tmp_target_fresh d s : branch_name d (Staging.target s) <> Stagings.tmp_target d s.
Proof.
  unfold Stagings.tmp_target. intros H. apply (f_equal String.length) in H.
  rewrite string_app_length in H. simpl in H. lia.
Qed.

Lemma reset_tmps_spec d s cs w :
  let w' := Stagings.reset_tmps d s cs w in
  keeps_branches (Stagings.tmp_target d s) w w' /\
  ff_calls w' = ff_calls w /\ slept w' = slept w.
Proof.
  unfold Stagings.reset_tmps.
  generalize (map (repository_name d) (distinct (map StagingCommits.repository_id cs))).
  intros names. revert w. induction names as [|n names IH]; intros w; simpl.
  - split; [apply keeps_refl|done].
  - destruct (IH (Github.set_ref n (Stagings.tmp_target d s)
                    (Github.head n (branch_name d (Staging.target s)) w) w)) as (Hk & Hc & Hs).
    split; [|split].
    + eapply keeps_trans; [apply set_ref_keeps|exact Hk].
    + rewrite Hc. reflexivity.
    + rewrite Hs. reflexivity.
Qed.

Lemma fast_forward_spec repo branch sha w :
  let wr := Github.fast_forward repo branch sha w in
  keeps_branches branch w wr.1 /\
  ff_calls wr.1 = S (ff_calls w) /\
  slept wr.1 = slept w /\
  match ff_fate w (ff_calls w) with
  | None => wr.2 = None /\ refs wr.1 repo branch = sha
  | Some cause => wr.2 = Some (FastForwardError repo cause) /\ refs wr.1 = refs w
  end.
Proof.
  unfold Github.fast_forward. destruct (ff_fate w (ff_calls w)); cbn [fst snd].
  - repeat split; auto.
  - split; [|split; [|split; [|split]]]; try reflexivity.
    + eapply keeps_trans; [|apply set_ref_keeps]. split; auto.
    + unfold Github.set_ref. cbn [refs].
      rewrite !bool_decide_eq_true_2 by done. done.
Qed.

Lemma dry_run_spec d s cs : forall i w,
  let wr := Stagings.each_commit (fun (_ : nat) c =>
    Github.fast_forward (repository_name d (StagingCommits.repository_id c))
      (Stagings.tmp_target d s) (commit_sha d (StagingCommits.commit_id c)))
    i cs w in
  keeps_branches (Stagings.tmp_target d s) w wr.1 /\
  slept wr.1 = slept w /\
  ((forall k, (k < length cs)%nat -> ff_fate w (ff_calls w + k)%nat = None) ->
   wr.2 = None /\ ff_calls wr.1 = (ff_calls w + length cs)%nat) /\
  (forall k cause,
     (k < length cs)%nat ->
     (forall j, (j < k)%nat -> ff_fate w (ff_calls w + j)%nat = None) ->
     ff_fate w (ff_calls w + k)%nat = Some cause ->
     (exists repo, wr.2 = Some (FastForwardError repo cause)) /\
     ff_calls wr.1 = S (ff_calls w + k)).
Proof.
  induction cs as [|c cs IH]; intros i w; cbv zeta.
  - simpl. split; [apply keeps_refl|]. split; [done|]. split.
    + intros _. split; [done|lia].
    + intros k cause Hk. simpl in Hk. lia.
  - cbn [Stagings.each_commit].
    pose proof (fast_forward_spec
      (repository_name d (StagingCommits.repository_id c))
      (Stagings.tmp_target d s) (commit_sha d (StagingCommits.commit_id c)) w)
      as (Hk1 & Hc1 & Hs1 & Hr1).
    cbv zeta in Hk1, Hc1, Hs1, Hr1.
    set (w1 := Github.fast_forward _ _ _ w) in *.
    destruct (ff_fate w (ff_calls w)) as [cause0|] eqn:Hfate.
    + destruct Hr1 as [Hr1 _]. rewrite Hr1.
      split; [exact Hk1|]. split; [exact Hs1|]. split.
      * intros Hall. specialize (Hall 0%nat). rewrite Nat.add_0_r in Hall.
        rewrite Hall in Hfate by (simpl; lia). done.
      * intros k cause Hk Hbefore Hat.
        destruct k as [|k].
        -- rewrite Nat.add_0_r in Hat. rewrite Hat in Hfate. inversion Hfate; subst.
           split; [eauto|]. rewrite Hc1. lia.
        -- specialize (Hbefore 0%nat). rewrite Nat.add_0_r in Hbefore.
           rewrite Hbefore in Hfate by lia. done.
    + destruct Hr1 as [Hr1 _]. rewrite Hr1.
      specialize (IH (S i) w1.1). cbv zeta in IH.
      set (wr := Stagings.each_commit _ (S i) cs w1.1) in *.
      destruct IH as (Hk2 & Hs2 & Hok & Hfail).
      assert (Hfate2 : ff_fate w1.1 = ff_fate w) by apply Hk1.
      split; [eapply keeps_trans; eauto|].
      split; [etransitivity; [exact Hs2|exact Hs1]|]. split.
      * intros Hall. destruct Hok as [Hn Hc].
        { intros k Hk. rewrite Hfate2, Hc1.
          replace (S (ff_calls w) + k)%nat with (ff_calls w + S k)%nat by lia.
          apply Hall. simpl. lia. }
        split; [exact Hn|]. rewrite Hc, Hc1. simpl. lia.
      * intros k cause Hk Hbefore Hat.
        destruct k as [|k].
        { rewrite Nat.add_0_r in Hat. congruence. }
        destruct (Hfail k cause) as [Hrepo Hc].
        { simpl in Hk. lia. }
        { intros j Hj. rewrite Hfate2, Hc1.
          replace (S (ff_calls w) + j)%nat with (ff_calls w + S j)%nat by lia.
          apply Hbefore. lia. }
        { rewrite Hfate2, Hc1.
          replace (S (ff_calls w) + k)%nat with (ff_calls w + S k)%nat by lia.
          exact Hat. }
        split; [exact Hrepo|]. rewrite Hc, Hc1. lia.
Qed.

Lemma refusal_search (fate : nat -> option string) (base n : nat) :
  (forall j, (j < n)%nat -> fate (base + j)%nat = None) \/
  (exists k cause, (k < n)%nat /\
    (forall j, (j < k)%nat -> fate (base + j)%nat = None) /\
    fate (base + k)%nat = Some cause).
Proof.
  induction n as [|n [IH|IH]].
  - left. intros j Hj. lia.
  - destruct (fate (base + n)%nat) as [cause|] eqn:Hn.
    + right. exists n, cause. split; [lia|]. split; [|done].
      intros j Hj. apply IH. done.
    + left. intros j Hj. destruct (decide (j = n)) as [->|Hne]; [done|].
      apply IH. lia.
  - right. destruct IH as (k & cause & Hk & Hb & Ha). exists k, cause.
    split; [lia|]. done.
Qed.

Lemma first_refusal (fate : nat -> option string) (base n : nat) :
  (exists k, (k < n)%nat /\ is_Some (fate (base + k)%nat)) ->
  exists k cause, (k < n)%nat /\
    (forall j, (j < k)%nat -> fate (base + j)%nat = None) /\
    fate (base + k)%nat = Some cause.
Proof.
  intros (k & Hk & [c Hc]).
  destruct (refusal_search fate base n) as [Hall|H]; [|exact H].
  rewrite Hall in Hc by done. done.
Qed.

Lemma safety_dance_dry_failure d s cs w :
  (exists k, (k < length cs)%nat /\ is_Some (ff_fate w (ff_calls w + k)%nat)) ->
  exists k repo cause,
    (k < length cs)%nat /\
    (forall j, (j < k)%nat -> ff_fate w (ff_calls w + j)%nat = None) /\
    ff_fate w (ff_calls w + k)%nat = Some cause /\
    let wr := Stagings._safety_dance d s cs w in
    wr.2 = Some (FastForwardError repo cause) /\
    keeps_branches (Stagings.tmp_target d s) w wr.1 /\
    ff_calls wr.1 = S (ff_calls w + k) /\
    slept wr.1 = slept w.
Proof.
  intros Hex. apply first_refusal in Hex as (k & cause & Hk & Hbefore & Hat).
  unfold Stagings._safety_dance.
  destruct (reset_tmps_spec d s cs w) as (Hk0 & Hc0 & Hs0). cbv zeta in Hk0, Hc0, Hs0.
  set (w0 := Stagings.reset_tmps d s cs w) in *.
  destruct (dry_run_spec d s cs 0%nat w0) as (Hk1 & Hs1 & _ & Hfail).
  cbv zeta in Hk1, Hs1, Hfail.
  assert (Hf0 : ff_fate w0 = ff_fate w) by apply Hk0.
  destruct (Hfail k cause Hk) as [[repo Hr] Hc].
  { intros j Hj. rewrite Hf0, Hc0. auto. }
  { rewrite Hf0, Hc0. exact Hat. }
  exists k, repo, cause. split; [exact Hk|]. split; [exact Hbefore|]. split; [exact Hat|].
  cbv zeta. unfold Stagings.dry_run. rewrite Hr.
  split; [exact Hr|]. split; [eapply keeps_trans; eauto|].
  split; [rewrite Hc, Hc0; reflexivity|]. rewrite Hs1, Hs0. reflexivity.
Qed.

(** C3. When a fast-forward of the dry run of a successful, active
    staging is refused, [check_status] leaves every branch but the
    temporary ones as it was, in particular the target branch of every
    repository; the protocol ends on the fast-forward error of the first
    refused request, without any further request, and the staging is
    deactivated in state [ff_failed], the cause being its reason. *)
Theorem dry_run_failure_leaves_branches format_template next_freeze now i env w s :
  stagings (db env) !! i = Some s ->
  Staging.active s = true ->
  Staging.state s = "success" ->
  (exists k, (k < length (Staging.commits s))%nat /\
             is_Some (ff_fate w (ff_calls w + k)%nat)) ->
  exists env' w' s' k repo cause,
    Stagings.check_status format_template next_freeze now i env w = (env', w', None) /\
    (* the dry run stopped at its first refused request *)
    (k < length (Staging.commits s))%nat /\
    ff_fate w (ff_calls w + k)%nat = Some cause /\
    (Stagings._safety_dance (db env) s (Staging.commits s) w).2
      = Some (FastForwardError repo cause) /\
    ff_calls w' = S (ff_calls w + k) /\
    (* only temporary branches were written *)
    (forall r branch, branch <> Stagings.tmp_target (db env) s ->
                      refs w' r branch = refs w r branch) /\
    (forall r, refs w' r (branch_name (db env) (Staging.target s))
               = refs w r (branch_name (db env) (Staging.target s))) /\
    (* the staging is over, its fast-forward failed *)
    stagings (db env') !! i = Some s' /\
    Staging.state s' = "ff_failed" /\
    Staging.active s' = false /\
    Staging.reason s' = Some cause.
Proof.
  intros Hi Hact Hst Hex.
  destruct (safety_dance_dry_failure (db env) s (Staging.commits s) w Hex)
    as (k & repo & cause & Hk & _ & Hat & Hr & Hkeep & Hcalls & _).
  cbv zeta in Hr, Hkeep, Hcalls.
  unfold Stagings.check_status. rewrite Hi, Hact. cbn [negb].
  rewrite bool_decide_eq_true_2 by done.
  set (wr := Stagings._safety_dance (db env) s (Staging.commits s) w) in *.
  rewrite Hr.
  set (v1 := {| Stagings.vals_state := Some "ff_failed"; Stagings.vals_active := None;
                Stagings.vals_reason := Some (Some cause);
                Stagings.vals_timeout_limit := None;
                Stagings.vals_statuses_cache := None |}).
  destruct (write_one_lookup i v1 (db env) s Hi) as (s1 & Hs1 & Hw1).
  set (v2 := {| Stagings.vals_state := None; Stagings.vals_active := Some false;
                Stagings.vals_reason := None; Stagings.vals_timeout_limit := None;
                Stagings.vals_statuses_cache := None |}).
  destruct (write_one_lookup i v2 _ s1 Hs1) as (s2 & Hs2 & Hw2).
  eexists _, wr.1, s2, k, repo, cause.
  split; [reflexivity|].
  split; [exact Hk|]. split; [exact Hat|]. split; [reflexivity|].
  split; [exact Hcalls|].
  split; [apply Hkeep|].
  split; [intros r; apply Hkeep, tmp_target_fresh|].
  split; [exact Hs2|].
  destruct Hw1 as (_&_&_&_&_&Hst1&_&Hre1&_), Hw2 as (_&_&_&_&_&Hst2&Hact2&Hre2&_).
  simpl in *. split; [congruence|]. split; [done|]. congruence.
Qed.

Lemma dry_run_failure_leaves_branches_witness :
  let w := sample_world (fun n => if (n =? 1)%nat then Some "diverged" else None) in
  let s := sample_staging "success" true [1; 2; 3; 4] [head_of 1 1; head_of 2 2] in
  stagings (db success_env) !! 1 = Some s /\
  Staging.active s = true /\ Staging.state s = "success" /\
  (exists k, (k < length (Staging.commits s))%nat /\
             is_Some (ff_fate w (ff_calls w + k)%nat)) /\
  exists env' w',
    Stagings.check_status no_template no_freeze 5000 1 success_env w = (env', w', None) /\
    refs w' "odoo" "master" = "old" /\ refs w' "enterprise" "master" = "old" /\
    Staging.state <$> stagings (db env') !! 1 = Some "ff_failed".
Proof.
  intros w s.
  assert (H1 : stagings (db success_env) !! 1 = Some s) by reflexivity.
  assert (H2 : Staging.active s = true) by reflexivity.
  assert (H3 : Staging.state s = "success") by reflexivity.
  assert (H4 : exists k, (k < length (Staging.commits s))%nat /\
                         is_Some (ff_fate w (ff_calls w + k)%nat)).
  { exists 1%nat. split; [simpl; lia|]. eexists. reflexivity. }
  split; [exact H1|]. split; [exact H2|]. split; [exact H3|]. split; [exact H4|].
  destruct (dry_run_failure_leaves_branches no_template no_freeze 5000 1
              success_env w s H1 H2 H3 H4)
    as (env' & w' & s' & k & repo & cause & Hrun & _ & _ & _ & _ & _ & Hreal & Hs' & Hst & _).
  exists env', w'. split; [exact Hrun|].
  split; [exact (Hreal "odoo")|]. split; [exact (Hreal "enterprise")|].
  rewrite Hs'. simpl. rewrite Hst. reflexivity.
Defined.

Lemma retry_success ps : forall i repo branch sha w k,
  i <> 0%nat ->
  (k < length ps)%nat ->
  forallb nonzero (take k ps) = true ->
  (forall j, (j < k)%nat -> ff_fate w (ff_calls w + j)%nat <> None) ->
  ff_fate w (ff_calls w + k)%nat = None ->
  let wr := Stagings.fast_forward_retry i repo branch sha ps w in
  wr.2 = None /\
  ff_calls wr.1 = S (ff_calls w + k) /\
  slept wr.1 = slept w ++ take k ps /\
  refs wr.1 repo branch = sha /\
  ff_fate wr.1 = ff_fate w.
Proof.
  induction ps as [|p ps IH]; intros i repo branch sha w k Hi Hk Hnz Hbefore Hat; cbv zeta.
  - simpl in Hk. lia.
  - cbn [Stagings.fast_forward_retry].
    pose proof (fast_forward_spec repo branch sha w) as (Hk1 & Hc1 & Hs1 & Hr1).
    cbv zeta in Hk1, Hc1, Hs1, Hr1.
    set (w1 := Github.fast_forward repo branch sha w) in *.
    destruct k as [|k].
    + rewrite Nat.add_0_r in Hat. rewrite Hat in Hr1. destruct Hr1 as [Hr1 Href].
      rewrite Hr1. rewrite Hc1, Hs1. simpl. rewrite app_nil_r, Nat.add_0_r.
      repeat split; try done. apply Hk1.
    + destruct (ff_fate w (ff_calls w)) as [cause|] eqn:Hf.
      2:{ exfalso. apply (Hbefore 0%nat); [lia|]. rewrite Nat.add_0_r. done. }
      destruct Hr1 as [Hr1 Href]. rewrite Hr1.
      cbn [take forallb] in Hnz. apply andb_true_iff in Hnz as [Hp Hnz].
      replace (negb (i =? 0)%nat) with true.
      2:{ symmetry. apply negb_true_iff, Nat.eqb_neq. done. }
      unfold nonzero in Hp. rewrite Hp. cbn [andb].
      assert (Hf1 : ff_fate w1.1 = ff_fate w) by apply Hk1.
      specialize (IH i repo branch sha (sleep p w1.1) k Hi).
      cbv zeta in IH. destruct IH as (H1 & H2 & H3 & H4 & H5).
      * simpl in Hk. lia.
      * exact Hnz.
      * intros j Hj. cbn [sleep ff_fate ff_calls]. rewrite Hf1, Hc1.
        replace (S (ff_calls w) + j)%nat with (ff_calls w + S j)%nat by lia.
        apply Hbefore. lia.
      * cbn [sleep ff_fate ff_calls]. rewrite Hf1, Hc1.
        replace (S (ff_calls w) + k)%nat with (ff_calls w + S k)%nat by lia. exact Hat.
      * split; [exact H1|]. split.
        { rewrite H2. cbn [sleep ff_calls]. rewrite Hc1. lia. }
        split.
        { rewrite H3. cbn [sleep slept take]. rewrite Hs1, <- app_assoc. reflexivity. }
        split; [exact H4|]. rewrite H5. cbn [sleep ff_fate]. exact Hf1.
Qed.

Lemma retry_exhausted qs : forall z i repo branch sha w,
  i <> 0%nat ->
  forallb nonzero qs = true ->
  nonzero z = false ->
  (forall j, (j <= length qs)%nat -> ff_fate w (ff_calls w + j)%nat <> None) ->
  let wr := Stagings.fast_forward_retry i repo branch sha (qs ++ [z]) w in
  exists cause,
    ff_fate w (ff_calls w + length qs)%nat = Some cause /\
    wr.2 = Some (FastForwardError repo cause) /\
    ff_calls wr.1 = S (ff_calls w + length qs) /\
    slept wr.1 = slept w ++ qs /\
    refs wr.1 = refs w.
Proof.
  induction qs as [|p qs IH]; intros z i repo branch sha w Hi Hnz Hz Hall; cbv zeta.
  - cbn [app Stagings.fast_forward_retry length].
    pose proof (fast_forward_spec repo branch sha w) as (Hk1 & Hc1 & Hs1 & Hr1).
    cbv zeta in Hk1, Hc1, Hs1, Hr1.
    set (w1 := Github.fast_forward repo branch sha w) in *.
    destruct (ff_fate w (ff_calls w)) as [cause|] eqn:Hf.
    2:{ exfalso. apply (Hall 0%nat); [simpl; lia|]. rewrite Nat.add_0_r. done. }
    destruct Hr1 as [Hr1 Href]. rewrite Hr1.
    unfold nonzero in Hz. rewrite Hz, andb_false_r.
    exists cause. rewrite Nat.add_0_r, app_nil_r. repeat split; done.
  - cbn [app Stagings.fast_forward_retry length].
    pose proof (fast_forward_spec repo branch sha w) as (Hk1 & Hc1 & Hs1 & Hr1).
    cbv zeta in Hk1, Hc1, Hs1, Hr1.
    set (w1 := Github.fast_forward repo branch sha w) in *.
    destruct (ff_fate w (ff_calls w)) as [cause0|] eqn:Hf.
    2:{ exfalso. apply (Hall 0%nat); [simpl; lia|]. rewrite Nat.add_0_r. done. }
    destruct Hr1 as [Hr1 Href]. rewrite Hr1.
    cbn [forallb] in Hnz. apply andb_true_iff in Hnz as [Hp Hnz].
    replace (negb (i =? 0)%nat) with true.
    2:{ symmetry. apply negb_true_iff, Nat.eqb_neq. done. }
    unfold nonzero in Hp. rewrite Hp. cbn [andb].
    assert (Hf1 : ff_fate w1.1 = ff_fate w) by apply Hk1.
    destruct (IH z i repo branch sha (sleep p w1.1) Hi Hnz Hz) as (cause & H1 & H2 & H3 & H4 & H5).
    { intros j Hj. cbn [sleep ff_fate ff_calls]. rewrite Hf1, Hc1.
      replace (S (ff_calls w) + j)%nat with (ff_calls w + S j)%nat by lia.
      apply Hall. simpl. lia. }
    exists cause. cbn [sleep ff_fate ff_calls slept refs] in *.
    rewrite Hf1, Hc1 in H1.
    replace (S (ff_calls w) + length qs)%nat with (ff_calls w + S (length qs))%nat in H1 by lia.
    split; [exact H1|]. split; [exact H2|]. split; [rewrite H3, Hc1; lia|].
    split; [rewrite H4, Hs1, <- app_assoc; reflexivity|]. congruence.
Qed.

Lemma retry_first repo branch sha p ps w cause :
  ff_fate w (ff_calls w) = Some cause ->
  let wr := Stagings.fast_forward_retry 0 repo branch sha (p :: ps) w in
  wr.2 = Some (FastForwardError repo cause) /\
  ff_calls wr.1 = S (ff_calls w) /\
  slept wr.1 = slept w /\
  refs wr.1 = refs w.
Proof.
  intros Hf. cbv zeta. cbn [Stagings.fast_forward_retry].
  pose proof (fast_forward_spec repo branch sha w) as (Hk1 & Hc1 & Hs1 & Hr1).
  cbv zeta in Hk1, Hc1, Hs1, Hr1. rewrite Hf in Hr1. destruct Hr1 as [Hr1 Href].
  rewrite Hr1. cbn [Nat.eqb negb andb]. repeat split; done.
Qed.

Lemma each_commit_app f cs1 : forall i cs2 w,
  Stagings.each_commit f i (cs1 ++ cs2) w =
  match (Stagings.each_commit f i cs1 w).2 with
  | None => Stagings.each_commit f (i + length cs1) cs2 (Stagings.each_commit f i cs1 w).1
  | Some _ => Stagings.each_commit f i cs1 w
  end.
Proof.
  induction cs1 as [|c cs1 IH]; intros i cs2 w.
  - simpl. rewrite Nat.add_0_r. reflexivity.
  - cbn [app Stagings.each_commit length].
    destruct (f i c w).2 eqn:Hr.
    + rewrite Hr. reflexivity.
    + rewrite IH. replace (S i + length cs1)%nat with (i + S (length cs1))%nat by lia.
      reflexivity.
Qed.

Lemma real_run_at d s cs1 c cs2 w w1 :
  Stagings.real_run d s cs1 w = (w1, None) ->
  Stagings.real_run d s (cs1 ++ c :: cs2) w =
  let wr := Stagings.fast_forward_retry (length cs1)
              (repository_name d (StagingCommits.repository_id c))
              (branch_name d (Staging.target s))
              (commit_sha d (StagingCommits.commit_id c)) pauses w1 in
  match wr.2 with
  | None => Stagings.each_commit (fun i c =>
              Stagings.fast_forward_retry i
                (repository_name d (StagingCommits.repository_id c))
                (branch_name d (Staging.target s))
                (commit_sha d (StagingCommits.commit_id c)) pauses)
              (S (length cs1)) cs2 wr.1
  | Some _ => wr
  end.
Proof.
  unfold Stagings.real_run. intros H. rewrite each_commit_app, H. reflexivity.
Qed.

(** The fast-forward of the first repository is not made again: the
    dry run passes, the first real request is refused once, and the
    protocol ends on that error after three requests and no pause. *)
Lemma first_repository_not_retried :
  let w := sample_world (fun n => if (n =? 2)%nat then Some "bad gateway" else None) in
  let s := sample_staging "success" true [1; 2; 3; 4] [head_of 1 1; head_of 2 2] in
  let r := Stagings._safety_dance (staging_db "success" true ∅) s (Staging.commits s) w in
  (* the dry run passed, the first real request failed once ... *)
  ff_fate w 0%nat = None /\ ff_fate w 1%nat = None /\
  ff_fate w 2%nat = Some "bad gateway" /\
  (* ... and was not made again, although it would have passed *)
  ff_fate w 3%nat = None /\
  r.2 = Some (FastForwardError "odoo" "bad gateway") /\
  ff_calls r.1 = 3%nat /\
  slept r.1 = [] /\
  refs r.1 "odoo" "master" = "old".
Proof. vm_compute. repeat split; reflexivity. Qed.

(** C4, amended. On the real branches, the fast-forward of every
    repository after the first is made again when it is refused, after
    pauses of 0.1, 0.3, 0.5 and 0.9 seconds, five times at most; the
    failure of the fifth request is raised and the repositories after it
    are not tried. The first repository gets one request, whose failure
    is raised at once. *)
Theorem real_branches_retry_after_first d s cs1 c cs2 w w1 :
  Stagings.real_run d s cs1 w = (w1, None) ->
  let i := length cs1 in
  let repo := repository_name d (StagingCommits.repository_id c) in
  let branch := branch_name d (Staging.target s) in
  let sha := commit_sha d (StagingCommits.commit_id c) in
  let refused := fun j => ff_fate w1 (ff_calls w1 + j)%nat <> None in
  (* the pauses: below a second, increasing, then none *)
  pauses = [1 # 10; 3 # 10; 5 # 10; 9 # 10; 0]%Q /\
  ((0 < 1 # 10)%Q /\ (1 # 10 < 3 # 10)%Q /\ (3 # 10 < 5 # 10)%Q /\
   (5 # 10 < 9 # 10)%Q /\ (9 # 10 < 1)%Q) /\
  (* after the first repository, a refused request is made again after
     a pause, up to five times in all *)
  (i <> 0%nat ->
   forall k, (k < 5)%nat ->
     (forall j, (j < k)%nat -> refused j) ->
     ff_fate w1 (ff_calls w1 + k)%nat = None ->
     exists w2,
       Stagings.real_run d s (cs1 ++ [c]) w = (w2, None) /\
       ff_calls w2 = S (ff_calls w1 + k) /\
       slept w2 = slept w1 ++ take k pauses /\
       refs w2 repo branch = sha) /\
  (* the failure of the fifth request is raised, the repositories
     after it are not tried *)
  (i <> 0%nat ->
   (forall j, (j < 5)%nat -> refused j) ->
   exists w2 cause,
     ff_fate w1 (ff_calls w1 + 4)%nat = Some cause /\
     Stagings.real_run d s (cs1 ++ c :: cs2) w
       = (w2, Some (FastForwardError repo cause)) /\
     ff_calls w2 = (ff_calls w1 + 5)%nat /\
     slept w2 = slept w1 ++ [1 # 10; 3 # 10; 5 # 10; 9 # 10]%Q /\
     refs w2 = refs w1) /\
  (* the first repository gets one request, its failure is raised *)
  (i = 0%nat ->
   forall cause,
     ff_fate w1 (ff_calls w1) = Some cause ->
     exists w2,
       Stagings.real_run d s (cs1 ++ c :: cs2) w
         = (w2, Some (FastForwardError repo cause)) /\
       ff_calls w2 = S (ff_calls w1) /\
       slept w2 = slept w1 /\
       refs w2 = refs w1).
Proof.
  intros Hrun i repo branch sha refused.
  split; [reflexivity|].
  split; [unfold Qlt; simpl; lia|].
  split; [|split].
  - intros Hi k Hk Hbefore Hat.
    destruct (retry_success pauses i repo branch sha w1 k Hi) as (H1 & H2 & H3 & H4 & _);
      [simpl; lia| |exact Hbefore|exact Hat|].
    { do 5 (destruct k as [|k]; [reflexivity|]). lia. }
    cbv zeta in H1, H2, H3, H4.
    rewrite (real_run_at d s cs1 c [] w w1 Hrun). cbv zeta.
    fold i repo branch sha.
    destruct (Stagings.fast_forward_retry i repo branch sha pauses w1) as [w2 r] eqn:Hwr.
    cbn [fst snd] in *. subst r. exists w2. repeat split; done.
  - intros Hi Hall.
    destruct (retry_exhausted [1 # 10; 3 # 10; 5 # 10; 9 # 10]%Q 0%Q i repo branch sha w1 Hi)
      as (cause & H1 & H2 & H3 & H4 & H5); [reflexivity|reflexivity| |].
    { intros j Hj. apply Hall. simpl in Hj. lia. }
    cbv zeta in H2, H3, H4, H5. change ([1 # 10; 3 # 10; 5 # 10; 9 # 10]%Q ++ [0%Q]) with pauses in *.
    rewrite (real_run_at d s cs1 c cs2 w w1 Hrun). cbv zeta.
    fold i repo branch sha.
    destruct (Stagings.fast_forward_retry i repo branch sha pauses w1) as [w2 r] eqn:Hwr.
    cbn [fst snd length] in *. subst r. exists w2, cause.
    split; [exact H1|]. split; [reflexivity|]. split; [rewrite H3; lia|]. split; done.
  - intros Hi cause Hf.
    destruct (retry_first repo branch sha (1 # 10)%Q [3 # 10; 5 # 10; 9 # 10; 0]%Q w1 cause Hf)
      as (H1 & H2 & H3 & H4).
    cbv zeta in H1, H2, H3, H4. change ((1 # 10)%Q :: [3 # 10; 5 # 10; 9 # 10; 0]%Q) with pauses in *.
    rewrite (real_run_at d s cs1 c cs2 w w1 Hrun). cbv zeta.
    fold i repo branch sha. rewrite Hi.
    destruct (Stagings.fast_forward_retry 0 repo branch sha pauses w1) as [w2 r] eqn:Hwr.
    cbn [fst snd] in *. subst r. exists w2. repeat split; done.
Qed.

Lemma real_branches_retry_after_first_witness :
  let d := staging_db "success" true ∅ in
  let s := sample_staging "success" true [1; 2; 3; 4] [head_of 1 1; head_of 2 2] in
  Stagings.real_run d s [head_of 1 1] (sample_world flaky) = (after_first, None) /\
  exists w2,
    Stagings.real_run d s ([head_of 1 1] ++ [head_of 2 2]) (sample_world flaky)
      = (w2, None) /\
    ff_calls w2 = 3%nat /\
    slept w2 = [1 # 10]%Q /\
    refs w2 "enterprise" "master" = "def".
Proof.
  intros d s.
  assert (H : Stagings.real_run d s [head_of 1 1] (sample_world flaky)
              = (after_first, None)) by reflexivity.
  split; [exact H|].
  destruct (real_branches_retry_after_first d s [head_of 1 1] (head_of 2 2) []
              (sample_world flaky) after_first H) as (_ & _ & Hretry & _).
  destruct (Hretry (Nat.neq_succ_0 0) 1%nat) as (w2 & Hrun & Hcalls & Hslept & Href).
  - lia.
  - intros j Hj. assert (j = 0%nat) as -> by lia. discriminate.
  - reflexivity.
  - exists w2. split; [exact Hrun|]. split; [exact Hcalls|]. split; [exact Hslept|].
    exact Href.
Defined.

(** ** The command interpreter *)













Section Interpreter.
Variable percent : string -> list string -> string.
Variable format_template : string -> DB -> Z -> list string -> string.
Variable str_command : command -> string.
Variable find_commands : string -> list string.
Variable parse_line : string -> string + list command.
Variable maybe_update_limit : DB -> Z -> string -> DB * (bool * string).



End Interpreter.



(** ** Writes on pull requests *)
















Section Writes.
Variable percent : string -> list string -> string.
Variable format_template : string -> DB -> Z -> list string -> string.
Variable user_partner : option Z.
Variable new_batch : Z -> Batch.row.











End Writes.


(** * Further properties of the models *)

(** ** Frames and relations shared by the proofs *)

(** ** Frames *)

Lemma same_but_prs_refl d : same_but_prs d d.
Proof. repeat split. Qed.

Lemma same_but_prs_trans d1 d2 d3 :
  same_but_prs d1 d2 -> same_but_prs d2 d3 -> same_but_prs d1 d3.
Proof.
  unfold same_but_prs. intros H1 H2.
  destruct H1 as (?&?&?&?&?&?&?&?&?&?&?&?), H2 as (?&?&?&?&?&?&?&?&?&?&?&?).
  repeat split; congruence.
Qed.

Lemma pr_update_same i f d : same_but_prs d (PullRequests.update i f d).
Proof. repeat split. Qed.

Lemma same_but_prs_fold {A} (f : DB -> A -> DB) (l : list A) :
  (forall d x, same_but_prs d (f d x)) ->
  forall d, same_but_prs d (fold_left f l d).
Proof.
  intros Hf. induction l as [|x l IH]; intros d; simpl.
  - apply same_but_prs_refl.
  - eapply same_but_prs_trans; [apply Hf|apply IH].
Qed.

Lemma compute_state_same d self : same_but_prs d (PullRequests._compute_state d self).
Proof.
  unfold PullRequests._compute_state. apply same_but_prs_fold.
  intros d0 x. destruct (pull_requests d0 !! x).
  - apply pr_update_same.
  - apply same_but_prs_refl.
Qed.

Lemma assign_same i f d : same_but_prs d (PullRequestMethods.assign i f d).
Proof.
  unfold PullRequestMethods.assign.
  eapply same_but_prs_trans; [apply pr_update_same|apply compute_state_same].
Qed.

Lemma assign_lookup i f d pr :
  pull_requests d !! i = Some pr ->
  pull_requests (PullRequestMethods.assign i f d) !! i
  = Some (PullRequest.set_state
            (PullRequests.compute_state_value d (f pr)) (f pr)).
Proof.
  intros Hi. unfold PullRequestMethods.assign.
  rewrite compute_state_lookup, pr_update_lookup.
  rewrite (bool_decide_eq_true_2 (i = i)), Hi by done.
  cbn [fmap option_fmap option_map].
  rewrite (bool_decide_eq_true_2 (i ∈ [i])) by (apply list_elem_of_singleton; done).
  rewrite (compute_state_value_batch d) by reflexivity. reflexivity.
Qed.

Lemma assign_lookup_ne i j f d :
  i <> j ->
  pull_requests (PullRequestMethods.assign i f d) !! j = pull_requests d !! j.
Proof.
  intros Hij. unfold PullRequestMethods.assign.
  rewrite compute_state_lookup, pr_update_lookup.
  rewrite (bool_decide_eq_false_2 (i = j)) by done.
  rewrite (bool_decide_eq_false_2 (j ∈ [i])).
  - destruct (pull_requests d !! j); done.
  - rewrite list_elem_of_singleton. congruence.
Qed.

Lemma fold_update_prs (f : PullRequest.row -> PullRequest.row) (prs : list Z) :
  forall d,
  pull_requests (fold_left (fun db p => PullRequests.update p f db) prs d)
  = fold_left (fun m p => alter f p m) prs (pull_requests d) /\
  same_but_prs d (fold_left (fun db p => PullRequests.update p f db) prs d).
Proof.
  induction prs as [|p prs IH]; intros d; simpl.
  - split; [done|apply same_but_prs_refl].
  - destruct (IH (PullRequests.update p f d)) as [H1 H2]. split; [exact H1|].
    eapply same_but_prs_trans; [apply pr_update_same|exact H2].
Qed.

Lemma send_template_frame ft x p args d :
  pull_requests (Stagings.send_template ft x p args d) = pull_requests d /\
  batch (Stagings.send_template ft x p args d) = batch d /\
  stagings (Stagings.send_template ft x p args d) = stagings d /\
  split (Stagings.send_template ft x p args d) = split d /\
  commit (Stagings.send_template ft x p args d) = commit d /\
  partner (Stagings.send_template ft x p args d) = partner d /\
  fetch_job (Stagings.send_template ft x p args d) = fetch_job d.
Proof.
  unfold Stagings.send_template. destruct (pull_requests d !! p); done.
Qed.

Lemma send_template_feedback ft x p args d r :
  pull_requests d !! p = Some r ->
  feedback (Stagings.send_template ft x p args d) =
  feedback d ++ [{| Feedback.repository := PullRequest.repository r;
                    Feedback.pull_request := PullRequest.number r;
                    Feedback.message := Some (ft x d p args);
                    Feedback.close := false |}].
Proof. intros H. unfold Stagings.send_template. rewrite H. reflexivity. Qed.

(** The rows of a staging which differ by the frozen statuses at most. *)
Lemma written_trans v s1 s2 s3 :
  written v s1 s2 -> written Stagings.no_vals s2 s3 -> written v s1 s3.
Proof.
  unfold written. cbn [Stagings.no_vals Stagings.vals_state Stagings.vals_active
    Stagings.vals_reason Stagings.vals_timeout_limit default].
  intros (?&?&?&?&?&?&?&?&?) (?&?&?&?&?&?&?&?&?). repeat split; congruence.
Qed.

Lemma written_refl s : written Stagings.no_vals s s.
Proof. repeat split. Qed.

Lemma apply_vals_idem v s :
  Stagings.apply_vals v (Stagings.apply_vals v s) = Stagings.apply_vals v s.
Proof.
  unfold Stagings.apply_vals, Stagings.assign.
  destruct (Stagings.vals_state v), (Stagings.vals_active v),
    (Stagings.vals_reason v), (Stagings.vals_timeout_limit v),
    (Stagings.vals_statuses_cache v); reflexivity.
Qed.

Lemma super_write_lookup self v d j :
  stagings (Stagings.super_write self v d) !! j =
  if bool_decide (j ∈ self) then Stagings.apply_vals v <$> stagings d !! j
  else stagings d !! j.
Proof.
  assert (H : forall d, stagings (Stagings.super_write self v d)
              = fold_left (fun m i => alter (Stagings.apply_vals v) i m) self (stagings d)).
  { unfold Stagings.super_write. induction self as [|i self IH]; intros d0; simpl; [done|].
    rewrite IH. reflexivity. }
  rewrite H. apply fold_alter_lookup. apply apply_vals_idem.
Qed.

Lemma freeze_written (pp : list Z) : forall d j s,
  stagings d !! j = Some s ->
  exists s', stagings (fold_left (fun db i =>
      match stagings db !! i with
      | Some st =>
        if bool_decide (Staging.state st ≠ "pending")
        then Stagings.update i (Staging.set_statuses_cache
               (Some (Stagings.rendered_statuses db st))) db
        else db
      | None => db
      end) pp d) !! j = Some s' /\ written Stagings.no_vals s s'.
Proof.
  induction pp as [|i pp IH]; intros d j s Hj; simpl.
  - exists s. split; [done|apply written_refl].
  - destruct (stagings d !! i) as [st|] eqn:Hi; [|apply IH; done].
    case_bool_decide; [|apply IH; done].
    destruct (decide (i = j)) as [->|Hne].
    + assert (st = s) as -> by congruence.
      edestruct IH as (s' & Hs' & Hw).
      { rewrite staging_update_lookup, bool_decide_eq_true_2, Hj by done. reflexivity. }
      exists s'. split; [exact Hs'|].
      destruct Hw as (?&?&?&?&?&?&?&?&?). repeat split; done.
    + apply IH. rewrite staging_update_lookup, bool_decide_eq_false_2; done.
Qed.

Lemma write_lookup self v d j s :
  stagings d !! j = Some s ->
  exists s', stagings (Stagings.write self v d) !! j = Some s' /\
    if bool_decide (j ∈ self) then written v s s' else s' = s.
Proof.
  intros Hj. case_bool_decide as Hin.
  2:{ exists s. rewrite write_other; done. }
  unfold Stagings.write. cbn [Stagings.vals_state].
  set (v' := {| Stagings.vals_state := Stagings.vals_state v;
                Stagings.vals_active := _;
                Stagings.vals_reason := _; Stagings.vals_timeout_limit := _;
                Stagings.vals_statuses_cache := None |}).
  assert (Hw : written v s (Stagings.apply_vals v' s)).
  { unfold written, Stagings.apply_vals, Stagings.assign, v'. simpl.
    destruct (Stagings.vals_state v), (Stagings.vals_active v),
      (Stagings.vals_reason v), (Stagings.vals_timeout_limit v); simpl; repeat split. }
  assert (H1 : stagings (Stagings.super_write self v' d) !! j
               = Some (Stagings.apply_vals v' s)).
  { rewrite super_write_lookup, bool_decide_eq_true_2, Hj; done. }
  destruct (Stagings.vals_state v).
  - destruct (freeze_written (List.filter (Stagings.state_is d "pending") self)
                _ _ _ H1) as (s' & Hs' & Hw').
    exists s'. split; [exact Hs'|]. eapply written_trans; eauto.
  - eauto.
Qed.

(** ** Rows which stay *)

Section RowsRel.
Variable R : Z -> PullRequest.row -> PullRequest.row -> Prop.
Hypothesis Hpre : row_preorder R.

Lemma row_rel_refl j r : R j r r.
Proof. apply Hpre. Qed.

Lemma row_rel_trans j r1 r2 r3 : R j r1 r2 -> R j r2 r3 -> R j r1 r3.
Proof. apply Hpre. Qed.

Lemma rows_rel_refl d : rows_rel R d d.
Proof. intros j r H. eexists. split; [exact H|apply row_rel_refl]. Qed.

Lemma rows_rel_trans d1 d2 d3 : rows_rel R d1 d2 -> rows_rel R d2 d3 -> rows_rel R d1 d3.
Proof.
  intros H1 H2 j r H. destruct (H1 j r H) as (r' & H' & E').
  destruct (H2 j r' H') as (r'' & H'' & E''). exists r''.
  split; [done|eapply row_rel_trans; eauto].
Qed.

Lemma rows_rel_same d d' : pull_requests d' = pull_requests d -> rows_rel R d d'.
Proof. intros E j r H. rewrite E. eexists. split; [exact H|apply row_rel_refl]. Qed.

Lemma rows_rel_update j f d :
  (forall r, R j r (f r)) -> rows_rel R d (PullRequests.update j f d).
Proof.
  intros Hf k r H. rewrite pr_update_lookup. case_bool_decide.
  - subst. rewrite H. simpl. eauto.
  - eexists. split; [exact H|apply row_rel_refl].
Qed.

Lemma rows_rel_compute_state d self :
  (forall j s r, j ∈ self -> R j r (PullRequest.set_state s r)) ->
  rows_rel R d (PullRequests._compute_state d self).
Proof.
  intros HR j r H. rewrite compute_state_lookup, H. simpl.
  eexists. split; [reflexivity|]. case_bool_decide; [auto|apply row_rel_refl].
Qed.

Lemma rows_rel_fold_outcome {A} (f : DB -> A -> outcome DB) (l : list A) :
  (forall d x d', x ∈ l -> f d x = Done d' -> rows_rel R d d') ->
  forall acc d',
    fold_left (fun acc x => d <<- acc ;; f d x) l acc = Done d' ->
    exists d0, acc = Done d0 /\ rows_rel R d0 d'.
Proof.
  induction l as [|x l IH]; intros Hf acc d' H; simpl in H.
  - subst. eexists. split; [reflexivity|apply rows_rel_refl].
  - apply IH in H as (d1 & H1 & Hs).
    2:{ intros d0 y d0' Hy. apply Hf, elem_of_cons. auto. }
    destruct acc as [d0| |]; simpl in H1; try done.
    exists d0. split; [done|]. eapply rows_rel_trans; [eapply Hf; eauto|done].
    apply elem_of_cons. auto.
Qed.

Lemma rows_rel_compute_statuses fuel d self d' :
  (forall j v r, j ∈ self -> R j r (PullRequest.set_statuses_full v r)) ->
  (forall j v r, j ∈ self -> R j r (PullRequest.set_status v r)) ->
  PullRequests._compute_statuses fuel d self = Done d' -> rows_rel R d d'.
Proof.
  unfold PullRequests._compute_statuses. intros HR1 HR2 H.
  apply (rows_rel_fold_outcome (fun db i =>
    match pull_requests db !! i with
    | None => Done db
    | Some pr =>
      ov <<- PullRequests._get_overrides fuel db (Some i) ;;
      let statuses := dict_merge (PullRequest.statuses pr) ov in
      let db := PullRequests.update i (PullRequest.set_statuses_full statuses) db in
      st <<- PullRequests.aggregate statuses (PullRequests.required_for_pr db pr) "success" ;;
      Done (PullRequests.update i (PullRequest.set_status st) db)
    end)) in H.
  - destruct H as (d0 & E & Hs). inversion E; subst. done.
  - clear H. intros d0 i d0' Hi H. destruct (pull_requests d0 !! i) as [pr|].
    + destruct (PullRequests._get_overrides fuel d0 (Some i)); simpl in H; try done.
      destruct (PullRequests.aggregate _ _ _); simpl in H; try done.
      inversion H; subst. eapply rows_rel_trans; apply rows_rel_update; auto.
    + inversion H; subst. apply rows_rel_refl.
Qed.

Lemma rows_rel_send_template ft x p args d :
  rows_rel R d (Stagings.send_template ft x p args d).
Proof. apply rows_rel_same, send_template_frame. Qed.

Lemma rows_rel_notify_new ft i ci st d :
  (forall v r, R i r (PullRequest.set_previous_failure v r)) ->
  rows_rel R d (PullRequestMethods._notify_ci_new_failure ft i ci st d).
Proof.
  intros HR. unfold PullRequestMethods._notify_ci_new_failure.
  destruct (pull_requests d !! i); [|apply rows_rel_refl].
  destruct (existsb _ _); [apply rows_rel_refl|].
  unfold PullRequestMethods._notify_ci_failed.
  case_bool_decide; [|apply rows_rel_update; done].
  eapply rows_rel_trans; [|apply rows_rel_send_template]. apply rows_rel_update; done.
Qed.

Lemma rows_rel_notify_failures ft i d d' :
  (forall v r, R i r (PullRequest.set_previous_failure v r)) ->
  PullRequestMethods.notify_failures ft i d = Done d' -> rows_rel R d d'.
Proof.
  intros HR. unfold PullRequestMethods.notify_failures.
  destruct (pull_requests d !! i) as [pr|]; [|intros H; inversion H; apply rows_rel_refl].
  case_bool_decide as Hfail; [|intros H; inversion H; apply rows_rel_refl].
  intros H.
  apply (rows_rel_fold_outcome (fun d (ci : StatusConfiguration.row) =>
    let ctx := StatusConfiguration.context ci in
    let pending : status_entry := {[ "state" := "pending" ]} in
    let st := match PullRequest.statuses_full pr !! ctx with
              | Some e => if dict_truthy e then e else pending
              | None => pending
              end in
    match st !! "state" with
    | None => Raised (KeyError "state")
    | Some v =>
      if PullRequests.is_failure v
      then Done (PullRequestMethods._notify_ci_new_failure ft i ctx st d)
      else Done d
    end)) in H.
  - destruct H as (d0 & E & Hs). inversion E; subst. done.
  - clear H. intros d0 ci d0' _ H. cbv zeta in H.
    destruct (_ !! "state"); [|done].
    destruct (PullRequests.is_failure _); inversion H; subst;
      [apply rows_rel_notify_new; done|apply rows_rel_refl].
Qed.

End RowsRel.

Lemma keeps_preorder {A} (col : PullRequest.row -> A) touched :
  row_preorder (keeps col touched).
Proof.
  split.
  - intros j r. unfold keeps. case_bool_decide; done.
  - intros j r1 r2 r3. unfold keeps. case_bool_decide; congruence.
Qed.

Lemma keeps_col_touched {A} (col : PullRequest.row -> A) touched j r r' :
  j ∈ touched -> col r' = col r -> keeps col touched j r r'.
Proof. intros H E. unfold keeps. rewrite bool_decide_eq_true_2; done. Qed.

Lemma list_empty_elem {A} (l : list A) : (forall x, x ∉ l) -> l = [].
Proof.
  destruct l as [|x l]; [done|]. intros H. exfalso. apply (H x), elem_of_cons. auto.
Qed.

Lemma pr_acl_nested d self user :
  let acl := PullRequestMethods._pr_acl d self user in
  (is_admin acl = true -> is_reviewer acl = true) /\
  (is_reviewer acl = true -> is_author acl = true).
Proof.
  cbv zeta. unfold PullRequestMethods._pr_acl.
  destruct self as [i|]; [|done].
  destruct (pull_requests d !! i) as [pr|]; [|done]. cbn [is_admin is_reviewer is_author].
  split; intros ->; done.
Qed.

(** ** Access rights *)

(** X1. The rights given by _pr_acl are nested: an admin is a reviewer
    and a reviewer has the rights of an author. Nobody has any right on
    the empty recordset; the author of a pull request has the rights of
    an author, a partner to whom the review of the pull request is
    delegated is a reviewer, and the author of a pull request is not
    admin of it when none of their review rows on its repository allows
    self review. *)
Theorem pr_acl_hierarchy db self user :
  let acl := PullRequestMethods._pr_acl db self user in
  (* the rights are nested *)
  (is_admin acl = true -> is_reviewer acl = true) /\
  (is_reviewer acl = true -> is_author acl = true) /\
  (* nobody has any right on the empty recordset *)
  (self ≫= (fun i => pull_requests db !! i) = None ->
   is_author acl = false) /\
  forall i pr, self = Some i -> pull_requests db !! i = Some pr ->
    (* the author of a pull request has the rights of an author *)
    (PullRequest.author pr = user -> is_author acl = true) /\
    (* a delegate is a reviewer *)
    (forall u p, user = Some u -> partner db !! u = Some p ->
       i ∈ Partner.delegate_reviewer p -> is_reviewer acl = true) /\
    (* review rights do not extend to one's own pull request *)
    (PullRequest.author pr = user ->
     (forall r, r ∈ review db -> Some (Review.partner_id r) = user ->
        Review.repository_id r = PullRequest.repository pr ->
        Review.self_review r = false) ->
     is_admin acl = false).
Proof.
  intros acl. subst acl. unfold PullRequestMethods._pr_acl.
  destruct self as [i|]; simpl.
  2:{ split; [done|]. split; [done|]. split; [done|]. intros; discriminate. }
  destruct (pull_requests db !! i) as [pr|] eqn:Hi; simpl.
  2:{ split; [done|]. split; [done|]. split; [done|].
      intros i' pr' [= <-] Hi'. congruence. }
  split; [intros ->; done|].
  split; [intros ->; done|].
  split; [done|].
  intros i' pr' [= <-] Hi'. assert (pr' = pr) as -> by congruence.
  split; [|split].
  - intros Ha. rewrite (bool_decide_eq_true_2 _ Ha). apply orb_true_r.
  - intros u p -> Hp Hin. simpl. rewrite Hp.
    rewrite (bool_decide_eq_true_2 _ Hin). apply orb_true_r.
  - intros Ha Hno. apply bool_decide_eq_false_2.
    assert (Hnil : forall l : list Review.row,
      (forall r, r ∈ l -> Some (Review.partner_id r) = user ->
         Review.repository_id r = PullRequest.repository pr ->
         Review.self_review r = false) ->
      List.filter (fun r : Review.row =>
          bool_decide (Some (Review.partner_id r) = user) &&
          bool_decide (Review.repository_id r = PullRequest.repository pr) &&
          (if bool_decide (PullRequest.author pr ≠ user) then Review.review r
           else Review.self_review r)) l = []).
    { induction l as [|r l IH]; intros Hl; simpl; [done|].
      rewrite IH by (intros r0 Hr0; apply Hl, elem_of_cons; auto).
      rewrite (bool_decide_eq_false_2 (PullRequest.author pr ≠ user)) by tauto.
      destruct (bool_decide (Some (Review.partner_id r) = user)) eqn:H1; simpl; [|done].
      destruct (bool_decide (Review.repository_id r = PullRequest.repository pr)) eqn:H2; simpl; [|done].
      apply bool_decide_eq_true_1 in H1, H2.
      rewrite Hl; [done| |done|done]. apply elem_of_cons; auto. }
    rewrite Hnil by done. done.
Qed.

Lemma pr_acl_hierarchy_witness :
  let acl := PullRequestMethods._pr_acl command_db (Some 1) (Some 7) in
  is_admin acl = false /\ is_reviewer acl = true /\ is_author acl = true.
Proof.
  pose proof (pr_acl_hierarchy command_db (Some 1) (Some 7)) as (_ & H2 & _ & H4).
  destruct (H4 1 (sample_pr 1 None ∅ ∅) eq_refl eq_refl) as (_ & H5 & _).
  assert (Hr : is_reviewer (PullRequestMethods._pr_acl command_db (Some 1) (Some 7)) = true).
  { apply (H5 7 sample_partner eq_refl eq_refl).
    unfold sample_partner. cbn [Partner.delegate_reviewer].
    apply elem_of_singleton_2. reflexivity. }
  split; [reflexivity|]. split; [exact Hr|]. exact (H2 Hr).
Defined.

(** ** Reviews *)

Section Approve.
Variable format_template : string -> DB -> Z -> list string -> string.

Lemma send_template_prs x p args d :
  pull_requests (Stagings.send_template format_template x p args d) = pull_requests d /\
  batch (Stagings.send_template format_template x p args d) = batch d /\
  stagings (Stagings.send_template format_template x p args d) = stagings d.
Proof.
  unfold Stagings.send_template. destruct (pull_requests d !! p); done.
Qed.

(** X2. For a pull request whose stored state is up to date, _approve
    records the author of the command as reviewer when that author has
    an email and the state is opened or validated, and the state becomes
    approved, respectively ready, as RPLUS says. Without email, or in
    any other state, it returns a message and leaves the pull requests
    as they were; in any case the review of a pull request whose status
    is failure queues one feedback for it. *)
Theorem approve_follows_rplus i author login db pr :
  pull_requests db !! i = Some pr ->
  (* the stored state is up to date *)
  PullRequest.state pr = PullRequests.compute_state_value db pr ->
  let r := PullRequestMethods._approve format_template i author login db in
  let email := str_or (PullRequestMethods.partner_of db author ≫= Partner.email) "" in
  (* a review is recorded when the reviewer has an email and the state
     allows a review: the state is then the one of RPLUS *)
  (forall s, email <> "" -> RPLUS (PullRequest.state pr) = Some s ->
     r.2 = None /\
     exists pr', pull_requests r.1 !! i = Some pr' /\
                 PullRequest.reviewed_by pr' = author /\
                 PullRequest.state pr' = s) /\
  (* otherwise the review is refused and the pull requests are as they
     were *)
  (email = "" \/ RPLUS (PullRequest.state pr) = None ->
   is_Some r.2 /\ pull_requests r.1 = pull_requests db) /\
  (* in any case a review of a failed pull request is answered *)
  (PullRequest.status pr = "failure" ->
   exists f, feedback r.1 = feedback db ++ [f] /\
             Feedback.pull_request f = PullRequest.number pr).
Proof.
  intros Hi Hst r email. subst r. unfold PullRequestMethods._approve. rewrite Hi.
  fold email. split; [|split].
  - intros s Hmail HR.
    rewrite (bool_decide_eq_false_2 (email = "")) by done.
    rewrite HR. cbn [PullRequests.truthy negb].
    assert (Hauthor : PullRequests.truthy author = true).
    { destruct author; [done|]. exfalso. apply Hmail. reflexivity. }
    set (d1 := PullRequestMethods.assign i (PullRequest.set_reviewed_by author) db).
    assert (H1 : exists pr', pull_requests d1 !! i = Some pr' /\
                   PullRequest.reviewed_by pr' = author /\ PullRequest.state pr' = s).
    { unfold d1, PullRequestMethods.assign.
      rewrite compute_state_lookup, pr_update_lookup.
      rewrite (bool_decide_eq_true_2 (i = i)), Hi by done.
      cbn [fmap option_fmap option_map].
      rewrite (bool_decide_eq_true_2 (i ∈ [i])) by (apply list_elem_of_singleton; done).
      eexists. split; [reflexivity|]. split; [reflexivity|].
      cbn [PullRequest.state PullRequest.set_state].
      rewrite (compute_state_value_batch db) by reflexivity.
      rewrite compute_state_value_chain in Hst |- *.
      cbn [PullRequest.closed PullRequest.error PullRequest.reviewed_by
           PullRequest.status PullRequest.set_reviewed_by PullRequest.batch_id].
      unfold PullRequests.batch_of in *.
      cbn [PullRequest.batch_id PullRequest.set_reviewed_by].
      rewrite Hauthor.
      unfold state_chain in *.
      repeat match type of Hst with
        | context [if ?b then _ else _] => destruct b
        | context [match ?b with true => _ | false => _ end] => destruct b
        end; rewrite Hst in HR; vm_compute in HR; congruence. }
    destruct (bool_decide (PullRequest.status pr = "failure")); cbn [fst snd].
    + split; [done|]. rewrite (proj1 (send_template_prs _ _ _ _)). exact H1.
    + split; [done|]. exact H1.
  - intros Hno.
    assert (exists m, (if bool_decide (email = "")
       then (db, Some "I must know your email before you can review PRs. Please contact an administrator.")
       else if negb (PullRequests.truthy (RPLUS (PullRequest.state pr)))
            then (db, Some "this PR is already reviewed, reviewing it again is useless.")
            else (PullRequestMethods.assign i (PullRequest.set_reviewed_by author) db, None))
       = (db, Some m)) as [m ->].
    { case_bool_decide as He; [eauto|]. destruct Hno as [? | ->]; [done|]. simpl. eauto. }
    cbn [fst snd]. split; [eauto|].
    destruct (bool_decide (PullRequest.status pr = "failure")); [|done].
    apply send_template_prs.
  - intros Hf. rewrite (bool_decide_eq_true_2 _ Hf). cbn [fst].
    set (r := if bool_decide (email = "") then _ else _).
    assert (Hr : feedback r.1 = feedback db /\
                 exists p, pull_requests r.1 !! i = Some p /\
                           PullRequest.number p = PullRequest.number pr).
    { unfold r. case_bool_decide; [cbn [fst]; eauto|].
      destruct (negb _); [cbn [fst]; eauto|]. cbn [fst].
      split; [apply assign_same|].
      rewrite (assign_lookup _ _ _ pr) by done. eexists. split; [reflexivity|]. done. }
    destruct Hr as (Hfb & p & Hp & Hn).
    unfold Stagings.send_template. rewrite Hp.
    eexists. split; [cbn [feedback set_feedback]; rewrite Hfb; reflexivity|]. exact Hn.
Qed.
End Approve.

Lemma approve_follows_rplus_witness :
  exists pr', pull_requests
      (PullRequestMethods._approve no_template 1 (Some 7) "rev" command_db).1 !! 1
      = Some pr' /\
    PullRequest.reviewed_by pr' = Some 7 /\ PullRequest.state pr' = "approved".
Proof.
  pose proof (approve_follows_rplus no_template 1 (Some 7) "rev" command_db
                (sample_pr 1 None ∅ ∅) eq_refl eq_refl) as (H & _).
  apply (H "approved"); [discriminate|reflexivity].
Defined.

(** ** The frozen statuses of a staging *)

Lemma rendered_statuses_ext d d' s s' :
  commit d' = commit d -> repository d' = repository d ->
  Staging.heads s' = Staging.heads s ->
  Staging.statuses_cache s' = Staging.statuses_cache s ->
  Stagings.rendered_statuses d' s' = Stagings.rendered_statuses d s.
Proof.
  intros Hc Hr Hh Hsc. unfold Stagings.rendered_statuses, Stagings.head_ids,
    Stagings.head_repository, repository_name.
  rewrite Hc, Hr, Hh, Hsc. reflexivity.
Qed.

Lemma apply_vals_cache v s :
  Stagings.vals_statuses_cache v = None ->
  Staging.statuses_cache (Stagings.apply_vals v s) = Staging.statuses_cache s /\
  Staging.heads (Stagings.apply_vals v s) = Staging.heads s.
Proof.
  intros Hv. unfold Stagings.apply_vals, Stagings.assign. rewrite Hv.
  destruct (Stagings.vals_timeout_limit v), (Stagings.vals_reason v),
    (Stagings.vals_active v), (Stagings.vals_state v); done.
Qed.

(** X3. A write which takes a pending staging to another state stores in
    statuses_cache the statuses as rendered from its commits at that
    time, after which the rendered statuses no longer depend on the
    commits. No other write changes statuses_cache, not even one which
    carries a value for it. *)
Theorem staging_statuses_frozen i v d s :
  stagings d !! i = Some s ->
  exists s',
    stagings (Stagings.write [i] v d) !! i = Some s' /\
    written v s s' /\
    (* leaving [pending] freezes the statuses as they are rendered *)
    (forall st, Staging.state s = "pending" ->
       Stagings.vals_state v = Some st -> st <> "pending" ->
       Staging.statuses_cache s' = Some (Stagings.rendered_statuses d s) /\
       forall d2, Stagings.rendered_statuses d2 s' = Stagings.rendered_statuses d s) /\
    (* nothing else writes the frozen statuses, not even the values
       written *)
    (Staging.state s <> "pending" \/ Stagings.vals_state v = None \/
     Stagings.vals_state v = Some "pending" ->
     Staging.statuses_cache s' = Staging.statuses_cache s).
Proof.
  intros Hi. unfold Stagings.write. cbn [Stagings.vals_state].
  set (v' := {| Stagings.vals_state := Stagings.vals_state v;
                Stagings.vals_active := _;
                Stagings.vals_reason := _; Stagings.vals_timeout_limit := _;
                Stagings.vals_statuses_cache := None |}).
  assert (Hw : written v s (Stagings.apply_vals v' s)).
  { unfold written, Stagings.apply_vals, Stagings.assign, v'. simpl.
    destruct (Stagings.vals_state v), (Stagings.vals_active v),
      (Stagings.vals_reason v), (Stagings.vals_timeout_limit v); simpl; repeat split. }
  destruct (apply_vals_cache v' s eq_refl) as [Hc Hh].
  set (d1 := Stagings.update i (Stagings.apply_vals v') d).
  assert (H1 : stagings d1 !! i = Some (Stagings.apply_vals v' s)).
  { unfold d1. rewrite staging_update_lookup, bool_decide_eq_true_2, Hi; done. }
  destruct (Stagings.vals_state v) as [st|] eqn:Hst.
  - cbn [List.filter]. unfold Stagings.super_write. cbn [fold_left]. fold d1.
    unfold Stagings.state_is. rewrite Hi.
    destruct (decide (Staging.state s = "pending")) as [Hp|Hp].
    + rewrite (bool_decide_eq_true_2 _ Hp). cbn [fold_left]. rewrite H1.
      assert (Hst' : Staging.state (Stagings.apply_vals v' s) = st).
      { destruct Hw as (_&_&_&_&_&Hs&_). rewrite Hs, Hst. reflexivity. }
      rewrite Hst'.
      destruct (decide (st = "pending")) as [->|Hn].
      * rewrite bool_decide_eq_false_2 by (intros H; apply H; reflexivity).
        exists (Stagings.apply_vals v' s). split; [exact H1|]. split; [exact Hw|].
        split; [intros st' _ [= <-] Hne; done|]. intros _. exact Hc.
      * rewrite bool_decide_eq_true_2 by done.
        rewrite staging_update_lookup, bool_decide_eq_true_2, H1 by done.
        cbn [fmap option_fmap option_map].
        eexists. split; [reflexivity|].
        split.
        { destruct Hw as (?&?&?&?&?&?&?&?&?). repeat split; done. }
        assert (Hr : Stagings.rendered_statuses d1 (Stagings.apply_vals v' s)
                     = Stagings.rendered_statuses d s).
        { apply rendered_statuses_ext; done. }
        split.
        -- intros st' _ _ _. cbn [Staging.statuses_cache Staging.set_statuses_cache].
           rewrite Hr. split; [reflexivity|]. intros d2. reflexivity.
        -- intros [H|[H|H]]; [done|done|]. congruence.
    + rewrite (bool_decide_eq_false_2 _ Hp). cbn [fold_left].
      exists (Stagings.apply_vals v' s). split; [exact H1|]. split; [exact Hw|].
      split; [intros st' Hp'; done|]. intros _. exact Hc.
  - unfold Stagings.super_write. cbn [fold_left]. fold d1.
    exists (Stagings.apply_vals v' s). split; [exact H1|]. split; [exact Hw|].
    split; [intros st' _ Habs; discriminate|]. intros _. exact Hc.
Qed.

Lemma staging_statuses_frozen_witness :
  let d := staging_db "pending" true {[ "ci" := reported "pending" ]} in
  let v := {| Stagings.vals_state := Some "failure"; Stagings.vals_active := None;
              Stagings.vals_reason := None; Stagings.vals_timeout_limit := None;
              Stagings.vals_statuses_cache := Some (Some []) |} in
  exists s', stagings (Stagings.write [1] v d) !! 1 = Some s' /\
    Staging.statuses_cache s' =
      Some [("odoo", "ci", "pending", ""); ("enterprise", "ci", "success", "")].
Proof.
  intros d v.
  destruct (staging_statuses_frozen 1 v d pending_staging eq_refl)
    as (s' & Hs' & _ & Hfreeze & _).
  exists s'. split; [exact Hs'|].
  destruct (Hfreeze "failure" eq_refl eq_refl) as [-> _]; [discriminate|].
  vm_compute. reflexivity.
Defined.

(** ** The state of a validated staging *)

Lemma existsb_elem {A} (f : A -> bool) (l : list A) :
  existsb f l = true <-> exists x, x ∈ l /\ f x = true.
Proof.
  rewrite existsb_exists. split; intros (x & Hx & Hf); exists x;
    (split; [apply list_elem_of_In; exact Hx|exact Hf]).
Qed.

Lemma existsb_none {A} (f : A -> bool) (l : list A) :
  existsb f l = false <-> forall x, x ∈ l -> f x = false.
Proof.
  split.
  - intros H x Hx. destruct (f x) eqn:Hf; [|done].
    rewrite <- H. symmetry. apply existsb_elem. eauto.
  - intros H. destruct (existsb f l) eqn:He; [|done].
    apply existsb_elem in He as (x & Hx & Hf). rewrite H in Hf; done.
Qed.

Lemma validate_single now i d :
  Stagings._validate now [i] d = Stagings.validate_one now i d.
Proof. unfold Stagings._validate. simpl. reflexivity. Qed.

(** X4. Validating a pending staging whose required statuses are each
    missing, pending, success, error or failure ends and sets its state
    to failure exactly when one of them is error or failure, to success
    exactly when all are success, and to pending otherwise. The active
    flag is kept and no other table changes. *)
Theorem staging_validation_aggregate now i d s :
  stagings d !! i = Some s ->
  Staging.state s = "pending" ->
  let vs := Stagings.observations d s in
  forallb valid vs = true ->
  exists d' s',
    Stagings._validate now [i] d = Done d' /\
    stagings d' !! i = Some s' /\
    (Staging.state s' = "failure" <->
     exists v, v ∈ vs /\ Stagings.in_failure v = true) /\
    (Staging.state s' = "success" <->
     forall v, v ∈ vs -> v = Some "success") /\
    (Staging.state s' = "pending" <->
     (forall v, v ∈ vs -> Stagings.in_failure v = false) /\
     exists v, v ∈ vs /\ (v = None \/ v = Some "pending")) /\
    Staging.active s' = Staging.active s /\
    same_but_stagings d d'.
Proof.
  intros Hi Hst vs Hvalid.
  destruct (validate_one_general now i d s Hi Hst Hvalid)
    as (d' & s' & Hrun & Hs' & Hstate & Hact & _).
  exists d', s'. rewrite validate_single. split; [exact Hrun|]. split; [exact Hs'|].
  fold vs in Hstate.
  assert (Hsame : same_but_stagings d d').
  { revert Hrun. unfold Stagings.validate_one. rewrite Hi.
    case_bool_decide; [intros [= <-]; apply same_but_stagings_refl|].
    destruct (fold_left _ _ _); simpl; [|discriminate..].
    intros [= <-]. apply write_same. }
  assert (Hpend : existsb (fun v => bool_decide (v = None) || is_pending v) vs = true
                  <-> exists v, v ∈ vs /\ (v = None \/ v = Some "pending")).
  { rewrite existsb_elem. split; intros (v & Hv & H); exists v; (split; [done|]).
    - apply orb_true_iff in H as [H|H]; apply bool_decide_eq_true in H; auto.
    - apply orb_true_iff. destruct H as [H|H]; [left|right]; apply bool_decide_eq_true; done. }
  assert (Hall : forall v, v ∈ vs -> valid v = true).
  { intros v Hv. rewrite forallb_forall in Hvalid. apply Hvalid, list_elem_of_In, Hv. }
  rewrite Hstate. unfold spec_staging_state.
  destruct (existsb Stagings.in_failure vs) eqn:Hf.
  - split; [|split; [|split; [|done]]].
    + split; [intros _; apply existsb_elem; done|done].
    + split; [done|]. intros Hsucc. apply existsb_elem in Hf as (v & Hv & Hfv).
      rewrite (Hsucc v Hv) in Hfv. done.
    + split; [done|]. intros [Hno _]. apply existsb_elem in Hf as (v & Hv & Hfv).
      rewrite (Hno v Hv) in Hfv. done.
  - pose proof (proj1 (existsb_none _ _) Hf) as Hno.
    destruct (existsb (fun v => bool_decide (v = None) || is_pending v) vs) eqn:Hp.
    + split; [|split; [|split; [|done]]].
      * split; [done|]. intros (v & Hv & Hfv). rewrite (Hno v Hv) in Hfv. done.
      * split; [done|]. intros Hsucc. destruct (proj1 Hpend eq_refl) as (v & Hv & H).
        rewrite (Hsucc v Hv) in H. destruct H; done.
      * split; [|done]. intros _. split; [exact Hno|]. apply Hpend. reflexivity.
    + split; [|split; [|split; [|done]]].
      * split; [done|]. intros (v & Hv & Hfv). rewrite (Hno v Hv) in Hfv. done.
      * split; [|done]. intros _ v Hv.
        pose proof (proj1 (existsb_none _ _) Hp v Hv) as Hnp.
        pose proof (Hall v Hv) as Hval. unfold valid, benign in Hval.
        rewrite (Hno v Hv), orb_false_r in Hval.
        apply orb_false_iff in Hnp as [Hn1 Hn2]. rewrite Hn1, Hn2 in Hval.
        simpl in Hval. apply bool_decide_eq_true in Hval. exact Hval.
      * split; [done|]. intros [_ Hex]. apply Hpend in Hex. discriminate.
Qed.

Lemma staging_validation_aggregate_witness :
  let d := staging_db "pending" true {[ "ci" := reported "success"; "lint" := reported "success" ]} in
  exists d' s',
    Stagings._validate 5000 [1] d = Done d' /\
    stagings d' !! 1 = Some s' /\
    Staging.state s' = "success" /\ Staging.active s' = true.
Proof.
  intros d.
  assert (H3 : forallb valid (Stagings.observations d pending_staging) = true)
    by (vm_compute; reflexivity).
  destruct (staging_validation_aggregate 5000 1 d pending_staging eq_refl eq_refl H3)
    as (d' & s' & Hrun & Hs' & _ & Hsucc & _ & Hact & _).
  exists d', s'. split; [exact Hrun|]. split; [exact Hs'|]. split; [|exact Hact].
  apply Hsucc. intros v Hv.
  assert (Hobs : Stagings.observations d pending_staging
                 = [Some "success"; Some "success"; Some "success"])
    by (vm_compute; reflexivity).
  rewrite Hobs in Hv. repeat (apply elem_of_cons in Hv as [->|Hv]; [reflexivity|]).
  apply elem_of_nil in Hv. destruct Hv.
Defined.

(** ** Validation and settled stagings *)

Lemma validate_one_frame now i d d' :
  Stagings.validate_one now i d = Done d' ->
  same_but_stagings d d' /\
  forall j s, stagings d !! j = Some s ->
    j <> i \/ Staging.state s <> "pending" ->
    stagings d' !! j = Some s.
Proof.
  unfold Stagings.validate_one. intros H.
  destruct (stagings d !! i) as [si|] eqn:Hi.
  2:{ injection H as <-. split; [apply same_but_stagings_refl|auto]. }
  case_bool_decide as Hp.
  { injection H as <-. split; [apply same_but_stagings_refl|auto]. }
  destruct (fold_left _ _ _) as [r| |]; simpl in H; [|discriminate..].
  injection H as <-. split; [apply write_same|].
  intros j s Hj [Hne|Hs].
  - rewrite write_other; [done|]. rewrite list_elem_of_singleton. done.
  - destruct (decide (j = i)) as [->|Hne].
    + assert (s = si) as -> by congruence. exfalso. apply Hs.
      destruct (decide (Staging.state si = "pending")); [done|]. exfalso. tauto.
    + rewrite write_other; [done|]. rewrite list_elem_of_singleton. done.
Qed.

Lemma validate_fold_raised now self e :
  fold_left (fun acc i => d <<- acc ;; Stagings.validate_one now i d) self (Raised e)
  = Raised e.
Proof. induction self; simpl; auto. Qed.

Lemma validate_fold_fuel now self :
  fold_left (fun acc i => d <<- acc ;; Stagings.validate_one now i d) self OutOfFuel
  = OutOfFuel.
Proof. induction self; simpl; auto. Qed.

(** X5. Stagings._validate on stagings none of which is pending returns
    with the database as it was. In general it changes no table but the
    stagings, and there only the pending stagings of the recordset. *)
Theorem validation_skips_settled now self d :
  (* a validation ends at once on settled stagings *)
  ((forall j s, j ∈ self -> stagings d !! j = Some s -> Staging.state s <> "pending") ->
   Stagings._validate now self d = Done d) /\
  (* and in general it only writes the pending stagings it is given *)
  (forall d', Stagings._validate now self d = Done d' ->
     same_but_stagings d d' /\
     forall j s, stagings d !! j = Some s ->
       j ∉ self \/ Staging.state s <> "pending" ->
       stagings d' !! j = Some s).
Proof.
  unfold Stagings._validate. split.
  - revert d. induction self as [|i self IH]; intros d Hall; simpl; [done|].
    assert (H1 : Stagings.validate_one now i d = Done d).
    { unfold Stagings.validate_one. destruct (stagings d !! i) as [s|] eqn:Hi; [|done].
      rewrite bool_decide_eq_true_2; [done|]. eapply Hall; [apply elem_of_cons; auto|done]. }
    rewrite H1. apply IH. intros j s Hj. apply Hall, elem_of_cons. auto.
  - revert d. induction self as [|i self IH]; intros d d' H; simpl in H.
    + injection H as <-. split; [apply same_but_stagings_refl|auto].
    + destruct (Stagings.validate_one now i d) as [d1| |] eqn:H1.
      2:{ rewrite validate_fold_raised in H. discriminate. }
      2:{ rewrite validate_fold_fuel in H. discriminate. }
      destruct (validate_one_frame _ _ _ _ H1) as [Hs1 Hf1].
      destruct (IH d1 d' H) as [Hs2 Hf2].
      split; [eapply same_but_stagings_trans; eauto|].
      intros j s Hj Hor. apply Hf2.
      * apply Hf1; [done|]. destruct Hor as [Hn|Hn]; [|auto].
        left. intros ->. apply Hn, elem_of_cons. auto.
      * destruct Hor as [Hn|Hn]; [|auto]. left. intros Hin. apply Hn, elem_of_cons. auto.
Qed.

Lemma validation_skips_settled_witness :
  Stagings._validate 5000 [1] (staging_db "failure" true {[ "ci" := reported "success" ]})
  = Done (staging_db "failure" true {[ "ci" := reported "success" ]}).
Proof.
  apply (proj1 (validation_skips_settled 5000 [1]
                  (staging_db "failure" true {[ "ci" := reported "success" ]}))).
  intros j s Hj. apply list_elem_of_singleton in Hj. subst j.
  intros [= <-]. discriminate.
Defined.

(** ** A state which is none of the four *)

(** X6. When, in the order of the heads and of their required contexts,
    the first status of a pending staging which is not missing, pending
    or success has a state other than error and failure,
    Stagings._validate raises AssertionError. *)
Theorem validation_rejects_unknown_state now i d s l1 w l2 :
  stagings d !! i = Some s ->
  Staging.state s = "pending" ->
  Stagings.observations d s = l1 ++ Some w :: l2 ->
  forallb benign l1 = true ->
  w <> "error" -> w <> "failure" -> w <> "pending" -> w <> "success" ->
  Stagings._validate now [i] d = Raised AssertionError.
Proof.
  intros Hi Hst Hobs Hl1 H1 H2 H3 H4.
  rewrite validate_single. unfold Stagings.validate_one. rewrite Hi.
  rewrite bool_decide_eq_false_2 by (rewrite Hst; auto).
  rewrite validate_nested. cbn [obind].
  change (flat_map _ (Stagings.required_statuses d s)) with (Stagings.observations d s).
  rewrite Hobs, validate_loop_app.
  assert (Hv : forallb valid l1 = true).
  { clear -Hl1. induction l1 as [|v l IH]; simpl in *; [done|].
    apply andb_true_iff in Hl1 as [Ha Hb]. rewrite (IH Hb). unfold valid. rewrite Ha. done. }
  rewrite validate_loop_spec by auto.
  assert (Hnf : existsb Stagings.in_failure l1 = false).
  { clear -Hl1. induction l1 as [|v l IH]; simpl in *; [done|].
    apply andb_true_iff in Hl1 as [Ha Hb]. rewrite (benign_not_failure _ Ha), (IH Hb); done. }
  rewrite Hnf. cbn [obind]. rewrite loop_step.
  set (st := if existsb _ l1 then "pending" else "success").
  assert (Hst' : bool_decide (st = "failure") = false).
  { unfold st. case_match; apply bool_decide_eq_false_2; intros Habs; discriminate Habs. }
  unfold Stagings.validate_step. cbn [fst snd]. rewrite Hst'.
  unfold Stagings.in_failure.
  rewrite !bool_decide_eq_false_2 by done. reflexivity.
Qed.

Lemma validation_rejects_unknown_state_witness :
  Stagings._validate 5000 [1] (staging_db "pending" true {[ "ci" := reported "skipped" ]})
  = Raised AssertionError.
Proof.
  apply (validation_rejects_unknown_state 5000 1
           (staging_db "pending" true {[ "ci" := reported "skipped" ]})
           pending_staging [] "skipped" [None; Some "success"]);
    first [reflexivity|discriminate].
Defined.

(** ** Failed stagings *)

Lemma set_error_idem r :
  PullRequest.set_error true (PullRequest.set_error true r) = PullRequest.set_error true r.
Proof. reflexivity. Qed.

Lemma mark_error_lookup prs d j :
  pull_requests (Stagings.mark_error prs d) !! j =
  (fun r => if bool_decide (j ∈ prs)
            then PullRequest.set_state
                   (if PullRequests.truthy (PullRequests.batch_of d r ≫= Batch.merge_date)
                    then "merged"
                    else if PullRequest.closed r then "closed" else "error")
                   (PullRequest.set_error true r)
            else r) <$> pull_requests d !! j.
Proof.
  unfold Stagings.mark_error.
  destruct (fold_update_prs (PullRequest.set_error true) prs d) as [Hp Hs].
  rewrite compute_state_lookup, Hp, fold_alter_lookup by apply set_error_idem.
  case_bool_decide; [|destruct (pull_requests d !! j); done].
  destruct (pull_requests d !! j) as [r|]; [|done]. simpl. f_equal. f_equal.
  rewrite compute_state_value_chain. unfold PullRequests.batch_of.
  destruct Hs as (_&_&_&_&_&_&Hb&_). rewrite Hb. simpl.
  unfold state_chain. destruct (PullRequests.truthy _); [done|].
  destruct (PullRequest.closed r); done.
Qed.

Lemma mark_error_same prs d : same_but_prs d (Stagings.mark_error prs d).
Proof.
  unfold Stagings.mark_error.
  eapply same_but_prs_trans; [apply fold_update_prs|apply compute_state_same].
Qed.

Section Fail.
Variable format_template : string -> DB -> Z -> list string -> string.

(** The messages sent to the pull requests [prs], one each, in order. *)
Lemma send_each x args (prs : list Z) : forall d,
  (forall p, p ∈ prs -> is_Some (pull_requests d !! p)) ->
  let d' := fold_left (fun d pr => Stagings.send_template format_template x pr args d) prs d in
  pull_requests d' = pull_requests d /\ batch d' = batch d /\
  stagings d' = stagings d /\ split d' = split d /\
  exists fs, feedback d' = feedback d ++ fs /\
    Forall2 (fun p f => exists r, pull_requests d !! p = Some r /\
               Feedback.repository f = PullRequest.repository r /\
               Feedback.pull_request f = PullRequest.number r /\
               Feedback.close f = false) prs fs.
Proof.
  induction prs as [|p prs IH]; intros d Hall; simpl.
  - repeat split. exists []. rewrite app_nil_r. split; [done|constructor].
  - destruct (Hall p) as [r Hr]; [apply elem_of_cons; auto|].
    destruct (send_template_frame format_template x p args d) as (H1&H2&H3&H4&_).
    destruct (IH (Stagings.send_template format_template x p args d))
      as (I1&I2&I3&I4&fs&I5&I6).
    { intros q Hq. rewrite H1. apply Hall, elem_of_cons. auto. }
    split; [congruence|]. split; [congruence|]. split; [congruence|].
    split; [congruence|].
    eexists (_ :: fs). split.
    + rewrite I5, (send_template_feedback _ _ _ _ _ _ Hr), <- app_assoc. reflexivity.
    + constructor.
      * exists r. simpl. repeat split; done.
      * eapply Forall2_impl; [exact I6|]. intros q f (r' & Hr' & ?). exists r'.
        rewrite <- H1. done.
Qed.

Lemma fail_spec i message prs env s :
  stagings (db env) !! i = Some s ->
  let marked := match prs with
                | [] => prs_of_batches (db env) (Staging.batch_ids s)
                | _ => prs
                end in
  (forall p, p ∈ marked -> is_Some (pull_requests (db env) !! p)) ->
  let r := Stagings.fail format_template i message prs env in
  r.2 = true /\
  change_message r.1 = Some ("staging " +:+ pretty i +:+ " failed: " +:+ message) /\
  committed r.1 = committed env /\
  (exists s', stagings (db r.1) !! i = Some s' /\
     Staging.state s' = "failure" /\ Staging.active s' = false /\
     Staging.reason s' = Some message /\
     Staging.batch_ids s' = Staging.batch_ids s) /\
  (forall j, j <> i -> stagings (db r.1) !! j = stagings (db env) !! j) /\
  (forall p, pull_requests (db r.1) !! p =
     (fun r => if bool_decide (p ∈ marked)
               then PullRequest.set_state
                      (if PullRequests.truthy
                            (PullRequests.batch_of (db env) r ≫= Batch.merge_date)
                       then "merged"
                       else if PullRequest.closed r then "closed" else "error")
                      (PullRequest.set_error true r)
               else r) <$> pull_requests (db env) !! p) /\
  batch (db r.1) = batch (db env) /\ split (db r.1) = split (db env) /\
  exists fs, feedback (db r.1) = feedback (db env) ++ fs /\
    Forall2 (fun p f => exists r, pull_requests (db env) !! p = Some r /\
               Feedback.repository f = PullRequest.repository r /\
               Feedback.pull_request f = PullRequest.number r /\
               Feedback.close f = false) marked fs.
Proof.
  intros Hi marked Hall r.
  set (d1 := Stagings.mark_error marked (db env)).
  set (d2 := fold_left (fun d pr => Stagings.send_template format_template
                 "runbot_merge.pr.staging.fail" pr [message] d) marked d1).
  set (v := {| Stagings.vals_state := Some "failure"; Stagings.vals_active := Some false;
               Stagings.vals_reason := Some (Some message);
               Stagings.vals_timeout_limit := None;
               Stagings.vals_statuses_cache := None |}).
  assert (Hr : r = ({| db := Stagings.write [i] v d2; committed := committed env;
                       change_author := change_author env;
                       change_message := Some ("staging " +:+ pretty i +:+ " failed: " +:+ message);
                       precommit_unlink := precommit_unlink env |}, true)).
  { unfold r, Stagings.fail. cbn [db set_change_message with_db]. rewrite Hi. reflexivity. }
  rewrite Hr. clear Hr r.
  cbn [fst snd change_message committed db].
  pose proof (mark_error_same marked (db env)) as Hs1. fold d1 in Hs1.
  destruct Hs1 as (S1&S2&S3&S4&S5&S6&S7&S8&S9&S10&S11&S12).
  destruct (send_each "runbot_merge.pr.staging.fail" [message] marked d1)
    as (T1&T2&T3&T4&fs&T5&T6).
  { intros p Hp. unfold d1. rewrite mark_error_lookup.
    destruct (Hall p Hp) as [x ->]. simpl. eauto. }
  fold d2 in T1, T2, T3, T4, T5.
  pose proof (write_same [i] v d2) as (W1&W2&W3&W4&W5&W6&W7&W8&W9&W10&W11&W12).
  split; [done|]. split; [done|]. split; [done|].
  split.
  { destruct (write_one_lookup i v d2 s) as (s' & Hs' & Hw); [congruence|].
    exists s'. split; [exact Hs'|].
    destruct Hw as (_&Hb&_&_&_&Hst&Hact&Hre&_). repeat split; done. }
  split.
  { intros j Hj. rewrite write_other by (rewrite list_elem_of_singleton; done).
    congruence. }
  split.
  { intros p. rewrite W8, T1. apply mark_error_lookup. }
  split; [congruence|]. split; [congruence|].
  exists fs. split; [rewrite W10, T5, S10; done|].
  eapply Forall2_impl; [exact T6|]. intros p f (r & Hr & H). 
  unfold d1 in Hr. rewrite mark_error_lookup in Hr.
  destruct (pull_requests (db env) !! p) as [r0|]; [|done]. simpl in Hr.
  exists r0. split; [done|]. injection Hr as <-.
  destruct H as (H1&H2&H3). case_bool_decide; done.
Qed.

Lemma prs_of_batches_exist d bs p :
  p ∈ prs_of_batches d bs -> is_Some (pull_requests d !! p).
Proof. intros H. apply prs_of_batches_spec in H as (r & _ & -> & _). eauto. Qed.

(** X7. Stagings.fail returns True, records the failure as the message
    of the change, and leaves the staging inactive in state failure with
    the message as reason. The pull requests given (by default all those
    of the staging) are put in error, their state becoming error unless
    merged or closed, each receives one feedback in order, and no other
    pull request changes. *)
Theorem fail_marks_pull_requests i message prs env s :
  stagings (db env) !! i = Some s ->
  (forall p, p ∈ prs -> is_Some (pull_requests (db env) !! p)) ->
  (* the pull requests given, by default all those of the staging *)
  let marked := match prs with
                | [] => prs_of_batches (db env) (Staging.batch_ids s)
                | _ => prs
                end in
  let r := Stagings.fail format_template i message prs env in
  r.2 = true /\
  change_message r.1 = Some ("staging " +:+ pretty i +:+ " failed: " +:+ message) /\
  (* the staging is over *)
  (exists s', stagings (db r.1) !! i = Some s' /\
     Staging.state s' = "failure" /\ Staging.active s' = false /\
     Staging.reason s' = Some message) /\
  (* each marked pull request is in error, the others are as they were *)
  (forall p row, p ∈ marked -> pull_requests (db env) !! p = Some row ->
     exists row', pull_requests (db r.1) !! p = Some row' /\
       PullRequest.error row' = true /\
       PullRequest.state row' =
         (if PullRequests.truthy (PullRequests.batch_of (db env) row ≫= Batch.merge_date)
          then "merged"
          else if PullRequest.closed row then "closed" else "error")) /\
  (forall p, p ∉ marked -> pull_requests (db r.1) !! p = pull_requests (db env) !! p) /\
  (* and is told so, once *)
  exists fs, feedback (db r.1) = feedback (db env) ++ fs /\
    Forall2 (fun p f => exists row, pull_requests (db env) !! p = Some row /\
               Feedback.repository f = PullRequest.repository row /\
               Feedback.pull_request f = PullRequest.number row /\
               Feedback.close f = false) marked fs.
Proof.
  intros Hi Hall marked r.
  destruct (fail_spec i message prs env s Hi) as (H1&H2&_&H4&_&H6&_&_&H9).
  { destruct prs; [intros p; apply prs_of_batches_exist|exact Hall]. }
  split; [exact H1|]. split; [exact H2|].
  split.
  { destruct H4 as (s' & ? & ? & ? & ? & _). exists s'. done. }
  split.
  { intros p row Hp Hrow. fold r marked in H6. rewrite H6, Hrow. simpl.
    rewrite bool_decide_eq_true_2 by done. eexists. split; [reflexivity|]. done. }
  split.
  { intros p Hp. fold r marked in H6. rewrite H6.
    rewrite bool_decide_eq_false_2 by done. destruct (pull_requests _ !! p); done. }
  exact H9.
Qed.

End Fail.

Lemma fail_marks_pull_requests_witness :
  let d := set_pull_requests {[ 1 := sample_pr 1 None ∅ ∅ ]} (staging_db "pending" true ∅) in
  let r := Stagings.fail no_template 1 "ci failed" [1] (sample_env d) in
  exists row', pull_requests (db r.1) !! 1 = Some row' /\
    PullRequest.error row' = true /\ PullRequest.state row' = "error".
Proof.
  intros d r.
  assert (Hall : forall p, p ∈ [1] -> is_Some (pull_requests (db (sample_env d)) !! p)).
  { intros p Hp. apply list_elem_of_singleton in Hp. subst p. eexists. reflexivity. }
  destruct (fail_marks_pull_requests no_template 1 "ci failed" [1] (sample_env d)
              pending_staging eq_refl Hall) as (_&_&_&H&_).
  destruct (H 1 (sample_pr 1 None ∅ ∅)) as (row' & H1 & H2 & H3);
    [apply list_elem_of_singleton; reflexivity|reflexivity|].
  exists row'. split; [exact H1|]. split; [exact H2|]. exact H3.
Defined.

(** ** A failed staging of one batch *)

Lemma find_unique {A} (f : A -> bool) (l : list A) x :
  x ∈ l -> f x = true -> (forall y, y ∈ l -> f y = true -> y = x) ->
  List.find f l = Some x.
Proof.
  induction l as [|y l IH]; intros Hin Hf Hu.
  - apply elem_of_nil in Hin. done.
  - simpl. destruct (f y) eqn:Hy.
    + f_equal. apply Hu; [apply elem_of_cons; auto|done].
    + apply elem_of_cons in Hin as [->|Hin]; [congruence|].
      apply IH; [done|done|]. intros z Hz. apply Hu, elem_of_cons. auto.
Qed.

Lemma first_some_app {A B} (f : A -> option B) l1 l2 :
  (forall x, x ∈ l1 -> f x = None) ->
  first_some f (l1 ++ l2) = first_some f l2.
Proof.
  induction l1 as [|x l1 IH]; intros H; simpl; [done|].
  rewrite H by (apply elem_of_cons; auto).
  apply IH. intros y Hy. apply H, elem_of_cons. auto.
Qed.

Section SingleBatch.
Variable format_template : string -> DB -> Z -> list string -> string.

(** X8. try_splitting on a staging of at most one batch whose state is
    not failure (a timeout) returns False, creates no split and changes
    no batch, fails the staging with the reason timed out and the CI
    timeout of the project in minutes, and puts every pull request of
    the staging in error, leaving the other pull requests as they were. *)
Theorem single_batch_timeout_fails_all i env s :
  stagings (db env) !! i = Some s ->
  (length (Staging.batch_ids s) <= 1)%nat ->
  Staging.state s <> "failure" ->
  let r := Stagings.try_splitting format_template i env in
  let message := "timed out (>" +:+
                 pretty (ci_timeout_of (db env) (Staging.target s)) +:+ " minutes)" in
  r.2 = false /\
  (* no split is created *)
  split (db r.1) = split (db env) /\ batch (db r.1) = batch (db env) /\
  (exists s', stagings (db r.1) !! i = Some s' /\
     Staging.state s' = "failure" /\ Staging.active s' = false /\
     Staging.reason s' = Some message) /\
  (* every pull request of the staging is in error *)
  (forall p row b, pull_requests (db env) !! p = Some row ->
     PullRequest.batch_id row = Some b -> b ∈ Staging.batch_ids s ->
     exists row', pull_requests (db r.1) !! p = Some row' /\
                  PullRequest.error row' = true) /\
  (forall p, p ∉ prs_of_batches (db env) (Staging.batch_ids s) ->
     pull_requests (db r.1) !! p = pull_requests (db env) !! p).
Proof.
  intros Hi Hlen Hst r message.
  assert (Hr : r = ((Stagings.fail format_template i message [] env).1, false)).
  { unfold r, Stagings.try_splitting. rewrite Hi.
    rewrite bool_decide_eq_false_2 by lia.
    rewrite bool_decide_eq_true_2 by done. reflexivity. }
  rewrite Hr. cbn [fst snd].
  destruct (fail_spec format_template i message [] env s Hi)
    as (_&_&_&H4&_&H6&H7&H8&_).
  { intros p. apply prs_of_batches_exist. }
  split; [done|]. split; [exact H8|]. split; [exact H7|].
  split.
  { destruct H4 as (s' & ? & ? & ? & ? & _). exists s'. done. }
  split.
  - intros p row b Hrow Hb Hin. rewrite H6, Hrow. simpl.
    rewrite bool_decide_eq_true_2.
    + eexists. split; [reflexivity|]. done.
    + apply prs_of_batches_spec. eauto.
  - intros p Hp. rewrite H6. rewrite bool_decide_eq_false_2 by done.
    destruct (pull_requests _ !! p); done.
Qed.

(** X9. try_splitting on a failed staging of at most one batch fails it
    with, as reason, a required context in error or failure of the first
    head which has one, followed by its target url when it has one. When
    one pull request of the staging is in the repository of that head,
    it alone is put in error and receives the one feedback queued. *)
Theorem single_batch_failure_blames_culprit i env s hs1 head hs2 p row :
  stagings (db env) !! i = Some s ->
  (length (Staging.batch_ids s) <= 1)%nat ->
  Staging.state s = "failure" ->
  (* the first head with a required context in error or failure *)
  Staging.heads s = hs1 ++ head :: hs2 ->
  (forall h, h ∈ hs1 -> Stagings.failed_context (db env) s h = None) ->
  (exists cs, Stagings.failed_context (db env) s head = Some cs /\ cs.1 <> "") ->
  (* the pull request of the staging in the repository of that head *)
  pull_requests (db env) !! p = Some row ->
  p ∈ prs_of_batches (db env) (Staging.batch_ids s) ->
  PullRequest.repository row = StagingCommits.repository_id head ->
  (forall q rq, q ∈ prs_of_batches (db env) (Staging.batch_ids s) ->
     pull_requests (db env) !! q = Some rq ->
     PullRequest.repository rq = StagingCommits.repository_id head -> q = p) ->
  let r := Stagings.try_splitting format_template i env in
  r.2 = false /\
  (* the reason is a failed required context of the head *)
  (exists ctx status s',
     (commit (db env) !! StagingCommits.commit_id head ≫= fun c =>
        Commit.statuses c !! ctx) = Some status /\
     ctx ∈ map StatusConfiguration.context
             (StatusConfigurations._for_staging
                (status_ids_of (db env) (StagingCommits.repository_id head)) s) /\
     Stagings.in_failure (status !! "state") = true /\
     stagings (db r.1) !! i = Some s' /\
     Staging.state s' = "failure" /\ Staging.active s' = false /\
     Staging.reason s' =
       Some (ctx +:+ match status !! "target_url" with
                     | Some url => if bool_decide (url = "") then ""
                                   else " (view more at " +:+ url +:+ ")"
                     | None => ""
                     end)) /\
  (* this pull request alone is in error, and told so *)
  (exists row', pull_requests (db r.1) !! p = Some row' /\
                PullRequest.error row' = true) /\
  (forall q, q <> p -> pull_requests (db r.1) !! q = pull_requests (db env) !! q) /\
  (exists f, feedback (db r.1) = feedback (db env) ++ [f] /\
             Feedback.pull_request f = PullRequest.number row /\
             Feedback.repository f = PullRequest.repository row).
Proof.
  intros Hi Hlen Hst Hheads Hbefore ([ctx status] & Hfc & Hctx) Hrow Hp Hrepo Huniq r.
  cbn [fst] in Hctx.
  set (viewmore := match status !! "target_url" with
                   | Some url => if bool_decide (url = "") then ""
                                 else " (view more at " +:+ url +:+ ")"
                   | None => ""
                   end).
  assert (Hfind : List.find (fun q =>
              bool_decide (PullRequest.repository <$> pull_requests (db env) !! q
                           = Some (StagingCommits.repository_id head)))
              (prs_of_batches (db env) (Staging.batch_ids s)) = Some p).
  { apply find_unique; [done| |].
    - rewrite Hrow. simpl. apply bool_decide_eq_true. congruence.
    - intros q Hq Hb. apply bool_decide_eq_true in Hb.
      destruct (pull_requests (db env) !! q) as [rq|] eqn:Hrq; [|done].
      simpl in Hb. eapply Huniq; [done|done|congruence]. }
  assert (Hr : r = ((Stagings.fail format_template i (ctx +:+ viewmore) [p] env).1, false)).
  { unfold r, Stagings.try_splitting. rewrite Hi.
    rewrite bool_decide_eq_false_2 by lia.
    rewrite bool_decide_eq_false_2 by (intros H; apply H; done).
    rewrite Hheads, first_some_app.
    2:{ intros h Hh. rewrite (Hbefore h Hh). done. }
    cbn [first_some]. rewrite Hfc.
    rewrite (bool_decide_eq_false_2 (ctx = "")) by done.
    rewrite Hfind. reflexivity. }
  rewrite Hr. cbn [fst snd].
  destruct (fail_spec format_template i (ctx +:+ viewmore) [p] env s Hi)
    as (_&_&_&H4&_&H6&_&_&H9).
  { intros q Hq. apply list_elem_of_singleton in Hq. subst q. eauto. }
  split; [done|]. split; [|split; [|split]].
  - unfold Stagings.failed_context in Hfc. apply find_some in Hfc as [Hin Hpred].
    apply list_elem_of_In, elem_of_map_to_list in Hin. cbn [fst snd] in *.
    apply andb_true_iff in Hpred as [Hreq Hfail]. apply bool_decide_eq_true in Hreq.
    destruct H4 as (s' & ? & ? & ? & ? & _).
    exists ctx, status, s'. split; [|done].
    destruct (commit (db env) !! StagingCommits.commit_id head) as [c|]; simpl in *; [done|].
    rewrite lookup_empty in Hin. done.
  - rewrite H6, Hrow. simpl.
    rewrite bool_decide_eq_true_2 by (apply list_elem_of_singleton; done).
    eexists. split; [reflexivity|]. done.
  - intros q Hq. rewrite H6.
    rewrite bool_decide_eq_false_2 by (rewrite list_elem_of_singleton; done).
    destruct (pull_requests _ !! q); done.
  - destruct H9 as (fs & Hfs & HF).
    apply Forall2_cons_inv_l in HF as (f & fs' & (row0 & Hrow0 & Hf1 & Hf2 & _) & HF & ->).
    apply Forall2_nil_inv_l in HF as ->.
    exists f. split; [exact Hfs|]. assert (row0 = row) as -> by congruence. done.
Qed.

End SingleBatch.

Lemma single_batch_timeout_fails_all_witness :
  let r := Stagings.try_splitting no_template 1 (sample_env (single_db "pending" ∅)) in
  r.2 = false /\
  exists s', stagings (db r.1) !! 1 = Some s' /\
    Staging.state s' = "failure" /\ Staging.active s' = false /\
    Staging.reason s' = Some "timed out (>120 minutes)".
Proof.
  intros r.
  destruct (single_batch_timeout_fails_all no_template 1
              (sample_env (single_db "pending" ∅)) (single_staging "pending") eq_refl)
    as (H1 & _ & _ & H2 & _); [simpl; lia|discriminate|].
  split; [exact H1|]. exact H2.
Defined.

Lemma single_batch_failure_blames_culprit_witness :
  let d := single_db "failure" {[ "ci" := reported "failure" ]} in
  let r := Stagings.try_splitting no_template 1 (sample_env d) in
  (exists row', pull_requests (db r.1) !! 1 = Some row' /\
                PullRequest.error row' = true) /\
  pull_requests (db r.1) !! 2 = Some (batched_pr 2 2 (Some 1)).
Proof.
  intros d r.
  assert (Hprs : prs_of_batches d [1] = [2; 1]) by (vm_compute; reflexivity).
  destruct (single_batch_failure_blames_culprit no_template 1 (sample_env d)
              (single_staging "failure") [] (head_of 1 1) [head_of 2 2]
              1 (batched_pr 1 1 (Some 1)))
    as (_ & _ & H3 & H4 & _).
  - reflexivity.
  - simpl. lia.
  - reflexivity.
  - reflexivity.
  - intros h Hh. apply elem_of_nil in Hh. destruct Hh.
  - eexists. split; [vm_compute; reflexivity|]. simpl. discriminate.
  - reflexivity.
  - change (1 ∈ prs_of_batches d [1]). rewrite Hprs.
    apply elem_of_cons. right. apply list_elem_of_singleton. reflexivity.
  - reflexivity.
  - intros q rq Hq Hrq Hrepo. change (q ∈ prs_of_batches d [1]) in Hq. rewrite Hprs in Hq.
    apply elem_of_cons in Hq as [->|Hq];
      [|apply list_elem_of_singleton in Hq; subst q; reflexivity].
    change (Some (batched_pr 2 2 (Some 1)) = Some rq) in Hrq. injection Hrq as <-.
    simpl in Hrepo. discriminate.
  - split; [exact H3|]. unfold r. rewrite (H4 2) by discriminate. reflexivity.
Defined.

(** ** Cancelling an active staging *)

Lemma filter_active_elem d self i :
  i ∈ List.filter (Stagings.is_active d) self <->
  i ∈ self /\ Stagings.is_active d i = true.
Proof. rewrite list_elem_of_In, filter_In, <- list_elem_of_In. done. Qed.

Lemma cancel_spec percent self reason args d :
  let r := Stagings.cancel percent self reason args d in
  same_but_stagings d r.1 /\
  (r.2 = true <-> exists i, i ∈ self /\ Stagings.is_active d i = true) /\
  forall i s, stagings d !! i = Some s ->
    exists s', stagings r.1 !! i = Some s' /\
      if bool_decide (i ∈ self) && Staging.active s
      then Staging.state s' = "cancelled" /\ Staging.active s' = false /\
           Staging.reason s' = Some (percent reason args) /\
           Staging.batch_ids s' = Staging.batch_ids s /\
           Staging.target s' = Staging.target s
      else s' = s.
Proof.
  intros r. subst r. unfold Stagings.cancel.
  destruct (List.filter (Stagings.is_active d) self) as [|k l] eqn:Hf.
  - cbn [fst snd]. split; [apply same_but_stagings_refl|]. split.
    + split; [done|]. intros (i & Hi & Ha).
      assert (H : i ∈ List.filter (Stagings.is_active d) self)
        by (apply filter_active_elem; done).
      rewrite Hf in H. apply elem_of_nil in H. done.
    + intros i s Hi. exists s. split; [done|].
      destruct (bool_decide (i ∈ self) && Staging.active s) eqn:Hb; [|done].
      apply andb_true_iff in Hb as [Hin Ha]. apply bool_decide_eq_true in Hin.
      assert (H : i ∈ List.filter (Stagings.is_active d) self).
      { apply filter_active_elem. split; [done|]. unfold Stagings.is_active.
        rewrite Hi. done. }
      rewrite Hf in H. apply elem_of_nil in H. done.
  - cbn [fst snd]. rewrite <- Hf. split; [apply write_same|]. split.
    + split; [|done]. intros _. exists k. apply filter_active_elem. rewrite Hf.
      apply elem_of_cons. auto.
    + intros i s Hi.
      set (v := {| Stagings.vals_state := _; Stagings.vals_active := _;
                   Stagings.vals_reason := _; Stagings.vals_timeout_limit := _;
                   Stagings.vals_statuses_cache := _ |}).
      destruct (write_lookup (List.filter (Stagings.is_active d) self) v d i s Hi)
        as (s' & Hs' & Hw).
      exists s'. split; [exact Hs'|].
      assert (Heq : bool_decide (i ∈ List.filter (Stagings.is_active d) self)
                    = bool_decide (i ∈ self) && Staging.active s).
      { destruct (Staging.active s) eqn:Ha.
        - rewrite andb_true_r. apply bool_decide_ext. rewrite filter_active_elem.
          unfold Stagings.is_active. rewrite Hi. tauto.
        - rewrite andb_false_r. apply bool_decide_eq_false_2.
          rewrite filter_active_elem. unfold Stagings.is_active. rewrite Hi, Ha.
          intros [_ ?]. done. }
      rewrite <- Heq. case_bool_decide; [|done].
      destruct Hw as (?&?&?&?&?&Hst&Hact&Hre&_). repeat split; done.
Qed.

(** X10. cancel on a recordset which holds an active staging returns
    True and leaves that staging inactive, in state cancelled, with the
    formatted reason. The stagings outside the recordset and all the
    other tables are as they were. *)
Theorem cancel_deactivates_active percent self reason args d i s :
  stagings d !! i = Some s ->
  i ∈ self ->
  Staging.active s = true ->
  let r := Stagings.cancel percent self reason args d in
  r.2 = true /\
  (exists s', stagings r.1 !! i = Some s' /\
     Staging.state s' = "cancelled" /\ Staging.active s' = false /\
     Staging.reason s' = Some (percent reason args)) /\
  (* the other stagings and tables are as they were *)
  (forall j, j ∉ self -> stagings r.1 !! j = stagings d !! j) /\
  same_but_stagings d r.1.
Proof.
  intros Hi Hin Ha r.
  destruct (cancel_spec percent self reason args d) as (Hs & Hr & Hl).
  fold r in Hs, Hr, Hl.
  split.
  { apply Hr. exists i. split; [done|]. unfold Stagings.is_active. rewrite Hi. done. }
  split.
  { destruct (Hl i s Hi) as (s' & Hs' & H).
    rewrite bool_decide_eq_true_2, Ha in H by done. simpl in H.
    exists s'. destruct H as (?&?&?&_). done. }
  split; [|exact Hs].
  intros j Hj. destruct (stagings d !! j) as [sj|] eqn:Hsj.
  - destruct (Hl j sj Hsj) as (s' & Hs' & H).
    rewrite bool_decide_eq_false_2 in H by done. simpl in H. congruence.
  - unfold r, Stagings.cancel. destruct (List.filter _ self) eqn:Hf; [done|].
    cbn [fst]. rewrite write_other; [done|]. rewrite <- Hf, filter_active_elem. tauto.
Qed.

Lemma cancel_deactivates_active_witness :
  let r := Stagings.cancel no_percent [1] "cancelled" [] (staging_db "pending" true ∅) in
  r.2 = true /\
  exists s', stagings r.1 !! 1 = Some s' /\
     Staging.state s' = "cancelled" /\ Staging.active s' = false /\
     Staging.reason s' = Some "cancelled".
Proof.
  intros r.
  destruct (cancel_deactivates_active no_percent [1] "cancelled" []
              (staging_db "pending" true ∅) 1 pending_staging eq_refl)
    as (H1 & H2 & _); [apply list_elem_of_singleton; reflexivity|reflexivity|].
  split; [exact H1|exact H2].
Defined.

(** ** Taking a pull request out of its staging *)

Lemma staging_id_elem d pr j :
  j ∈ PullRequestMethods.staging_id d pr <->
  exists b s, PullRequest.batch_id pr = Some b /\ stagings d !! j = Some s /\
              Staging.active s = true /\ b ∈ Staging.batch_ids s.
Proof.
  unfold PullRequestMethods.staging_id. destruct (PullRequest.batch_id pr) as [b|].
  - rewrite list_elem_of_fmap. split.
    + intros ([k s] & -> & Hin). apply elem_of_map_to_list in Hin.
      apply map_lookup_filter_Some in Hin as [Hl [Ha Hb]]. simpl in *. eauto 10.
    + intros (b' & s & [= <-] & Hl & Ha & Hb). exists (j, s). split; [done|].
      apply elem_of_map_to_list, map_lookup_filter_Some. done.
  - split; [intros H; apply elem_of_nil in H; done|]. intros (? & ? & ? & _). done.
Qed.

Lemma unstage_spec percent i reason args d pr b brow :
  pull_requests d !! i = Some pr ->
  PullRequest.batch_id pr = Some b ->
  batch d !! b = Some brow ->
  let d' := PullRequestMethods.unstage percent i reason args d in
  (* the batch waits in no split *)
  (exists brow', batch d' !! b = Some brow' /\ Batch.split_id brow' = None) /\
  (* a split of this batch alone is deleted, a larger one stays *)
  (forall sid, Batch.split_id brow = Some sid ->
     if bool_decide (length (Stagings.split_batch_ids d sid) = 1%nat)
     then split d' !! sid = None
     else split d' = split d) /\
  (* the pull request is in no active staging *)
  PullRequestMethods.staging_id d' pr = [] /\
  (* its staging was cancelled, the others are as they were *)
  (forall j s, stagings d !! j = Some s ->
     exists s', stagings d' !! j = Some s' /\
       if Staging.active s && bool_decide (b ∈ Staging.batch_ids s)
       then Staging.state s' = "cancelled" /\ Staging.active s' = false /\
            Staging.reason s' =
              Some (percent ("%s " +:+ reason) (pr_display_name d i :: args))
       else s' = s) /\
  pull_requests d' = pull_requests d /\
  (* the batches keep their other columns *)
  (forall b', Batch.skipchecks <$> batch d' !! b' = Batch.skipchecks <$> batch d !! b') /\
  (forall b', Batch.merge_date <$> batch d' !! b' = Batch.merge_date <$> batch d !! b').
Proof.
  intros Hi Hb Hbrow d'.
  set (d1 := match PullRequests.batch_of d pr ≫= Batch.split_id with
             | Some sid =>
               if bool_decide (length (Stagings.split_batch_ids d sid) = 1%nat)
               then PullRequestMethods.unlink_split sid d
               else PullRequestMethods.batch_update (PullRequest.batch_id pr)
                      (Batch.set_split_id None) d
             | None => PullRequestMethods.batch_update (PullRequest.batch_id pr)
                         (Batch.set_split_id None) d
             end).
  assert (Hd' : d' = (Stagings.cancel percent (PullRequestMethods.staging_id d1 pr)
                        ("%s " +:+ reason) (pr_display_name d1 i :: args) d1).1).
  { unfold d', PullRequestMethods.unstage. rewrite Hi. reflexivity. }
  assert (Hbo : PullRequests.batch_of d pr ≫= Batch.split_id = Batch.split_id brow).
  { unfold PullRequests.batch_of. rewrite Hb. simpl. rewrite Hbrow. done. }
  assert (H1 : stagings d1 = stagings d /\ pull_requests d1 = pull_requests d /\
               repository d1 = repository d /\
               (forall b', Batch.skipchecks <$> batch d1 !! b'
                           = Batch.skipchecks <$> batch d !! b') /\
               (forall b', Batch.merge_date <$> batch d1 !! b'
                           = Batch.merge_date <$> batch d !! b') /\
               (exists brow', batch d1 !! b = Some brow' /\ Batch.split_id brow' = None) /\
               (forall sid, Batch.split_id brow = Some sid ->
                  if bool_decide (length (Stagings.split_batch_ids d sid) = 1%nat)
                  then split d1 !! sid = None
                  else split d1 = split d)).
  { unfold d1. rewrite Hbo, Hb.
    assert (Hreset : exists brow',
              batch (PullRequestMethods.batch_update (Some b) (Batch.set_split_id None) d) !! b
              = Some brow' /\ Batch.split_id brow' = None).
    { simpl. rewrite lookup_alter_eq, Hbrow. simpl. eauto. }
    assert (Hkeep : forall {A} (col : Batch.row -> A),
              (forall v r, col (Batch.set_split_id v r) = col r) ->
              (forall sid b', col <$> batch (PullRequestMethods.unlink_split sid d) !! b'
                              = col <$> batch d !! b') /\
              (forall b', col <$> batch (PullRequestMethods.batch_update (Some b)
                                           (Batch.set_split_id None) d) !! b'
                          = col <$> batch d !! b')).
    { intros A col Hcol. split.
      - intros sid b'. unfold PullRequestMethods.unlink_split. simpl.
        rewrite lookup_fmap. destruct (batch d !! b') as [x|]; [|done]. simpl.
        case_bool_decide; [rewrite Hcol|]; done.
      - intros b'. simpl. destruct (decide (b = b')) as [->|Hne].
        + rewrite lookup_alter_eq. destruct (batch d !! b'); [|done]. simpl.
          rewrite Hcol. done.
        + rewrite lookup_alter_ne by done. done. }
    destruct (Hkeep _ Batch.skipchecks (fun _ _ => eq_refl)) as [Ks1 Ks2].
    destruct (Hkeep _ Batch.merge_date (fun _ _ => eq_refl)) as [Km1 Km2].
    clear Hkeep.
    destruct (Batch.split_id brow) as [sid|] eqn:Hsid.
    - case_bool_decide as Hlen.
      + repeat split; try done.
        * unfold PullRequestMethods.unlink_split. simpl. rewrite lookup_fmap, Hbrow. simpl.
          rewrite Hsid, bool_decide_eq_true_2 by done. eauto.
        * intros sid' [= <-]. rewrite bool_decide_eq_true_2 by done.
          unfold PullRequestMethods.unlink_split. simpl. apply lookup_delete_eq.
      + repeat split; try done.
        intros sid' [= <-]. rewrite bool_decide_eq_false_2 by done. done.
    - repeat split; try done. }
  destruct H1 as (Hst1 & Hpr1 & Hrepo1 & Hsk1 & Hmd1 & Hbatch1 & Hsplit1).
  assert (Hname : pr_display_name d1 i = pr_display_name d i).
  { unfold pr_display_name, repository_name. rewrite Hpr1, Hrepo1. done. }
  destruct (cancel_spec percent (PullRequestMethods.staging_id d1 pr)
              ("%s " +:+ reason) (pr_display_name d1 i :: args) d1) as (Hs & _ & Hl).
  rewrite <- Hd' in Hs, Hl.
  destruct Hs as (S1&S2&S3&S4&S5&S6&S7&S8&S9&S10&S11&S12).
  assert (Hrows : forall j s, stagings d !! j = Some s ->
     exists s', stagings d' !! j = Some s' /\
       if Staging.active s && bool_decide (b ∈ Staging.batch_ids s)
       then Staging.state s' = "cancelled" /\ Staging.active s' = false /\
            Staging.reason s' =
              Some (percent ("%s " +:+ reason) (pr_display_name d i :: args)) /\
            Staging.batch_ids s' = Staging.batch_ids s
       else s' = s).
  { intros j s Hj. rewrite <- Hst1 in Hj. destruct (Hl j s Hj) as (s' & Hs' & H).
    exists s'. split; [exact Hs'|].
    assert (Heq : bool_decide (j ∈ PullRequestMethods.staging_id d1 pr) && Staging.active s
                  = Staging.active s && bool_decide (b ∈ Staging.batch_ids s)).
    { destruct (Staging.active s) eqn:Ha; [|rewrite andb_false_r; done].
      rewrite andb_true_r. cbn [andb]. apply bool_decide_ext.
      rewrite staging_id_elem. split.
      - intros (b' & s0 & Hb' & Hs0 & _ & Hin). congruence.
      - intros Hin. exists b, s. done. }
    rewrite Heq in H. destruct (Staging.active s && bool_decide _); [|done].
    destruct H as (?&?&?&?&_). rewrite <- Hname. done. }
  split; [rewrite S7; exact Hbatch1|].
  split; [intros sid Hsid; specialize (Hsplit1 sid Hsid); rewrite S9; exact Hsplit1|].
  split.
  { apply list_empty_elem. intros j Hj. apply staging_id_elem in Hj
      as (b' & s' & Hb' & Hs' & Ha' & Hin'). assert (b' = b) as -> by congruence.
    destruct (stagings d !! j) as [s|] eqn:Hsj.
    - destruct (Hrows j s Hsj) as (s'' & Hs'' & H). assert (s'' = s') as -> by congruence.
      destruct (Staging.active s && bool_decide (b ∈ Staging.batch_ids s)) eqn:Hc.
      + destruct H as (_ & Hinact & _). congruence.
      + subst s'. rewrite Ha', bool_decide_eq_true_2 in Hc by done. done.
    - rewrite <- Hst1 in Hsj. unfold Stagings.cancel in Hd'.
      destruct (List.filter _ (PullRequestMethods.staging_id d1 pr)) eqn:Hf.
      + simpl in Hd'. subst d'. congruence.
      + cbn [fst] in Hd'. rewrite Hd', write_other in Hs'; [congruence|].
        rewrite <- Hf, filter_active_elem. unfold Stagings.is_active. rewrite Hsj.
        intros [_ ?]. done. }
  split.
  { intros j s Hj. destruct (Hrows j s Hj) as (s' & Hs' & H). exists s'.
    split; [exact Hs'|]. destruct (Staging.active s && bool_decide _); [|done].
    destruct H as (?&?&?&_). done. }
  split; [congruence|].
  split; intros b'; rewrite S7; [apply Hsk1|apply Hmd1].
Qed.

(** X11. After unstage of a pull request with a batch, the batch waits
    in no split (a split which held this batch alone is deleted, a
    larger one stays), every active staging which holds the batch is
    cancelled with the reason given after the name of the pull request,
    the other stagings keep their rows, and the pull request is in no
    active staging. The pull requests themselves are not written. *)
Theorem unstage_leaves_staging_and_split percent i reason args d pr b brow :
  pull_requests d !! i = Some pr ->
  PullRequest.batch_id pr = Some b ->
  batch d !! b = Some brow ->
  let d' := PullRequestMethods.unstage percent i reason args d in
  (* the batch waits in no split *)
  (exists brow', batch d' !! b = Some brow' /\ Batch.split_id brow' = None) /\
  (* a split of this batch alone is deleted, a larger one stays *)
  (forall sid, Batch.split_id brow = Some sid ->
     if bool_decide (length (Stagings.split_batch_ids d sid) = 1%nat)
     then split d' !! sid = None
     else split d' = split d) /\
  (* the pull request is in no active staging *)
  PullRequestMethods.staging_id d' pr = [] /\
  (* its staging was cancelled, the others are as they were *)
  (forall j s, stagings d !! j = Some s ->
     exists s', stagings d' !! j = Some s' /\
       if Staging.active s && bool_decide (b ∈ Staging.batch_ids s)
       then Staging.state s' = "cancelled" /\ Staging.active s' = false /\
            Staging.reason s' =
              Some (percent ("%s " +:+ reason) (pr_display_name d i :: args))
       else s' = s) /\
  pull_requests d' = pull_requests d.
Proof.
  intros Hi Hb Hbrow d'.
  destruct (unstage_spec percent i reason args d pr b brow Hi Hb Hbrow)
    as (H1 & H2 & H3 & H4 & H5 & _).
  repeat split; assumption.
Qed.

Lemma unstage_leaves_staging_and_split_witness :
  let d := single_db "pending" ∅ in
  let d' := PullRequestMethods.unstage no_percent 1 "unreviewed" [] d in
  PullRequestMethods.staging_id d' (batched_pr 1 1 (Some 1)) = [] /\
  exists s', stagings d' !! 1 = Some s' /\ Staging.state s' = "cancelled".
Proof.
  intros d d'.
  destruct (unstage_leaves_staging_and_split no_percent 1 "unreviewed" [] d
              (batched_pr 1 1 (Some 1)) 1 sample_batch eq_refl eq_refl eq_refl)
    as (_ & _ & H3 & H4 & _).
  split; [exact H3|].
  destruct (H4 1 (single_staging "pending") eq_refl) as (s' & Hs' & H).
  exists s'. split; [exact Hs'|].
  assert (Hc : Staging.active (single_staging "pending") &&
               bool_decide (1 ∈ Staging.batch_ids (single_staging "pending")) = true).
  { apply andb_true_iff. split; [reflexivity|]. apply bool_decide_eq_true.
    apply list_elem_of_singleton. reflexivity. }
  rewrite Hc in H. exact (proj1 H).
Defined.

(** ** The fast-forward protocol when nothing is refused *)

(** The accepted fast-forwards of the commits [cs] on [branch], one
    after the other. *)
Lemma each_commit_accepted
  (f : nat -> StagingCommits.row -> World -> World * option exn)
  (name sha : StagingCommits.row -> string) (branch : string) :
  (forall i c w, ff_fate w (ff_calls w) = None ->
     f i c w = Github.fast_forward (name c) branch (sha c) w) ->
  forall cs i w,
  (forall k, (k < length cs)%nat -> ff_fate w (ff_calls w + k)%nat = None) ->
  let wr := Stagings.each_commit f i cs w in
  wr.2 = None /\
  ff_calls wr.1 = (ff_calls w + length cs)%nat /\
  ff_fate wr.1 = ff_fate w /\
  slept wr.1 = slept w /\
  (forall r b, b <> branch -> refs wr.1 r b = refs w r b) /\
  (forall r, r ∉ map name cs -> refs wr.1 r branch = refs w r branch) /\
  (NoDup (map name cs) -> forall c, c ∈ cs -> refs wr.1 (name c) branch = sha c).
Proof.
  intros Hf. induction cs as [|c cs IH]; intros i w Hall; cbv zeta.
  - simpl. repeat split; try done; try lia.
    intros _ c Hc. apply elem_of_nil in Hc. done.
  - cbn [Stagings.each_commit].
    assert (H0 : ff_fate w (ff_calls w) = None).
    { rewrite <- (Nat.add_0_r (ff_calls w)). apply Hall. simpl. lia. }
    rewrite (Hf i c w H0).
    pose proof (fast_forward_spec (name c) branch (sha c) w) as (Hk1 & Hc1 & Hs1 & Hr1).
    cbv zeta in Hk1, Hc1, Hs1, Hr1. rewrite H0 in Hr1. destruct Hr1 as [Hn1 Href1].
    set (w1 := Github.fast_forward (name c) branch (sha c) w) in *.
    rewrite Hn1. destruct Hk1 as [Hfate1 Hkeep1].
    destruct (IH (S i) w1.1) as (I1 & I2 & I3 & I4 & I5 & I6 & I7).
    { intros k Hk. rewrite Hfate1, Hc1.
      replace (S (ff_calls w) + k)%nat with (ff_calls w + S k)%nat by lia.
      apply Hall. simpl. lia. }
    set (wr := Stagings.each_commit f (S i) cs w1.1) in *.
    split; [exact I1|]. split; [rewrite I2, Hc1; simpl; lia|].
    split; [congruence|]. split; [congruence|].
    split; [intros r b Hb; rewrite I5, Hkeep1; done|].
    assert (Hother : forall r, r <> name c -> refs w1.1 r branch = refs w r branch).
    { intros r Hr. unfold w1, Github.fast_forward. rewrite H0. cbn [fst].
      unfold Github.set_ref. cbn [refs].
      rewrite (bool_decide_eq_false_2 (r = name c)) by done. done. }
    split.
    + intros r Hr. cbn [map] in Hr. rewrite I6.
      * apply Hother. intros ->. apply Hr, elem_of_cons. auto.
      * intros Hin. apply Hr, elem_of_cons. auto.
    + intros Hnd c' Hc'. cbn [map] in Hnd. apply NoDup_cons in Hnd as [Hnotin Hnd].
      apply elem_of_cons in Hc' as [->|Hc'].
      * rewrite I6; [exact Href1|exact Hnotin].
      * apply I7; done.
Qed.

Lemma retry_accepted i repo branch sha w :
  ff_fate w (ff_calls w) = None ->
  Stagings.fast_forward_retry i repo branch sha pauses w
  = Github.fast_forward repo branch sha w.
Proof.
  intros H. unfold pauses. cbn [Stagings.fast_forward_retry].
  pose proof (fast_forward_spec repo branch sha w) as (_ & _ & _ & Hr).
  cbv zeta in Hr. rewrite H in Hr. destruct Hr as [-> _]. reflexivity.
Qed.

(** X12. When the remote accepts every request and the staging has one
    commit per repository, _safety_dance returns without error after two
    fast-forward requests per commit and without sleeping: the target
    branch and the temporary branch of every repository are at the
    staging commit, and no other branch moved. *)
Theorem safety_dance_fast_forwards_all d s cs w :
  let name := fun c => repository_name d (StagingCommits.repository_id c) in
  let sha := fun c => commit_sha d (StagingCommits.commit_id c) in
  let target := branch_name d (Staging.target s) in
  (* every request is accepted: one per commit and phase *)
  (forall k, (k < 2 * length cs)%nat -> ff_fate w (ff_calls w + k)%nat = None) ->
  (* one commit per repository *)
  NoDup (map name cs) ->
  exists w',
    Stagings._safety_dance d s cs w = (w', None) /\
    ff_calls w' = (ff_calls w + 2 * length cs)%nat /\
    slept w' = slept w /\
    (* the target branch of every repository is at its staging commit,
       and so is its temporary branch *)
    (forall c, c ∈ cs ->
       refs w' (name c) target = sha c /\
       refs w' (name c) (Stagings.tmp_target d s) = sha c) /\
    (* nothing else moved *)
    (forall r b, b <> target -> b <> Stagings.tmp_target d s ->
       refs w' r b = refs w r b) /\
    (forall r, r ∉ map name cs -> refs w' r target = refs w r target).
Proof.
  intros name sha target Hall Hnd. unfold Stagings._safety_dance.
  pose proof (reset_tmps_spec d s cs w) as ([Hf0 Hk0] & Hc0 & Hs0). cbv zeta in *.
  set (w0 := Stagings.reset_tmps d s cs w) in *.
  unfold Stagings.dry_run.
  destruct (each_commit_accepted
              (fun (_ : nat) c => Github.fast_forward (name c) (Stagings.tmp_target d s) (sha c))
              name sha (Stagings.tmp_target d s)) with (cs := cs) (i := 0%nat) (w := w0)
    as (D1 & D2 & D3 & D4 & D5 & D6 & D7); [done| |].
  { intros k Hk. rewrite Hf0, Hc0. apply Hall. lia. }
  fold name sha. set (wd := Stagings.each_commit _ 0%nat cs w0) in *.
  rewrite D1. unfold Stagings.real_run. fold name sha target.
  destruct (each_commit_accepted
              (fun i c => Stagings.fast_forward_retry i (name c) target (sha c) pauses)
              name sha target) with (cs := cs) (i := 0%nat) (w := wd.1)
    as (R1 & R2 & R3 & R4 & R5 & R6 & R7).
  { intros i c w1 H1. apply retry_accepted, H1. }
  { intros k Hk. rewrite D3, D2, Hf0, Hc0.
    replace (ff_calls w + length cs + k)%nat with (ff_calls w + (length cs + k))%nat by lia.
    apply Hall. lia. }
  set (wr := Stagings.each_commit _ 0%nat cs wd.1) in *.
  exists wr.1. split; [destruct wr; simpl in *; congruence|].
  split; [rewrite R2, D2, Hc0; lia|]. split; [congruence|].
  pose proof (tmp_target_fresh d s) as Hfresh. fold target in Hfresh.
  split; [|split].
  - intros c Hc. split; [apply R7; done|].
    rewrite R5 by (intros H; apply Hfresh; done). apply D7; done.
  - intros r b Hb1 Hb2. rewrite R5, D5, Hk0; done.
  - intros r Hr. rewrite R6 by done. rewrite D5 by done. apply Hk0. done.
Qed.

Lemma safety_dance_fast_forwards_all_witness :
  let s := sample_staging "success" true [1; 2; 3; 4] [head_of 1 1; head_of 2 2] in
  let d := staging_db "success" true ∅ in
  exists w',
    Stagings._safety_dance d s (Staging.commits s) (sample_world (fun _ => None))
      = (w', None) /\
    refs w' "odoo" "master" = "abc" /\ refs w' "enterprise" "master" = "def".
Proof.
  intros s d.
  destruct (safety_dance_fast_forwards_all d s (Staging.commits s)
              (sample_world (fun _ => None))) as (w' & H1 & _ & _ & H4 & _).
  - intros k _. reflexivity.
  - apply (bool_decide_unpack (NoDup _)). vm_compute. exact I.
  - exists w'. split; [exact H1|]. split.
    + apply (H4 (head_of 1 1)). apply elem_of_cons. auto.
    + apply (H4 (head_of 2 2)). apply elem_of_cons. right. apply elem_of_cons. auto.
Defined.

(** ** A staging which is merged *)

Lemma set_merge_date_idem now r :
  Batch.set_merge_date (Some now) (Batch.set_merge_date (Some now) r)
  = Batch.set_merge_date (Some now) r.
Proof. reflexivity. Qed.

Lemma stamp_merged_spec now batches prs d :
  let d' := Stagings.stamp_merged now batches prs d in
  (forall b, batch d' !! b =
     if bool_decide (b ∈ batches) then Batch.set_merge_date (Some now) <$> batch d !! b
     else batch d !! b) /\
  stagings d' = stagings d /\ feedback d' = feedback d /\ tagging d' = tagging d /\
  (forall p row b brow, p ∈ prs -> pull_requests d !! p = Some row ->
     PullRequest.batch_id row = Some b -> b ∈ batches -> batch d !! b = Some brow ->
     pull_requests d' !! p = Some (PullRequest.set_state "merged" row)) /\
  (forall p, p ∉ prs -> pull_requests d' !! p = pull_requests d !! p).
Proof.
  cbv zeta. unfold Stagings.stamp_merged.
  set (d1 := set_batch _ d).
  assert (Hb : forall b, batch d1 !! b =
     if bool_decide (b ∈ batches) then Batch.set_merge_date (Some now) <$> batch d !! b
     else batch d !! b).
  { intros b. unfold d1. cbn [batch set_batch]. apply fold_alter_lookup.
    apply set_merge_date_idem. }
  destruct (compute_state_same d1 prs) as (S1&S2&S3&S4&S5&S6&S7&S8&S9&S10&S11&S12).
  split; [intros b; rewrite S7; apply Hb|].
  split; [rewrite S8; reflexivity|]. split; [rewrite S10; reflexivity|].
  split; [rewrite S12; reflexivity|]. split.
  - intros p row b brow Hp Hrow Hbid Hin Hbrow.
    rewrite compute_state_lookup. change (pull_requests d1) with (pull_requests d).
    rewrite Hrow. simpl. rewrite bool_decide_eq_true_2 by done. f_equal. f_equal.
    unfold PullRequests.compute_state_value, PullRequests.batch_of.
    rewrite Hbid. simpl. rewrite Hb, bool_decide_eq_true_2, Hbrow by done. reflexivity.
  - intros p Hp. rewrite compute_state_lookup. change (pull_requests d1) with (pull_requests d).
    rewrite bool_decide_eq_false_2 by done. destruct (pull_requests d !! p); done.
Qed.

Lemma close_merged_spec pb (prs : list Z) : forall d,
  let dr := Stagings.close_merged pb prs d in
  pull_requests dr.1 = pull_requests d /\ batch dr.1 = batch d /\
  stagings dr.1 = stagings d /\
  (pb = None -> tagging dr.1 = tagging d) /\
  ((forall p row, p ∈ prs -> pull_requests d !! p = Some row ->
      is_Some (PullRequest.commits_map row !! "")) ->
   dr.2 = None /\
   exists fs, feedback dr.1 = feedback d ++ fs /\
     Forall2 (fun p f => exists row sha,
                pull_requests d !! p = Some row /\
                PullRequest.commits_map row !! "" = Some sha /\
                f = {| Feedback.repository := PullRequest.repository row;
                       Feedback.pull_request := PullRequest.number row;
                       Feedback.message := Some (json_sha sha);
                       Feedback.close := true |})
             (List.filter (fun p => bool_decide (is_Some (pull_requests d !! p))) prs) fs) /\
  ((exists p row, p ∈ prs /\ pull_requests d !! p = Some row /\
      PullRequest.commits_map row !! "" = None) ->
   dr.2 = Some (KeyError "")).
Proof.
  induction prs as [|p prs IH]; intros d; cbv zeta.
  - simpl. repeat split; try done.
    + exists []. rewrite app_nil_r. split; [done|constructor].
    + intros (p & row & Hp & _). apply elem_of_nil in Hp. done.
  - cbn [Stagings.close_merged List.filter].
    destruct (pull_requests d !! p) as [row|] eqn:Hrow.
    2:{ rewrite bool_decide_eq_false_2 by (intros [? ?]; done).
        destruct (IH d) as (I1&I2&I3&I4&I5&I6). cbv zeta in *.
        split; [done|]. split; [done|]. split; [done|]. split; [done|]. split.
        - intros Hall. apply I5. intros q rq Hq. apply Hall, elem_of_cons. auto.
        - intros (q & rq & Hq & Hrq & Hno). apply I6.
          apply elem_of_cons in Hq as [->|Hq]; [congruence|]. eauto. }
    rewrite bool_decide_eq_true_2 by eauto.
    destruct (PullRequest.commits_map row !! "") as [sha|] eqn:Hsha.
    2:{ cbn [fst snd]. split; [done|]. split; [done|]. split; [done|]. split; [done|].
        split; [|done]. intros Hall.
        destruct (Hall p row) as [x Hx]; [apply elem_of_cons; auto|done|congruence]. }
    set (d1 := set_feedback _ d).
    set (d2 := match pb with Some b => set_tagging _ d1 | None => d1 end).
    assert (H2 : pull_requests d2 = pull_requests d /\ batch d2 = batch d /\
                 stagings d2 = stagings d /\ feedback d2 = feedback d1 /\
                 (pb = None -> tagging d2 = tagging d)).
    { unfold d2. destruct pb; repeat split; try done. }
    destruct H2 as (P1&P2&P3&P4&P5).
    destruct (IH d2) as (I1&I2&I3&I4&I5&I6). cbv zeta in *.
    split; [congruence|]. split; [congruence|]. split; [congruence|].
    split; [intros Hpb; rewrite I4, P5; done|]. split.
    + intros Hall. destruct I5 as (Hn & fs & Hfs & HF).
      { intros q rq Hq Hrq. rewrite P1 in Hrq. eapply Hall; [apply elem_of_cons; eauto|done]. }
      split; [exact Hn|]. eexists (_ :: fs). split.
      * rewrite Hfs, P4. unfold d1. cbn [feedback set_feedback].
        rewrite <- app_assoc. reflexivity.
      * constructor; [exists row, sha; done|]. rewrite P1 in HF. exact HF.
    + intros (q & rq & Hq & Hrq & Hno). apply I6.
      apply elem_of_cons in Hq as [->|Hq]; [congruence|]. rewrite P1. eauto.
Qed.

Lemma Forall2_impl_elem {A B} (P Q : A -> B -> Prop) l k :
  Forall2 P l k -> (forall x y, x ∈ l -> P x y -> Q x y) -> Forall2 Q l k.
Proof.
  induction 1 as [|x y l k Hxy HF IH]; intros H; constructor.
  - apply H; [apply elem_of_cons; auto|done].
  - apply IH. intros a b Ha. apply H, elem_of_cons. auto.
Qed.

Section Merge.
Variable format_template : string -> DB -> Z -> list string -> string.
Variable next_freeze : DB -> Z -> option string.

(** X13. check_status on an active successful staging whose fast-forward
    went through dates the batches of the staging at the current time,
    which makes their pull requests merged, leaves the staging inactive
    and successful, and queues for each pull request one closing
    feedback carrying the commit which integrates it. A pull request
    without such a commit in its commits_map raises KeyError, after the
    branches moved. *)
Theorem check_status_merges now i env w s :
  stagings (db env) !! i = Some s ->
  Staging.active s = true ->
  Staging.state s = "success" ->
  (* the fast-forward protocol went through *)
  (Stagings._safety_dance (db env) s (Staging.commits s) w).2 = None ->
  (forall b, b ∈ Staging.batch_ids s -> is_Some (batch (db env) !! b)) ->
  let prs := prs_of_batches (db env) (Staging.batch_ids s) in
  let r := Stagings.check_status format_template next_freeze now i env w in
  r.1.2 = (Stagings._safety_dance (db env) s (Staging.commits s) w).1 /\
  change_message r.1.1 = Some ("staging " +:+ pretty i +:+ " succeeded") /\
  (* the batches are dated, their pull requests merged *)
  (forall b, b ∈ Staging.batch_ids s ->
     exists row, batch (db r.1.1) !! b = Some row /\ Batch.merge_date row = Some now) /\
  (forall p, p ∈ prs ->
     exists row, pull_requests (db r.1.1) !! p = Some row /\
                 PullRequest.state row = "merged") /\
  (* the staging is over, still a success *)
  (exists s', stagings (db r.1.1) !! i = Some s' /\
     Staging.active s' = false /\ Staging.state s' = "success") /\
  (* each pull request is closed with the commit which integrates it *)
  ((forall p row, p ∈ prs -> pull_requests (db env) !! p = Some row ->
      is_Some (PullRequest.commits_map row !! "")) ->
   r.2 = None /\
   exists fs, feedback (db r.1.1) = feedback (db env) ++ fs /\
     Forall2 (fun p f => exists row sha,
                pull_requests (db env) !! p = Some row /\
                PullRequest.commits_map row !! "" = Some sha /\
                Feedback.repository f = PullRequest.repository row /\
                Feedback.pull_request f = PullRequest.number row /\
                Feedback.message f = Some (json_sha sha) /\
                Feedback.close f = true) prs fs) /\
  (* which must be known: the error comes after the branches moved *)
  ((exists p row, p ∈ prs /\ pull_requests (db env) !! p = Some row /\
      PullRequest.commits_map row !! "" = None) ->
   r.2 = Some (KeyError "")).
Proof.
  intros Hi Ha Hst Hsd Hbatches prs r.
  set (wr := Stagings._safety_dance (db env) s (Staging.commits s) w) in *.
  set (d2 := Stagings.stamp_merged now (Staging.batch_ids s) prs (db env)).
  set (dr := Stagings.close_merged (next_freeze d2 (Staging.target s)) prs d2).
  assert (Hr : r = ({| db := Stagings.deactivate i dr.1; committed := committed env;
                       change_author := change_author env;
                       change_message := Some ("staging " +:+ pretty i +:+ " succeeded");
                       precommit_unlink := precommit_unlink env |}, wr.1, dr.2)).
  { unfold r, Stagings.check_status. rewrite Hi, Ha. cbn [negb].
    rewrite bool_decide_eq_true_2 by done. fold wr. rewrite Hsd. reflexivity. }
  rewrite Hr. cbn [fst snd db change_message]. clear Hr r.
  destruct (stamp_merged_spec now (Staging.batch_ids s) prs (db env))
    as (M1 & M2 & M3 & M4 & M5 & M6). fold d2 in M1, M2, M3, M4, M5, M6.
  destruct (close_merged_spec (next_freeze d2 (Staging.target s)) prs d2)
    as (C1 & C2 & C3 & C4 & C5 & C6). fold dr in C1, C2, C3, C4, C5, C6.
  unfold Stagings.deactivate.
  set (v := {| Stagings.vals_state := None; Stagings.vals_active := Some false;
               Stagings.vals_reason := None; Stagings.vals_timeout_limit := None;
               Stagings.vals_statuses_cache := None |}).
  pose proof (write_same [i] v dr.1) as (W1&W2&W3&W4&W5&W6&W7&W8&W9&W10&W11&W12).
  assert (Hmerged : forall p, p ∈ prs -> exists row,
            pull_requests (db env) !! p = Some row /\
            pull_requests d2 !! p = Some (PullRequest.set_state "merged" row)).
  { intros p Hp. pose proof Hp as Hp'.
    apply prs_of_batches_spec in Hp' as (row & b & Hrow & Hb & Hin).
    destruct (Hbatches b Hin) as [brow Hbrow]. exists row. split; [done|].
    eapply M5; eauto. }
  split; [done|]. split; [done|]. split.
  { intros b Hb. destruct (Hbatches b Hb) as [brow Hbrow].
    rewrite W7, C2, M1, bool_decide_eq_true_2, Hbrow by done. simpl. eauto. }
  split.
  { intros p Hp. destruct (Hmerged p Hp) as (row & _ & H2).
    rewrite W8, C1, H2. eauto. }
  split.
  { destruct (write_one_lookup i v dr.1 s) as (s' & Hs' & Hw); [congruence|].
    exists s'. split; [exact Hs'|].
    destruct Hw as (_&_&_&_&_&Hs&Hact&_). split; [exact Hact|]. rewrite Hs. exact Hst. }
  assert (Hfilter : List.filter (fun p => bool_decide (is_Some (pull_requests d2 !! p))) prs
                    = prs).
  { apply filter_all. intros p Hp. apply bool_decide_eq_true.
    destruct (Hmerged p Hp) as (row & _ & ->). eauto. }
  split.
  - intros Hall. destruct C5 as (Hn & fs & Hfs & HF).
    { intros p row Hp Hrow. destruct (Hmerged p Hp) as (row0 & H0 & H2).
      rewrite H2 in Hrow. injection Hrow as <-. simpl. eapply Hall; eauto. }
    split; [exact Hn|]. exists fs. split; [rewrite W10, Hfs, M3; done|].
    rewrite Hfilter in HF.
    eapply Forall2_impl_elem; [exact HF|].
    intros p f Hp (row & sha & Hrow & Hsha & ->).
    destruct (Hmerged p Hp) as (row0 & H0 & H2). rewrite H2 in Hrow.
    injection Hrow as <-. exists row0, sha. repeat split; done.
  - intros (p & row & Hp & Hrow & Hno). apply C6.
    destruct (Hmerged p Hp) as (row0 & H0 & H2).
    assert (row0 = row) as -> by congruence.
    exists p, (PullRequest.set_state "merged" row). repeat split; done.
Qed.
End Merge.

Lemma check_status_merges_witness :
  let d := single_db "success" ∅ in
  let r := Stagings.check_status no_template no_freeze 5000 1 (sample_env d)
             (sample_world (fun _ => None)) in
  r.2 = None /\
  (exists row, pull_requests (db r.1.1) !! 1 = Some row /\
               PullRequest.state row = "merged") /\
  exists s', stagings (db r.1.1) !! 1 = Some s' /\
     Staging.active s' = false /\ Staging.state s' = "success".
Proof.
  intros d r.
  assert (Hprs : prs_of_batches d [1] = [2; 1]) by (vm_compute; reflexivity).
  destruct (check_status_merges no_template no_freeze 5000 1 (sample_env d)
              (sample_world (fun _ => None)) (single_staging "success"))
    as (_ & _ & _ & H4 & H5 & H6 & _).
  - reflexivity.
  - reflexivity.
  - reflexivity.
  - vm_compute. reflexivity.
  - intros b Hb. apply list_elem_of_singleton in Hb. subst b. eexists. reflexivity.
  - split; [|split].
    + apply H6. intros p row Hp.
      change (p ∈ prs_of_batches d [1]) in Hp. rewrite Hprs in Hp.
      apply elem_of_cons in Hp as [->|Hp];
        [|apply list_elem_of_singleton in Hp; subst p];
        intros [= <-]; eexists; reflexivity.
    + apply H4. change (1 ∈ prs_of_batches d [1]). rewrite Hprs.
      apply elem_of_cons. right. apply list_elem_of_singleton. reflexivity.
    + exact H5.
Defined.

(** ** Statuses posted on the head of a pull request *)

Lemma set_statuses_idem v r :
  PullRequest.set_statuses v (PullRequest.set_statuses v r) = PullRequest.set_statuses v r.
Proof. reflexivity. Qed.

Section Validate.
Variable format_template : string -> DB -> Z -> list string -> string.

(** X14. PullRequests._validate does nothing on merged pull requests: a
    recordset of merged pull requests leaves the database unchanged, and
    in general a merged pull request and a pull request outside the
    recordset keep their rows while the others take the statuses given. *)
Theorem validate_spares_merged fuel self statuses d :
  (* nothing happens when all are merged *)
  ((forall p, p ∈ self -> PullRequestMethods.state_of d p = "merged") ->
   PullRequestMethods._validate format_template fuel self statuses d = Done d) /\
  forall d', PullRequestMethods._validate format_template fuel self statuses d = Done d' ->
    (* a merged pull request keeps its row, and so do those not given *)
    (forall p row, pull_requests d !! p = Some row ->
       p ∉ self \/ PullRequest.state row = "merged" ->
       pull_requests d' !! p = Some row) /\
    (* the others take the statuses *)
    (forall p row, p ∈ self -> pull_requests d !! p = Some row ->
       PullRequest.state row <> "merged" ->
       exists row', pull_requests d' !! p = Some row' /\
                    PullRequest.statuses row' = statuses).
Proof.
  unfold PullRequestMethods._validate.
  set (upd := List.filter (fun p => bool_decide (PullRequestMethods.state_of d p ≠ "merged")) self).
  assert (Hupd : forall p, p ∈ upd <-> p ∈ self /\ PullRequestMethods.state_of d p <> "merged").
  { intros p. unfold upd. rewrite list_elem_of_In, filter_In, <- list_elem_of_In.
    rewrite bool_decide_eq_true. done. }
  split.
  - intros Hall. assert (upd = []) as ->; [|reflexivity].
    apply list_empty_elem. intros p Hp.
    apply Hupd in Hp as [Hp Hn]. apply Hn, Hall, Hp.
  - intros d' H.
    set (d1 := fold_left (fun d p => PullRequests.update p (PullRequest.set_statuses statuses) d) upd d) in H.
    assert (H1 : forall j, pull_requests d1 !! j =
              if bool_decide (j ∈ upd)
              then PullRequest.set_statuses statuses <$> pull_requests d !! j
              else pull_requests d !! j).
    { intros j. unfold d1.
      rewrite (proj1 (fold_update_prs _ _ _)). apply fold_alter_lookup, set_statuses_idem. }
    pose proof (keeps_preorder PullRequest.statuses upd) as HK.
    assert (H2 : rows_rel (keeps PullRequest.statuses upd) d1 d').
    { destruct (PullRequests._compute_statuses fuel d1 upd) as [d2| |] eqn:E2;
        simpl in H; try done.
      eapply (rows_rel_trans _ HK).
      { eapply (rows_rel_compute_statuses _ HK); [| |exact E2];
          intros; apply keeps_col_touched; done. }
      eapply (rows_rel_trans _ HK).
      { apply (rows_rel_compute_state _ HK).
        intros; apply keeps_col_touched; done. }
      apply (rows_rel_fold_outcome _ HK
               (fun d p => PullRequestMethods.notify_failures format_template p d)) in H.
      - destruct H as (d0 & [= <-] & Hs). exact Hs.
      - intros d0 p d0' Hp Hn.
        eapply (rows_rel_notify_failures _ HK); [|exact Hn].
        intros; apply keeps_col_touched; done. }
    split.
    + intros p row Hrow Hor.
      assert (Hnot : p ∉ upd).
      { rewrite Hupd. unfold PullRequestMethods.state_of. rewrite Hrow. simpl.
        destruct Hor; tauto. }
      destruct (H2 p row) as (row' & Hrow' & Hk).
      { rewrite H1, bool_decide_eq_false_2; done. }
      unfold keeps in Hk. rewrite bool_decide_eq_false_2 in Hk by done. congruence.
    + intros p row Hp Hrow Hn.
      assert (Hin : p ∈ upd).
      { rewrite Hupd. unfold PullRequestMethods.state_of. rewrite Hrow. done. }
      destruct (H2 p (PullRequest.set_statuses statuses row)) as (row' & Hrow' & Hk).
      { rewrite H1, bool_decide_eq_true_2, Hrow; done. }
      unfold keeps in Hk. rewrite bool_decide_eq_true_2 in Hk by done.
      exists row'. done.
Qed.

End Validate.

Lemma validate_spares_merged_witness :
  let merged := PullRequest.set_state "merged" (sample_pr 1 None ∅ ∅) in
  let d := set_pull_requests {[ 1 := merged ]} base_db in
  PullRequestMethods._validate no_template 5 [1] {[ "ci" := reported "failure" ]} d
  = Done d.
Proof.
  intros merged d.
  apply (proj1 (validate_spares_merged no_template 5 [1] {[ "ci" := reported "failure" ]} d)).
  intros p Hp. apply list_elem_of_singleton in Hp. subst p. reflexivity.
Defined.

(** ** A failure is notified once *)

Lemma statuses_equivalent_trans a b c :
  PullRequestMethods._statuses_equivalent a b = true ->
  PullRequestMethods._statuses_equivalent b c = true ->
  PullRequestMethods._statuses_equivalent a c = true.
Proof.
  unfold PullRequestMethods._statuses_equivalent. intros H1 H2.
  apply andb_true_iff in H1 as [H1 H1'], H2 as [H2 H2'].
  apply bool_decide_eq_true in H1, H1', H2, H2'.
  apply andb_true_iff. split; apply bool_decide_eq_true; congruence.
Qed.

Section Notify.
Variable format_template : string -> DB -> Z -> list string -> string.

(** X15. _notify_ci_new_failure is idempotent for equivalent statuses
    (same state and target url, the description not counting): a second
    notification changes nothing, whatever the context. The first adds
    at most one feedback, and only to an approved pull request; nothing
    at all changes when an equivalent failure is already recorded in
    previous_failure for any context. *)
Theorem failure_notified_once i ci ci' st st' d pr :
  pull_requests d !! i = Some pr ->
  (* the same failure: the description does not count *)
  st !! "state" = st' !! "state" ->
  st !! "target_url" = st' !! "target_url" ->
  let d1 := PullRequestMethods._notify_ci_new_failure format_template i ci st d in
  (* a second notification does nothing, whatever the context *)
  PullRequestMethods._notify_ci_new_failure format_template i ci' st' d1 = d1 /\
  (* the first one is at most one message, to an approved pull request *)
  (feedback d1 = feedback d \/
   PullRequest.state pr = "approved" /\
   exists f, feedback d1 = feedback d ++ [f] /\
             Feedback.pull_request f = PullRequest.number pr) /\
  (* and it is not sent again for a failure known on any context *)
  ((exists c v, PullRequest.previous_failure pr !! c = Some v /\
      PullRequestMethods._statuses_equivalent st v = true) -> d1 = d).
Proof.
  intros Hi Hs Hu d1.
  assert (Heq : PullRequestMethods._statuses_equivalent st' st = true).
  { unfold PullRequestMethods._statuses_equivalent.
    rewrite !bool_decide_eq_true_2; done. }
  assert (Hex : forall prev : status_dict,
            existsb (PullRequestMethods._statuses_equivalent st) (map_to_list prev).*2 = true
            <-> exists c v, prev !! c = Some v /\
                  PullRequestMethods._statuses_equivalent st v = true).
  { intros prev. rewrite existsb_exists. split.
    - intros (v & Hin & Hv). apply list_elem_of_In, list_elem_of_fmap in Hin
        as ([c v'] & -> & Hin). apply elem_of_map_to_list in Hin. eauto.
    - intros (c & v & Hc & Hv). exists v. split; [|done].
      apply list_elem_of_In, list_elem_of_fmap. exists (c, v). split; [done|].
      apply elem_of_map_to_list. done. }
  assert (Hex' : forall prev : status_dict,
            (exists c v, prev !! c = Some v /\
               PullRequestMethods._statuses_equivalent st v = true) ->
            existsb (PullRequestMethods._statuses_equivalent st') (map_to_list prev).*2 = true).
  { intros prev (c & v & Hc & Hv). apply existsb_exists. exists v. split.
    - apply list_elem_of_In, list_elem_of_fmap. exists (c, v). split; [done|].
      apply elem_of_map_to_list. done.
    - eapply statuses_equivalent_trans; eauto. }
  assert (Hd1 : d1 =
    if existsb (PullRequestMethods._statuses_equivalent st)
         (map_to_list (PullRequest.previous_failure pr)).*2
    then d
    else PullRequestMethods._notify_ci_failed format_template i ci
           (PullRequests.update i (PullRequest.set_previous_failure
              (<[ci:=st]> (PullRequest.previous_failure pr))) d)).
  { unfold d1, PullRequestMethods._notify_ci_new_failure. rewrite Hi. reflexivity. }
  clearbody d1. subst d1.
  destruct (existsb (PullRequestMethods._statuses_equivalent st)
              (map_to_list (PullRequest.previous_failure pr)).*2) eqn:Hknown.
  - split; [|split; [auto|done]].
    unfold PullRequestMethods._notify_ci_new_failure. rewrite Hi.
    rewrite Hex'; [done|]. apply Hex. done.
  - set (d0 := PullRequests.update i (PullRequest.set_previous_failure
                 (<[ci:=st]> (PullRequest.previous_failure pr))) d).
    assert (H0 : pull_requests d0 !! i = Some (PullRequest.set_previous_failure
                 (<[ci:=st]> (PullRequest.previous_failure pr)) pr)).
    { unfold d0. rewrite pr_update_lookup, bool_decide_eq_true_2, Hi; done. }
    assert (Hn : pull_requests (PullRequestMethods._notify_ci_failed format_template i ci d0)
                 = pull_requests d0).
    { unfold PullRequestMethods._notify_ci_failed. case_bool_decide; [|done].
      apply send_template_frame. }
    split; [|split].
    + unfold PullRequestMethods._notify_ci_new_failure. rewrite Hn, H0.
      cbn [PullRequest.previous_failure PullRequest.set_previous_failure].
      rewrite Hex'; [done|]. exists ci, st. split; [apply lookup_insert_eq|].
      unfold PullRequestMethods._statuses_equivalent.
      rewrite !bool_decide_eq_true_2; done.
    + unfold PullRequestMethods._notify_ci_failed, PullRequestMethods.state_of.
      rewrite H0. cbn [fmap option_fmap option_map default PullRequest.state
                       PullRequest.set_previous_failure].
      case_bool_decide as Hap; [|left; done]. right. split; [done|].
      rewrite (send_template_feedback _ _ _ _ _ _ H0). eexists. split; [reflexivity|].
      reflexivity.
    + intros Hk. apply Hex in Hk. congruence.
Qed.

End Notify.

Lemma failure_notified_once_witness :
  let approved := PullRequest.set_state "approved" (sample_pr 1 None ∅ ∅) in
  let d := set_pull_requests {[ 1 := approved ]} base_db in
  let st : status_entry := {[ "state" := "failure"; "description" := "first" ]} in
  let st' : status_entry := {[ "state" := "failure"; "description" := "second" ]} in
  let d1 := PullRequestMethods._notify_ci_new_failure no_template 1 "ci" st d in
  PullRequestMethods._notify_ci_new_failure no_template 1 "lint" st' d1 = d1.
Proof.
  intros approved d st st' d1.
  apply (failure_notified_once no_template 1 "ci" "lint" st st' d approved);
    reflexivity.
Defined.

(** ** Batches by target and label *)

Lemma list_ascii_app (a b : string) :
  String.list_ascii_of_string (a +:+ b)
  = String.list_ascii_of_string a ++ String.list_ascii_of_string b.
Proof. induction a as [|c a IH]; simpl; [done|]. rewrite IH. done. Qed.

Lemma drop_digits_app (ds rest : list Ascii.ascii) :
  forallb is_digit ds = true -> drop_digits (ds ++ rest) = drop_digits rest.
Proof.
  induction ds as [|c ds IH]; simpl; [done|].
  intros H. apply andb_true_iff in H as [-> H]. apply IH, H.
Qed.

Lemma forallb_rev {A} (f : A -> bool) (l : list A) :
  forallb f (rev l) = forallb f l.
Proof.
  induction l as [|x l IH]; simpl; [done|].
  rewrite forallb_app, IH. simpl. rewrite andb_true_r. apply andb_comm.
Qed.

Lemma is_patch_label_spec (owner digits : string) :
  digits <> "" ->
  forallb is_digit (String.list_ascii_of_string digits) = true ->
  is_patch_label (owner +:+ ":patch-" +:+ digits) = true.
Proof.
  intros Hne Hd. unfold is_patch_label.
  rewrite !list_ascii_app, !rev_app_distr.
  set (ds := rev (String.list_ascii_of_string digits)).
  assert (Hds : forallb is_digit ds = true) by (unfold ds; rewrite forallb_rev; done).
  destruct ds as [|c ds'] eqn:Eds.
  { exfalso. apply (f_equal (@rev _)) in Eds. unfold ds in Eds.
    rewrite rev_involutive in Eds. simpl in Eds.
    destruct digits; [done|discriminate]. }
  rewrite <- Eds. rewrite <- app_assoc.
  rewrite drop_digits_app by (rewrite Eds; done).
  rewrite Eds. cbn [app]. simpl in Hds. apply andb_true_iff in Hds as [-> _].
  cbn [andb]. change (rev (String.list_ascii_of_string ":patch-"))
    with (String.list_ascii_of_string "-hctap:").
  cbn [String.list_ascii_of_string app drop_digits is_digit].
  simpl. destruct (rev (String.list_ascii_of_string owner)); reflexivity.
Qed.

Section GetBatch.
Variable new_batch : Z -> Batch.row.

(** The batches which [_get_batch] searches. *)
Lemma get_batch_candidates target label d b :
  b ∈ (map_to_list (filter (fun kv : Z * Batch.row =>
         Batch.merge_date kv.2 = None /\ Batch.target kv.2 = target /\
         existsb (fun p => bool_decide
                    (PullRequest.label <$> pull_requests d !! p = Some label))
                 (prs_of_batches d [kv.1]) = true)
         (batch d))).*1 <->
  exists row, batch d !! b = Some row /\
    Batch.merge_date row = None /\ Batch.target row = target /\
    exists p r, pull_requests d !! p = Some r /\
      PullRequest.batch_id r = Some b /\ PullRequest.label r = label.
Proof.
  rewrite list_elem_of_fmap. split.
  - intros ([k row] & -> & Hin). apply elem_of_map_to_list in Hin.
    apply map_lookup_filter_Some in Hin as [Hl (Hm & Ht & Hex)]. cbn [fst snd] in *.
    exists row. split; [done|]. split; [done|]. split; [done|].
    apply existsb_exists in Hex as (p & Hp & Hlab).
    apply list_elem_of_In, prs_of_batches_spec in Hp as (r & b' & Hr & Hb & Hin).
    apply list_elem_of_singleton in Hin. subst b'.
    apply bool_decide_eq_true in Hlab. rewrite Hr in Hlab. simpl in Hlab.
    exists p, r. split; [done|]. split; [done|]. congruence.
  - intros (row & Hrow & Hm & Ht & p & r & Hr & Hb & Hlab).
    exists (b, row). split; [done|].
    apply elem_of_map_to_list, map_lookup_filter_Some. split; [done|].
    cbn [fst snd]. split; [done|]. split; [done|].
    apply existsb_exists. exists p. split.
    + apply list_elem_of_In, prs_of_batches_spec. exists r, b. split; [done|].
      split; [done|]. apply list_elem_of_singleton. done.
    + apply bool_decide_eq_true. rewrite Hr. simpl. congruence.
Qed.

(** X16. For a label of ASCII characters on one line and a search which
    finds one batch at most, _get_batch searches the open batches (no
    merge date) of the target which hold a pull request of that label:
    the one found is returned with the database unchanged when the label
    is not a patch label, and a new batch of the target is created when
    none is found or when the label is a patch label. *)
Theorem get_batch_reuses_or_creates target label d :
  plain_label label = true ->
  (* the search finds one batch at most *)
  (length (open_batches target label d) <= 1)%nat ->
  let r := PullRequestMethods._get_batch new_batch target label d in
  (* the batches searched are the open batches of the target with a pull
     request of that label *)
  (forall b, b ∈ open_batches target label d <->
     exists row, batch d !! b = Some row /\
       Batch.merge_date row = None /\ Batch.target row = target /\
       exists p pr, pull_requests d !! p = Some pr /\
         PullRequest.batch_id pr = Some b /\ PullRequest.label pr = label) /\
  (* the one found is returned, the database being left as it is *)
  (forall b, is_patch_label label = false -> open_batches target label d = [b] ->
     r = (d, b)) /\
  (* a batch is created when there is none, and for a patch label *)
  (is_patch_label label = true \/ open_batches target label d = [] ->
   batch d !! r.2 = None /\
   r.1 = set_batch (<[ r.2 := new_batch target ]> (batch d)) d).
Proof.
  intros _ _ r. split; [|split].
  - intros b. apply get_batch_candidates.
  - intros b Hpatch Hfound. unfold r, PullRequestMethods._get_batch.
    rewrite Hpatch. unfold open_batches in Hfound. rewrite Hfound. reflexivity.
  - intros Hnew. unfold r, PullRequestMethods._get_batch.
    destruct (is_patch_label label) eqn:Hpatch.
    + cbn [fst snd]. split; [apply fresh_id_fresh|reflexivity].
    + destruct Hnew as [Hnew|Hnew]; [discriminate Hnew|].
      unfold open_batches in Hnew. rewrite Hnew. cbn [fst snd].
      split; [apply fresh_id_fresh|reflexivity].
Qed.

(** X17. For a label which ends with :patch- and a non-empty sequence of
    digits, _get_batch always creates a new batch of the target,
    whatever batches the database holds. *)
Theorem patch_labels_are_never_batched owner digits target d :
  digits <> "" ->
  forallb is_digit (String.list_ascii_of_string digits) = true ->
  let r := PullRequestMethods._get_batch new_batch target
             (owner +:+ ":patch-" +:+ digits) d in
  batch d !! r.2 = None /\
  r.1 = set_batch (<[ r.2 := new_batch target ]> (batch d)) d.
Proof.
  intros Hne Hd r. subst r. unfold PullRequestMethods._get_batch.
  rewrite is_patch_label_spec by done. cbn [fst snd].
  split; [apply fresh_id_fresh|done].
Qed.

Lemma labelled_in_batch d label k :
  existsb (fun p => bool_decide
             (PullRequest.label <$> pull_requests d !! p = Some label))
          (prs_of_batches d [k]) = true <->
  exists p r, pull_requests d !! p = Some r /\
    PullRequest.batch_id r = Some k /\ PullRequest.label r = label.
Proof.
  rewrite existsb_exists. split.
  - intros (p & Hp & Hlab).
    apply list_elem_of_In, prs_of_batches_spec in Hp as (r & b' & Hr & Hb & Hin).
    apply list_elem_of_singleton in Hin. subst b'.
    apply bool_decide_eq_true in Hlab. rewrite Hr in Hlab. simpl in Hlab.
    exists p, r. split; [done|]. split; [done|]. congruence.
  - intros (p & r & Hr & Hb & Hlab). exists p. split.
    + apply list_elem_of_In, prs_of_batches_spec. exists r, k. split; [done|].
      split; [done|]. apply list_elem_of_singleton. done.
    + apply bool_decide_eq_true. rewrite Hr. simpl. congruence.
Qed.

(** X18. Pull requests with the same label and target share a batch:
    once a pull request with a label (of ASCII characters on one line,
    not a patch label) is created in the batch which _get_batch returned
    for that label and target, the next _get_batch for the same label
    and target returns that batch and creates nothing, provided new
    batches are open batches of the target and the first search found
    one batch at most. *)
Theorem same_label_same_batch target label d p row d2 :
  plain_label label = true ->
  is_patch_label label = false ->
  (* the search finds one batch at most *)
  (length (open_batches target label d) <= 1)%nat ->
  (* the batch model creates open batches of the target *)
  Batch.merge_date (new_batch target) = None ->
  Batch.target (new_batch target) = target ->
  let r := PullRequestMethods._get_batch new_batch target label d in
  (* a pull request of that label is created in the batch *)
  pull_requests d !! p = None ->
  PullRequest.label row = label ->
  PullRequest.batch_id row = Some r.2 ->
  pull_requests d2 = <[ p := row ]> (pull_requests r.1) ->
  batch d2 = batch r.1 ->
  (* the next one with that label and target joins it *)
  PullRequestMethods._get_batch new_batch target label d2 = (d2, r.2).
Proof.
  intros _ Hpatch _ Hm Ht r Hfresh Hlab Hbid Hprs Hbatch.
  assert (Hprs1 : pull_requests r.1 = pull_requests d).
  { unfold r, PullRequestMethods._get_batch. destruct (if is_patch_label label then _ else _); done. }
  rewrite Hprs1 in Hprs.
  assert (Hin2 : forall k,
    (exists q rq, pull_requests d2 !! q = Some rq /\
       PullRequest.batch_id rq = Some k /\ PullRequest.label rq = label) <->
    k = r.2 \/
    (exists q rq, pull_requests d !! q = Some rq /\
       PullRequest.batch_id rq = Some k /\ PullRequest.label rq = label)).
  { intros k. rewrite Hprs. split.
    - intros (q & rq & Hq & Hk & Hl). destruct (decide (q = p)) as [->|Hne].
      + rewrite lookup_insert_eq in Hq. injection Hq as <-. left. congruence.
      + rewrite lookup_insert_ne in Hq by done. right. eauto.
    - intros [->|(q & rq & Hq & Hk & Hl)].
      + exists p, row. rewrite lookup_insert_eq. done.
      + exists q, rq. rewrite lookup_insert_ne by congruence. done. }
  unfold PullRequestMethods._get_batch at 1. rewrite Hpatch.
  set (P2 := fun kv : Z * Batch.row =>
         Batch.merge_date kv.2 = None /\ Batch.target kv.2 = target /\
         existsb (fun p => bool_decide
                    (PullRequest.label <$> pull_requests d2 !! p = Some label))
                 (prs_of_batches d2 [kv.1]) = true).
  set (P := fun kv : Z * Batch.row =>
         Batch.merge_date kv.2 = None /\ Batch.target kv.2 = target /\
         existsb (fun p => bool_decide
                    (PullRequest.label <$> pull_requests d !! p = Some label))
                 (prs_of_batches d [kv.1]) = true).
  assert (Hr : r = match (map_to_list (filter P (batch d))).*1 with
                   | b :: _ => (d, b)
                   | [] => (set_batch (<[ fresh_id (batch d) := new_batch target ]> (batch d)) d,
                            fresh_id (batch d))
                   end).
  { unfold r, PullRequestMethods._get_batch. rewrite Hpatch. reflexivity. }
  destruct ((map_to_list (filter P (batch d))).*1) as [|b l] eqn:Hfound.
  - (* a new batch was created *)
    rewrite Hr in Hbatch, Hin2 |- *. cbn [fst snd batch set_batch] in *.
    assert (Hnone : forall k rowk, batch d !! k = Some rowk -> ~ P (k, rowk)).
    { intros k rowk Hk HP.
      assert (Hin : k ∈ @nil Z); [|apply elem_of_nil in Hin; done].
      rewrite <- Hfound. apply list_elem_of_fmap. exists (k, rowk). split; [done|].
      apply elem_of_map_to_list, map_lookup_filter_Some. done. }
    assert (Hf2 : filter P2 (batch d2) = {[ fresh_id (batch d) := new_batch target ]}).
    { apply map_eq. intros k. rewrite Hbatch.
      destruct (decide (k = fresh_id (batch d))) as [->|Hne].
      - rewrite lookup_singleton_eq. apply map_lookup_filter_Some.
        rewrite lookup_insert_eq. split; [done|]. unfold P2. cbn [fst snd].
        split; [done|]. split; [done|]. apply labelled_in_batch, Hin2. auto.
      - rewrite lookup_singleton_ne by done. apply map_lookup_filter_None.
        rewrite lookup_insert_ne by done.
        destruct (batch d !! k) as [rowk|] eqn:Hk; [right|left; done].
        intros x [= <-] (Hm' & Ht' & Hex). cbn [fst snd] in *.
        apply labelled_in_batch, Hin2 in Hex as [?|Hex]; [done|].
        apply (Hnone k rowk Hk). unfold P. cbn [fst snd].
        split; [done|]. split; [done|]. apply labelled_in_batch, Hex. }
    rewrite Hf2, map_to_list_singleton. reflexivity.
  - (* an open batch was found *)
    rewrite Hr in Hbatch, Hin2 |- *. cbn [fst snd] in *.
    assert (Hb : exists rowb, batch d !! b = Some rowb /\ P (b, rowb)).
    { assert (Hin : b ∈ b :: l) by (apply elem_of_cons; auto).
      rewrite <- Hfound in Hin. apply list_elem_of_fmap in Hin as ([k rowk] & -> & Hin).
      apply elem_of_map_to_list, map_lookup_filter_Some in Hin. eauto. }
    destruct Hb as (rowb & Hrowb & HPb).
    assert (Hf2 : filter P2 (batch d2) = filter P (batch d)).
    { rewrite Hbatch. apply map_filter_ext. intros k rowk Hk. unfold P, P2. cbn [fst snd].
      rewrite !labelled_in_batch, Hin2. split.
      - intros (Hm' & Ht' & [->|Hex]); [|done].
        assert (rowk = rowb) as -> by congruence.
        destruct HPb as (_ & _ & Hex). apply labelled_in_batch in Hex. done.
      - intros (Hm' & Ht' & Hex). auto. }
    rewrite Hf2, Hfound. reflexivity.
Qed.

End GetBatch.

Lemma get_batch_reuses_or_creates_witness :
  PullRequestMethods._get_batch sample_new_batch 1 "dev:fix" (single_db "pending" ∅)
  = (single_db "pending" ∅, 1).
Proof.
  apply (proj1 (proj2 (get_batch_reuses_or_creates sample_new_batch 1 "dev:fix"
                         (single_db "pending" ∅) eq_refl
                         ltac:(vm_compute; lia)))); reflexivity.
Defined.

Lemma patch_labels_are_never_batched_witness :
  let r := PullRequestMethods._get_batch sample_new_batch 1 "dev:patch-12"
             (single_db "pending" ∅) in
  batch (single_db "pending" ∅) !! r.2 = None /\ r.2 = 2.
Proof.
  intros r.
  destruct (patch_labels_are_never_batched sample_new_batch "dev" "12" 1
              (single_db "pending" ∅)) as [H1 _]; [discriminate|reflexivity|].
  split; [exact H1|reflexivity].
Defined.

Lemma same_label_same_batch_witness :
  let d := single_db "pending" ∅ in
  let row := batched_pr 3 2 (Some 1) in
  PullRequestMethods._get_batch sample_new_batch 1 "dev:fix"
    (set_pull_requests (<[ 3 := row ]> (pull_requests d)) d)
  = (set_pull_requests (<[ 3 := row ]> (pull_requests d)) d, 1).
Proof.
  intros d row.
  apply (same_label_same_batch sample_new_batch 1 "dev:fix" d 3 row); reflexivity.
Defined.

(** ** Commands without the rights *)

Section NoRights.
Variable percent : string -> list string -> string.
Variable format_template : string -> DB -> Z -> list string -> string.
Variable str_command : command -> string.
Variable maybe_update_limit : DB -> Z -> string -> DB * (bool * string).

Lemma override_refused fuel i author comment d pr statuses :
  pull_requests d !! i = Some pr ->
  (forall r, r ∈ default [] (Partner.override_rights <$> PullRequestMethods.partner_of d author) ->
     exists repo, OverrideRights.repository_id r = Some repo /\
                  repo <> PullRequest.repository pr) ->
  forall msg,
  fold_left (fun acc status =>
      a <<- acc ;; PullRequestMethods.override_one fuel i author comment a status)
    statuses (Done (d, msg))
  = Done (d, match statuses with
             | [] => msg
             | _ => Some ("you are not allowed to override '" +:+
                          List.last statuses "" +:+ "'.")
             end).
Proof.
  intros Hi Hrights.
  assert (Hone : forall msg status,
    PullRequestMethods.override_one fuel i author comment (d, msg) status
    = Done (d, Some ("you are not allowed to override '" +:+ status +:+ "'."))).
  { intros msg status. unfold PullRequestMethods.override_one. cbn [fst snd]. rewrite Hi.
    replace (List.filter _ _) with (@nil OverrideRights.row).
    - cbn [map]. rewrite bool_decide_eq_false_2 by apply not_elem_of_nil. reflexivity.
    - symmetry. generalize dependent (default [] (Partner.override_rights <$>
                   PullRequestMethods.partner_of d author)).
      intros l Hl. induction l as [|r l IH]; simpl; [done|].
      destruct (Hl r) as (repo & -> & Hne); [apply elem_of_cons; auto|].
      rewrite bool_decide_eq_false_2 by done.
      apply IH. intros r' Hr'. apply Hl, elem_of_cons. auto. }
  induction statuses as [|s l IH]; intros msg; simpl; [done|].
  rewrite Hone. rewrite IH. destruct l; reflexivity.
Qed.

(** X19. A command on a pull request which is not a forward port, from a
    user with no right of author on it, no right on its source and no
    right to override, changes nothing in the database: every command is
    answered by a rejection message, but an override of no context,
    which passes without effect. *)
Theorem no_rights_no_effect fuel i author comment st cmd d pr :
  pull_requests d !! i = Some pr ->
  (* not a forward port, and no right as author, on the source, or to
     override *)
  PullRequest.parent_id pr = None ->
  let acl := PullRequestMethods._pr_acl d (Some i) author in
  is_author acl = false ->
  PullRequestMethods.source_reviewer st = false ->
  PullRequestMethods.source_author st = false ->
  default [] (Partner.override_rights <$> PullRequestMethods.partner_of d author) = [] ->
  exists msg,
    PullRequestMethods.run_command percent format_template str_command
      maybe_update_limit fuel i author comment acl st cmd d = Done (d, st, msg) /\
    (msg = None -> cmd = Override []).
Proof.
  intros Hi Hparent acl Hauthor Hsr Hsa Hrights.
  assert (Hrev : is_reviewer acl = false).
  { destruct (pr_acl_nested d (Some i) author) as (_ & H).
    fold acl in H. destruct (is_reviewer acl); [|done]. rewrite H in Hauthor; done. }
  assert (Hadm : is_admin acl = false).
  { destruct (pr_acl_nested d (Some i) author) as (H & _).
    fold acl in H. destruct (is_admin acl); [|done]. rewrite H in Hrev; done. }
  unfold PullRequestMethods.run_command. rewrite Hi.
  destruct cmd; rewrite ?Hparent, ?Hrev, ?Hadm, ?Hauthor, ?Hsr, ?Hsa; cbn [PullRequests.truthy orb].
  - destruct (PullRequest.draft pr); eexists; (split; [reflexivity|discriminate]).
  - eexists; (split; [reflexivity|discriminate]).
  - eexists; (split; [reflexivity|discriminate]).
  - eexists; (split; [reflexivity|discriminate]).
  - eexists; (split; [reflexivity|discriminate]).
  - eexists; (split; [reflexivity|discriminate]).
  - eexists; (split; [reflexivity|discriminate]).
  - eexists; (split; [reflexivity|discriminate]).
  - eexists; (split; [reflexivity|discriminate]).
  - rewrite (override_refused fuel i author comment d pr statuses Hi).
    2:{ rewrite Hrights. intros r Hr. apply elem_of_nil in Hr. done. }
    cbn [obind fst snd]. eexists. split; [reflexivity|].
    destruct statuses; [done|discriminate].
  - eexists; (split; [reflexivity|discriminate]).
  - eexists; (split; [reflexivity|discriminate]).
  - eexists; (split; [reflexivity|discriminate]).
  - eexists; (split; [reflexivity|discriminate]).
Qed.

End NoRights.

Lemma no_rights_no_effect_witness :
  exists msg,
    PullRequestMethods.run_command no_percent no_template sample_str sample_limit
      5 1 (Some 8) sample_comment
      (PullRequestMethods._pr_acl command_db (Some 1) (Some 8))
      sample_vars SkipChecks command_db
    = Done (command_db, sample_vars, msg).
Proof.
  destruct (no_rights_no_effect no_percent no_template sample_str sample_limit
              5 1 (Some 8) sample_comment sample_vars SkipChecks command_db
              (sample_pr 1 None ∅ ∅)) as (msg & H & _); try reflexivity.
  exists msg. exact H.
Defined.

(** ** Overriding a status *)

Lemma set_to_check_idem r :
  Commit.set_to_check true (Commit.set_to_check true r) = Commit.set_to_check true r.
Proof. reflexivity. Qed.

(** X20. On a pull request which is neither a forward port nor forward-
    ported, the override of a context by a user with an override right
    on it (for all repositories or for the repository of the pull
    request) records a success entry for the context in the overrides,
    which shows in the full statuses, recomputes the status of the pull
    request and marks the commit of its head to be checked. Without such
    a right nothing changes and the user is told they are not allowed to
    override that context. *)
Theorem override_by_right fuel i author comment d pr status msg0 :
  pull_requests d !! i = Some pr ->
  (* neither a forward port nor forward-ported *)
  PullRequest.parent_id pr = None ->
  (forall q r, pull_requests d !! q = Some r -> PullRequest.parent_id r <> Some i) ->
  (1 < fuel)%nat ->
  let rights := default [] (Partner.override_rights <$>
                              PullRequestMethods.partner_of d author) in
  let entry : status_entry :=
    {[ "state" := "success";
       "target_url" := html_url comment;
       "description" := "Overridden by @" +:+ PullRequestMethods.github_login_of d author ]} in
  let full := dict_merge (PullRequest.statuses pr)
                (<[ status := entry ]> (PullRequest.overrides pr)) in
  let r := PullRequestMethods.override_one fuel i author comment (d, msg0) status in
  (* with a right on the context, for all repositories or for this one *)
  (forall right st,
     right ∈ rights -> OverrideRights.context right = status ->
     OverrideRights.repository_id right = None \/
     OverrideRights.repository_id right = Some (PullRequest.repository pr) ->
     PullRequests.aggregate full (PullRequests.required_for_pr d pr) "success" = Done st ->
     exists d' pr',
       r = Done (d', msg0) /\
       pull_requests d' !! i = Some pr' /\
       PullRequest.overrides pr' = <[ status := entry ]> (PullRequest.overrides pr) /\
       PullRequest.statuses_full pr' = full /\
       full !! status = Some entry /\
       PullRequest.status pr' = st /\
       (* the commit of the head is to be checked *)
       exists c row, commit d' !! c = Some row /\
         Commit.sha row = PullRequest.head pr /\ Commit.to_check row = true) /\
  (* without one, nothing changes *)
  ((forall right, right ∈ rights ->
      OverrideRights.context right <> status \/
      exists repo, OverrideRights.repository_id right = Some repo /\
                   repo <> PullRequest.repository pr) ->
   r = Done (d, Some ("you are not allowed to override '" +:+ status +:+ "'."))).
Proof.
  intros Hi Hparent Hnochild Hfuel rights entry full r.
  set (overridable := map OverrideRights.context
        (List.filter (fun r =>
           match OverrideRights.repository_id r with
           | None => true
           | Some repo => bool_decide (repo = PullRequest.repository pr)
           end) rights)).
  assert (Hov : status ∈ overridable <->
            exists right, right ∈ rights /\ OverrideRights.context right = status /\
              (OverrideRights.repository_id right = None \/
               OverrideRights.repository_id right = Some (PullRequest.repository pr))).
  { unfold overridable. rewrite list_elem_of_In, in_map_iff. split.
    - intros (right & Hc & Hin). apply filter_In in Hin as [Hin Hf].
      exists right. split; [apply list_elem_of_In; done|]. split; [done|].
      destruct (OverrideRights.repository_id right) as [repo|]; [|auto].
      apply bool_decide_eq_true in Hf. subst. auto.
    - intros (right & Hin & Hc & Hr). exists right. split; [done|].
      apply filter_In. split; [apply list_elem_of_In; done|].
      destruct Hr as [->| ->]; [done|]. apply bool_decide_eq_true. done. }
  split.
  - intros right st Hin Hc Hrepo Hagg.
    assert (Hok : status ∈ overridable) by (apply Hov; eauto).
    set (d1 := PullRequests.update i
                 (PullRequest.set_overrides (<[ status := entry ]> (PullRequest.overrides pr))) d).
    set (pr1 := PullRequest.set_overrides (<[ status := entry ]> (PullRequest.overrides pr)) pr).
    assert (H1 : pull_requests d1 !! i = Some pr1).
    { unfold d1. rewrite pr_update_lookup, bool_decide_eq_true_2, Hi; done. }
    assert (Hdesc : PullRequests._iter_descendants fuel d1 [i] = Done []).
    { unfold PullRequests._iter_descendants. destruct fuel as [|fuel]; [lia|].
      cbn [PullRequests.iter_descendants_from PullRequests.record_id obind].
      replace (PullRequests.search_parent d1 (Some i)) with (@nil Z); [done|].
      symmetry. apply list_empty_elem. intros q Hq.
      apply search_parent_spec in Hq as (rq & Hrq & Hp).
      unfold d1 in Hrq. rewrite pr_update_lookup in Hrq.
      case_bool_decide.
      - subst q. rewrite Hi in Hrq. simpl in Hrq. injection Hrq as <-.
        simpl in Hp. congruence.
      - apply (Hnochild q rq Hrq Hp). }
    destruct (compute_statuses_one fuel d1 i pr1 [] st) as (d2 & Hcs & H2).
    { constructor; [exact H1|]. constructor. unfold pr1. simpl. rewrite Hparent. done. }
    { simpl. lia. }
    { unfold inherited_overrides, pr1. simpl.
      replace (<[status:=entry]> (PullRequest.overrides pr) ∪ ∅)
        with (<[status:=entry]> (PullRequest.overrides pr)) by (rewrite (right_id_L ∅ (∪)); done).
      exact Hagg. }
    assert (Hr : r = Done (
      match (map_to_list (filter (fun kv : Z * Commit.row => Commit.sha kv.2 = PullRequest.head pr)
                            (commit (PullRequests._compute_state d2 [i])))).*1 with
      | [] => set_commit (<[ fresh_id (commit (PullRequests._compute_state d2 [i])) :=
                             {| Commit.sha := PullRequest.head pr; Commit.statuses := ∅;
                                Commit.to_check := true |} ]>
                            (commit (PullRequests._compute_state d2 [i])))
                (PullRequests._compute_state d2 [i])
      | found => set_commit (fold_left (fun m c => alter (Commit.set_to_check true) c m)
                               found (commit (PullRequests._compute_state d2 [i])))
                   (PullRequests._compute_state d2 [i])
      end, msg0)).
    { unfold r, PullRequestMethods.override_one. cbn [fst snd]. rewrite Hi.
      fold rights overridable. rewrite bool_decide_eq_true_2 by done.
      fold entry d1. rewrite Hdesc. cbn [obind concat]. rewrite Hcs. cbn [obind].
      destruct ((map_to_list _).*1); reflexivity. }
    set (d3 := PullRequests._compute_state d2 [i]) in *.
    assert (H3 : exists pr', pull_requests d3 !! i = Some pr' /\
               PullRequest.overrides pr' = <[ status := entry ]> (PullRequest.overrides pr) /\
               PullRequest.statuses_full pr' = full /\ PullRequest.status pr' = st).
    { unfold d3. rewrite compute_state_lookup, H2. simpl.
      eexists. split; [reflexivity|]. case_bool_decide; simpl.
      - unfold inherited_overrides, pr1. simpl.
        rewrite (right_id_L ∅ (∪)). done.
      - unfold inherited_overrides, pr1. simpl.
        rewrite (right_id_L ∅ (∪)). done. }
    destruct H3 as (pr' & Hpr' & Hov' & Hfull' & Hst').
    assert (Hentry : full !! status = Some entry).
    { unfold full, dict_merge. apply lookup_union_Some_l. apply lookup_insert_eq. }
    destruct ((map_to_list (filter (fun kv : Z * Commit.row =>
                 Commit.sha kv.2 = PullRequest.head pr) (commit d3))).*1)
      as [|c l] eqn:Hfound.
    + eexists _, pr'. split; [exact Hr|]. split; [exact Hpr'|].
      split; [done|]. split; [done|]. split; [done|]. split; [done|].
      eexists _, _. cbn [commit set_commit]. split; [apply lookup_insert_eq|]. done.
    + eexists _, pr'. split; [exact Hr|]. split; [exact Hpr'|].
      split; [done|]. split; [done|]. split; [done|]. split; [done|].
      assert (Hcl : c ∈ c :: l) by (apply elem_of_cons; auto).
      pose proof Hcl as Hc'. rewrite <- Hfound in Hc'.
      apply list_elem_of_fmap in Hc' as ([k row] & -> & Hin').
      apply elem_of_map_to_list, map_lookup_filter_Some in Hin' as [Hrow Hsha].
      cbn [fst snd] in *.
      exists k, (Commit.set_to_check true row). cbn [commit set_commit].
      rewrite fold_alter_lookup by apply set_to_check_idem.
      rewrite bool_decide_eq_true_2 by done. rewrite Hrow. done.
  - intros Hno. unfold r, PullRequestMethods.override_one. cbn [fst snd]. rewrite Hi.
    fold rights overridable. rewrite bool_decide_eq_false_2; [done|].
    rewrite Hov. intros (right & Hin & Hc & Hr).
    destruct (Hno right Hin) as [?|(repo & Hrepo & Hne)]; [done|].
    destruct Hr as [Hr|Hr]; congruence.
Qed.

Lemma override_by_right_witness :
  let pr := sample_pr 1 None ∅ {[ "ci" := reported "failure"; "lint" := reported "success" ]} in
  (exists d' pr',
     PullRequestMethods.override_one 5 1 (Some 7) sample_comment (override_db, None) "ci"
       = Done (d', None) /\
     pull_requests d' !! 1 = Some pr' /\ PullRequest.status pr' = "success") /\
  PullRequestMethods.override_one 5 1 (Some 7) sample_comment (override_db, None) "lint"
    = Done (override_db, Some "you are not allowed to override 'lint'.").
Proof.
  intros pr. split.
  - destruct (override_by_right 5 1 (Some 7) sample_comment override_db pr "ci" None)
      as [Hyes _]; [reflexivity|reflexivity| |lia|].
    { intros q r Hq. assert (q = 1) as ->.
      { destruct (decide (q = 1)); [done|]. exfalso.
        change (pull_requests override_db) with ({[ 1 := pr ]} : gmap Z PullRequest.row) in Hq.
        rewrite lookup_singleton_ne in Hq by done. discriminate. }
      change (Some pr = Some r) in Hq. injection Hq as <-. discriminate. }
    destruct (Hyes {| OverrideRights.context := "ci"; OverrideRights.repository_id := Some 1 |}
                "success") as (d' & pr' & H1 & H2 & _ & _ & _ & H6 & _).
    + apply elem_of_cons. auto.
    + reflexivity.
    + right. reflexivity.
    + vm_compute. reflexivity.
    + exists d', pr'. split; [exact H1|]. split; [exact H2|exact H6].
  - destruct (override_by_right 5 1 (Some 7) sample_comment override_db pr "lint" None)
      as [_ Hno]; [reflexivity|reflexivity| |lia|].
    { intros q r Hq. assert (q = 1) as ->.
      { destruct (decide (q = 1)); [done|]. exfalso.
        change (pull_requests override_db) with ({[ 1 := pr ]} : gmap Z PullRequest.row) in Hq.
        rewrite lookup_singleton_ne in Hq by done. discriminate. }
      change (Some pr = Some r) in Hq. injection Hq as <-. discriminate. }
    apply Hno. intros right Hin.
    apply elem_of_cons in Hin as [->|Hin]; [left; discriminate|].
    apply list_elem_of_singleton in Hin. subst right.
    right. exists 2. split; [reflexivity|discriminate].
Defined.

(** ** Splitting a text *)

Lemma str_split_without sep x :
  forallb (fun c => negb (Ascii.eqb c sep)) (String.list_ascii_of_string x) = true ->
  Repositories.str_split sep x = [x].
Proof.
  induction x as [|c x IH]; simpl; [done|].
  intros H. apply andb_true_iff in H as [Hc Hx].
  apply negb_true_iff in Hc. rewrite Hc, IH by done. reflexivity.
Qed.

Lemma str_split_at sep x rest :
  forallb (fun c => negb (Ascii.eqb c sep)) (String.list_ascii_of_string x) = true ->
  Repositories.str_split sep (x +:+ String sep rest) = x :: Repositories.str_split sep rest.
Proof.
  induction x as [|c x IH]; simpl.
  - intros _. rewrite Ascii.eqb_refl. reflexivity.
  - intros H. apply andb_true_iff in H as [Hc Hx].
    apply negb_true_iff in Hc. rewrite Hc, IH by done. reflexivity.
Qed.

Lemma str_split_join (l : list string) :
  l <> [] ->
  (forall x, x ∈ l ->
     forallb (fun c => negb (Ascii.eqb c Repositories.comma))
             (String.list_ascii_of_string x) = true) ->
  Repositories.str_split Repositories.comma (join "," l) = l.
Proof.
  induction l as [|x l IH]; [done|]. intros _ Hall.
  destruct l as [|y l].
  - simpl. apply str_split_without, Hall, elem_of_cons. auto.
  - change (join "," (x :: y :: l)) with (x +:+ "," +:+ join "," (y :: l)).
    change ("," +:+ join "," (y :: l)) with (String Repositories.comma (join "," (y :: l))).
    rewrite str_split_at by (apply Hall, elem_of_cons; auto).
    rewrite IH; [done|done|]. intros z Hz. apply Hall, elem_of_cons. auto.
Qed.

(** ** The required statuses of a repository *)

Lemma run_creates (cs : list string) current :
  Repositories.run (Repositories.Clear ::
    map (fun c => Repositories.Create (Repositories.of_context c)) cs) current
  = map Repositories.of_context cs.
Proof.
  unfold Repositories.run. cbn [fold_left].
  assert (H : forall acc, fold_left (fun acc cmd =>
              match cmd with
              | Repositories.Create st => acc ++ [st]
              | Repositories.Clear => []
              end) (map (fun c => Repositories.Create (Repositories.of_context c)) cs) acc
            = acc ++ map Repositories.of_context cs).
  { induction cs as [|c cs IH]; intros acc; simpl; [rewrite app_nil_r; done|].
    rewrite IH, <- app_assoc. done. }
  rewrite H. done.
Qed.

Lemma for_pr_all (cs : list string) pr :
  StatusConfigurations._for_pr (map Repositories.of_context cs) pr
  = map Repositories.of_context cs.
Proof.
  unfold StatusConfigurations._for_pr, StatusConfigurations._for_branch.
  induction cs as [|c cs IH]; simpl; [done|]. rewrite IH. done.
Qed.

Lemma for_staging_all (cs : list string) s :
  StatusConfigurations._for_staging (map Repositories.of_context cs) s
  = map Repositories.of_context cs.
Proof.
  unfold StatusConfigurations._for_staging, StatusConfigurations._for_branch.
  induction cs as [|c cs IH]; simpl; [done|]. rewrite IH. done.
Qed.

Lemma map_context_of (cs : list string) :
  map StatusConfiguration.context (map Repositories.of_context cs) = cs.
Proof. induction cs as [|c cs IH]; simpl; [done|]. rewrite IH. done. Qed.

(** X21. Writing required_statuses on a repository as contexts joined by
    commas replaces its statuses by exactly these contexts, in order,
    whatever they were and whatever else is written; each applies to the
    pull requests and to the stagings of all branches. A creation does
    the same unless status_ids is given, which wins, and defaults to the
    contexts legal/cla and ci/runbot. *)
Theorem required_statuses_round_trip i v d r (l : list string) :
  repository d !! i = Some r ->
  (* a text of contexts, separated by commas *)
  l <> [] ->
  (forall x, x ∈ l ->
     forallb (fun c => negb (Ascii.eqb c Repositories.comma))
             (String.list_ascii_of_string x) = true) ->
  join "," l <> "" ->
  Repositories.vals_required_statuses v = Some (join "," l) ->
  (* on creation too, unless statuses are given; by default the
     statuses are those of the text [legal/cla,ci/runbot] *)
  (forall name,
     let created := fun text cmds =>
       let r := Repositories.create
                  {| Repositories.vals_name := name;
                     Repositories.vals_status_ids := cmds;
                     Repositories.vals_required_statuses := text |} d in
       Repository.status_ids <$> repository r.1 !! r.2 in
     created (Some (join "," l)) None = Some (map Repositories.of_context l) /\
     created None None = Some (map Repositories.of_context ["legal/cla"; "ci/runbot"]) /\
     forall text cmds, created text (Some cmds) = Some (Repositories.run cmds [])) /\
  exists r',
    repository (Repositories.write [i] v d) !! i = Some r' /\
    (* the statuses of the repository are these contexts, and no other,
       whatever they were and whatever else is written *)
    map StatusConfiguration.context (Repository.status_ids r') = l /\
    (* each is required of the pull requests and of the stagings of all
       branches *)
    (forall pr, map StatusConfiguration.context
                  (StatusConfigurations._for_pr (Repository.status_ids r') pr) = l) /\
    (forall s, map StatusConfiguration.context
                 (StatusConfigurations._for_staging (Repository.status_ids r') s) = l) /\
    Repository.name r' = default (Repository.name r) (Repositories.vals_name v).
Proof.
  intros Hi Hne Hall Htext Hv. split.
  { intros name created. subst created. cbv zeta.
    unfold Repositories.create.
    cbn [Repositories.vals_status_ids Repositories.vals_required_statuses
         Repositories.vals_name default fst snd repository Repositories.set_repository].
    rewrite !lookup_insert_eq. cbn [fmap option_fmap option_map].
    split; [|split].
    - rewrite bool_decide_eq_false_2 by done.
      unfold Repositories.apply_vals, Repositories.statuses_of_text, id.
      cbn [Repository.status_ids Repositories.vals_status_ids].
      rewrite str_split_join by done. f_equal.
      pose proof (run_creates l []) as H. unfold Repositories.run in H |- *.
      cbn [fold_left] in H. exact H.
    - reflexivity.
    - intros text cmds.
      cbn [Repositories.vals_status_ids fst snd repository Repositories.set_repository].
      rewrite lookup_insert_eq. reflexivity. }
  unfold Repositories.write. rewrite Hv.
  rewrite bool_decide_eq_false_2 by done. cbn [fold_left repository Repositories.set_repository].
  rewrite lookup_alter_eq, Hi. cbn [fmap option_fmap option_map].
  eexists. split; [reflexivity|].
  unfold Repositories.apply_vals. cbn [Repository.status_ids Repository.name
    Repositories.vals_status_ids Repositories.vals_name].
  unfold Repositories.statuses_of_text. rewrite run_creates, str_split_join by done.
  split; [apply map_context_of|].
  split; [intros pr; rewrite for_pr_all; apply map_context_of|].
  split; [intros s; rewrite for_staging_all; apply map_context_of|]. reflexivity.
Qed.

Lemma required_statuses_round_trip_witness :
  let v := {| Repositories.vals_name := None; Repositories.vals_status_ids := None;
              Repositories.vals_required_statuses := Some "ci/a,ci/b,style" |} in
  exists r', repository (Repositories.write [1] v base_db) !! 1 = Some r' /\
    map StatusConfiguration.context (Repository.status_ids r') = ["ci/a"; "ci/b"; "style"].
Proof.
  intros v.
  destruct (required_statuses_round_trip 1 v base_db
              {| Repository.name := "odoo";
                 Repository.status_ids := [required "ci"; required "lint"] |}
              ["ci/a"; "ci/b"; "style"]) as (_ & r' & H1 & H2 & _);
    [reflexivity|discriminate| |discriminate|reflexivity|].
  - intros x Hx. repeat (apply elem_of_cons in Hx as [->|Hx]; [reflexivity|]).
    apply elem_of_nil in Hx. destruct Hx.
  - exists r'. split; [exact H1|exact H2].
Defined.

(** ** The name of the branch of a pull request *)

Lemma split_once_without sep x :
  forallb (fun c => negb (Ascii.eqb c sep)) (String.list_ascii_of_string x) = true ->
  PullRequestFields.split_once sep x = [x].
Proof.
  induction x as [|c x IH]; simpl; [done|].
  intros H. apply andb_true_iff in H as [Hc Hx].
  apply negb_true_iff in Hc. rewrite Hc, IH by done. reflexivity.
Qed.

Lemma split_once_at sep x rest :
  forallb (fun c => negb (Ascii.eqb c sep)) (String.list_ascii_of_string x) = true ->
  PullRequestFields.split_once sep (x +:+ String sep rest) = [x; rest].
Proof.
  induction x as [|c x IH]; simpl.
  - intros _. rewrite Ascii.eqb_refl. reflexivity.
  - intros H. apply andb_true_iff in H as [Hc Hx].
    apply negb_true_iff in Hc. rewrite Hc, IH by done. reflexivity.
Qed.

Lemma split_once_cases sep s :
  PullRequestFields.split_once sep s = [s] \/
  exists a b, PullRequestFields.split_once sep s = [a; b] /\ s = a +:+ String sep b.
Proof.
  induction s as [|c s IH]; simpl; [auto|].
  destruct (Ascii.eqb c sep) eqn:Hc.
  - right. apply Ascii.eqb_eq in Hc. subst c. exists "", s. done.
  - destruct IH as [->|(a & b & -> & ->)]; [auto|].
    right. exists (String c a), b. done.
Qed.

(** X22. The refname of a pull request is its label after the first
    colon: the label owner:branch gives branch (further colons included)
    when the owner holds no colon, a label without colon is kept whole,
    and in all cases the label ends with the refname. *)
Theorem refname_drops_owner pr :
  let no_colon := fun x =>
    forallb (fun c => negb (Ascii.eqb c PullRequestFields.colon))
            (String.list_ascii_of_string x) = true in
  (* [owner:branch] gives the branch, colons included *)
  (forall owner branch, no_colon owner ->
     PullRequest.label pr = owner +:+ ":" +:+ branch ->
     PullRequestFields._compute_refname pr = branch) /\
  (* a label without owner is the branch *)
  (no_colon (PullRequest.label pr) ->
   PullRequestFields._compute_refname pr = PullRequest.label pr) /\
  (* in any case the label ends with the name *)
  exists before, PullRequest.label pr = before +:+ PullRequestFields._compute_refname pr.
Proof.
  intros no_colon. unfold PullRequestFields._compute_refname.
  split; [|split].
  - intros owner branch Ho ->.
    change (":" +:+ branch) with (String PullRequestFields.colon branch).
    rewrite split_once_at by exact Ho. reflexivity.
  - intros Hl. rewrite split_once_without by exact Hl. reflexivity.
  - destruct (split_once_cases PullRequestFields.colon (PullRequest.label pr))
      as [->|(a & b & -> & Hl)].
    + exists "". reflexivity.
    + exists (a +:+ ":"). rewrite Hl. cbn [List.last].
      clear. induction a as [|c a IH]; [reflexivity|].
      change (String c (a +:+ String PullRequestFields.colon b)
              = String c ((a +:+ ":") +:+ b)).
      rewrite IH. reflexivity.
Qed.

Lemma refname_drops_owner_witness :
  PullRequestFields._compute_refname (sample_pr 1 None ∅ ∅) = "fix".
Proof.
  apply (proj1 (refname_drops_owner (sample_pr 1 None ∅ ∅)) "dev" "fix"); reflexivity.
Defined.

(** ** What blocks a pull request *)

Lemma first_some_none {A B} (f : A -> option B) l :
  first_some f l = None <-> forall x, x ∈ l -> f x = None.
Proof.
  induction l as [|x l IH]; simpl.
  - split; [intros _ x Hx; apply elem_of_nil in Hx; done|done].
  - destruct (f x) eqn:Hx.
    + split; [done|]. intros H. rewrite <- Hx. apply H, elem_of_cons. auto.
    + rewrite IH. split.
      * intros H y Hy. apply elem_of_cons in Hy as [->|Hy]; auto.
      * intros H y Hy. apply H, elem_of_cons. auto.
Qed.

Lemma first_some_some {A B} (f : A -> option B) l y :
  first_some f l = Some y -> exists x, x ∈ l /\ f x = Some y.
Proof.
  induction l as [|x l IH]; simpl; [done|].
  destruct (f x) eqn:Hx.
  - intros [= <-]. exists x. split; [apply elem_of_cons; auto|done].
  - intros H. destruct (IH H) as (z & Hz & Hf). exists z.
    split; [apply elem_of_cons; auto|done].
Qed.

Lemma unmet_none db prs (p : PullRequest.row) :
  PullRequestFields.unmet db prs p = None <->
  PullRequest.draft p = false /\
  (PullRequest.squash p = true \/ is_Some (PullRequest.merge_method p)) /\
  (PullRequest.state p = "ready" \/
   default false (Batch.skipchecks <$> PullRequests.batch_of db p) = true /\
   forall q, q ∈ prs -> PullRequestMethods.state_of db q <> "error").
Proof.
  unfold PullRequestFields.unmet.
  assert (Hall : forallb (fun q => bool_decide (PullRequestMethods.state_of db q ≠ "error")) prs
                 = true <-> forall q, q ∈ prs -> PullRequestMethods.state_of db q <> "error").
  { rewrite forallb_forall. split.
    - intros H q Hq. apply list_elem_of_In, H in Hq. apply bool_decide_eq_true in Hq. done.
    - intros H q Hq. apply bool_decide_eq_true, H, list_elem_of_In, Hq. }
  destruct (PullRequest.draft p); [split; [done|intros [? _]; done]|].
  destruct (PullRequest.squash p) eqn:Hsq; cbn [orb negb].
  - destruct (bool_decide (PullRequest.state p = "ready")) eqn:Hr; cbn [orb negb].
    + apply bool_decide_eq_true in Hr. split; [auto|done].
    + apply bool_decide_eq_false in Hr.
      destruct (default false _) eqn:Hsk; cbn [andb].
      * destruct (forallb _ prs) eqn:Hf; cbn [negb].
        -- split; [|done]. intros _. split; [done|]. split; [auto|]. right.
           split; [done|]. apply Hall. done.
        -- split; [done|]. intros (_ & _ & [?|[_ H]]); [done|].
           apply Hall in H. congruence.
      * split; [done|]. intros (_ & _ & [?|[? _]]); done.
  - destruct (PullRequest.merge_method p) as [m|] eqn:Hm; cbn [PullRequests.truthy negb].
    + destruct (bool_decide (PullRequest.state p = "ready")) eqn:Hr; cbn [orb negb].
      * apply bool_decide_eq_true in Hr. split; [|done]. intros _. eauto.
      * apply bool_decide_eq_false in Hr.
        destruct (default false _) eqn:Hsk; cbn [andb].
        -- destruct (forallb _ prs) eqn:Hf; cbn [negb].
           ++ split; [|done]. intros _. split; [done|]. split; [eauto|]. right.
              split; [done|]. apply Hall. done.
           ++ split; [done|]. intros (_ & _ & [?|[_ H]]); [done|].
              apply Hall in H. congruence.
        -- split; [done|]. intros (_ & _ & [?|[? _]]); done.
    + split; [done|]. intros (_ & [?|[? ?]] & _); done.
Qed.

(** X23. A merged or closed pull request is never blocked. Any other is
    unblocked exactly when every pull request of its batch is not a
    draft, has a merge method or is squashed, and is ready or in a batch
    which skips the checks with no pull request in error; otherwise the
    message is the first unmet requirement of a pull request of the
    batch, prefixed by linked PR and its name when it is another pull
    request. *)
Theorem blocked_iff_batch_unready db prs i pr :
  (forall p, p ∈ prs -> is_Some (pull_requests db !! p)) ->
  let meets := fun p : PullRequest.row =>
    PullRequest.draft p = false /\
    (PullRequest.squash p = true \/ is_Some (PullRequest.merge_method p)) /\
    (PullRequest.state p = "ready" \/
     default false (Batch.skipchecks <$> PullRequests.batch_of db p) = true /\
     forall q, q ∈ prs -> PullRequestMethods.state_of db q <> "error") in
  let blocked := PullRequestFields._compute_is_blocked db prs i pr in
  (* a merged or closed pull request is never blocked *)
  (PullRequest.state pr = "merged" \/ PullRequest.state pr = "closed" ->
   blocked = None) /\
  (* another one is free when every pull request of its batch meets the
     three requirements *)
  (PullRequest.state pr <> "merged" -> PullRequest.state pr <> "closed" ->
   (blocked = None <->
    forall p r, p ∈ prs -> pull_requests db !! p = Some r -> meets r)) /\
  (* and is blocked by a pull request of the batch, named unless it is
     itself *)
  (forall m, blocked = Some m ->
     exists p r msg, p ∈ prs /\ pull_requests db !! p = Some r /\
       PullRequestFields.unmet db prs r = Some msg /\
       (p = i /\ m = msg \/
        p <> i /\ m = "linked PR " +:+ pr_display_name db p +:+ " " +:+ msg)).
Proof.
  intros Hall meets blocked. subst blocked. unfold PullRequestFields._compute_is_blocked.
  set (f := fun blocking =>
         pull_requests db !! blocking ≫= fun r =>
         PullRequestFields.unmet db prs r ≫= fun message => Some (blocking, message)).
  split; [|split].
  - intros [-> | ->]; [done|].
    rewrite (bool_decide_eq_true_2 ("closed" = "closed")) by done. rewrite orb_true_r. done.
  - intros H1 H2. rewrite !bool_decide_eq_false_2 by done. cbn [orb].
    destruct (first_some f prs) as [[blocking message]|] eqn:Hf.
    + split; [case_bool_decide; done|]. intros Hmeets. exfalso.
      apply first_some_some in Hf as (p & Hp & Hfp). unfold f in Hfp.
      destruct (pull_requests db !! p) as [r|] eqn:Hr; [|done]. simpl in Hfp.
      destruct (PullRequestFields.unmet db prs r) eqn:Hu; [|done].
      assert (Hn : PullRequestFields.unmet db prs r = None)
        by (apply unmet_none, (Hmeets p r Hp Hr)).
      congruence.
    + split; [|done]. intros _ p r Hp Hr.
      pose proof (proj1 (first_some_none f prs) Hf p Hp) as Hfp. unfold f in Hfp.
      rewrite Hr in Hfp. simpl in Hfp.
      destruct (PullRequestFields.unmet db prs r) eqn:Hu; [done|].
      apply unmet_none. exact Hu.
  - intros m Hm.
    destruct (bool_decide _ || bool_decide _); [done|].
    destruct (first_some f prs) as [[blocking message]|] eqn:Hf; [|done].
    apply first_some_some in Hf as (p & Hp & Hfp). unfold f in Hfp.
    destruct (pull_requests db !! p) as [r|] eqn:Hr; [|done]. simpl in Hfp.
    destruct (PullRequestFields.unmet db prs r) as [msg|] eqn:Hu; [|done].
    simpl in Hfp. injection Hfp as <- <-.
    exists p, r, msg. split; [done|]. split; [done|]. split; [done|].
    case_bool_decide; injection Hm as <-; auto.
Qed.

Lemma blocked_iff_batch_unready_witness :
  let d := single_db "pending" ∅ in
  PullRequestFields._compute_is_blocked d [2; 1] 1 (batched_pr 1 1 (Some 1)) <> None.
Proof.
  intros d Hnone.
  destruct (blocked_iff_batch_unready d [2; 1] 1 (batched_pr 1 1 (Some 1))) as (_ & Hiff & _).
  { intros p Hp. apply elem_of_cons in Hp as [->|Hp]; [eexists; reflexivity|].
    apply list_elem_of_singleton in Hp. subst p. eexists. reflexivity. }
  destruct (proj1 (Hiff ltac:(discriminate) ltac:(discriminate)) Hnone 1
              (batched_pr 1 1 (Some 1))) as (_ & _ & [H|[H _]]);
    [apply elem_of_cons; right; apply list_elem_of_singleton; reflexivity
    |reflexivity|discriminate|discriminate].
Defined.

(** ** Fetching an unknown pull request *)

Section Fetch.
Variable has_branch : DB -> list Z -> string -> bool.
Variable format_unmanaged : DB -> Z -> string -> Z -> string.

(** X24. For a known repository and, when a target is given, a branch of
    its project, _get_or_schedule returns the known pull requests of
    that repository and number without queueing anything; for an unknown
    one it returns nothing and a fetch job for it waits afterwards, the
    one which waited already or one new job. Asking again changes
    nothing: no second job is queued. *)
Theorem get_or_schedule_queues_once repo_name number target closing d r :
  (* the repository is known *)
  (map_to_list (filter (fun kv : Z * Repository.row =>
     Repository.name kv.2 = repo_name) (repository d))).*1 = [r] ->
  (* and the branch, when one is given, is one of its project *)
  (forall d' t, target = Some t -> t = "" \/ has_branch d' [r] t = true) ->
  exists d1 prs,
    PullRequestFetch._get_or_schedule has_branch format_unmanaged
      repo_name number target closing d = Done (d1, prs) /\
    (* a known pull request is returned, and nothing is queued *)
    (prs <> [] ->
     d1 = d /\
     forall p, p ∈ prs -> exists row, pull_requests d !! p = Some row /\
       PullRequest.repository row = r /\ PullRequest.number row = number) /\
    (* for an unknown one a job waits afterwards: the one which waited,
       or a new one *)
    (prs = [] ->
     (exists job, job ∈ fetch_job d1 /\
        FetchJob.repository job = r /\ FetchJob.number job = number) /\
     (d1 = d \/
      (forall job, job ∈ fetch_job d ->
         FetchJob.repository job <> r \/ FetchJob.number job <> number) /\
      d1 = set_fetch_job (fetch_job d ++
             [{| FetchJob.repository := r; FetchJob.number := number;
                 FetchJob.closing := closing |}]) d)) /\
    (* asking again changes nothing *)
    (forall closing',
       PullRequestFetch._get_or_schedule has_branch format_unmanaged
         repo_name number target closing' d1 = Done (d1, prs)).
Proof.
  intros Hrepo Hmanaged.
  assert (Hun : forall d', match target with
                           | Some t => negb (bool_decide (t = "")) && negb (has_branch d' [r] t)
                           | None => false
                           end = false).
  { intros d'. destruct target as [t|]; [|done].
    destruct (Hmanaged d' t eq_refl) as [-> | ->]; [done|]. apply andb_false_r. }
  assert (Hrun : forall c d0, repository d0 = repository d ->
    PullRequestFetch._get_or_schedule has_branch format_unmanaged
      repo_name number target c d0 =
    let pr := (map_to_list (filter (fun kv : Z * PullRequest.row =>
                 PullRequest.repository kv.2 = r /\ PullRequest.number kv.2 = number)
                 (pull_requests d0))).*1 in
    match pr with
    | _ :: _ => Done (d0, pr)
    | [] =>
      if existsb (fun f : FetchJob.row =>
           bool_decide (FetchJob.repository f = r) &&
           bool_decide (FetchJob.number f = number)) (fetch_job d0)
      then Done (d0, [])
      else Done (set_fetch_job (fetch_job d0 ++
                   [{| FetchJob.repository := r; FetchJob.number := number;
                       FetchJob.closing := c |}]) d0, [])
    end).
  { intros c d0 Hd0. unfold PullRequestFetch._get_or_schedule.
    rewrite Hd0, Hrepo. cbn [PullRequests.record_id obind]. rewrite Hun. reflexivity. }
  assert (Hjob : forall jobs : list FetchJob.row,
    existsb (fun f : FetchJob.row =>
       bool_decide (FetchJob.repository f = r) &&
       bool_decide (FetchJob.number f = number)) jobs = true <->
    exists job, job ∈ jobs /\ FetchJob.repository job = r /\ FetchJob.number job = number).
  { intros jobs. rewrite existsb_exists. split.
    - intros (job & Hin & Hb). apply andb_true_iff in Hb as [H1 H2].
      apply bool_decide_eq_true in H1, H2. exists job.
      split; [apply list_elem_of_In; done|done].
    - intros (job & Hin & H1 & H2). exists job. split; [apply list_elem_of_In; done|].
      rewrite !bool_decide_eq_true_2; done. }
  rewrite (Hrun closing d eq_refl). cbv zeta.
  destruct ((map_to_list (filter _ (pull_requests d))).*1) as [|p prs] eqn:Hprs.
  - destruct (existsb _ (fetch_job d)) eqn:Hex.
    + exists d, []. split; [done|]. split; [done|]. split.
      * intros _. split; [apply Hjob, Hex|auto].
      * intros c'. rewrite (Hrun c' d eq_refl). cbv zeta. rewrite Hprs, Hex. done.
    + eexists _, []. split; [reflexivity|]. split; [done|]. split.
      * intros _. split.
        -- eexists. cbn [fetch_job set_fetch_job]. split.
           ++ apply elem_of_app. right. apply list_elem_of_singleton. reflexivity.
           ++ split; reflexivity.
        -- right. split; [|done]. intros job Hin.
           destruct (decide (FetchJob.repository job = r)) as [H1|H1]; [|auto].
           destruct (decide (FetchJob.number job = number)) as [H2|H2]; [|auto].
           exfalso. assert (Ht : existsb (fun f : FetchJob.row =>
               bool_decide (FetchJob.repository f = r) &&
               bool_decide (FetchJob.number f = number)) (fetch_job d) = true)
             by (apply Hjob; eauto).
           congruence.
      * intros c'. rewrite Hrun by reflexivity. cbv zeta.
        cbn [pull_requests set_fetch_job fetch_job]. rewrite Hprs.
        rewrite existsb_app. cbn [existsb]. rewrite !bool_decide_eq_true_2 by done.
        cbn [andb orb]. rewrite orb_true_r. done.
  - exists d, (p :: prs). split; [done|]. split.
    + intros _. split; [done|]. intros q Hq. rewrite <- Hprs in Hq.
      apply list_elem_of_fmap in Hq as ([k row] & -> & Hin).
      apply elem_of_map_to_list, map_lookup_filter_Some in Hin as [Hrow [H1 H2]].
      exists row. done.
    + split; [done|]. intros c'. rewrite (Hrun c' d eq_refl). cbv zeta.
      rewrite Hprs. done.
Qed.

End Fetch.

Lemma get_or_schedule_queues_once_witness :
  exists d1,
    PullRequestFetch._get_or_schedule (fun _ _ _ => true) (fun _ _ _ _ => "")
      "odoo" 12 (Some "master") false base_db = Done (d1, []) /\
    fetch_job d1 = [{| FetchJob.repository := 1; FetchJob.number := 12;
                       FetchJob.closing := false |}].
Proof.
  destruct (get_or_schedule_queues_once (fun _ _ _ => true) (fun _ _ _ _ => "")
              "odoo" 12 (Some "master") false base_db 1) as (d1 & prs & H1 & _ & H3 & _).
  - vm_compute. reflexivity.
  - intros d' t _. right. reflexivity.
  - assert (Hc : PullRequestFetch._get_or_schedule (fun _ _ _ => true) (fun _ _ _ _ => "")
                   "odoo" 12 (Some "master") false base_db
                 = Done (set_fetch_job [{| FetchJob.repository := 1; FetchJob.number := 12;
                                           FetchJob.closing := false |}] base_db, []))
      by (vm_compute; reflexivity).
    rewrite Hc in H1. injection H1 as <- <-. eexists. split; [exact Hc|reflexivity].
Defined.

(** ** Queued changes of tags *)

Lemma tags_of_state_known state tags :
  Taggings._TAGS state = Some tags -> tags ⊆ Taggings.ALL_TAGS.
Proof.
  unfold Taggings._TAGS.
  destruct state as [s|];
    [|intros [= <-]; apply (bool_decide_unpack _); vm_compute; exact I].
  repeat (case_bool_decide;
    [intros [= <-]; apply (bool_decide_unpack _); vm_compute; exact I|]).
  done.
Qed.

Lemma fold_tags_snoc rows row :
  Taggings.fold_tags (rows ++ [row])
  = ((Taggings.fold_tags rows).1 ∪ row.1,
     ((Taggings.fold_tags rows).2 ∖ row.1) ∪ row.2).
Proof. unfold Taggings.fold_tags. rewrite fold_left_app. reflexivity. Qed.

(** X25. Tagging rows created for changes of state each remove all tags
    and add the tags of the new state, and a state without tags raises
    KeyError. Folded by _send, any non-empty sequence of such rows for
    one pull request comes to removing all tags and adding the tags of
    the last state only. *)
Theorem tag_changes_collapse (transitions : list (string * option string))
  (rows : list (gset string * gset string)) :
  (* the rows queued by changes of state *)
  Forall2 (fun (tr : string * option string) row =>
             tr.1 <> "" /\
             Taggings.create {| Taggings.state_from := Some (Some tr.1);
                                Taggings.state_to := Some tr.2;
                                Taggings.vals_tags_remove := None;
                                Taggings.vals_tags_add := None |} = Done row)
          transitions rows ->
  (* a state without tags is refused *)
  (forall from to, Taggings._TAGS to = None ->
     Taggings.create {| Taggings.state_from := from;
                        Taggings.state_to := Some to;
                        Taggings.vals_tags_remove := None;
                        Taggings.vals_tags_add := None |}
     = Raised (KeyError (default "" to))) /\
  (* together they remove every tag and add those of the last state *)
  forall from to, last transitions = Some (from, to) ->
    exists tags, Taggings._TAGS to = Some tags /\
      Taggings.fold_tags rows = (Taggings.ALL_TAGS, tags).
Proof.
  intros HF. split.
  { intros from to Hto. unfold Taggings.create. cbn [Taggings.state_to]. rewrite Hto.
    reflexivity. }
  assert (Hrow : forall (tr : string * option string) row,
            tr.1 <> "" ->
            Taggings.create {| Taggings.state_from := Some (Some tr.1);
                               Taggings.state_to := Some tr.2;
                               Taggings.vals_tags_remove := None;
                               Taggings.vals_tags_add := None |} = Done row ->
            row.1 = Taggings.ALL_TAGS /\ Taggings._TAGS tr.2 = Some row.2).
  { intros tr row Hne. unfold Taggings.create.
    cbn [Taggings.state_from Taggings.state_to Taggings.vals_tags_remove].
    rewrite bool_decide_eq_false_2 by done.
    destruct (Taggings._TAGS tr.2) as [tags|]; [|done]. cbn [obind default].
    intros [= <-]. done. }
  intros from to Hlast.
  destruct (last_Some transitions (from, to)) as [(trs & ->) _]; [done|].
  apply Forall2_app_inv_l in HF as (rows1 & rows2 & HF1 & HF2 & ->).
  apply Forall2_cons_inv_l in HF2 as (row & rows3 & [Hne Hc] & HF3 & ->).
  apply Forall2_nil_inv_l in HF3 as ->.
  destruct (Hrow _ _ Hne Hc) as [H1 H2]. cbn [snd] in H2.
  exists row.2. split; [exact H2|].
  rewrite fold_tags_snoc.
  assert (Hinv : (Taggings.fold_tags rows1).1 ⊆ Taggings.ALL_TAGS /\
                 (Taggings.fold_tags rows1).2 ⊆ Taggings.ALL_TAGS).
  { clear -HF1 Hrow. revert rows1 HF1.
    induction trs as [|tr trs IH] using rev_ind; intros rows1 HF1.
    - apply Forall2_nil_inv_l in HF1 as ->. split; apply empty_subseteq.
    - apply Forall2_app_inv_l in HF1 as (r1 & r2 & HFa & HFb & ->).
      apply Forall2_cons_inv_l in HFb as (row & r3 & [Hne Hc] & HFc & ->).
      apply Forall2_nil_inv_l in HFc as ->.
      destruct (Hrow _ _ Hne Hc) as [H1 H2].
      destruct (IH r1 HFa) as [I1 I2].
      rewrite fold_tags_snoc. cbn [fst snd]. rewrite H1. split.
      + apply union_least; done.
      + apply union_least; [|eapply tags_of_state_known; eauto].
        etransitivity; [apply subseteq_difference_l; exact I2|done]. }
  destruct Hinv as [I1 I2]. rewrite H1. f_equal.
  - apply subseteq_union_1_L. exact I1.
  - assert ((Taggings.fold_tags rows1).2 ∖ Taggings.ALL_TAGS = ∅) as ->.
    { apply subseteq_empty_difference_L. exact I2. }
    apply (left_id_L ∅ (∪)).
Qed.

Lemma tag_changes_collapse_witness :
  exists tags, Taggings._TAGS (Some "ready") = Some tags /\
    Taggings.fold_tags
      [(Taggings.ALL_TAGS, {[ "seen 🙂"; "CI 🤖" ]});
       (Taggings.ALL_TAGS, {[ "seen 🙂"; "CI 🤖"; "r+ 👌" ]})]
    = (Taggings.ALL_TAGS, tags).
Proof.
  apply (proj2 (tag_changes_collapse
                  [("opened", Some "validated"); ("validated", Some "ready")]
                  [(Taggings.ALL_TAGS, {[ "seen 🙂"; "CI 🤖" ]});
                   (Taggings.ALL_TAGS, {[ "seen 🙂"; "CI 🤖"; "r+ 👌" ]})]
                  ltac:(repeat constructor; try discriminate; vm_compute; reflexivity))
               "validated" (Some "ready") eq_refl).
Defined.

(** ** Skipping the checks of a batch *)

Section SkipChecks.
Import PullRequest.

(** The loop of [skip_checks] over the other pull requests of the batch. *)
Lemma skip_checks_loop author (l : list Z) : forall d,
  let d' := fold_left (fun db p =>
      match pull_requests db !! p with
      | Some r =>
        if PullRequests.truthy (reviewed_by r) then db
        else PullRequestMethods.assign p (set_reviewed_by author) db
      | None => db
      end) l d in
  batch d' = batch d /\
  forall p, pull_requests d' !! p
    = (fun r => if bool_decide (p ∈ l) && negb (PullRequests.truthy (reviewed_by r))
                then set_state
                       (PullRequests.compute_state_value d (set_reviewed_by author r))
                       (set_reviewed_by author r)
                else r) <$> pull_requests d !! p.
Proof.
  induction l as [|x l IH]; intros d; cbn zeta.
  - split; [done|]. intros p. cbn [fold_left].
    destruct (pull_requests d !! p); [|done].
    cbn. rewrite (bool_decide_eq_false_2 (p ∈ [])) by apply not_elem_of_nil. done.
  - cbn [fold_left].
    set (d1 := match pull_requests d !! x with
               | Some r => if PullRequests.truthy (reviewed_by r) then d
                           else PullRequestMethods.assign x (set_reviewed_by author) d
               | None => d
               end).
    assert (Hb : batch d1 = batch d).
    { unfold d1. destruct (pull_requests d !! x) as [r|]; [|done].
      destruct (PullRequests.truthy (reviewed_by r)); [done|].
      apply (assign_same x (set_reviewed_by author) d). }
    assert (H1 : forall p, pull_requests d1 !! p
      = (fun r => if bool_decide (p = x) && negb (PullRequests.truthy (reviewed_by r))
                  then set_state
                         (PullRequests.compute_state_value d (set_reviewed_by author r))
                         (set_reviewed_by author r)
                  else r) <$> pull_requests d !! p).
    { intros p. unfold d1. destruct (pull_requests d !! x) as [r|] eqn:Hx.
      - destruct (PullRequests.truthy (reviewed_by r)) eqn:Hr.
        + destruct (pull_requests d !! p) as [q|] eqn:Hp; [|done]. cbn.
          case_bool_decide as Hpx; [|done]. subst p.
          assert (q = r) as -> by congruence. rewrite Hr. done.
        + destruct (decide (p = x)) as [->|Hne].
          * rewrite (assign_lookup _ _ _ _ Hx), Hx. cbn.
            rewrite (bool_decide_eq_true_2 (x = x)), Hr by done. done.
          * rewrite assign_lookup_ne by done.
            destruct (pull_requests d !! p); [|done]. cbn.
            rewrite (bool_decide_eq_false_2 (p = x)) by done. done.
      - destruct (pull_requests d !! p) as [q|] eqn:Hp; [|done]. cbn.
        case_bool_decide as Hpx; [|done]. congruence. }
    destruct (IH d1) as [Hb' H2]. cbn zeta in Hb', H2.
    split; [congruence|]. intros p. rewrite H2, H1.
    destruct (pull_requests d !! p) as [r|]; [|done]. cbn [fmap option_fmap option_map].
    f_equal.
    rewrite !(compute_state_value_batch d d1) by exact Hb.
    destruct (decide (p = x)) as [->|Hne].
    + rewrite (bool_decide_eq_true_2 (x = x)) by done.
      rewrite (bool_decide_eq_true_2 (x ∈ x :: l)) by (apply elem_of_cons; by left).
      cbn [andb].
      destruct (PullRequests.truthy (reviewed_by r)) eqn:Hr; cbn [negb].
      * rewrite Hr, andb_false_r. done.
      * destruct (bool_decide (x ∈ l) &&
                  negb (PullRequests.truthy
                          (reviewed_by (set_state
                             (PullRequests.compute_state_value d (set_reviewed_by author r))
                             (set_reviewed_by author r))))); [|done].
        assert (Hc : forall s (q : row),
                  set_reviewed_by author (set_state s q)
                  = set_state s (set_reviewed_by author q))
          by (intros s q; destruct q; reflexivity).
        rewrite Hc, (compute_state_value_ext d d) by done.
        destruct r; reflexivity.
    + rewrite (bool_decide_eq_false_2 (p = x)) by done. cbn [andb].
      assert (bool_decide (p ∈ x :: l) = bool_decide (p ∈ l)) as ->.
      { apply bool_decide_ext. rewrite elem_of_cons. intuition congruence. }
      done.
Qed.

(** X26. The skipchecks command on a pull request of an unmerged batch
    makes the batch skip the checks; the pull request is reviewed by the
    author of the command, the other pull requests of the batch too
    unless they had a reviewer, and each pull request of the batch is
    ready unless closed or in error. The pull requests of other batches
    keep their rows. *)
Theorem skipchecks_readies_batch i pr author d b brow :
  pull_requests d !! i = Some pr ->
  batch_id pr = Some b ->
  batch d !! b = Some brow ->
  Batch.merge_date brow = None ->
  let d' := PullRequestMethods.skip_checks i pr author d in
  (* the batch skips the checks *)
  Batch.skipchecks <$> batch d' !! b = Some true /\
  (* its pull requests are reviewed by the author of the command, unless
     they had a reviewer, and are ready unless closed or in error *)
  (forall p r, pull_requests d !! p = Some r -> batch_id r = Some b ->
     exists r', pull_requests d' !! p = Some r' /\
       reviewed_by r'
       = (if bool_decide (p = i) then author
          else if PullRequests.truthy (reviewed_by r) then reviewed_by r
          else author) /\
       state r' = (if closed r then "closed"
                   else if error r then "error" else "ready")) /\
  (* the other pull requests are as they were *)
  (forall p r, pull_requests d !! p = Some r -> batch_id r <> Some b ->
     pull_requests d' !! p = Some r).
Proof.
  intros Hi Hb Hbrow Hmd. cbn zeta. unfold PullRequestMethods.skip_checks.
  rewrite Hb.
  set (d1 := PullRequestMethods.set_batch_skipchecks (Some b) true d).
  set (d2 := PullRequestMethods.assign i (set_reviewed_by author) d1).
  assert (Hb1 : batch d1 = alter (Batch.set_skipchecks true) b (batch d)).
  { unfold d1, PullRequestMethods.set_batch_skipchecks.
    rewrite (proj1 (proj2 (proj2 (proj2 (proj2 (proj2 (proj2
      (compute_state_same _ _)))))))). reflexivity. }
  assert (Hb2 : batch d2 = batch d1) by apply (assign_same i _ d1).
  assert (Hcsv : forall d0 (r : row), batch d0 = batch d1 -> batch_id r = Some b ->
            PullRequests.compute_state_value d0 r
            = if closed r then "closed" else if error r then "error" else "ready").
  { intros d0 r H0 Hr. unfold PullRequests.compute_state_value, PullRequests.batch_of.
    rewrite Hr, H0, Hb1. cbn [mbind option_bind]. rewrite lookup_alter_eq, Hbrow.
    cbn. rewrite Hmd. cbn. reflexivity. }
  assert (H1 : forall p, pull_requests d1 !! p
            = (fun r => if bool_decide (batch_id r = Some b)
                        then set_state (if closed r then "closed"
                                        else if error r then "error" else "ready") r
                        else r) <$> pull_requests d !! p).
  { intros p. unfold d1, PullRequestMethods.set_batch_skipchecks.
    rewrite compute_state_lookup. cbn [PullRequestMethods.batch_update set_batch pull_requests].
    destruct (pull_requests d !! p) as [r|] eqn:Hp; [|done].
    cbn [fmap option_fmap option_map]. f_equal.
    destruct (decide (batch_id r = Some b)) as [Hr|Hr].
    - rewrite (bool_decide_eq_true_2 (batch_id r = Some b)) by done.
      rewrite bool_decide_eq_true_2.
      + f_equal. unfold PullRequests.compute_state_value, PullRequests.batch_of.
        rewrite Hr. cbn [mbind option_bind batch set_batch]. rewrite lookup_alter_eq, Hbrow.
        cbn. rewrite Hmd. cbn. reflexivity.
      + apply prs_of_batches_spec. exists r, b. split; [done|]. split; [done|].
        apply list_elem_of_singleton. done.
    - rewrite (bool_decide_eq_false_2 (batch_id r = Some b)) by done.
      rewrite bool_decide_eq_false_2; [done|].
      rewrite prs_of_batches_spec. intros (r0 & b0 & Hp0 & Hb0 & Hin).
      apply list_elem_of_singleton in Hin. congruence. }
  destruct (skip_checks_loop author
              (List.filter (fun p => negb (bool_decide (p = i)))
                 (prs_of_batches d2 [b])) d2) as [Hb3 H3].
  cbn zeta in Hb3, H3. fold d1. fold d2.
  assert (H2 : forall p, pull_requests d2 !! p
            = (fun r => if bool_decide (p = i)
                        then set_state (PullRequests.compute_state_value d1
                                          (set_reviewed_by author r))
                                       (set_reviewed_by author r)
                        else r) <$> pull_requests d1 !! p).
  { intros p. unfold d2. destruct (decide (p = i)) as [->|Hne].
    - destruct (pull_requests d1 !! i) as [r|] eqn:Hr.
      + rewrite (assign_lookup _ _ _ _ Hr). cbn.
        rewrite (bool_decide_eq_true_2 (i = i)) by done. done.
      + rewrite H1, Hi in Hr. discriminate Hr.
    - rewrite assign_lookup_ne by done.
      destruct (pull_requests d1 !! p); [|done]. cbn.
      rewrite (bool_decide_eq_false_2 (p = i)) by done. done. }
  split; [|split].
  - rewrite Hb3, Hb2, Hb1, lookup_alter_eq, Hbrow. reflexivity.
  - intros p r Hp Hr. rewrite H3, H2, H1, Hp. cbn [fmap option_fmap option_map].
    rewrite (bool_decide_eq_true_2 (batch_id r = Some b)) by done.
    eexists. split; [reflexivity|].
    destruct (decide (p = i)) as [->|Hne].
    + rewrite (bool_decide_eq_true_2 (i = i)) by done.
      rewrite bool_decide_eq_false_2.
      * cbn [andb]. split; [destruct r; reflexivity|].
        rewrite Hcsv; [destruct r; reflexivity|done|destruct r; exact Hr].
      * rewrite list_elem_of_In, filter_In. intros [_ Hf].
        rewrite (bool_decide_eq_true_2 (i = i)) in Hf by done. discriminate Hf.
    + rewrite (bool_decide_eq_false_2 (p = i)) by done.
      rewrite bool_decide_eq_true_2.
      * cbn [andb].
        destruct (PullRequests.truthy (reviewed_by r)) eqn:Hrev.
        -- assert (PullRequests.truthy
                     (reviewed_by (set_state (if closed r then "closed"
                                              else if error r then "error" else "ready") r))
                   = true) as -> by (destruct r; exact Hrev).
           cbn [negb]. split; destruct r; reflexivity.
        -- assert (PullRequests.truthy
                     (reviewed_by (set_state (if closed r then "closed"
                                              else if error r then "error" else "ready") r))
                   = false) as -> by (destruct r; exact Hrev).
           cbn [negb]. split; [destruct r; reflexivity|].
           rewrite Hcsv; [destruct r; reflexivity|done|destruct r; exact Hr].
      * rewrite list_elem_of_In, filter_In. split.
        -- apply list_elem_of_In, prs_of_batches_spec.
           eexists _, b. split; [rewrite H2, H1, Hp; reflexivity|].
           rewrite (bool_decide_eq_false_2 (p = i)) by done.
           rewrite (bool_decide_eq_true_2 (batch_id r = Some b)) by done.
           split; [destruct r; exact Hr|apply list_elem_of_singleton; done].
        -- rewrite (bool_decide_eq_false_2 (p = i)) by done. done.
  - intros p r Hp Hr. rewrite H3, H2, H1, Hp. cbn [fmap option_fmap option_map].
    rewrite (bool_decide_eq_false_2 (batch_id r = Some b)) by done.
    assert (p <> i) by congruence.
    rewrite (bool_decide_eq_false_2 (p = i)) by done.
    rewrite bool_decide_eq_false_2; [done|].
    rewrite list_elem_of_In, filter_In, <- list_elem_of_In, prs_of_batches_spec.
    intros [(r0 & b0 & Hp0 & Hb0 & Hin) _].
    apply list_elem_of_singleton in Hin. subst b0.
    rewrite H2, H1, Hp in Hp0. cbn in Hp0.
    rewrite (bool_decide_eq_false_2 (p = i)) in Hp0 by done.
    rewrite (bool_decide_eq_false_2 (batch_id r = Some b)) in Hp0 by done.
    congruence.
Qed.

End SkipChecks.

Lemma skipchecks_readies_batch_witness :
  let d' := PullRequestMethods.skip_checks 1 (batched_pr 1 1 (Some 1)) (Some 7)
              (single_db "pending" ∅) in
  Batch.skipchecks <$> batch d' !! 1 = Some true /\
  (exists r', pull_requests d' !! 2 = Some r' /\
     PullRequest.reviewed_by r' = Some 7 /\ PullRequest.state r' = "ready").
Proof.
  destruct (skipchecks_readies_batch 1 (batched_pr 1 1 (Some 1)) (Some 7)
              (single_db "pending" ∅) 1 sample_batch
              eq_refl eq_refl eq_refl eq_refl) as (H1 & H2 & _).
  split; [exact H1|].
  exact (H2 2 (batched_pr 2 2 (Some 1)) eq_refl eq_refl).
Defined.

(** ** Withdrawing a review *)

Section Reject.
Import PullRequest.
Variable percent : string -> list string -> string.
Variable format_template : string -> DB -> Z -> list string -> string.

Lemma compute_state_unreviewed d (r : row) b brow :
  batch_id r = Some b ->
  batch d !! b = Some brow ->
  Batch.skipchecks brow = false ->
  error r = false ->
  reviewed_by r = None ->
  PullRequests.compute_state_value d r = unreviewed_state brow r.
Proof.
  intros Hb Hbrow Hs He Hr.
  unfold PullRequests.compute_state_value, PullRequests.batch_of, unreviewed_state.
  rewrite Hb. cbn [mbind option_bind]. rewrite Hbrow. cbn [fmap option_fmap option_map default].
  rewrite Hs, He, Hr. cbn [mbind option_bind PullRequests.truthy Z.b2z].
  destruct (PullRequests.truthy (Batch.merge_date brow)); [done|].
  destruct (closed r); [done|].
  case_bool_decide; reflexivity.
Qed.

(** X27. The r- command on a pull request which is reviewed, or whose
    batch skips the checks, leaves it without reviewer and without
    error, in the state given by its merge, closure and status alone
    (merged, closed, validated or opened), its batch checking again and
    held by no active staging. On a pull request without reviewer in a
    batch which checks, it changes nothing and answers that r- makes no
    sense. *)
Theorem reject_unreviews i pr st d b brow :
  pull_requests d !! i = Some pr ->
  batch_id pr = Some b ->
  batch d !! b = Some brow ->
  let r := PullRequestMethods.reject percent format_template i pr st d in
  if Batch.skipchecks brow || PullRequests.truthy (reviewed_by pr) then
    r.2 = None /\
    (* the pull request has no reviewer and no error any more *)
    (exists r', pull_requests r.1 !! i = Some r' /\
       reviewed_by r' = None /\ error r' = false /\
       state r' = unreviewed_state brow pr) /\
    (* its batch checks again, and is in no active staging *)
    Batch.skipchecks <$> batch r.1 !! b = Some false /\
    PullRequestMethods.staging_id r.1 pr = []
  else r = (d, Some "r- makes no sense in the current PR state.").
Proof.
  intros Hi Hb Hbrow. cbn zeta. unfold PullRequestMethods.reject.
  assert (Hskip : default false (Batch.skipchecks <$> PullRequests.batch_of d pr)
                  = Batch.skipchecks brow).
  { unfold PullRequests.batch_of. rewrite Hb. cbn. rewrite Hbrow. reflexivity. }
  rewrite Hskip.
  destruct (Batch.skipchecks brow || PullRequests.truthy (reviewed_by pr)) eqn:Hor;
    [|reflexivity].
  cbn [fst snd]. split; [reflexivity|].
  set (dA := if error pr then PullRequestMethods.assign i (set_error false) d else d).
  set (dB := if PullRequests.truthy (reviewed_by pr)
             then PullRequestMethods.assign i (set_reviewed_by None) dA else dA).
  set (dC := if Batch.skipchecks brow
             then Stagings.send_template format_template
                    "runbot_merge.command.unapprove.p0" i [PullRequestMethods.login st]
                    (PullRequestMethods.set_batch_skipchecks (batch_id pr) false dB)
             else dB).
  (* the error is dropped *)
  assert (HA : batch dA = batch d /\ stagings dA = stagings d /\
               exists rA, pull_requests dA !! i = Some rA /\ error rA = false /\
                 batch_id rA = Some b /\ closed rA = closed pr /\
                 status rA = status pr /\ reviewed_by rA = reviewed_by pr).
  { unfold dA. destruct (error pr) eqn:He.
    - destruct (assign_same i (set_error false) d) as (_&_&_&_&_&_&S7&S8&_).
      split; [exact S7|]. split; [exact S8|].
      eexists. split; [apply (assign_lookup _ _ _ _ Hi)|].
      destruct pr; repeat split; assumption || reflexivity.
    - split; [done|]. split; [done|]. exists pr. repeat split; assumption. }
  destruct HA as (HAb & HAs & rA & HAi & HAe & HAbi & HAc & HAst & HAr).
  (* the reviewer is dropped *)
  assert (HB : batch dB = batch d /\ stagings dB = stagings d /\
               exists rB, pull_requests dB !! i = Some rB /\ error rB = false /\
                 batch_id rB = Some b /\ closed rB = closed pr /\
                 status rB = status pr /\ reviewed_by rB = None /\
                 (Batch.skipchecks brow = false -> state rB = unreviewed_state brow pr)).
  { unfold dB. destruct (PullRequests.truthy (reviewed_by pr)) eqn:Hrev.
    - destruct (assign_same i (set_reviewed_by None) dA) as (_&_&_&_&_&_&S7&S8&_).
      split; [congruence|]. split; [congruence|].
      eexists. split; [apply (assign_lookup _ _ _ _ HAi)|].
      split; [destruct rA; exact HAe|]. split; [destruct rA; exact HAbi|].
      split; [destruct rA; exact HAc|]. split; [destruct rA; exact HAst|].
      split; [destruct rA; reflexivity|].
      intros Hs.
      transitivity (PullRequests.compute_state_value dA (set_reviewed_by None rA));
        [destruct rA; reflexivity|].
      rewrite (compute_state_unreviewed dA _ b brow).
      + unfold unreviewed_state. destruct rA; cbn in *. rewrite HAc, HAst. reflexivity.
      + destruct rA; exact HAbi.
      + rewrite HAb. exact Hbrow.
      + exact Hs.
      + destruct rA; exact HAe.
      + destruct rA; reflexivity.
    - split; [congruence|]. split; [congruence|].
      exists rA. repeat split; try assumption.
      + rewrite HAr. destruct (reviewed_by pr); [discriminate Hrev|reflexivity].
      + intros Hs. rewrite Hs in Hor. discriminate Hor. }
  destruct HB as (HBb & HBs & rB & HBi & HBe & HBbi & HBc & HBst & HBr & HBstate).
  (* the batch checks again *)
  assert (HC : stagings dC = stagings d /\
               exists browC, batch dC !! b = Some browC /\
                 Batch.skipchecks browC = false /\
               exists rC, pull_requests dC !! i = Some rC /\ error rC = false /\
                 batch_id rC = Some b /\ reviewed_by rC = None /\
                 state rC = unreviewed_state brow pr).
  { unfold dC. destruct (Batch.skipchecks brow) eqn:Hs.
    - destruct (send_template_frame format_template
                  "runbot_merge.command.unapprove.p0" i [PullRequestMethods.login st]
                  (PullRequestMethods.set_batch_skipchecks (batch_id pr) false dB))
        as (F1 & F2 & F3 & _).
      rewrite F1, F2, F3, Hb. unfold PullRequestMethods.set_batch_skipchecks.
      destruct (compute_state_same
                  (PullRequestMethods.batch_update (Some b) (Batch.set_skipchecks false) dB)
                  (prs_of_batches dB [b])) as (_&_&_&_&_&_&S7&S8&_).
      rewrite S7, S8, compute_state_lookup.
      cbn [PullRequestMethods.batch_update set_batch batch stagings pull_requests].
      split; [exact HBs|].
      rewrite HBb, lookup_alter_eq, Hbrow. cbn [fmap option_fmap option_map].
      eexists. split; [reflexivity|]. split; [reflexivity|].
      rewrite HBi. cbn [fmap option_fmap option_map].
      rewrite bool_decide_eq_true_2.
      + eexists. split; [reflexivity|].
        split; [destruct rB; exact HBe|]. split; [destruct rB; exact HBbi|].
        split; [destruct rB; exact HBr|].
        cbn [state set_state].
        rewrite (compute_state_unreviewed _ rB b (Batch.set_skipchecks false brow));
          try assumption.
        * unfold unreviewed_state. cbn. rewrite HBc, HBst. reflexivity.
        * cbn. rewrite lookup_alter_eq, Hbrow. reflexivity.
        * reflexivity.
      + apply prs_of_batches_spec. exists rB, b. split; [done|]. split; [done|].
        apply list_elem_of_singleton. done.
    - split; [exact HBs|]. exists brow. rewrite HBb. split; [exact Hbrow|].
      split; [exact Hs|]. exists rB. repeat split; try assumption.
      apply HBstate. reflexivity. }
  destruct HC as (HCs & browC & HCb & HCsk & rC & HCi & HCe & HCbi & HCr & HCst).
  destruct (unstage_spec percent i "unreviewed (r-) by %s" [PullRequestMethods.login st]
              dC rC b browC HCi HCbi HCb) as (_ & _ & U3 & _ & U5 & U6 & _).
  fold dA. fold dB. fold dC.
  split; [|split].
  - exists rC. rewrite U5. repeat split; assumption.
  - rewrite U6, HCb. cbn. rewrite HCsk. reflexivity.
  - unfold PullRequestMethods.staging_id in U3 |- *. rewrite Hb. rewrite HCbi in U3.
    exact U3.
Qed.

End Reject.

Lemma reject_unreviews_witness :
  let pr := PullRequest.set_reviewed_by (Some 7) (batched_pr 1 1 (Some 1)) in
  let d := PullRequests.update 1 (PullRequest.set_reviewed_by (Some 7)) (single_db "pending" ∅) in
  let r := PullRequestMethods.reject no_percent no_template 1 pr sample_vars d in
  r.2 = None /\
  (exists r', pull_requests r.1 !! 1 = Some r' /\
     PullRequest.reviewed_by r' = None /\ PullRequest.error r' = false /\
     PullRequest.state r' = "opened") /\
  Batch.skipchecks <$> batch r.1 !! 1 = Some false /\
  PullRequestMethods.staging_id r.1 pr = [].
Proof.
  exact (reject_unreviews no_percent no_template 1
           (PullRequest.set_reviewed_by (Some 7) (batched_pr 1 1 (Some 1))) sample_vars
           (PullRequests.update 1 (PullRequest.set_reviewed_by (Some 7)) (single_db "pending" ∅))
           1 sample_batch eq_refl eq_refl eq_refl).
Defined.

(** ** Delegating a review *)

(** The partners found or created for the logins of a delegation. *)
Lemma delegates_of_spec (users : list string) d :
  let r := PullRequestMethods.delegates_of users d in
  pull_requests r.1 = pull_requests d /\ review r.1 = review d /\
  (forall u p, partner d !! u = Some p -> partner r.1 !! u = Some p) /\
  (forall l, l ∈ users -> exists u p,
     u ∈ r.2 /\ partner r.1 !! u = Some p /\ Partner.github_login p = l).
Proof.
  induction users as [|l users IH] using rev_ind; cbn zeta.
  - split; [done|]. split; [done|]. split; [done|].
    intros l Hl. apply elem_of_nil in Hl. done.
  - unfold PullRequestMethods.delegates_of in *. rewrite fold_left_app. cbn [fold_left].
    cbn zeta in IH.
    set (acc := fold_left _ users (d, [])) in *.
    destruct IH as (I1 & I2 & I3 & I4).
    destruct ((map_to_list (filter (fun kv : Z * Partner.row =>
                 Partner.github_login kv.2 = l) (partner acc.1))).*1)
      as [|k found] eqn:Hfound.
    + cbn [fst snd set_partner pull_requests review partner].
      split; [exact I1|]. split; [exact I2|]. split.
      * intros u p Hu. rewrite lookup_insert_ne; [apply I3; exact Hu|].
        intros <-. specialize (I3 _ _ Hu). rewrite fresh_id_fresh in I3. done.
      * intros l' Hl'. apply elem_of_app in Hl' as [Hl'|Hl'].
        -- destruct (I4 l' Hl') as (u & p & Hu & Hp & Hlog).
           exists u, p. split; [apply elem_of_app; by left|]. split; [|exact Hlog].
           rewrite lookup_insert_ne; [exact Hp|].
           intros <-. rewrite fresh_id_fresh in Hp. done.
        -- apply list_elem_of_singleton in Hl' as ->.
           eexists _, _. split; [apply elem_of_app; right; apply list_elem_of_singleton;
                                 reflexivity|].
           split; [apply lookup_insert_eq|reflexivity].
    + cbn [fst snd]. split; [exact I1|]. split; [exact I2|]. split; [exact I3|].
      intros l' Hl'. apply elem_of_app in Hl' as [Hl'|Hl'].
      * destruct (I4 l' Hl') as (u & p & Hu & Hp & Hlog).
        exists u, p. split; [apply elem_of_app; by left|]. done.
      * apply list_elem_of_singleton in Hl' as ->.
        assert (Hk : k ∈ (map_to_list (filter (fun kv : Z * Partner.row =>
                       Partner.github_login kv.2 = l) (partner acc.1))).*1)
          by (rewrite Hfound; apply elem_of_cons; by left).
        apply list_elem_of_fmap in Hk as ([k' p] & -> & Hk).
        apply elem_of_map_to_list, map_lookup_filter_Some in Hk as [Hp Hlog].
        cbn [fst snd] in *. exists k', p. split; [|done].
        apply elem_of_app. destruct (decide (k' ∈ acc.2)) as [Hin|Hout]; [by left|].
        right. apply list_elem_of_In, filter_In. split.
        -- apply list_elem_of_In. apply elem_of_cons. by left.
        -- rewrite bool_decide_eq_false_2 by done. done.
Qed.

(** X28. After the delegate command each login given names a partner,
    found or created, who is a reviewer of the pull request according to
    _pr_acl; without login the author of the pull request is the
    delegate. No partner loses a review right on any pull request. *)
Theorem delegate_grants_review i pr users st d :
  pull_requests d !! i = Some pr ->
  let r := PullRequestMethods.delegate i pr users st d in
  (* each login names a partner, who may review the pull request *)
  (forall l, l ∈ users -> exists u p,
     partner r.1 !! u = Some p /\ Partner.github_login p = l /\
     is_reviewer (PullRequestMethods._pr_acl r.1 (Some i) (Some u)) = true) /\
  (* without a login, the author of the pull request is the delegate *)
  (users = [] -> forall a p, PullRequest.author pr = Some a -> partner d !! a = Some p ->
     is_reviewer (PullRequestMethods._pr_acl r.1 (Some i) (Some a)) = true) /\
  (* the rights of a partner on a pull request stay *)
  (forall j u, is_reviewer (PullRequestMethods._pr_acl d (Some j) (Some u)) = true ->
     is_reviewer (PullRequestMethods._pr_acl r.1 (Some j) (Some u)) = true).
Proof.
  intros Hi. cbn zeta. unfold PullRequestMethods.delegate.
  set (r0 := match users with
             | [] => (d, match PullRequest.author pr with Some a => [a] | None => [] end)
             | _ => PullRequestMethods.delegates_of users d
             end).
  set (g := fun row => Partner.set_delegate_reviewer
                         ({[ i ]} ∪ Partner.delegate_reviewer row) row).
  cbn [fst snd].
  assert (Hg : forall x, g (g x) = g x).
  { intros x. unfold g, Partner.set_delegate_reviewer. cbn. f_equal.
    rewrite (assoc_L (∪)), (idemp_L (∪)). reflexivity. }
  assert (H0 : pull_requests r0.1 = pull_requests d /\ review r0.1 = review d /\
               (forall u p, partner d !! u = Some p -> partner r0.1 !! u = Some p) /\
               (forall l, l ∈ users -> exists u p,
                  u ∈ r0.2 /\ partner r0.1 !! u = Some p /\ Partner.github_login p = l)).
  { unfold r0. destruct users as [|l0 users'].
    - cbn [fst snd]. repeat split; try done. intros l Hl. apply elem_of_nil in Hl. done.
    - apply delegates_of_spec. }
  destruct H0 as (P1 & P2 & P3 & P4).
  assert (Hlook : forall u,
            partner (set_partner (fold_left (fun m p => alter g p m) r0.2 (partner r0.1))
                       r0.1) !! u
            = if bool_decide (u ∈ r0.2) then g <$> partner r0.1 !! u
              else partner r0.1 !! u).
  { intros u. cbn [partner set_partner]. apply fold_alter_lookup. exact Hg. }
  assert (Hacl : forall j u q,
            pull_requests d !! j = Some q ->
            partner (set_partner (fold_left (fun m p => alter g p m) r0.2 (partner r0.1))
                       r0.1) !! u ≫= (fun p => Some (bool_decide (j ∈ Partner.delegate_reviewer p)))
            = Some true ->
            is_reviewer (PullRequestMethods._pr_acl
              (set_partner (fold_left (fun m p => alter g p m) r0.2 (partner r0.1)) r0.1)
              (Some j) (Some u)) = true).
  { intros j u q Hj Hd. unfold PullRequestMethods._pr_acl.
    cbn [pull_requests set_partner]. rewrite P1, Hj. cbn [is_reviewer mbind option_bind].
    apply orb_true_iff. right.
    destruct (partner _ !! u) as [p|]; [|discriminate Hd].
    cbn in Hd. congruence. }
  split; [|split].
  - intros l Hl. destruct (P4 l Hl) as (u & p & Hu & Hp & Hlog).
    exists u, (g p). split; [|split].
    + rewrite Hlook, bool_decide_eq_true_2, Hp by done. reflexivity.
    + exact Hlog.
    + apply (Hacl i u pr Hi). rewrite Hlook, bool_decide_eq_true_2, Hp by done.
      cbn. f_equal. apply bool_decide_eq_true_2.
      apply elem_of_union_l, elem_of_singleton. reflexivity.
  - intros -> a p Ha Hp. apply (Hacl i a pr Hi).
    rewrite Hlook. unfold r0. rewrite Ha. cbn [fst snd].
    rewrite bool_decide_eq_true_2 by (apply list_elem_of_singleton; done).
    rewrite Hp. cbn. f_equal. apply bool_decide_eq_true_2.
    apply elem_of_union_l, elem_of_singleton. reflexivity.
  - intros j u. unfold PullRequestMethods._pr_acl.
    cbn [pull_requests set_partner review partner]. rewrite P1, P2.
    destruct (pull_requests d !! j) as [q|]; [|done].
    cbn [is_reviewer mbind option_bind].
    rewrite !orb_true_iff. intros [Hadm|Hdel]; [by left|right].
    destruct (partner d !! u) as [p|] eqn:Hp; [|discriminate Hdel].
    specialize (Hlook u). cbn [partner set_partner] in Hlook. rewrite Hlook.
    rewrite (P3 _ _ Hp). apply bool_decide_eq_true in Hdel.
    destruct (bool_decide (u ∈ r0.2)); cbn; apply bool_decide_eq_true_2;
      [apply elem_of_union_r|]; exact Hdel.
Qed.

Lemma delegate_grants_review_witness :
  let r := PullRequestMethods.delegate 1 (batched_pr 1 1 (Some 1)) ["alice"]
             sample_vars (single_db "pending" ∅) in
  exists u p, partner r.1 !! u = Some p /\ Partner.github_login p = "alice" /\
    is_reviewer (PullRequestMethods._pr_acl r.1 (Some 1) (Some u)) = true.
Proof.
  apply (proj1 (delegate_grants_review 1 (batched_pr 1 1 (Some 1)) ["alice"]
                  sample_vars (single_db "pending" ∅) eq_refl) "alice").
  apply list_elem_of_singleton. reflexivity.
Defined.
